(** * Synthetic dental dataset generators: a shallow embedding

    The development covers the two dataset generators of the repository,
    [scripts/create_dental_dataset.py] (one fixed-box annotation per
    image) and [train_dental_yolo.py] (one to four annotations per image,
    followed by the training and conversion stages).

    Conventions of the embedding:
    - Python [int] is [Z]; loop indices produced by [range] are [nat].
    - Python [float] comes in two models. The split fraction, the
      guard on it and the product [int(num_images * train_split)] are
      IEEE 754 doubles, the [spec_float] of the standard library at
      precision 53 with rounding to nearest even, and [OverflowError]
      and [ValueError] are raised where Python raises them. The
      coordinates of boxes and shapes are exact rationals [Q]: the
      rounding of their arithmetic is not represented.
    - [argparse] is a parameter: a parser takes the command line to a
      namespace, to a request for the help text or to a usage error.
      [main] is a script from its namespace on, [main_argv] and
      [command] are the script and the process on a command line.
    - A call into the detection library is logged and returns or raises
      as the [library] of the run says; the files the libraries write
      are outside the modelled file system, so that what is said of the
      file system is said of what the scripts themselves write.
    - The [random] module is a stream of raw draws; [random()],
      [uniform], [randint], [choice] and [sample] are derived from it
      the way CPython derives them from its generator.
    - The file system is a finite map from absolute paths (lists of
      components) to nodes; [Path.absolute()] is the identity.
    - Exceptions, the state of the generator, the file system and the
      console are threaded through a state-and-exception monad [py].
    - Third-party rasters (numpy, OpenCV, PIL) are kept as the list of
      shapes drawn, in order; pixel colours of the numpy noise and the
      blur filter are not represented.

    Three more scripts follow the generators: the training script
    [scripts/create_sample_yolo_model.py], the placeholder package of
    [scripts/create_placeholder_coreml.py] and the model heuristic of
    [scripts/inspect_onnx_model.py]. What they take from the operating
    system or a library without the development interpreting it (the
    size of a file, the absolute form of a path in the training script,
    the text [json.dump] writes, [str.lower]) is a variable of the
    section that uses it. *)

From Stdlib Require Import ZArith QArith Qround Lia Lqa String Ascii.
From Stdlib Require Import DecimalString DecimalFacts DecimalNat DecimalN.
From Stdlib Require Import SpecFloat.
From stdpp Require Import gmap strings list.

Local Open Scope string_scope.
Local Open Scope list_scope.
Local Open Scope Z_scope.

(** ** Python runtime pieces *)

Module Py.

(** *** Exceptions *)

Inductive exn :=
| FileExistsError
| NotADirectoryError
| IsADirectoryError
| FileNotFoundError
| IndexError
| ValueError
| OverflowError
| SystemExit (code : Z)
| Exception (msg : string).

(** *** Number formatting *)

(** [str(z)] and [f"{z}"] for an integer. *)
Definition str_int (z : Z) : string := NilZero.string_of_int (Z.to_int z).

(** Left padding of a digit sequence with zeros up to width [w]. *)
Definition zero_pad (w : nat) (d : Decimal.uint) : Decimal.uint :=
  Nat.iter (w - Decimal.nb_digits d) Decimal.D0 d.

(** [f"{i:04d}"] for a non-negative index. *)
Definition format_04d (i : nat) : string :=
  NilEmpty.string_of_uint (zero_pad 4 (Nat.to_uint i)).

(** Rounding of a rational to the nearest integer, ties to even. *)
Definition round_half_even (q : Q) : Z :=
  let n := Qnum q in
  let d := Z.pos (Qden q) in
  let fl := n / d in
  let r := n mod d in
  if 2 * r <? d then fl
  else if d <? 2 * r then fl + 1
  else if Z.even fl then fl else fl + 1.

(** The number of millionths printed by [f"{q:.6f}"]. *)
Definition micro (q : Q) : Z := round_half_even (q * 1000000).

(** Rendering of a count of millionths carrying the sign [neg]. *)
Definition render_micro (neg : bool) (m : Z) : string :=
  let a := Z.abs m in
  (if neg then "-" else "")
  +:+ NilZero.string_of_uint (N.to_uint (Z.to_N (a / 1000000)))
  +:+ "."
  +:+ NilEmpty.string_of_uint (zero_pad 6 (N.to_uint (Z.to_N (a mod 1000000)))).

(** [f"{q:.6f}"]. *)
Definition format_6f (q : Q) : string :=
  render_micro (Qnum q <? 0) (micro q).

(** The five fields of an annotation before formatting. *)
Record box := {
  b_class : Z;
  b_x : Q;
  b_y : Q;
  b_w : Q;
  b_h : Q
}.

(** [f"{class_id} {x:.6f} {y:.6f} {w:.6f} {h:.6f}"], the line both
    generators write. *)
Definition format_box (b : box) : string :=
  str_int (b_class b) +:+ " " +:+ format_6f (b_x b) +:+ " " +:+
  format_6f (b_y b) +:+ " " +:+ format_6f (b_w b) +:+ " " +:+
  format_6f (b_h b).

(** [int(q)]: truncation toward zero. *)
Definition int_trunc (q : Q) : Z := Z.quot (Qnum q) (Z.pos (Qden q)).

(** Two-argument [max] and [min]: Python keeps the first argument unless
    the second is strictly larger (smaller). *)
Definition Qlt_bool (a b : Q) : bool := negb (Qle_bool b a).
Definition py_max (a b : Q) : Q := if Qlt_bool a b then b else a.
Definition py_min (a b : Q) : Q := if Qlt_bool b a then b else a.

(** [sep.join(l)]. *)
Fixpoint str_join (sep : string) (l : list string) : string :=
  match l with
  | [] => ""
  | [x] => x
  | x :: rest => x +:+ sep +:+ str_join sep rest
  end.

(** [l.index(x)]: position of the first occurrence. *)
Fixpoint list_index (x : string) (l : list string) : option nat :=
  match l with
  | [] => None
  | y :: rest => if String.eqb x y then Some 0%nat
                 else option_map S (list_index x rest)
  end.

(** *** The random generator *)

(** The generator is the stream of raw values it will produce. *)
Definition rng := nat -> N.

Definition getrand (g : rng) : N * rng := (g 0%nat, fun k => g (S k)).

(** [random.random()]: a multiple of 2^-53 in [0, 1). *)
Definition random (g : rng) : Q * rng :=
  let (r, g') := getrand g in
  (Z.of_N (r mod 9007199254740992) # 9007199254740992, g').

(** [random.uniform(a, b)] is [a + (b - a) * random()]. *)
Definition uniform (a b : Q) (g : rng) : Q * rng :=
  let (u, g') := random g in ((a + (b - a) * u)%Q, g').

(** [_randbelow(n)] for [n > 0]: a value in [0, n). *)
Definition randbelow (n : N) (g : rng) : N * rng :=
  let (r, g') := getrand g in ((r mod n)%N, g').

(** [random.randint(a, b)] is [a + _randbelow(b - a + 1)]. *)
Definition randint (a b : Z) (g : rng) : Z * rng :=
  let (r, g') := randbelow (Z.to_N (b - a + 1)) g in (a + Z.of_N r, g').

(** *** Rasters *)

Inductive shape :=
| Rectangle (x0 y0 x1 y1 : Z)
| Circle (cx cy r : Z)
| Ellipse (x0 y0 x1 y1 : Z)
| Polygon (pts : list (Z * Z)).

Record raster := { r_width : Z; r_height : Z; r_shapes : list shape }.

(** *** The file system *)

Definition path := list string.

(** The dictionary handed to [yaml.dump]. *)
Record manifest := {
  m_path : path;
  m_train : string;
  m_val : string;
  m_nc : Z;
  m_names : list string
}.

Inductive content :=
| Jpeg (im : raster)
| Text (s : string)
| Yaml (m : manifest).

Inductive node := Dir | File (c : content).

Abbreviation fs := (gmap path node).

(** A path names a directory when it is the root or is mapped to [Dir]. *)
Definition is_dir (f : fs) (p : path) : bool :=
  match p with
  | [] => true
  | _ => match f !! p with Some Dir => true | _ => false end
  end.

Definition is_file (f : fs) (p : path) : bool :=
  match f !! p with Some (File _) => true | _ => false end.

Definition parent (p : path) : path := removelast p.

(** [str(p)] for a path. *)
Definition path_str (p : path) : string := str_join "/" p.

(** The proper ancestors of [p] below the root, shortest first, then [p]. *)
Fixpoint prefixes (p : path) : list path :=
  match p with
  | [] => []
  | x :: rest => [x] :: map (cons x) (prefixes rest)
  end.

(** *** The monad *)

(** Calls that cross into the detection and conversion libraries. *)
Inductive lib_call :=
| YoloLoad (weights : string)
| ModelTrain (data : path) (epochs : Z)
| ModelSave (target : path)
| ModelExport
| ShutilMove (source target : path).

Record state := {
  st_rng : rng;
  st_fs : fs;
  st_out : list string;
  st_calls : list lib_call
}.

Inductive outcome (A : Type) :=
| Ret (a : A)
| Raise (e : exn).
Arguments Ret {A} a.
Arguments Raise {A} e.

Definition py (A : Type) : Type := state -> outcome A * state.

#[global] Instance py_ret : MRet py := fun A a s => (Ret a, s).
#[global] Instance py_bind : MBind py := fun A B k m s =>
  match m s with
  | (Ret a, s') => k a s'
  | (Raise e, s') => (Raise e, s')
  end.

Definition raise {A} (e : exn) : py A := fun s => (Raise e, s).

(** [try: m except Exception as e: h(str(e))]. [SystemExit] does not
    derive from [Exception] and passes through. *)
Definition try_except {A} (m : py A) (h : string -> py A) : py A := fun s =>
  match m s with
  | (Ret a, s') => (Ret a, s')
  | (Raise (SystemExit c), s') => (Raise (SystemExit c), s')
  | (Raise (Exception msg), s') => h msg s'
  | (Raise FileExistsError, s') => h "FileExistsError" s'
  | (Raise NotADirectoryError, s') => h "NotADirectoryError" s'
  | (Raise IsADirectoryError, s') => h "IsADirectoryError" s'
  | (Raise FileNotFoundError, s') => h "FileNotFoundError" s'
  | (Raise IndexError, s') => h "IndexError" s'
  | (Raise ValueError, s') => h "ValueError" s'
  | (Raise OverflowError, s') => h "OverflowError" s'
  end.

(** [print(msg)]. *)
Definition print (msg : string) : py unit := fun s =>
  (Ret tt, {| st_rng := st_rng s; st_fs := st_fs s;
              st_out := st_out s ++ [msg]; st_calls := st_calls s |}).

(** Lifting of a draw from the generator. *)
Definition draw {A} (f : rng -> A * rng) : py A := fun s =>
  let (a, g') := f (st_rng s) in
  (Ret a, {| st_rng := g'; st_fs := st_fs s; st_out := st_out s;
             st_calls := st_calls s |}).

Definition set_fs (s : state) (f : fs) : state :=
  {| st_rng := st_rng s; st_fs := f; st_out := st_out s;
     st_calls := st_calls s |}.

(** [random.randint] as a statement: an empty range raises. *)
Definition py_randint (a b : Z) : py Z :=
  if b <? a then raise ValueError else draw (randint a b).

(** [random.choice(l)]. *)
Definition choice (l : list string) : py string :=
  match l with
  | [] => raise IndexError
  | _ =>
    j ← draw (randbelow (N.of_nat (length l)));
    match l !! N.to_nat j with
    | Some x => mret x
    | None => raise IndexError
    end
  end.

(** [random.sample(population, k)] for a population of at most 21
    elements, where CPython selects from a copied pool. *)
Fixpoint sample_loop (pool : list string) (n : nat) (k : nat) (i : nat)
  : py (list string) :=
  match k with
  | O => mret []
  | S k' =>
    j ← draw (randbelow (N.of_nat (n - i)));
    match pool !! N.to_nat j, pool !! (n - i - 1)%nat with
    | Some x, Some last =>
      rest ← sample_loop (<[N.to_nat j := last]> pool) n k' (S i);
      mret (x :: rest)
    | _, _ => raise IndexError
    end
  end.

Definition sample (population : list string) (k : Z) : py (list string) :=
  if (k <? 0) || (Z.of_nat (length population) <? k) then raise ValueError
  else sample_loop population (length population) (Z.to_nat k) 0.

(** [l.index(x)] raising [ValueError] when absent. *)
Definition index (l : list string) (x : string) : py Z :=
  match list_index x l with
  | Some i => mret (Z.of_nat i)
  | None => raise ValueError
  end.

(** [for i in range(n): body(i)]. *)
Fixpoint for_each (l : list nat) (body : nat -> py unit) : py unit :=
  match l with
  | [] => mret tt
  | i :: rest => body i ;; for_each rest body
  end.

Definition for_range (n : Z) (body : nat -> py unit) : py unit :=
  for_each (seq 0 (Z.to_nat n)) body.

(** The file system once [p] and its missing ancestors are directories. *)
Definition make_dirs (p : path) (f : fs) : fs :=
  foldr (fun q f' => <[q := Dir]> f') f (prefixes p).

(** [Path.mkdir(parents=True, exist_ok=True)]. *)
Definition mkdir_parents_exist_ok (p : path) : py unit := fun s =>
  if is_file (st_fs s) p then (Raise FileExistsError, s)
  else if existsb (is_file (st_fs s)) (prefixes p)
  then (Raise NotADirectoryError, s)
  else (Ret tt, set_fs s (make_dirs p (st_fs s))).

(** The check [open(p, 'w')] performs before truncating. *)
Definition open_w_error (f : fs) (p : path) : option exn :=
  if is_dir f p then Some IsADirectoryError
  else if is_dir f (parent p) then None
  else if is_file f (parent p) then Some NotADirectoryError
  else Some FileNotFoundError.

(** [with open(p, 'w') as f: f.write(c)], and PIL's [image.save(p)],
    which opens the file the same way. *)
Definition write_file (p : path) (c : content) : py unit := fun s =>
  match open_w_error (st_fs s) p with
  | Some e => (Raise e, s)
  | None => (Ret tt, set_fs s (<[p := File c]> (st_fs s)))
  end.

(** [cv2.imwrite(p, img)]: reports failure through its result. *)
Definition imwrite (p : path) (im : raster) : py bool := fun s =>
  match open_w_error (st_fs s) p with
  | Some _ => (Ret false, s)
  | None => (Ret true, set_fs s (<[p := File (Jpeg im)]> (st_fs s)))
  end.

(** The behaviour of the detection and conversion libraries on one run:
    which calls raise (and the text of the exception), the metrics the
    training result carries when it has a [results_dict], and what
    [glob] finds next to the model after an export. The files these
    libraries write are outside the modelled file system. *)
Record library := {
  lib_raises : lib_call -> option string;
  lib_results_dict : option (list (string * string));
  lib_glob : path -> list path
}.

(** One call into a library: logged, then it returns or raises. *)
Definition call (lib : library) (c : lib_call) : py unit := fun s =>
  let s' := {| st_rng := st_rng s; st_fs := st_fs s; st_out := st_out s;
               st_calls := st_calls s ++ [c] |} in
  match lib_raises lib c with
  | Some msg => (Raise (Exception msg), s')
  | None => (Ret tt, s')
  end.

Definition when (b : bool) (m : py unit) : py unit :=
  if b then m else mret tt.

(** The exit status of a process whose main routine ran as [m]
    under [sys.exit(m())] or as a bare call. *)
Definition exit_status (o : outcome Z) : Z :=
  match o with
  | Ret c => c
  | Raise (SystemExit c) => c
  | Raise _ => 1
  end.

(** *** Floats in the split

    Where the scripts count samples or compare the split fraction, a
    Python [float] is an IEEE-754 binary64 number in the representation
    of the Standard Library's [SpecFloat]: a zero, an infinity, NaN, or
    a sign with a mantissa and a binary exponent. Products round to the
    nearest double, ties to even. *)
Abbreviation float := spec_float.

(** The double nearest to an integer. *)
Definition float_of_Z (n : Z) : float := binary_normalize 53 1024 n 0 false.

(** The double nearest to the decimal [num / 10^k], as [float] reads a
    decimal string and the compiler a literal: the quotient of the two
    integers, rounded once. *)
Definition float_of_decimal (num : Z) (k : nat) : float :=
  let den := S754_finite false (Z.to_pos (10 ^ Z.of_nat k)) 0 in
  match num with
  | Z0 => S754_zero false
  | Zpos p => SFdiv 53 1024 (S754_finite false p 0) den
  | Zneg p => SFdiv 53 1024 (S754_finite true p 0) den
  end.

(** A decimal literal [i.f] in this file denotes that double. *)
Definition float_of_number (n : Number.number) : option float :=
  match n with
  | Number.Decimal (Decimal.Decimal i f) =>
    Some (float_of_decimal (Z.of_int (Decimal.app_int i f))
                           (Decimal.nb_digits f))
  | _ => None
  end.

Definition number_of_float (x : float) : option Number.number := None.

Declare Scope float_scope.
Delimit Scope float_scope with float.
Bind Scope float_scope with spec_float.
Number Notation spec_float float_of_number number_of_float : float_scope.

(** The rational a finite float stands for. *)
Definition float_Q (x : float) : Q :=
  match x with
  | S754_finite s m e => (inject_Z (cond_Zopp s (Z.pos m)) * 2 ^ e)%Q
  | _ => 0%Q
  end.

(** [x <= y]: the comparison of two doubles is exact, and false when
    one of them is NaN. *)
Definition float_leb (x y : float) : bool :=
  match x, y with
  | S754_nan, _ | _, S754_nan => false
  | S754_infinity true, _ => true
  | _, S754_infinity false => true
  | S754_infinity false, _ => false
  | _, S754_infinity true => false
  | _, _ => Qle_bool (float_Q x) (float_Q y)
  end.

(** The conversion of an [int] operand of a float operation. *)
Definition float_of_int (n : Z) : outcome float :=
  match float_of_Z n with
  | S754_infinity _ => Raise OverflowError
  | x => Ret x
  end.

Definition float_mul (x y : float) : float := SFmul 53 1024 x y.

(** [int(x)] for a float. *)
Definition int_of_float (x : float) : outcome Z :=
  match x with
  | S754_nan => Raise ValueError
  | S754_infinity _ => Raise OverflowError
  | _ => Ret (int_trunc (float_Q x))
  end.

Definition lift {A} (o : outcome A) : py A := fun s => (o, s).

(** [n * x] for an [int] and a [float]. *)
Definition int_times_float (n : Z) (x : float) : py float :=
  fn ← lift (float_of_int n);
  mret (float_mul fn x).

Definition py_int (x : float) : py Z := lift (int_of_float x).

(** *** The command line

    [argparse] is a parameter of the scripts: what a parser makes of
    the command line is a namespace, the help text (for [-h]), or the
    rejection of the command line. *)
Inductive parsed (A : Type) :=
| Namespace (a : A)
| Help (text : string)
| Usage.
Arguments Namespace {A} a.
Arguments Help {A} text.
Arguments Usage {A}.

Definition argparser (A : Type) : Type := list string -> parsed A.

(** [parser.parse_args()]: help is printed and ends the process with
    status 0, a rejected command line ends it with status 2 (the usage
    message goes to the standard error stream). *)
Definition parse_args {A} (parser : argparser A) (argv : list string)
  : py A :=
  match parser argv with
  | Namespace a => mret a
  | Help text => print text;; raise (SystemExit 0)
  | Usage => raise (SystemExit 2)
  end.

End Py.

(** ** scripts/create_dental_dataset.py *)

Module CreateDentalDataset.
Import Py.

(** The per-tooth part of [create_dental_image]: the tooth rectangle and
    the feature of the condition. Only ["cavity"] draws from [random]. *)
Definition draw_tooth (condition : string) (x y tooth_width tooth_height : Z)
  : py (list shape) :=
  let tooth := Rectangle x y (x + tooth_width - 5) (y + tooth_height) in
  if String.eqb condition "cavity" then
    dx ← py_randint 5 (tooth_width - 15);
    let cavity_x := x + dx in
    dy ← py_randint 5 (tooth_height - 15);
    let cavity_y := y + dy in
    r ← py_randint 3 8;
    mret [tooth; Circle cavity_x cavity_y r]
  else if String.eqb condition "chipped" then
    mret [tooth;
          Polygon [(x, y);
                   (x + tooth_width - 5, y);
                   (x + tooth_width - 5, y + tooth_height - 10);
                   (x + tooth_width - 15, y + tooth_height);
                   (x + 5, y + tooth_height)]]
  else if String.eqb condition "discoloration" then
    mret [tooth; Rectangle x y (x + tooth_width - 5) (y + tooth_height)]
  else if String.eqb condition "plaque" then
    mret [tooth;
          Rectangle (x + 2) (y + 2) (x + tooth_width - 7) (y + tooth_height - 2)]
  else if String.eqb condition "tartar" then
    mret [tooth;
          Rectangle (x + 5) (y + tooth_height - 10)
                    (x + tooth_width - 10) (y + tooth_height - 5)]
  else mret [tooth].

Fixpoint draw_teeth (condition : string)
    (start_x start_y tooth_width tooth_height : Z) (teeth : list nat)
  : py (list shape) :=
  match teeth with
  | [] => mret []
  | i :: rest =>
    let x := start_x + Z.of_nat i * tooth_width in
    let y := start_y in
    here ← draw_tooth condition x y tooth_width tooth_height;
    later ← draw_teeth condition start_x start_y tooth_width tooth_height rest;
    mret (here ++ later)
  end.

Definition create_dental_image (width height : Z) (condition : string)
  : py raster :=
  let tooth_width := width / 8 in
  let tooth_height := height / 3 in
  let start_x := width / 4 in
  let start_y := height / 3 in
  teeth ← draw_teeth condition start_x start_y tooth_width tooth_height
                     (seq 0 6);
  let gums := Rectangle (start_x - 10) (start_y + tooth_height)
                        (start_x + 6 * tooth_width + 5)
                        (start_y + tooth_height + 20) in
  mret {| r_width := width; r_height := height;
          r_shapes := teeth ++ [gums] |}.

(** The box computed by [create_annotation], before it is formatted. *)
Definition annotation_box (condition : string) (class_id : Z) : py box :=
  let x_center := 0.5%Q in
  let y_center := 0.45%Q in
  let width := 0.6%Q in
  let height := 0.3%Q in
  '(x_center, width, height) ←
    (if String.eqb condition "misaligned" then
       dx ← draw (uniform (-0.1) 0.1);
       dw ← draw (uniform (-0.05) 0.05);
       mret ((x_center + dx)%Q, (width + dw)%Q, height)
     else if String.eqb condition "chipped" then
       dh ← draw (uniform (-0.05) 0.05);
       mret (x_center, width, (height + dh)%Q)
     else mret (x_center, width, height));
  let x_center := py_max 0 (py_min 1 x_center) in
  let y_center := py_max 0 (py_min 1 y_center) in
  let width := py_max 0.1 (py_min 0.8 width) in
  let height := py_max 0.1 (py_min 0.5 height) in
  mret {| b_class := class_id; b_x := x_center; b_y := y_center;
          b_w := width; b_h := height |}.

Definition create_annotation (image_path : path) (condition : string)
    (class_id : Z) (img_width img_height : Z) : py string :=
  b ← annotation_box condition class_id;
  mret (format_box b).

Definition classes : list string :=
  ["cavity"; "gingivitis"; "discoloration"; "plaque"; "tartar";
   "dead_tooth"; "chipped"; "misaligned"; "healthy_tooth"; "gum_inflammation"].

(** One iteration of either sample loop of [create_dataset]. *)
Definition sample_step (output_path : path) (split : string) (every : Z)
    (noun : string) (count : Z) (i : nat) : py unit :=
  condition ← choice classes;
  class_id ← index classes condition;
  img ← create_dental_image 416 416 condition;
  let img_filename := split +:+ "_" +:+ format_04d i +:+ ".jpg" in
  let img_path := output_path ++ ["images"; split; img_filename] in
  _ ← imwrite img_path img;
  annotation ← create_annotation img_path condition class_id 416 416;
  let label_filename := split +:+ "_" +:+ format_04d i +:+ ".txt" in
  let label_path := output_path ++ ["labels"; split; label_filename] in
  write_file label_path (Text annotation);;
  when ((Z.of_nat i + 1) mod every =? 0)
       (print ("Created " +:+ str_int (Z.of_nat i + 1) +:+ "/" +:+
               str_int count +:+ " " +:+ noun +:+ " images")).

Definition dataset_config (output_path : path) : manifest :=
  {| m_path := output_path;
     m_train := "images/train";
     m_val := "images/val";
     m_nc := Z.of_nat (length classes);
     m_names := classes |}.

(** The closing loop over [enumerate(classes)]: one line per class. The
    two [glob] counts the source computes in its body are never used. *)
Fixpoint print_classes (i : nat) (l : list string) : py unit :=
  match l with
  | [] => mret tt
  | class_name :: rest =>
    print ("  " +:+ str_int (Z.of_nat i) +:+ ": " +:+ class_name);;
    print_classes (S i) rest
  end.

Definition create_dataset (output_dir : path) (num_images : Z)
    (train_split : float) : py unit :=
  let output_path := output_dir in
  mkdir_parents_exist_ok (output_path ++ ["images"; "train"]);;
  mkdir_parents_exist_ok (output_path ++ ["images"; "val"]);;
  mkdir_parents_exist_ok (output_path ++ ["labels"; "train"]);;
  mkdir_parents_exist_ok (output_path ++ ["labels"; "val"]);;
  product ← int_times_float num_images train_split;
  num_train ← py_int product;
  let num_val := num_images - num_train in
  print ("Creating dental dataset with " +:+ str_int num_images +:+ " images:");;
  print ("- Training: " +:+ str_int num_train +:+ " images");;
  print ("- Validation: " +:+ str_int num_val +:+ " images");;
  print ("- Classes: " +:+ str_int (Z.of_nat (length classes)));;
  for_range num_train
    (sample_step output_path "train" 100 "training" num_train);;
  for_range num_val
    (sample_step output_path "val" 50 "validation" num_val);;
  write_file (output_path ++ ["dataset.yaml"])
             (Yaml (dataset_config output_path));;
  print "
âœ… Dataset created successfully!";;
  print ("Dataset location: " +:+ path_str output_path);;
  print ("Training images: " +:+ str_int num_train);;
  print ("Validation images: " +:+ str_int num_val);;
  print ("Total images: " +:+ str_int num_images);;
  print "
Class distribution:";;
  print_classes 0 classes.

(** The parsed command line. *)
Record args := {
  a_output : path;
  a_count : Z;
  a_train_split : float
}.

(** [main()] from the point where [parser.parse_args()] has returned
    the namespace [a]. *)
Definition main (a : args) : py unit :=
  when (a_count a <? 100)
       (print "Warning: Very small dataset. Consider using at least 1000 images for better results.");;
  when (negb (float_leb 0.5 (a_train_split a)
              && float_leb (a_train_split a) 0.9))
       (print "Error: train_split must be between 0.5 and 0.9";;
        raise (SystemExit 1));;
  create_dataset (a_output a) (a_count a) (a_train_split a);;
  print "
ðŸŽ‰ Dataset creation complete!";;
  print "Next steps:";;
  print ("1. Train YOLO model: python train_yolo_model.py --data " +:+
         path_str (a_output a) +:+ " --output dental_model.pt");;
  print "2. Convert to CoreML: python convert_yolo_model.py --input dental_model.pt --output DentalDetectionModel.mlpackage";;
  print "3. Add to iOS project: Copy .mlpackage to DentalAI/Resources/Models/".

(** The process: [main()] returns nothing, so a normal end exits 0. *)
Definition script (a : args) (s : state) : Z * state :=
  let (o, s') := main a s in
  (exit_status (match o with Ret _ => Ret 0 | Raise e => Raise e end), s').

(** [main()] as a whole: the command line is parsed first. *)
Definition main_argv (parser : argparser args) (argv : list string)
  : py unit :=
  a ← parse_args parser argv;
  main a.

(** The process started on the command line [argv]. *)
Definition command (parser : argparser args) (argv : list string)
    (s : state) : Z * state :=
  let (o, s') := main_argv parser argv s in
  (exit_status (match o with Ret _ => Ret 0 | Raise e => Raise e end), s').

End CreateDentalDataset.

(** ** train_dental_yolo.py

    The guarded import of the third-party packages at the top of the
    script is taken to have succeeded. *)

Module TrainDentalYolo.
Import Py.

(** The object built by [DentalDatasetGenerator.__init__]. *)
Record generator := {
  output_dir : path;
  num_images : Z;
  classes : list string
}.

Definition default_classes : list string :=
  ["cavity"; "gingivitis"; "discoloration"; "plaque"; "tartar";
   "dead_tooth"; "chipped"; "misaligned"; "healthy"; "gum_inflammation"].

Fixpoint mkdir_all (dirs : list path) : py unit :=
  match dirs with
  | [] => mret tt
  | dir_path :: rest => mkdir_parents_exist_ok dir_path;; mkdir_all rest
  end.

Definition setup_directories (self : generator) : py unit :=
  mkdir_all [output_dir self ++ ["images"; "train"];
             output_dir self ++ ["images"; "val"];
             output_dir self ++ ["labels"; "train"];
             output_dir self ++ ["labels"; "val"]].

Definition DentalDatasetGenerator (out : path) (n : Z) : py generator :=
  let self := {| output_dir := out; num_images := n;
                 classes := default_classes |} in
  setup_directories self;;
  mret self.

(** [draw_condition]: the shape added to the image, if any. *)
Definition draw_condition (condition : string) (x_center y_center w h : Q)
    (img_width img_height : Z) : list shape :=
  let x := int_trunc ((x_center - w / 2) * inject_Z img_width) in
  let y := int_trunc ((y_center - h / 2) * inject_Z img_height) in
  let width := int_trunc (w * inject_Z img_width) in
  let height := int_trunc (h * inject_Z img_height) in
  let box_of (k : Z -> Z -> Z -> Z -> shape) :=
    [k x y (x + width) (y + height)] in
  if String.eqb condition "cavity" then box_of Ellipse
  else if String.eqb condition "gingivitis" then box_of Rectangle
  else if String.eqb condition "discoloration" then box_of Ellipse
  else if String.eqb condition "plaque" then box_of Rectangle
  else if String.eqb condition "tartar" then box_of Rectangle
  else if String.eqb condition "dead_tooth" then box_of Rectangle
  else if String.eqb condition "chipped" then
    [Polygon [(x, y);
              (x + width / 2, y + height / 4);
              (x + width, y);
              (x + width - width / 4, y + height / 2);
              (x + width, y + height);
              (x + width / 2, y + height - height / 4);
              (x, y + height)]]
  else if String.eqb condition "misaligned" then box_of Rectangle
  else if String.eqb condition "healthy" then box_of Rectangle
  else if String.eqb condition "gum_inflammation" then box_of Ellipse
  else [].

(** The placement sampled for one condition. *)
Record placement := {
  p_condition : string;
  p_x : Q;
  p_y : Q;
  p_w : Q;
  p_h : Q
}.

(** The annotation appended for a placement:
    [f"{class_id} {x_center:.6f} {y_center:.6f} {w:.6f} {h:.6f}"]. *)
Definition placed_box (class_id : Z) (p : placement) : box :=
  {| b_class := class_id; b_x := p_x p; b_y := p_y p;
     b_w := p_w p; b_h := p_h p |}.

Definition format_annotation (class_id : Z) (p : placement) : string :=
  format_box (placed_box class_id p).

(** The annotation of a placement for a list of classes. *)
Definition annotates (cls : list string) (p : placement) (line : string)
  : Prop :=
  exists i, list_index (p_condition p) cls = Some i /\
            line = format_annotation (Z.of_nat i) p.

(** The four draws at the head of the loop body. *)
Definition place (condition : string) : py placement :=
  x_center ← draw (uniform 0.2 0.8);
  y_center ← draw (uniform 0.3 0.7);
  w ← draw (uniform 0.1 0.3);
  h ← draw (uniform 0.1 0.3);
  mret {| p_condition := condition; p_x := x_center; p_y := y_center;
          p_w := w; p_h := h |}.

(** The loop over the sampled conditions: shapes drawn and annotations
    appended, both in iteration order. *)
Fixpoint condition_loop (self : generator) (width height : Z)
    (conditions : list string) : py (list shape * list string) :=
  match conditions with
  | [] => mret ([], [])
  | condition :: rest =>
    p ← place condition;
    let drawn := draw_condition condition (p_x p) (p_y p) (p_w p) (p_h p)
                                width height in
    class_id ← index (classes self) condition;
    let line := format_annotation class_id p in
    '(shapes, annotations) ← condition_loop self width height rest;
    mret (drawn ++ shapes, line :: annotations)
  end.

Definition generate_synthetic_dental_image (self : generator)
    (width height : Z) : py (raster * list string) :=
  num_conditions ← py_randint 1 4;
  conditions ← sample (classes self) num_conditions;
  '(shapes, annotations) ← condition_loop self width height conditions;
  mret ({| r_width := width; r_height := height; r_shapes := shapes |},
        annotations).

Definition newline : string := String (ascii_of_nat 10) "".

(** One iteration of either loop of [generate_dataset]. *)
Definition sample_step (self : generator) (split : string) (every : Z)
    (noun : string) (count : Z) (i : nat) : py unit :=
  '(image, annotations) ← generate_synthetic_dental_image self 416 416;
  let image_path := output_dir self ++
    ["images"; split; split +:+ "_" +:+ format_04d i +:+ ".jpg"] in
  write_file image_path (Jpeg image);;
  let label_path := output_dir self ++
    ["labels"; split; split +:+ "_" +:+ format_04d i +:+ ".txt"] in
  write_file label_path (Text (str_join newline annotations));;
  when ((Z.of_nat i + 1) mod every =? 0)
       (print ("Generated " +:+ str_int (Z.of_nat i + 1) +:+ "/" +:+
               str_int count +:+ " " +:+ noun +:+ " images")).

Definition generate_dataset (self : generator) : py unit :=
  print ("Generating " +:+ str_int (num_images self) +:+
         " synthetic dental images...");;
  product ← int_times_float (num_images self) 0.8;
  train_count ← py_int product;
  let val_count := num_images self - train_count in
  for_range train_count (sample_step self "train" 100 "training" train_count);;
  for_range val_count (sample_step self "val" 50 "validation" val_count);;
  print "✅ Dataset generation complete!";;
  print ("Training images: " +:+ str_int train_count);;
  print ("Validation images: " +:+ str_int val_count).

Definition dataset_config (self : generator) : manifest :=
  {| m_path := output_dir self;
     m_train := "images/train";
     m_val := "images/val";
     m_nc := Z.of_nat (length (classes self));
     m_names := classes self |}.

Definition create_dataset_yaml (self : generator) : py path :=
  let yaml_path := output_dir self ++ ["dataset.yaml"] in
  write_file yaml_path (Yaml (dataset_config self));;
  print ("✅ Created dataset.yaml at " +:+ path_str yaml_path);;
  mret yaml_path.

Section Stages.
Variable lib : library.

Fixpoint print_results (items : list (string * string)) : py unit :=
  match items with
  | [] => mret tt
  | (key, value) :: rest =>
    print ("  " +:+ key +:+ ": " +:+ value);; print_results rest
  end.

Definition train_yolo_model (dataset_path output_path : path) (epochs : Z)
    (model_size : string) : py bool :=
  print "🚀 Starting YOLO training...";;
  print ("Dataset: " +:+ path_str dataset_path);;
  print ("Output: " +:+ path_str output_path);;
  print ("Epochs: " +:+ str_int epochs);;
  print ("Model: YOLOv8" +:+ model_size);;
  try_except
    (call lib (YoloLoad ("yolov8" +:+ model_size +:+ ".pt"));;
     call lib (ModelTrain dataset_path epochs);;
     call lib (ModelSave output_path);;
     print "✅ Training completed successfully!";;
     print ("Model saved to: " +:+ path_str output_path);;
     match lib_results_dict lib with
     | Some items =>
       print "
Training Results:";; print_results items
     | None => mret tt
     end;;
     mret true)
    (fun e => print ("❌ Training failed: " +:+ e);; mret false).

Definition convert_to_coreml (input_path output_path : path) : py bool :=
  print "🔄 Converting YOLO model to CoreML...";;
  print ("Input: " +:+ path_str input_path);;
  print ("Output: " +:+ path_str output_path);;
  try_except
    (call lib (YoloLoad (path_str input_path));;
     call lib ModelExport;;
     let model_dir := parent input_path in
     let coreml_files := lib_glob lib model_dir in
     match coreml_files with
     | first :: _ =>
       call lib (ShutilMove first output_path);;
       print "✅ CoreML conversion successful!";;
       print ("CoreML model saved to: " +:+ path_str output_path);;
       mret true
     | [] =>
       print "❌ CoreML file not found after export";;
       mret false
     end)
    (fun e => print ("❌ CoreML conversion failed: " +:+ e);; mret false).

(** The parsed command line. *)
Record args := {
  a_dataset_dir : path;
  a_num_images : Z;
  a_epochs : Z;
  a_model_size : string;
  a_output_model : path;
  a_output_coreml : path
}.

Definition banner : string :=
  "==================================================".

(** The generator object [main] works with. *)
Definition generator_of (a : args) : generator :=
  {| output_dir := a_dataset_dir a; num_images := a_num_images a;
     classes := default_classes |}.

(** Step 1 of [main]: generate the synthetic dataset. *)
Definition generate_step (a : args) : py path :=
  print "
1. Generating synthetic dental dataset...";;
  generator ← DentalDatasetGenerator (a_dataset_dir a) (a_num_images a);
  generate_dataset generator;;
  create_dataset_yaml generator.

(** Step 2 of [main]: train the model. *)
Definition train_step (a : args) (dataset_yaml : path) : py bool :=
  print "
2. Training YOLO model...";;
  train_yolo_model dataset_yaml (a_output_model a) (a_epochs a)
                   (a_model_size a).

(** Step 3 of [main]: convert to CoreML. *)
Definition convert_step (a : args) : py bool :=
  print "
3. Converting to CoreML...";;
  convert_to_coreml (a_output_model a) (a_output_coreml a).

(** The two lines [main] prints before step 1. *)
Definition announce : py unit :=
  print "🦷 Dental YOLO Training Pipeline";;
  print banner.

(** [main()] from the point where [parser.parse_args()] has returned
    the namespace [a]. *)
Definition main (a : args) : py Z :=
  announce;;
  dataset_yaml ← generate_step a;
  trained ← train_step a dataset_yaml;
  if negb trained then
    print "❌ Training failed. Exiting.";; mret 1
  else
    converted ← convert_step a;
    if negb converted then
      print "❌ CoreML conversion failed. Exiting.";; mret 1
    else
      print "
🎉 Training pipeline completed successfully!";;
      print ("📁 Dataset: " +:+ path_str (a_dataset_dir a));;
      print ("🤖 YOLO Model: " +:+ path_str (a_output_model a));;
      print ("📱 CoreML Model: " +:+ path_str (a_output_coreml a));;
      print "
Next steps:";;
      print ("1. Copy " +:+ path_str (a_output_coreml a) +:+
             " to DentalAI/Resources/Models/");;
      print "2. Build and run the iOS app";;
      print "3. Test with real dental images";;
      mret 0.

(** The process: [sys.exit(main())]. *)
Definition script (a : args) (s : state) : Z * state :=
  let (o, s') := main a s in (exit_status o, s').

(** [main()] as a whole: the command line is parsed first. *)
Definition main_argv (parser : argparser args) (argv : list string)
  : py Z :=
  a ← parse_args parser argv;
  main a.

(** The process started on the command line [argv]. *)
Definition command (parser : argparser args) (argv : list string)
    (s : state) : Z * state :=
  let (o, s') := main_argv parser argv s in (exit_status o, s').

End Stages.

End TrainDentalYolo.

(** ** Vocabulary of the properties *)

Module Spec.
Import Py.

(** The ranges required of the five fields. *)
Definition in_range (class_count : Z) (b : box) : Prop :=
  0 <= b_class b < class_count /\
  (0 <= b_x b <= 1)%Q /\ (0 <= b_y b <= 1)%Q /\
  (0.1 <= b_w b <= 0.8)%Q /\ (0.1 <= b_h b <= 0.8)%Q.

(** The same ranges on the millionths that are printed. *)
Definition printed_in_range (b : box) : Prop :=
  0 <= micro (b_x b) <= 1000000 /\ 0 <= micro (b_y b) <= 1000000 /\
  100000 <= micro (b_w b) <= 800000 /\ 100000 <= micro (b_h b) <= 800000.

(** Clamping into [[lo, hi]] the way [create_annotation] writes it. *)
Definition clamp (lo hi q : Q) : Q := py_max lo (py_min hi q).

(** A box all of whose coordinates are left unchanged by clamping. *)
Definition clamped (b : box) : Prop :=
  (clamp 0 1 (b_x b) == b_x b)%Q /\ (clamp 0 1 (b_y b) == b_y b)%Q /\
  (clamp 0.1 0.8 (b_w b) == b_w b)%Q /\ (clamp 0.1 0.8 (b_h b) == b_h b)%Q.

(** A line is valid when it is the rendering of a box whose fields are
    in range, hence equal to their clamped values, and are printed in
    range. *)
Definition valid_line (class_count : Z) (line : string) : Prop :=
  exists b, line = format_box b /\ in_range class_count b /\
            clamped b /\ printed_in_range b.

(** The ranges the multi-label generator samples from. *)
Definition sampled (x y w h : Q) : Prop :=
  (0.2 <= x <= 0.8)%Q /\ (0.3 <= y <= 0.7)%Q /\
  (0.1 <= w <= 0.3)%Q /\ (0.1 <= h <= 0.3)%Q.

(** The four edges of a box lie in the stated margins of the image. *)
Definition inside_margins (x y w h : Q) : Prop :=
  (0.05 <= x - w / 2)%Q /\ (x + w / 2 <= 0.95)%Q /\
  (0.15 <= y - h / 2)%Q /\ (y + h / 2 <= 0.85)%Q.

(** The names of the regular files directly inside directory [d]. *)
Definition listdir (f : fs) (d : path) : gset string :=
  set_omap (fun p : path =>
              match last p with
              | Some name =>
                if decide (p = d ++ [name]) then
                  if is_file f p then Some name else None
                else None
              | None => None
              end) (dom f).

(** The file names both generators use for sample [i] of a split. *)
Definition img_path (out : path) (split : string) (i : nat) : path :=
  out ++ ["images"; split; split +:+ "_" +:+ format_04d i +:+ ".jpg"].

Definition label_path (out : path) (split : string) (i : nat) : path :=
  out ++ ["labels"; split; split +:+ "_" +:+ format_04d i +:+ ".txt"].

(** Two file systems with the same directory entries. *)
Definition same_dirs (f f' : fs) : Prop :=
  forall q, f' !! q = Some Dir <-> f !! q = Some Dir.

(** The effect of one sample on the file system: the image is stored at
    [ip] unless its writer reports failure (which a [strict] writer
    never does without raising), then a label whose text satisfies [Q]
    is stored at [lp]. *)
Definition sample_written (Q : string -> Prop) (strict : bool)
    (ip lp : path) (f f' : fs) : Prop :=
  exists (im : raster) (t : string),
    Q t /\
    (strict = true -> open_w_error f ip = None) /\
    (let f1 := match open_w_error f ip with
               | None => <[ip := File (Jpeg im)]> f
               | Some _ => f
               end in
     open_w_error f1 lp = None /\ f' = <[lp := File (Text t)]> f1).

(** The effect of a loop over the indices [l]. *)
Inductive samples_written (Q : string -> Prop) (strict : bool)
    (ip lp : nat -> path) : list nat -> fs -> fs -> Prop :=
| sw_nil f : samples_written Q strict ip lp [] f f
| sw_cons i l f f1 f2 :
    sample_written Q strict (ip i) (lp i) f f1 ->
    samples_written Q strict ip lp l f1 f2 ->
    samples_written Q strict ip lp (i :: l) f f2.

(** [int(num_images * train_split)] as both generators compute it: the
    count is converted to a double, the product is rounded to a double
    and truncated. *)
Definition split_count (num_images : Z) (train_split : float) : outcome Z :=
  match float_of_int num_images with
  | Ret fn => int_of_float (float_mul fn train_split)
  | Raise e => Raise e
  end.

(** The number of training samples of a run that gets to its loops. *)
Definition train_count (num_images : Z) (train_split : float) : Z :=
  match split_count num_images train_split with
  | Ret k => k
  | Raise _ => 0
  end.

(** A split value outside the doubles from 0.5 to 0.9: NaN, an
    infinity, or a finite value below 1/2 or above
    8106479329266893 / 2^53, the double the literal [0.9] denotes. *)
Definition split_rejected (x : float) : Prop :=
  match x with
  | S754_nan | S754_infinity _ => True
  | _ => (float_Q x < 1 # 2)%Q \/
         (8106479329266893 # 9007199254740992 < float_Q x)%Q
  end.

(** The number of samples a run leaves in a split: the training count,
    or what is left of the total, none if that is negative. *)
Definition split_size (num_images : Z) (train_split : float) (sp : string)
  : nat :=
  if String.eqb sp "train" then Z.to_nat (train_count num_images train_split)
  else Z.to_nat (num_images - train_count num_images train_split).

(** The four directories of a dataset and its manifest. *)
Definition dataset_dirs (out : path) : list path :=
  [out ++ ["images"; "train"]; out ++ ["images"; "val"];
   out ++ ["labels"; "train"]; out ++ ["labels"; "val"]].

Definition make_all_dirs (out : path) (f : fs) : fs :=
  foldl (fun f' d => make_dirs d f') f (dataset_dirs out).

Definition manifest_path (out : path) : path := out ++ ["dataset.yaml"].

(** The effect of a whole run on the file system: directories, then
    [nt] training samples, then [nv] validation samples, then the
    manifest. *)
Definition dataset_written (Q : string -> Prop) (strict : bool)
    (out : path) (nt nv : nat) (cfg : manifest) (f f' : fs) : Prop :=
  (forall d q, d ∈ dataset_dirs out -> q ∈ prefixes d ->
               is_file f q = false) /\
  exists f1 f2,
    samples_written Q strict (img_path out "train") (label_path out "train")
                    (seq 0 nt) (make_all_dirs out f) f1 /\
    samples_written Q strict (img_path out "val") (label_path out "val")
                    (seq 0 nv) f1 f2 /\
    open_w_error f2 (manifest_path out) = None /\
    f' = <[manifest_path out := File (Yaml cfg)]> f2.

(** An output root whose four directories hold nothing yet. *)
Definition fresh (out : path) (f : fs) : Prop :=
  forall d name, d ∈ dataset_dirs out -> f !! (d ++ [name]) = None.

(** The file names of the first [n] samples of a split. *)
Definition sample_names (split ext : string) (n : nat) : list string :=
  map (fun i => split +:+ "_" +:+ format_04d i +:+ ext) (seq 0 n).

(** An operation that leaves the file system and the call log alone. *)
Definition fs_pure {A} (m : py A) : Prop :=
  forall s o s', m s = (o, s') ->
    st_fs s' = st_fs s /\ st_calls s' = st_calls s.

(** An operation that never raises. *)
Definition returns {A} (m : py A) : Prop :=
  forall s, exists a s', m s = (Ret a, s').

(** An operation that returns from every state whose file system
    satisfies [I], in a state whose file system satisfies [I] again. *)
Definition keeps {A : Type} (I : fs -> Prop) (m : py A) : Prop :=
  forall s, I (st_fs s) ->
    exists a s', m s = (Ret a, s') /\ I (st_fs s').

(** The text lines of a file: the pieces between newline characters. *)
Fixpoint split_lines (s : string) : list string :=
  match s with
  | EmptyString => [""]
  | String c rest =>
    if Ascii.eqb c (ascii_of_nat 10) then "" :: split_lines rest
    else match split_lines rest with
         | [] => [String c ""]
         | l :: ls => String c l :: ls
         end
  end.

(** A string without a newline character. *)
Fixpoint no_newline (s : string) : bool :=
  match s with
  | EmptyString => true
  | String c rest => negb (Ascii.eqb c (ascii_of_nat 10)) && no_newline rest
  end.

(** A label file of the multi-label generator: one to four lines, each
    of them valid. *)
Definition valid_label (class_count : Z) (t : string) : Prop :=
  (1 <= length (split_lines t) <= 4)%nat /\
  Forall (valid_line class_count) (split_lines t).

(** The calls of a plan that are made when nothing is retried: each in
    turn, up to and including the first one that raises, together with
    the text of that exception. *)
Fixpoint attempts (lib : library) (plan : list lib_call)
  : list lib_call * option string :=
  match plan with
  | [] => ([], None)
  | c :: rest =>
    match lib_raises lib c with
    | Some msg => ([c], Some msg)
    | None => let (made, r) := attempts lib rest in (c :: made, r)
    end
  end.

(** The calls of the training stage and of the conversion stage. *)
Definition training_plan (dataset_path output_path : path) (epochs : Z)
    (model_size : string) : list lib_call :=
  [YoloLoad ("yolov8" +:+ model_size +:+ ".pt");
   ModelTrain dataset_path epochs;
   ModelSave output_path].

Definition conversion_plan (lib : library) (input_path output_path : path)
  : list lib_call :=
  [YoloLoad (path_str input_path); ModelExport] ++
  match lib_glob lib (parent input_path) with
  | first :: _ => [ShutilMove first output_path]
  | [] => []
  end.

(** A library whose training call raises. *)
Definition demo_failing_library : library :=
  {| lib_raises := fun c => match c with
                            | ModelTrain _ _ => Some "out of memory"
                            | _ => None
                            end;
     lib_results_dict := None;
     lib_glob := fun _ => [] |}.

(** A generator state used to run the scripts on concrete inputs. *)
Definition demo_rng : rng :=
  fun k => (N.of_nat k * 2862933555777941757 + 3037000493)%N.

Definition demo_state : state :=
  {| st_rng := demo_rng; st_fs := ∅; st_out := []; st_calls := [] |}.

Definition demo_yolo_args : TrainDentalYolo.args :=
  {| TrainDentalYolo.a_dataset_dir := ["ds"];
     TrainDentalYolo.a_num_images := 5;
     TrainDentalYolo.a_epochs := 1;
     TrainDentalYolo.a_model_size := "n";
     TrainDentalYolo.a_output_model := ["m.pt"];
     TrainDentalYolo.a_output_coreml := ["M.mlpackage"] |}.

(** A parser that makes the namespace [a] of every command line. *)
Definition demo_parser {A : Type} (a : A) : argparser A :=
  fun _ => Namespace a.

Definition demo_dataset_args : CreateDentalDataset.args :=
  {| CreateDentalDataset.a_output := ["out"];
     CreateDentalDataset.a_count := 10;
     CreateDentalDataset.a_train_split := 0.8 |}.

End Spec.

(** ** scripts/create_sample_yolo_model.py: the dataset check

    [validate_dataset] is the first thing the training script does with
    a dataset directory such as the generators write. *)

Module CreateSampleYoloModel.
Import Py.

(** [Path.exists()]. *)
Definition path_exists (f : fs) (p : path) : bool :=
  match p with
  | [] => true
  | _ => match f !! p with Some _ => true | None => false end
  end.

(** [name] ends with [ext]. *)
Definition has_suffix (ext name : string) : bool :=
  let n := String.length name in
  let k := String.length ext in
  (k <=? n)%nat && String.eqb (substring (n - k) k name) ext.

(** [d.glob("*" + ext)]: the entries of any kind directly inside the
    directory [d] whose name ends with [ext]; nothing when [d] is not a
    directory. Only the number of results is ever used. *)
Definition glob_suffix (f : fs) (d : path) (ext : string) : gset string :=
  if is_dir f d then
    set_omap (fun p : path =>
                match last p with
                | Some name =>
                  if decide (p = d ++ [name]) then
                    if has_suffix ext name then Some name else None
                  else None
                | None => None
                end) (dom f)
  else ∅.

Definition py_exists (p : path) : py bool :=
  fun s => (Ret (path_exists (st_fs s) p), s).

(** [len(list(d.glob("*" + ext)))]. *)
Definition glob_count (d : path) (ext : string) : py Z :=
  fun s => (Ret (Z.of_nat (size (glob_suffix (st_fs s) d ext))), s).

Definition validate_dataset (dataset_path : path) : py bool :=
  e ← py_exists dataset_path;
  if negb e then
    print ("Error: Dataset path does not exist: " +:+ path_str dataset_path);;
    mret false
  else
  let images_dir := dataset_path ++ ["images"] in
  let labels_dir := dataset_path ++ ["labels"] in
  e ← py_exists images_dir;
  if negb e then
    print ("Error: Images directory not found: " +:+ path_str images_dir);;
    mret false
  else
  e ← py_exists labels_dir;
  if negb e then
    print ("Error: Labels directory not found: " +:+ path_str labels_dir);;
    mret false
  else
  let train_images := images_dir ++ ["train"] in
  let val_images := images_dir ++ ["val"] in
  let train_labels := labels_dir ++ ["train"] in
  e ← py_exists train_images;
  if negb e then
    print ("Error: Train images directory not found: "
           +:+ path_str train_images);;
    mret false
  else
  e ← py_exists train_labels;
  if negb e then
    print ("Error: Train labels directory not found: "
           +:+ path_str train_labels);;
    mret false
  else
  let dataset_yaml := dataset_path ++ ["dataset.yaml"] in
  e ← py_exists dataset_yaml;
  if negb e then
    print ("Error: dataset.yaml not found: " +:+ path_str dataset_yaml);;
    mret false
  else
  jpg ← glob_count train_images ".jpg";
  png ← glob_count train_images ".png";
  let train_image_count := jpg + png in
  train_label_count ← glob_count train_labels ".txt";
  if train_image_count =? 0 then
    print ("Error: No training images found in " +:+ path_str train_images);;
    mret false
  else if train_label_count =? 0 then
    print ("Error: No training labels found in " +:+ path_str train_labels);;
    mret false
  else
    when (negb (train_image_count =? train_label_count))
         (print ("Warning: Mismatch between images ("
                 +:+ str_int train_image_count +:+ ") and labels ("
                 +:+ str_int train_label_count +:+ ")"));;
    print "‚úÖ Dataset validation passed:";;
    print ("   - Training images: " +:+ str_int train_image_count);;
    print ("   - Training labels: " +:+ str_int train_label_count);;
    has_val ← py_exists val_images;
    val_count ← (if (has_val : bool) then
                   vjpg ← glob_count val_images ".jpg";
                   vpng ← glob_count val_images ".png";
                   mret (vjpg + vpng)
                 else mret 0 : py Z);
    print ("   - Validation images: " +:+ str_int val_count);;
    mret true.

(** [f"{q:.2f}"]: hundredths, ties to even. *)
Definition centi (q : Q) : Z := round_half_even (q * 100).

Definition format_2f (q : Q) : string :=
  let a := Z.abs (centi q) in
  (if Qnum q <? 0 then "-" else "")
  +:+ NilZero.string_of_uint (N.to_uint (Z.to_N (a / 100)))
  +:+ "."
  +:+ NilEmpty.string_of_uint (zero_pad 2 (N.to_uint (Z.to_N (a mod 100)))).

(** The class labels written into a manifest made by this script. *)
Definition classes : list string :=
  ["cavity"; "gingivitis"; "discoloration"; "plaque"; "tartar";
   "dead_tooth"; "chipped"; "misaligned"; "healthy_tooth"; "gum_inflammation"].

Section Training.

(** The libraries, the size [os.path.getsize] reports for a file they
    wrote ([None] when it raises), and [Path.absolute], which depends on
    the working directory of the process. *)
Variable lib : library.
Variable getsize : path -> option Z.
Variable absolute : path -> path.

Definition dataset_config (has_val : bool) (dataset_path : path) : manifest :=
  {| m_path := absolute dataset_path;
     m_train := "images/train";
     m_val := if has_val then "images/val" else "images/train";
     m_nc := Z.of_nat (length classes);
     m_names := classes |}.

Definition create_dataset_yaml (dataset_path output_path : path) : py bool :=
  has_val ← py_exists ((dataset_path ++ ["images"]) ++ ["val"]);
  let config := dataset_config has_val dataset_path in
  try_except
    (write_file output_path (Yaml config);;
     print ("‚úÖ Created dataset.yaml: " +:+ path_str output_path);;
     mret true)
    (fun e => print ("‚ùå Failed to create dataset.yaml: " +:+ e);; mret false).

Fixpoint print_results (items : list (string * string)) : py unit :=
  match items with
  | [] => mret tt
  | (key, value) :: rest =>
    print ("- " +:+ key +:+ ": " +:+ value);; print_results rest
  end.

(** [os.path.getsize(p)]. *)
Definition py_getsize (p : path) : py Z :=
  match getsize p with
  | Some n => mret n
  | None => raise FileNotFoundError
  end.

(** The lines both model builders print about the saved file. *)
Definition print_model_size (output_path : path) : py unit :=
  n ← py_getsize output_path;
  print ("- Model size: " +:+ format_2f (inject_Z n / 1048576) +:+ " MB").

Definition train_yolo_model (dataset_path output_path : path)
    (num_epochs : Z) (model_size : string) : py bool :=
  print "Training YOLO model on real dental data...";;
  print ("Dataset path: " +:+ path_str dataset_path);;
  print ("Output path: " +:+ path_str output_path);;
  print ("Training epochs: " +:+ str_int num_epochs);;
  print ("Model size: YOLOv8" +:+ model_size);;
  try_except
    (print "
1. Validating dataset...";;
     valid ← validate_dataset dataset_path;
     if negb valid then mret false
     else
       let dataset_yaml_path := dataset_path ++ ["dataset.yaml"] in
       present ← py_exists dataset_yaml_path;
       created ← (if negb present then
                    print "
2. Creating dataset.yaml...";;
                    create_dataset_yaml dataset_path dataset_yaml_path
                  else
                    print "
2. Using existing dataset.yaml...";; mret true);
       if negb created then mret false
       else
         print "
3. Creating YOLO model...";;
         call lib (YoloLoad ("yolov8" +:+ model_size +:+ ".pt"));;
         print "
4. Training model...";;
         call lib (ModelTrain dataset_yaml_path num_epochs);;
         print "
5. Saving model...";;
         call lib (ModelSave output_path);;
         print "
‚úÖ YOLO model trained successfully!";;
         print ("Model saved to: " +:+ path_str output_path);;
         print "
Model Information:";;
         print ("- Dataset: " +:+ path_str dataset_path);;
         print ("- Epochs: " +:+ str_int num_epochs);;
         print "- Input size: 416x416";;
         print ("- Model size: YOLOv8" +:+ model_size);;
         print_model_size output_path;;
         match lib_results_dict lib with
         | Some items => print "
Training Results:";; print_results items
         | None => mret tt
         end;;
         mret true)
    (fun e => print ("
‚ùå Model training failed: " +:+ e);; mret false).

Definition create_pretrained_yolo_model (output_path : path)
    (model_size : string) : py bool :=
  print "Creating pretrained YOLO model...";;
  print ("Output path: " +:+ path_str output_path);;
  print ("Model size: YOLOv8" +:+ model_size);;
  try_except
    (call lib (YoloLoad ("yolov8" +:+ model_size +:+ ".pt"));;
     call lib (ModelSave output_path);;
     print "
‚úÖ Pretrained YOLO model created successfully!";;
     print ("Model saved to: " +:+ path_str output_path);;
     print_model_size output_path;;
     print "- Note: This is a pretrained model, not trained on dental data";;
     mret true)
    (fun e => print ("
‚ùå Model creation failed: " +:+ e);; mret false).

(** The parsed command line; an absent [--data] is the empty path. *)
Record args := {
  a_data : path;
  a_output : path;
  a_epochs : Z;
  a_model_size : string;
  a_pretrained : bool
}.

Definition is_empty (p : path) : bool :=
  match p with [] => true | _ => false end.

(** [os.makedirs(p)]: the path itself must not exist yet. *)
Definition makedirs (p : path) : py unit := fun s =>
  if is_empty p then (Raise FileNotFoundError, s)
  else if path_exists (st_fs s) p then (Raise FileExistsError, s)
  else if existsb (is_file (st_fs s)) (prefixes p)
  then (Raise NotADirectoryError, s)
  else (Ret tt, set_fs s (make_dirs p (st_fs s))).

(** [main()] from the point where [parser.parse_args()] has returned
    the namespace [a]. *)
Definition main (a : args) : py unit :=
  when (negb (a_pretrained a) && is_empty (a_data a))
       (print "Error: Either --data or --pretrained must be specified";;
        print "Use --data to train on real dental data";;
        print "Use --pretrained to use a pretrained model for testing";;
        raise (SystemExit 1));;
  let output_dir := parent (a_output a) in
  present ← py_exists output_dir;
  when (negb (is_empty output_dir) && negb present)
       (makedirs output_dir;;
        print ("Created output directory: " +:+ path_str output_dir));;
  success ← (if a_pretrained a
             then create_pretrained_yolo_model (a_output a) (a_model_size a)
             else train_yolo_model (a_data a) (a_output a) (a_epochs a)
                                   (a_model_size a));
  if (success : bool) then
    print "
üéâ Model created successfully!";;
    print "Next steps:";;
    print ("1. Convert to CoreML: python convert_yolo_model.py --input "
           +:+ path_str (a_output a)
           +:+ " --output DentalDetectionModel.mlpackage");;
    print "2. Copy .mlpackage to DentalAI/Resources/Models/";;
    print "3. Build and test the iOS app"
  else
    print "
üí• Model creation failed!";;
    raise (SystemExit 1).

(** The process: [main()] returns nothing, so a normal end exits 0. *)
Definition script (a : args) (s : state) : Z * state :=
  let (o, s') := main a s in
  (exit_status (match o with Ret _ => Ret 0 | Raise e => Raise e end), s').

(** [main()] as a whole: the command line is parsed first. *)
Definition main_argv (parser : argparser args) (argv : list string)
  : py unit :=
  a ← parse_args parser argv;
  main a.

(** The process started on the command line [argv]. *)
Definition command (parser : argparser args) (argv : list string)
    (s : state) : Z * state :=
  let (o, s') := main_argv parser argv s in
  (exit_status (match o with Ret _ => Ret 0 | Raise e => Raise e end), s').

End Training.

End CreateSampleYoloModel.


(** ** scripts/create_placeholder_coreml.py *)

Module CreatePlaceholderCoreml.
Import Py.

(** The values handed to [json.dump]. *)
#[warnings="-register-all"] Inductive json :=
| JString (s : string)
| JInt (z : Z)
| JFloat (q : Q)
| JList (items : list json)
| JObject (fields : list (string * json)).

Definition manifest : json :=
  JObject
    [("author", JString "DentalAI Team");
     ("short_description", JString "DentalAI Detection Model (Placeholder)");
     ("license", JString "MIT");
     ("version", JString "1.0");
     ("input_description",
      JString "RGB image input for dental condition detection");
     ("output_description",
      JString "Detection results with bounding boxes and confidence scores");
     ("model_type", JString "neural_network");
     ("coreml_version", JString "7.0")].

Definition model_info : json :=
  JObject
    [("model_name", JString "DentalDetectionModel");
     ("input_shape", JList [JInt 1; JInt 3; JInt 416; JInt 416]);
     ("output_shape", JList [JInt 1; JInt 84; JInt 3549]);
     ("classes",
      JList (map JString
               ["cavity"; "gingivitis"; "discoloration"; "plaque"; "tartar";
                "dead_tooth"; "chipped"; "misaligned"; "healthy_tooth";
                "gum_inflammation"]));
     ("confidence_threshold", JFloat 0.5);
     ("iou_threshold", JFloat 0.45);
     ("note", JString "This is a placeholder model. Replace with actual trained model when CoreML conversion is fixed.")].

(** [Path.mkdir(exist_ok=True)]: the parent must be there. *)
Definition mkdir_exist_ok (p : path) : py unit := fun s =>
  if is_dir (st_fs s) p then (Ret tt, s)
  else if is_file (st_fs s) p then (Raise FileExistsError, s)
  else if is_dir (st_fs s) (parent p)
  then (Ret tt, set_fs s (<[p := Dir]> (st_fs s)))
  else if is_file (st_fs s) (parent p) then (Raise NotADirectoryError, s)
  else (Raise FileNotFoundError, s).

(** [p] lies below the directory [d]. *)
Definition is_under (d p : path) : bool :=
  (length d <? length p)%nat && bool_decide (take (length d) p = d).

Section Package.

(** The text [json.dump(v, f, indent=2)] writes, and the size [stat]
    reports for a file. *)
Variable dumps : json -> string.
Variable st_size : content -> Z.

(** [sum(f.stat().st_size for f in d.rglob('*') if f.is_file())]. *)
Definition package_size (f : fs) (d : path) : Z :=
  map_fold (fun p nd acc =>
              match nd with
              | File c => if is_under d p then acc + st_size c else acc
              | Dir => acc
              end) 0 f.

Definition rglob_size (d : path) : py Z :=
  fun s => (Ret (package_size (st_fs s) d), s).

Definition create_placeholder_coreml_model (output_path : path) : py bool :=
  print "Creating placeholder CoreML model...";;
  print ("Output: " +:+ path_str output_path);;
  try_except
    (let mlpackage_path := output_path in
     mkdir_parents_exist_ok mlpackage_path;;
     let manifest_path := mlpackage_path ++ ["manifest.json"] in
     write_file manifest_path (Text (dumps manifest));;
     let data_dir := mlpackage_path ++ ["Data"] in
     mkdir_exist_ok data_dir;;
     let model_info_path := data_dir ++ ["model_info.json"] in
     write_file model_info_path (Text (dumps model_info));;
     let weights_path := data_dir ++ ["weights.bin"] in
     write_file weights_path (Text "placeholder");;
     print "
✅ Placeholder CoreML model created successfully!";;
     print ("Model saved to: " +:+ path_str output_path);;
     n ← rglob_size mlpackage_path;
     print ("- Model size: "
            +:+ CreateSampleYoloModel.format_2f (inject_Z n / 1048576)
            +:+ " MB");;
     print "- Note: This is a placeholder model for iOS integration";;
     mret true)
    (fun e => print ("
❌ Placeholder model creation failed: " +:+ e);; mret false).

(** The parsed command line. *)
Record args := { a_output : path }.

(** [main()] from the point where [parser.parse_args()] has returned
    the namespace [a]. *)
Definition main (a : args) : py unit :=
  let output_dir := parent (a_output a) in
  present ← CreateSampleYoloModel.py_exists output_dir;
  when (negb (CreateSampleYoloModel.is_empty output_dir) && negb present)
       (CreateSampleYoloModel.makedirs output_dir;;
        print ("Created output directory: " +:+ path_str output_dir));;
  success ← create_placeholder_coreml_model (a_output a);
  if (success : bool) then
    print "
🎉 Placeholder CoreML model created successfully!";;
    print "Next steps:";;
    print ("1. Add " +:+ path_str (a_output a) +:+ " to Xcode project");;
    print "2. Update model name in MLDetectionService.swift";;
    print "3. Build and test the iOS app";;
    print "4. Replace with actual trained model when CoreML conversion is fixed"
  else
    print "
💥 Placeholder model creation failed!";;
    raise (SystemExit 1).

(** The process: [main()] returns nothing, so a normal end exits 0. *)
Definition script (a : args) (s : state) : Z * state :=
  let (o, s') := main a s in
  (exit_status (match o with Ret _ => Ret 0 | Raise e => Raise e end), s').

(** [main()] as a whole: the command line is parsed first. *)
Definition main_argv (parser : argparser args) (argv : list string)
  : py unit :=
  a ← parse_args parser argv;
  main a.

(** The process started on the command line [argv]. *)
Definition command (parser : argparser args) (argv : list string)
    (s : state) : Z * state :=
  let (o, s') := main_argv parser argv s in
  (exit_status (match o with Ret _ => Ret 0 | Raise e => Raise e end), s').

End Package.

End CreatePlaceholderCoreml.

(** ** scripts/inspect_onnx_model.py *)

Module InspectOnnxModel.
Import Py.

(** What the heuristic reads of a loaded model: of each graph output
    its shape, when the [shape] field is set, with [None] for a
    dimension without [dim_value]; of each node its name and
    operator. *)
Record value_info := {
  o_name : string;
  o_shape : option (list (option Z))
}.

Record node_proto := {
  n_name : string;
  n_op_type : string
}.

Record onnx_model := {
  graph_input : list string;
  graph_output : list value_info;
  graph_node : list node_proto
}.

(** [t in s] for strings. *)
Fixpoint contains (t s : string) : bool :=
  String.prefix t s ||
  match s with
  | EmptyString => false
  | String _ rest => contains t rest
  end.

Definition yolo_terms : list string :=
  ["yolo"; "detect"; "focus"; "sigmoid"; "nms"; "grid"; "anchor"].

(** [isinstance(d, int) and d >= k]. *)
Definition int_at_least (k : Z) (d : option (option Z)) : bool :=
  match d with
  | Some (Some v) => k <=? v
  | _ => false
  end.

(** [d in (1, None)]. *)
Definition one_or_none (d : option (option Z)) : bool :=
  match d with
  | Some (Some v) => v =? 1
  | Some None => true
  | None => false
  end.

Section Heuristic.

(** [str.lower]. *)
Variable lower : string -> string.

Definition out_shapes (m : onnx_model) : list (list (option Z)) :=
  omap o_shape (graph_output m).

Definition last_dims (m : onnx_model) : list Z :=
  omap (fun s => match last s with
                 | Some (Some d) => Some d
                 | _ => None
                 end) (out_shapes m).

Definition big_last_dim (m : onnx_model) : bool :=
  existsb (fun d => 5 <=? d) (last_dims m).

Definition has_terms (m : onnx_model) : bool :=
  let node_names := str_join " " (map (fun n => lower (n_name n))
                                      (graph_node m)) in
  let node_ops := str_join " " (map (fun n => lower (n_op_type n))
                                    (graph_node m)) in
  existsb (fun t => contains t node_names || contains t node_ops) yolo_terms.

Definition yoloish_shape (m : onnx_model) : bool :=
  existsb (fun s => (length s =? 3)%nat && one_or_none (s !! 0%nat)
                    && int_at_least 100 (s !! 1%nat)
                    && int_at_least 5 (last s))
          (out_shapes m).

Definition is_probably_yolo (m : onnx_model)
  : bool * list (list (option Z)) :=
  (big_last_dim m && (has_terms m || yoloish_shape m), out_shapes m).

End Heuristic.

End InspectOnnxModel.

(** ** Vocabulary of the further properties *)

Module Properties.
Import Py Spec.

(** Nothing is lost between two file systems: a directory is still a
    directory and a regular file is still a regular file. *)
Definition fs_grows (f f' : fs) : Prop :=
  forall p : path,
    (f !! p = Some Dir -> f' !! p = Some Dir) /\
    (forall c, f !! p = Some (File c) -> exists c', f' !! p = Some (File c')).

(** An operation under which nothing is lost, however it ends. *)
Definition grows {A : Type} (m : py A) : Prop :=
  forall s o s', m s = (o, s') -> fs_grows (st_fs s) (st_fs s').

(** The four directories of a dataset can be made: none of their
    ancestors, and none of them, is a regular file. *)
Definition dirs_free (out : path) (f : fs) : Prop :=
  forall d q, d ∈ dataset_dirs out -> q ∈ prefixes d -> is_file f q = false.

(** What a run of a generator needs of the file system it starts from:
    the four directories can be made, and none of the paths it opens
    for writing is a directory. A [strict] run opens
    the image paths as well. *)
Definition writable (strict : bool) (out : path) (nt nv : nat) (f : fs)
  : Prop :=
  dirs_free out f /\
  (forall i, (i < nt)%nat -> f !! label_path out "train" i <> Some Dir) /\
  (forall i, (i < nv)%nat -> f !! label_path out "val" i <> Some Dir) /\
  f !! manifest_path out <> Some Dir /\
  (strict = true ->
   (forall i, (i < nt)%nat -> f !! img_path out "train" i <> Some Dir) /\
   (forall i, (i < nv)%nat -> f !! img_path out "val" i <> Some Dir)).

(** An operation that, from a file system satisfying [I], either returns
    in one satisfying [I] again or raises an exception satisfying [E]. *)
Definition keeps_or {A : Type} (I : fs -> Prop) (E : exn -> Prop)
    (m : py A) : Prop :=
  forall s, I (st_fs s) ->
    (exists a s', m s = (Ret a, s') /\ I (st_fs s')) \/
    (exists e s', m s = (Raise e, s') /\ E e).

(** How a run of a generator that has come to [count] for its split can
    fail: the directories cannot be made, or the count itself raises, or
    a directory is in the way of a file. *)
Definition failed (out : path) (f : fs) (count : outcome Z) (e : exn)
  : Prop :=
  (~ dirs_free out f -> e = FileExistsError \/ e = NotADirectoryError) /\
  (dirs_free out f ->
   match count with
   | Ret _ => e = IsADirectoryError
   | Raise e' => e = e'
   end).

(** An operation that makes no call into the libraries, however it
    ends. *)
Definition calls_kept {A : Type} (m : py A) : Prop :=
  forall s o s', m s = (o, s') -> st_calls s' = st_calls s.

(** A library in which every call succeeds and the export leaves one
    package behind. *)
Definition demo_library : library :=
  {| lib_raises := fun _ => None;
     lib_results_dict := Some [("metrics/mAP50(B)", "0.5")];
     lib_glob := fun d => [d ++ ["best.mlpackage"]] |}.

(** The corners of a shape, for a circle those of its bounding square. *)
Definition corners (sh : shape) : list (Z * Z) :=
  match sh with
  | Rectangle x0 y0 x1 y1 => [(x0, y0); (x1, y1)]
  | Ellipse x0 y0 x1 y1 => [(x0, y0); (x1, y1)]
  | Circle cx cy r => [(cx - r, cy - r); (cx + r, cy + r)]
  | Polygon pts => pts
  end.

(** A shape lies within an image of the given size. *)
Definition shape_inside (width height : Z) (sh : shape) : Prop :=
  Forall (fun pt : Z * Z => 0 <= fst pt <= width /\ 0 <= snd pt <= height)
         (corners sh).

(** What [validate_dataset] looks at. *)
Definition train_images_found (f : fs) (ds : path) : Z :=
  Z.of_nat (size (CreateSampleYoloModel.glob_suffix
                    f ((ds ++ ["images"]) ++ ["train"]) ".jpg"))
  + Z.of_nat (size (CreateSampleYoloModel.glob_suffix
                      f ((ds ++ ["images"]) ++ ["train"]) ".png")).

Definition train_labels_found (f : fs) (ds : path) : Z :=
  Z.of_nat (size (CreateSampleYoloModel.glob_suffix
                    f ((ds ++ ["labels"]) ++ ["train"]) ".txt")).

Definition accepts (f : fs) (ds : path) : bool :=
  CreateSampleYoloModel.path_exists f ds
  && CreateSampleYoloModel.path_exists f (ds ++ ["images"])
  && CreateSampleYoloModel.path_exists f (ds ++ ["labels"])
  && CreateSampleYoloModel.path_exists f ((ds ++ ["images"]) ++ ["train"])
  && CreateSampleYoloModel.path_exists f ((ds ++ ["labels"]) ++ ["train"])
  && CreateSampleYoloModel.path_exists f (ds ++ ["dataset.yaml"])
  && negb (train_images_found f ds =? 0)
  && negb (train_labels_found f ds =? 0).

(** How a model builder ends once the model is saved: the size of the
    file is read and the closing lines are printed. *)
Definition closes (getsize : path -> option Z) (out : path)
    (tail : py bool) : Prop :=
  forall s1, exists s2,
    st_fs s2 = st_fs s1 /\ st_calls s2 = st_calls s1 /\
    tail s1 = (match getsize out with
               | Some _ => Ret true
               | None => Raise FileNotFoundError
               end, s2).

(** The calls of the two model builders of the training script. *)
Definition pretrained_plan (output_path : path) (model_size : string)
  : list lib_call :=
  [YoloLoad ("yolov8" +:+ model_size +:+ ".pt"); ModelSave output_path].

Definition build_plan (a : CreateSampleYoloModel.args) : list lib_call :=
  if CreateSampleYoloModel.a_pretrained a
  then pretrained_plan (CreateSampleYoloModel.a_output a) (CreateSampleYoloModel.a_model_size a)
  else training_plan (CreateSampleYoloModel.a_data a ++ ["dataset.yaml"]) (CreateSampleYoloModel.a_output a)
                     (CreateSampleYoloModel.a_epochs a) (CreateSampleYoloModel.a_model_size a).

(** The file system once the directory of the output file is there,
    when it can be made. *)
Definition output_dir_made (f : fs) (output_path : path) : option fs :=
  let d := parent output_path in
  if CreateSampleYoloModel.is_empty d || CreateSampleYoloModel.path_exists f d then Some f
  else if existsb (is_file f) (prefixes d) then None
  else Some (make_dirs d f).
(** What the placeholder builder needs of the file system it starts
    from, and the file system it leaves when that is given. *)
Definition package_writable (f : fs) (out : path) : Prop :=
  is_file f out = false /\
  (forall q, q ∈ prefixes out -> is_file f q = false) /\
  f !! (out ++ ["manifest.json"]) <> Some Dir /\
  is_file f (out ++ ["Data"]) = false /\
  f !! ((out ++ ["Data"]) ++ ["model_info.json"]) <> Some Dir /\
  f !! ((out ++ ["Data"]) ++ ["weights.bin"]) <> Some Dir.

Definition package_written (dumps : CreatePlaceholderCoreml.json -> string)
    (f : fs) (out : path) : fs :=
  <[(out ++ ["Data"]) ++ ["weights.bin"] := File (Text "placeholder")]>
    (<[(out ++ ["Data"]) ++ ["model_info.json"] :=
         File (Text (dumps CreatePlaceholderCoreml.model_info))]>
       (<[out ++ ["Data"] := Dir]>
          (<[out ++ ["manifest.json"] :=
               File (Text (dumps CreatePlaceholderCoreml.manifest))]>
             (make_dirs out f)))).

(** A serializer and a size used to run the builder on concrete
    inputs. *)
Definition demo_dumps (v : CreatePlaceholderCoreml.json) : string :=
  match v with
  | CreatePlaceholderCoreml.JObject fields =>
    "{" +:+ str_int (Z.of_nat (length fields)) +:+ "}"
  | _ => "null"
  end.

Definition demo_size (c : content) : Z :=
  match c with
  | Text t => Z.of_nat (String.length t)
  | _ => 0
  end.


(** [t] occurs in [s]. *)
Definition occurs_in (t s : string) : Prop :=
  exists a b, s = a +:+ t +:+ b.

(** A string without the character [c]. *)
Fixpoint free_of (c : ascii) (t : string) : Prop :=
  match t with
  | EmptyString => True
  | String x rest => x <> c /\ free_of c rest
  end.

(** An output of the shape the heuristic looks for: three dimensions,
    the first 1 or unknown, the second at least 100 and the last at
    least 5. *)
Definition detection_output (o : InspectOnnxModel.value_info) : Prop :=
  exists d0 n d,
    InspectOnnxModel.o_shape o = Some [d0; Some n; Some d] /\
    (d0 = None \/ d0 = Some 1) /\ 100 <= n /\ 5 <= d.

(** An output whose last dimension is known and at least 5. *)
Definition wide_output (o : InspectOnnxModel.value_info) : Prop :=
  exists s d,
    InspectOnnxModel.o_shape o = Some s /\ last s = Some (Some d) /\ 5 <= d.

(** A node whose lowered name or operator holds one of the terms. *)
Definition telling_node (lower : string -> string)
    (nd : InspectOnnxModel.node_proto) : Prop :=
  exists t, t ∈ InspectOnnxModel.yolo_terms /\
    (occurs_in t (lower (InspectOnnxModel.n_name nd)) \/
     occurs_in t (lower (InspectOnnxModel.n_op_type nd))).


End Properties.

(** ** Facts about the runtime pieces *)

Module PyFacts.
Import Py Spec.

Lemma bind_unfold {A B} (m : py A) (k : A -> py B) s :
  (m ≫= k) s = match m s with
               | (Ret a, s') => k a s'
               | (Raise e, s') => (Raise e, s')
               end.
Proof. reflexivity. Qed.

Lemma bind_ret_inv {A B} (m : py A) (k : A -> py B) s b s' :
  (m ≫= k) s = (Ret b, s') ->
  exists a s1, m s = (Ret a, s1) /\ k a s1 = (Ret b, s').
Proof.
  rewrite bind_unfold. destruct (m s) as [[a|e] s1]; intros H.
  - eauto.
  - discriminate.
Qed.

Lemma bind_ret_intro {A B} (m : py A) (k : A -> py B) s a s1 :
  m s = (Ret a, s1) -> (m ≫= k) s = k a s1.
Proof. intros H. rewrite bind_unfold, H. reflexivity. Qed.

Lemma mret_inv {A} (a b : A) s s' :
  (mret a : py A) s = (Ret b, s') -> a = b /\ s = s'.
Proof. intros H. injection H. auto. Qed.

(** Splitting a hypothesis [(x ← m; k) s = (Ret b, s')]. *)
Ltac bind_inv H :=
  let a := fresh "a" in
  let s1 := fresh "s" in
  let H1 := fresh "Hm" in
  apply bind_ret_inv in H; destruct H as (a & s1 & H1 & H).

(** *** Formatting on concrete values *)

Example format_04d_pads : format_04d 7 = "0007".
Proof. reflexivity. Qed.

Example format_04d_wide : format_04d 12345 = "12345".
Proof. reflexivity. Qed.

Example format_6f_exact : format_6f 0.45 = "0.450000".
Proof. reflexivity. Qed.

Example format_6f_ties_to_even : format_6f 12.3456785 = "12.345678".
Proof. reflexivity. Qed.

Example format_6f_negative_zero : format_6f (-0.0000001) = "-0.000000".
Proof. reflexivity. Qed.

Example int_trunc_toward_zero : int_trunc (-3 * 0.8) = -2.
Proof. reflexivity. Qed.

Example str_int_negative : str_int (-5) = "-5".
Proof. reflexivity. Qed.

(** *** Rationals *)

Lemma Qlt_bool_true a b : Qlt_bool a b = true <-> (a < b)%Q.
Proof.
  unfold Qlt_bool. rewrite negb_true_iff.
  destruct (Qle_bool b a) eqn:E.
  - apply Qle_bool_iff in E. split; [discriminate | intros; lra].
  - split; [intros _ | reflexivity].
    apply Qnot_le_lt. intros H. apply Qle_bool_iff in H. congruence.
Qed.

Lemma Qlt_bool_false a b : Qlt_bool a b = false <-> (b <= a)%Q.
Proof.
  unfold Qlt_bool. rewrite negb_false_iff. apply Qle_bool_iff.
Qed.

Lemma py_max_spec a b :
  (a <= py_max a b)%Q /\ (b <= py_max a b)%Q /\
  (py_max a b = a \/ py_max a b = b).
Proof.
  unfold py_max. destruct (Qlt_bool a b) eqn:E.
  - apply Qlt_bool_true in E. repeat split; auto; lra.
  - apply Qlt_bool_false in E. repeat split; auto; lra.
Qed.

Lemma py_min_spec a b :
  (py_min a b <= a)%Q /\ (py_min a b <= b)%Q /\
  (py_min a b = a \/ py_min a b = b).
Proof.
  unfold py_min. destruct (Qlt_bool b a) eqn:E.
  - apply Qlt_bool_true in E. repeat split; auto; lra.
  - apply Qlt_bool_false in E. repeat split; auto; lra.
Qed.

(** Clamping lands in the interval, and is the identity inside it. *)
Lemma clamp_bounds lo hi q :
  (lo <= hi)%Q -> (lo <= clamp lo hi q <= hi)%Q.
Proof.
  intros Hlh. unfold clamp.
  destruct (py_min_spec hi q) as (H1 & H2 & H3).
  destruct (py_max_spec lo (py_min hi q)) as (H4 & H5 & H6).
  split; [exact H4|]. destruct H6 as [H6|H6]; rewrite H6; lra.
Qed.

Lemma clamp_id lo hi q :
  (lo <= q <= hi)%Q -> (clamp lo hi q == q)%Q.
Proof.
  intros [Hl Hh]. unfold clamp, py_max, py_min.
  destruct (Qlt_bool q hi) eqn:E1.
  - destruct (Qlt_bool lo q) eqn:E2; [reflexivity|].
    apply Qlt_bool_false in E2. lra.
  - apply Qlt_bool_false in E1.
    destruct (Qlt_bool lo hi) eqn:E2.
    + lra.
    + apply Qlt_bool_false in E2. lra.
Qed.

Lemma clamp_fixed_bounds lo hi q :
  (clamp lo hi q == q)%Q -> (lo <= hi)%Q -> (lo <= q <= hi)%Q.
Proof.
  intros H Hlh. pose proof (clamp_bounds lo hi q Hlh). lra.
Qed.

(** [random()] lies in [0, 1). *)
Lemma random_range g : (0 <= fst (random g) < 1)%Q.
Proof.
  unfold random, getrand. cbn [fst].
  pose proof (N.mod_upper_bound (g 0%nat) 9007199254740992 ltac:(discriminate)).
  unfold Qle, Qlt. cbn [Qnum Qden].
  set (r := (g 0%nat mod _)%N) in *. clearbody r. lia.
Qed.

(** [uniform(a, b)] lies in [a, b] when [a <= b]. *)
Lemma uniform_range a b g :
  (a <= b)%Q -> (a <= fst (uniform a b g) <= b)%Q.
Proof.
  intros Hab. unfold uniform.
  pose proof (random_range g) as Hu.
  destruct (random g) as [u g']. simpl in *.
  split; nra.
Qed.

(** Rounding is monotone with respect to integer bounds. *)
Lemma round_half_even_ge (k : Z) (q : Q) :
  (inject_Z k <= q)%Q -> k <= round_half_even q.
Proof.
  unfold Qle, round_half_even. destruct q as [n d]. simpl.
  intros H.
  assert (k <= n / Z.pos d) by (apply Z.div_le_lower_bound; lia).
  repeat match goal with |- context [if ?c then _ else _] => destruct c end;
    lia.
Qed.

Lemma round_half_even_le (k : Z) (q : Q) :
  (q <= inject_Z k)%Q -> round_half_even q <= k.
Proof.
  unfold Qle, round_half_even. destruct q as [n d]. simpl.
  intros H.
  pose proof (Z.div_mod n (Z.pos d) ltac:(lia)) as Hdm.
  pose proof (Z.mod_pos_bound n (Z.pos d) ltac:(lia)) as Hr.
  assert (n / Z.pos d <= k) by (apply Z.div_le_upper_bound; lia).
  destruct (2 * (n mod Z.pos d) <? Z.pos d) eqn:E1; [lia|].
  apply Z.ltb_ge in E1.
  assert (n / Z.pos d < k) by nia.
  repeat match goal with |- context [if ?c then _ else _] => destruct c end;
    lia.
Qed.

Lemma micro_bounds (lo hi : Z) (q : Q) :
  (inject_Z lo / 1000000 <= q)%Q -> (q <= inject_Z hi / 1000000)%Q ->
  lo <= micro q <= hi.
Proof.
  intros Hl Hh. unfold micro. split.
  - apply round_half_even_ge.
    assert (E : (inject_Z lo == inject_Z lo / 1000000 * 1000000)%Q) by field.
    rewrite E.
    apply Qmult_le_compat_r; [assumption | discriminate].
  - apply round_half_even_le.
    assert (E : (inject_Z hi == inject_Z hi / 1000000 * 1000000)%Q) by field.
    rewrite E.
    apply Qmult_le_compat_r; [assumption | discriminate].
Qed.

(** *** Strings and file names *)

Lemma string_length_app (x y : string) :
  String.length (x +:+ y) = (String.length x + String.length y)%nat.
Proof. induction x as [|c x IH]; simpl; [reflexivity | now rewrite IH]. Qed.

Lemma string_app_inv_tail (x y s : string) : x +:+ s = y +:+ s -> x = y.
Proof.
  revert y. induction x as [|c x IH]; intros [|d y] H; simpl in H.
  - reflexivity.
  - apply (f_equal String.length) in H.
    rewrite !string_length_app in H. simpl in H. lia.
  - apply (f_equal String.length) in H.
    rewrite !string_length_app in H. simpl in H. lia.
  - injection H as -> H. f_equal. now apply IH.
Qed.

Lemma string_of_uint_inj d d' :
  NilEmpty.string_of_uint d = NilEmpty.string_of_uint d' -> d = d'.
Proof.
  intros H. apply (f_equal NilEmpty.uint_of_string) in H.
  rewrite !NilEmpty.usu in H. congruence.
Qed.

Lemma format_04d_inj i j : format_04d i = format_04d j -> i = j.
Proof.
  unfold format_04d, zero_pad. intros H.
  apply string_of_uint_inj in H.
  apply (f_equal Decimal.unorm) in H.
  rewrite !unorm_iter_D0 in H.
  apply DecimalNat.Unsigned.of_iff in H.
  now rewrite !DecimalNat.Unsigned.of_to in H.
Qed.

Lemma sample_name_inj (split ext : string) i j :
  split +:+ "_" +:+ format_04d i +:+ ext =
  split +:+ "_" +:+ format_04d j +:+ ext -> i = j.
Proof.
  intros H. apply String.app_inj in H. apply String.app_inj in H.
  apply string_app_inv_tail in H. now apply format_04d_inj.
Qed.

(** *** Operations that do not touch the file system *)

Lemma fs_pure_mret {A} (a : A) : fs_pure (mret a : py A).
Proof. intros s o s' H. injection H as _ <-. auto. Qed.

Lemma fs_pure_raise {A} e : fs_pure (raise e : py A).
Proof. intros s o s' H. injection H as _ <-. auto. Qed.

Lemma fs_pure_draw {A} (f : rng -> A * rng) : fs_pure (draw f).
Proof.
  intros s o s' H. unfold draw in H. destruct (f (st_rng s)).
  injection H as _ <-. auto.
Qed.

Lemma fs_pure_print msg : fs_pure (print msg).
Proof. intros s o s' H. injection H as _ <-. auto. Qed.

Lemma fs_pure_lift {A} (o : outcome A) : fs_pure (lift o).
Proof. intros s o' s' H. injection H as _ <-. auto. Qed.

Lemma fs_pure_bind {A B} (m : py A) (k : A -> py B) :
  fs_pure m -> (forall a, fs_pure (k a)) -> fs_pure (m ≫= k).
Proof.
  intros Hm Hk s o s' H. rewrite bind_unfold in H.
  destruct (m s) as [[a|e] s1] eqn:E; apply Hm in E as [E1 E2].
  - apply Hk in H as [H1 H2]. split; congruence.
  - injection H as _ <-. auto.
Qed.

Lemma fs_pure_when b m : fs_pure m -> fs_pure (when b m).
Proof. intros H. destruct b; simpl; [exact H | apply fs_pure_mret]. Qed.

Create HintDb fs_pure.
#[global] Hint Resolve fs_pure_mret fs_pure_raise fs_pure_draw fs_pure_print
  fs_pure_bind fs_pure_when : fs_pure.

Lemma fs_pure_choice l : fs_pure (choice l).
Proof.
  unfold choice. destruct l; [auto with fs_pure|].
  apply fs_pure_bind; [auto with fs_pure|]. intros j.
  destruct (_ !! _); auto with fs_pure.
Qed.

Lemma fs_pure_index l x : fs_pure (index l x).
Proof. unfold index. destruct (list_index x l); auto with fs_pure. Qed.

Lemma fs_pure_sample_loop pool n k i : fs_pure (sample_loop pool n k i).
Proof.
  revert pool i. induction k as [|k IH]; intros pool i; simpl.
  - auto with fs_pure.
  - apply fs_pure_bind; [auto with fs_pure|]. intros j.
    destruct (pool !! N.to_nat j); [|auto with fs_pure].
    destruct (pool !! _); [|auto with fs_pure].
    apply fs_pure_bind; [apply IH|]. auto with fs_pure.
Qed.

Lemma fs_pure_sample l k : fs_pure (sample l k).
Proof.
  unfold sample. destruct (_ || _); [auto with fs_pure|].
  apply fs_pure_sample_loop.
Qed.

#[global] Hint Resolve fs_pure_choice fs_pure_index fs_pure_sample : fs_pure.

(** *** Operations that never raise *)

Lemma returns_mret {A} (a : A) : returns (mret a : py A).
Proof. intros s. eexists _, _. reflexivity. Qed.

Lemma returns_draw {A} (f : rng -> A * rng) : returns (draw f).
Proof.
  intros s. unfold draw. destruct (f (st_rng s)). eexists _, _. reflexivity.
Qed.

Lemma returns_print msg : returns (print msg).
Proof. intros s. eexists _, _. reflexivity. Qed.

Lemma returns_bind {A B} (m : py A) (k : A -> py B) :
  returns m -> (forall a, returns (k a)) -> returns (m ≫= k).
Proof.
  intros Hm Hk s. destruct (Hm s) as (a & s1 & E).
  rewrite bind_unfold, E. apply Hk.
Qed.

Lemma returns_when b m : returns m -> returns (when b m).
Proof. intros H. destruct b; simpl; [exact H | apply returns_mret]. Qed.

Create HintDb returns.
#[global] Hint Resolve returns_mret returns_draw returns_print returns_bind
  returns_when : returns.

(** *** The file system *)

Lemma elem_of_prefixes (q p : path) :
  q ∈ prefixes p <-> q <> [] /\ exists r, p = q ++ r.
Proof.
  revert q. induction p as [|x p IH]; intros q; simpl.
  - split.
    + intros H. inversion H.
    + intros [Hq [r Hr]]. destruct q; [congruence | discriminate].
  - rewrite elem_of_cons, list_elem_of_fmap. split.
    + intros [-> | (q' & -> & Hq')].
      * split; [discriminate | exists p; reflexivity].
      * apply IH in Hq' as [_ [r ->]].
        split; [discriminate | exists r; reflexivity].
    + intros [Hq [r Hr]]. destruct q as [|y q]; [congruence|].
      simpl in Hr. injection Hr as <- ->.
      destruct q as [|z q]; [left; reflexivity | right].
      exists (z :: q). split; [reflexivity|].
      apply IH. split; [discriminate | exists r; reflexivity].
Qed.

Lemma prefixes_length (q p : path) :
  q ∈ prefixes p -> (length q <= length p)%nat.
Proof.
  intros H. apply elem_of_prefixes in H as [_ [r ->]].
  rewrite length_app. lia.
Qed.

Lemma lookup_make_dirs (p : path) (f : fs) (q : path) :
  make_dirs p f !! q = if decide (q ∈ prefixes p) then Some Dir else f !! q.
Proof.
  unfold make_dirs. induction (prefixes p) as [|x l IH]; simpl.
  - destruct (decide (q ∈ [])) as [H|H]; [inversion H | reflexivity].
  - destruct (decide (x = q)) as [->|Hne].
    + rewrite lookup_insert_eq.
      destruct (decide (q ∈ q :: l)) as [H|H]; [reflexivity|].
      exfalso. apply H. left.
    + rewrite lookup_insert_ne by exact Hne. rewrite IH.
      destruct (decide (q ∈ l)) as [H|H];
        destruct (decide (q ∈ x :: l)) as [H'|H']; try reflexivity.
      * exfalso. apply H'. now right.
      * apply elem_of_cons in H' as [->|H']; [congruence | contradiction].
Qed.

(** Creating directories that are all present changes nothing. *)
Lemma make_dirs_id (p : path) (f : fs) :
  (forall q, q ∈ prefixes p -> f !! q = Some Dir) -> make_dirs p f = f.
Proof.
  intros H. apply map_eq. intros q. rewrite lookup_make_dirs.
  destruct (decide (q ∈ prefixes p)) as [Hq|Hq]; [|reflexivity].
  symmetry. now apply H.
Qed.

Lemma mkdir_ret_inv p s s' :
  mkdir_parents_exist_ok p s = (Ret tt, s') ->
  st_fs s' = make_dirs p (st_fs s) /\
  (forall q, q ∈ prefixes p -> is_file (st_fs s) q = false).
Proof.
  unfold mkdir_parents_exist_ok.
  destruct (is_file (st_fs s) p); [discriminate|].
  destruct (existsb _ _) eqn:E; [discriminate|].
  intros H. injection H as <-. split; [reflexivity|].
  intros q Hq.
  destruct (is_file (st_fs s) q) eqn:Eq; [|reflexivity].
  assert (existsb (is_file (st_fs s)) (prefixes p) = true) as E'.
  { apply existsb_exists. exists q. split; [|exact Eq].
    now apply list_elem_of_In. }
  congruence.
Qed.

Lemma mkdir_returns p s :
  p <> [] ->
  (forall q, q ∈ prefixes p -> is_file (st_fs s) q = false) ->
  mkdir_parents_exist_ok p s =
  (Ret tt, set_fs s (make_dirs p (st_fs s))).
Proof.
  intros Hp H. unfold mkdir_parents_exist_ok.
  rewrite (H p) by (apply elem_of_prefixes; split; [exact Hp|];
                    exists []; now rewrite app_nil_r).
  destruct (existsb _ _) eqn:E; [|reflexivity].
  apply existsb_exists in E as (q & Hq & Eq).
  apply list_elem_of_In in Hq. rewrite H in Eq by exact Hq. discriminate.
Qed.

Lemma open_w_error_None (f : fs) (p : path) :
  open_w_error f p = None <->
  is_dir f p = false /\ is_dir f (parent p) = true.
Proof.
  unfold open_w_error. destruct (is_dir f p); [split; [discriminate | intros [? _]; discriminate]|].
  destruct (is_dir f (parent p)); [tauto|].
  destruct (is_file f (parent p)); split; try discriminate;
    intros [_ ?]; discriminate.
Qed.

Lemma same_dirs_refl f : same_dirs f f.
Proof. intros q. tauto. Qed.

Lemma same_dirs_trans f1 f2 f3 :
  same_dirs f1 f2 -> same_dirs f2 f3 -> same_dirs f1 f3.
Proof.
  intros H1 H2 q. split; intros H.
  - apply H1, H2, H.
  - apply H2, H1, H.
Qed.

Lemma is_dir_true (f : fs) (q : path) :
  is_dir f q = true <-> q = [] \/ f !! q = Some Dir.
Proof.
  unfold is_dir. destruct q as [|x q].
  - split; [now left | reflexivity].
  - split.
    + intros H. right.
      repeat match goal with
             | H : context [match ?a with _ => _ end] |- _ =>
               destruct a eqn:?; try discriminate
             end.
      reflexivity.
    + intros [H|H]; [discriminate|]. now rewrite H.
Qed.

Lemma same_dirs_is_dir f f' q : same_dirs f f' -> is_dir f' q = is_dir f q.
Proof.
  intros H. apply eq_true_iff_eq. rewrite !is_dir_true.
  specialize (H q). tauto.
Qed.

Lemma same_dirs_insert_file f p c :
  is_dir f p = false -> same_dirs f (<[p := File c]> f).
Proof.
  intros Hp q. destruct (decide (p = q)) as [->|Hne].
  - rewrite lookup_insert_eq. split; [discriminate|].
    intros H. assert (is_dir f q = true) by (apply is_dir_true; now right).
    congruence.
  - now rewrite lookup_insert_ne.
Qed.

Lemma same_dirs_open_w_error f f' p :
  same_dirs f f' ->
  (open_w_error f' p = None <-> open_w_error f p = None).
Proof.
  intros H. rewrite !open_w_error_None, !(same_dirs_is_dir f f') by exact H.
  tauto.
Qed.

(** *** Loops that write one image and one label per index *)

Lemma for_each_app l1 l2 body s :
  for_each (l1 ++ l2) body s =
  match for_each l1 body s with
  | (Ret _, s') => for_each l2 body s'
  | (Raise e, s') => (Raise e, s')
  end.
Proof.
  revert s. induction l1 as [|i l1 IH]; intros s; simpl.
  - reflexivity.
  - rewrite !bind_unfold. destruct (body i s) as [[[]|e] s1]; [apply IH | reflexivity].
Qed.

Section Written.
Variables (Q : string -> Prop) (strict : bool) (ip lp : nat -> path).

Lemma sample_written_same_dirs p p' f f' :
  sample_written Q strict p p' f f' -> same_dirs f f'.
Proof.
  intros (im & t & _ & _ & Hl & ->).
  apply open_w_error_None in Hl as [Hl _].
  eapply same_dirs_trans; [|apply same_dirs_insert_file, Hl].
  destruct (open_w_error f p) eqn:E; [apply same_dirs_refl|].
  apply open_w_error_None in E as [E _].
  now apply same_dirs_insert_file.
Qed.

Lemma sample_written_frame p p' f f' q :
  sample_written Q strict p p' f f' -> q <> p -> q <> p' ->
  f' !! q = f !! q.
Proof.
  intros (im & t & _ & _ & _ & ->) Hq Hq'.
  rewrite lookup_insert_ne by congruence.
  destruct (open_w_error f p); [reflexivity|].
  now rewrite lookup_insert_ne by congruence.
Qed.

Lemma sample_written_label p p' f f' :
  sample_written Q strict p p' f f' ->
  exists t, f' !! p' = Some (File (Text t)) /\ Q t.
Proof.
  intros (im & t & Ht & _ & _ & ->). exists t.
  now rewrite lookup_insert_eq.
Qed.

Lemma sample_written_image p p' f f' :
  sample_written Q strict p p' f f' -> p <> p' ->
  open_w_error f p = None ->
  exists im, f' !! p = Some (File (Jpeg im)).
Proof.
  intros (im & t & _ & _ & _ & ->) Hne E. rewrite E. exists im.
  rewrite lookup_insert_ne by congruence. now rewrite lookup_insert_eq.
Qed.

Lemma sample_written_target p p' f f' :
  sample_written Q strict p p' f f' ->
  open_w_error f p' = None /\ (strict = true -> open_w_error f p = None).
Proof.
  intros (im & t & _ & Hs & Hl & ->). split; [|exact Hs].
  destruct (open_w_error f p) eqn:E; [exact Hl|].
  apply open_w_error_None in E as [E _].
  apply (proj1 (same_dirs_open_w_error f _ p'
                  (same_dirs_insert_file f p (Jpeg im) E))), Hl.
Qed.

Lemma sw_same_dirs l f f' :
  samples_written Q strict ip lp l f f' -> same_dirs f f'.
Proof.
  induction 1 as [f|i l f f1 f2 H1 _ IH].
  - apply same_dirs_refl.
  - eapply same_dirs_trans; [|exact IH].
    eapply sample_written_same_dirs, H1.
Qed.

Lemma sw_frame l f f' q :
  samples_written Q strict ip lp l f f' ->
  (forall i, i ∈ l -> q <> ip i /\ q <> lp i) ->
  f' !! q = f !! q.
Proof.
  induction 1 as [f|i l f f1 f2 H1 _ IH]; intros Hq.
  - reflexivity.
  - rewrite IH by (intros j Hj; apply Hq; now right).
    destruct (Hq i) as [Hi Hl]; [left|].
    eapply sample_written_frame; eauto.
Qed.

Hypothesis lp_inj : forall i j, lp i = lp j -> i = j.
Hypothesis ip_inj : forall i j, ip i = ip j -> i = j.
Hypothesis ip_lp : forall i j, ip i <> lp j.

Lemma sw_labels l f f' i :
  samples_written Q strict ip lp l f f' -> NoDup l -> i ∈ l ->
  exists t, f' !! lp i = Some (File (Text t)) /\ Q t.
Proof.
  induction 1 as [f|k l f f1 f2 H1 H2 IH]; intros Hnd Hi.
  - inversion Hi.
  - apply NoDup_cons in Hnd as [Hk Hnd].
    destruct (decide (i ∈ l)) as [Hil|Hil]; [now apply IH|].
    apply elem_of_cons in Hi as [->|Hi]; [|contradiction].
    destruct (sample_written_label _ _ _ _ H1) as (t & Ht & HQ).
    exists t. split; [|exact HQ]. rewrite <- Ht.
    eapply sw_frame; [exact H2|]. intros j Hj. split.
    + intros E. symmetry in E. now apply ip_lp in E.
    + intros E. apply lp_inj in E. congruence.
Qed.

Lemma sw_images l f f' i :
  samples_written Q strict ip lp l f f' -> NoDup l -> i ∈ l ->
  open_w_error f (ip i) = None ->
  exists im, f' !! ip i = Some (File (Jpeg im)).
Proof.
  induction 1 as [f|k l f f1 f2 H1 H2 IH]; intros Hnd Hi Hw.
  - inversion Hi.
  - apply NoDup_cons in Hnd as [Hk Hnd].
    destruct (decide (i ∈ l)) as [Hil|Hil].
    + apply IH; [exact Hnd | exact Hil |].
      apply (proj2 (same_dirs_open_w_error f f1 (ip i)
                      (sample_written_same_dirs _ _ _ _ H1))), Hw.
    + apply elem_of_cons in Hi as [->|Hi]; [|contradiction].
      destruct (sample_written_image _ _ _ _ H1 (ip_lp k k) Hw) as (im & Him).
      exists im. rewrite <- Him.
      eapply sw_frame; [exact H2|]. intros j Hj. split.
      * intros E. apply ip_inj in E. congruence.
      * apply ip_lp.
Qed.

Lemma sw_targets l f f' i :
  samples_written Q strict ip lp l f f' -> i ∈ l ->
  open_w_error f (lp i) = None /\
  (strict = true -> open_w_error f (ip i) = None).
Proof.
  induction 1 as [f|k l f f1 f2 H1 H2 IH]; intros Hi.
  - inversion Hi.
  - apply elem_of_cons in Hi as [->|Hi].
    + eapply sample_written_target, H1.
    + destruct (IH Hi) as [Ha Hb].
      pose proof (sample_written_same_dirs _ _ _ _ H1) as Hd.
      split.
      * apply (proj1 (same_dirs_open_w_error f f1 _ Hd)), Ha.
      * intros Hs.
        apply (proj1 (same_dirs_open_w_error f f1 _ Hd)), Hb, Hs.
Qed.

End Written.

Lemma for_each_written Q strict ip lp (body : nat -> py unit) l s s' :
  (forall i s1 s2, i ∈ l -> body i s1 = (Ret tt, s2) ->
     sample_written Q strict (ip i) (lp i) (st_fs s1) (st_fs s2)) ->
  for_each l body s = (Ret tt, s') ->
  samples_written Q strict ip lp l (st_fs s) (st_fs s').
Proof.
  revert s. induction l as [|i l IH]; intros s Hb H; simpl in H.
  - injection H as <-. constructor.
  - bind_inv H. destruct a.
    econstructor.
    + eapply Hb; [left | exact Hm].
    + apply IH; [|exact H]. intros j s1 s2 Hj. apply Hb. now right.
Qed.

Lemma for_each_returns (I : state -> Prop) (body : nat -> py unit) l s :
  I s ->
  (forall i s1, i ∈ l -> I s1 ->
     exists s2, body i s1 = (Ret tt, s2) /\ I s2) ->
  exists s', for_each l body s = (Ret tt, s') /\ I s'.
Proof.
  revert s. induction l as [|i l IH]; intros s Hs Hb; simpl.
  - exists s. split; [reflexivity | exact Hs].
  - destruct (Hb i s) as (s1 & E & Hs1); [left | exact Hs|].
    rewrite bind_unfold, E. apply IH; [exact Hs1|].
    intros j s2 Hj. apply Hb. now right.
Qed.

(** *** Paths of a dataset *)

Lemma path3_inj (out : path) (a b c a' b' c' : string) :
  out ++ [a; b; c] = out ++ [a'; b'; c'] -> a = a' /\ b = b' /\ c = c'.
Proof. intros H. apply app_inv_head in H. injection H. auto. Qed.

Lemma img_path_inj out split i j :
  img_path out split i = img_path out split j -> i = j.
Proof.
  intros H. apply path3_inj in H as (_ & _ & H).
  now apply sample_name_inj in H.
Qed.

Lemma label_path_inj out split i j :
  label_path out split i = label_path out split j -> i = j.
Proof.
  intros H. apply path3_inj in H as (_ & _ & H).
  now apply sample_name_inj in H.
Qed.

Lemma img_label_ne out split split' i j :
  img_path out split i <> label_path out split' j.
Proof. intros H. apply path3_inj in H as (H & _). discriminate. Qed.

Lemma img_split_ne out i j :
  img_path out "train" i <> img_path out "val" j.
Proof. intros H. apply path3_inj in H as (_ & H & _). discriminate. Qed.

Lemma label_split_ne out i j :
  label_path out "train" i <> label_path out "val" j.
Proof. intros H. apply path3_inj in H as (_ & H & _). discriminate. Qed.

Lemma manifest_ne_path3 out a b c : manifest_path out <> out ++ [a; b; c].
Proof. intros H. apply app_inv_head in H. discriminate. Qed.

Lemma path3_not_dir_prefix out a b c d :
  d ∈ dataset_dirs out -> out ++ [a; b; c] ∉ prefixes d.
Proof.
  intros Hd Hq. apply prefixes_length in Hq.
  rewrite length_app in Hq. simpl in Hq.
  unfold dataset_dirs in Hd.
  repeat (apply elem_of_cons in Hd as [->|Hd];
          [rewrite length_app in Hq; simpl in Hq; lia|]).
  inversion Hd.
Qed.

Lemma manifest_not_dir_prefix out d :
  d ∈ dataset_dirs out -> manifest_path out ∉ prefixes d.
Proof.
  intros Hd Hq. apply elem_of_prefixes in Hq as [_ [r Hr]].
  unfold manifest_path, dataset_dirs in *.
  repeat (apply elem_of_cons in Hd as [->|Hd];
          [rewrite <- app_assoc in Hr; apply app_inv_head in Hr;
           discriminate|]).
  inversion Hd.
Qed.

Lemma parent_path3 out a b c : parent (out ++ [a; b; c]) = out ++ [a; b].
Proof.
  unfold parent. change [a; b; c] with ([a; b] ++ [c]).
  rewrite app_assoc. apply removelast_last.
Qed.

Lemma parent_manifest out : parent (manifest_path out) = out.
Proof. apply removelast_last. Qed.

Lemma self_in_prefixes (p : path) : p <> [] -> p ∈ prefixes p.
Proof.
  intros H. apply elem_of_prefixes. split; [exact H|].
  exists []. now rewrite app_nil_r.
Qed.

Lemma out_in_dir_prefixes out d :
  out <> [] -> d ∈ dataset_dirs out -> out ∈ prefixes d.
Proof.
  intros Ho Hd. apply elem_of_prefixes. split; [exact Ho|].
  unfold dataset_dirs in Hd.
  repeat (apply elem_of_cons in Hd as [->|Hd]; [eexists; reflexivity|]).
  inversion Hd.
Qed.

(** *** Creating the four directories *)

Lemma is_file_make_dirs p f q :
  (forall r, r ∈ prefixes p -> is_file f r = false) ->
  is_file (make_dirs p f) q = is_file f q.
Proof.
  intros H. unfold is_file at 1. rewrite lookup_make_dirs.
  destruct (decide (q ∈ prefixes p)) as [Hq|Hq]; [|reflexivity].
  symmetry. now apply H.
Qed.

Lemma lookup_make_all_dirs out f q :
  make_all_dirs out f !! q =
  if decide (Exists (fun d => q ∈ prefixes d) (dataset_dirs out))
  then Some Dir else f !! q.
Proof.
  unfold make_all_dirs, dataset_dirs. simpl. rewrite !lookup_make_dirs.
  destruct (decide (Exists _ _)) as [H|H].
  - repeat match goal with
           | |- context [decide (q ∈ prefixes ?p)] =>
             destruct (decide (q ∈ prefixes p)); try reflexivity
           end.
    exfalso. rewrite !Exists_cons, Exists_nil in H. tauto.
  - rewrite !Exists_cons, Exists_nil in H.
    repeat match goal with
           | |- context [decide (q ∈ prefixes ?p)] =>
             destruct (decide (q ∈ prefixes p)); [tauto|]
           end.
    reflexivity.
Qed.

Lemma make_all_dirs_id out f :
  (forall d q, d ∈ dataset_dirs out -> q ∈ prefixes d -> f !! q = Some Dir) ->
  make_all_dirs out f = f.
Proof.
  intros H. apply map_eq. intros q. rewrite lookup_make_all_dirs.
  destruct (decide _) as [E|]; [|reflexivity].
  apply Exists_exists in E as (d & Hd & Hq).
  symmetry. eapply H; eauto.
Qed.

Lemma make_all_dirs_is_dir out f d :
  d ∈ dataset_dirs out -> is_dir (make_all_dirs out f) d = true.
Proof.
  intros Hd. apply is_dir_true. right. rewrite lookup_make_all_dirs.
  destruct (decide _) as [|H]; [reflexivity|].
  exfalso. apply H, Exists_exists. exists d. split; [exact Hd|].
  apply self_in_prefixes.
  unfold dataset_dirs in Hd.
  repeat (apply elem_of_cons in Hd as [->|Hd];
          [intros E; apply (f_equal length) in E;
           rewrite length_app in E; simpl in E; lia|]).
  inversion Hd.
Qed.

(** *** Consequences of a whole run *)

Lemma elem_of_seq_0 i n : i ∈ seq 0 n <-> (i < n)%nat.
Proof. rewrite elem_of_seq. lia. Qed.

Section DatasetWritten.
Variables (Q : string -> Prop) (strict : bool) (out : path) (nt nv : nat)
          (cfg : manifest) (f f' : fs).
Hypothesis H : dataset_written Q strict out nt nv cfg f f'.

Lemma dw_same_dirs : same_dirs (make_all_dirs out f) f'.
Proof.
  destruct H as (_ & f1 & f2 & H1 & H2 & Hy & ->).
  eapply same_dirs_trans; [eapply sw_same_dirs, H1|].
  eapply same_dirs_trans; [eapply sw_same_dirs, H2|].
  apply same_dirs_insert_file.
  now apply open_w_error_None in Hy as [Hy _].
Qed.

Lemma dw_manifest : f' !! manifest_path out = Some (File (Yaml cfg)).
Proof.
  destruct H as (_ & f1 & f2 & _ & _ & _ & ->). apply lookup_insert_eq.
Qed.

Lemma dw_train_label i :
  (i < nt)%nat ->
  exists t, f' !! label_path out "train" i = Some (File (Text t)) /\ Q t.
Proof.
  intros Hi. destruct H as (_ & f1 & f2 & H1 & H2 & _ & ->).
  destruct (sw_labels Q strict _ _ (label_path_inj out "train")
              (fun a b => img_label_ne out "train" "train" a b)
              _ _ _ i H1 (NoDup_seq 0 nt)) as (t & Ht & HQ).
  { now apply elem_of_seq_0. }
  exists t. split; [|exact HQ].
  rewrite lookup_insert_ne by apply manifest_ne_path3.
  rewrite <- Ht. eapply sw_frame; [exact H2|].
  intros j _. split.
  - intros E. symmetry in E. now apply img_label_ne in E.
  - apply label_split_ne.
Qed.

Lemma dw_val_label i :
  (i < nv)%nat ->
  exists t, f' !! label_path out "val" i = Some (File (Text t)) /\ Q t.
Proof.
  intros Hi. destruct H as (_ & f1 & f2 & H1 & H2 & _ & ->).
  destruct (sw_labels Q strict _ _ (label_path_inj out "val")
              (fun a b => img_label_ne out "val" "val" a b)
              _ _ _ i H2 (NoDup_seq 0 nv)) as (t & Ht & HQ).
  { now apply elem_of_seq_0. }
  exists t. split; [|exact HQ].
  now rewrite lookup_insert_ne by apply manifest_ne_path3.
Qed.

Lemma dw_train_image i :
  (i < nt)%nat ->
  open_w_error (make_all_dirs out f) (img_path out "train" i) = None ->
  exists im, f' !! img_path out "train" i = Some (File (Jpeg im)).
Proof.
  intros Hi Hw. destruct H as (_ & f1 & f2 & H1 & H2 & _ & ->).
  destruct (sw_images Q strict _ _ (img_path_inj out "train")
              (fun a b => img_label_ne out "train" "train" a b)
              _ _ _ i H1 (NoDup_seq 0 nt)) as (im & Him).
  { now apply elem_of_seq_0. }
  { exact Hw. }
  exists im.
  rewrite lookup_insert_ne by apply manifest_ne_path3.
  rewrite <- Him. eapply sw_frame; [exact H2|].
  intros j _. split.
  - apply img_split_ne.
  - apply img_label_ne.
Qed.

Lemma dw_val_image i :
  (i < nv)%nat ->
  open_w_error (make_all_dirs out f) (img_path out "val" i) = None ->
  exists im, f' !! img_path out "val" i = Some (File (Jpeg im)).
Proof.
  intros Hi Hw. destruct H as (_ & f1 & f2 & H1 & H2 & _ & ->).
  destruct (sw_images Q strict _ _ (img_path_inj out "val")
              (fun a b => img_label_ne out "val" "val" a b)
              _ _ _ i H2 (NoDup_seq 0 nv)) as (im & Him).
  { now apply elem_of_seq_0. }
  { apply (proj2 (same_dirs_open_w_error _ _ _
                    (sw_same_dirs _ _ _ _ _ _ _ H1))), Hw. }
  exists im.
  now rewrite lookup_insert_ne by apply manifest_ne_path3.
Qed.

(** Every path the run did not write keeps its entry. *)
Lemma dw_frame q :
  (forall i, (i < nt)%nat ->
     q <> img_path out "train" i /\ q <> label_path out "train" i) ->
  (forall i, (i < nv)%nat ->
     q <> img_path out "val" i /\ q <> label_path out "val" i) ->
  q <> manifest_path out ->
  f' !! q = make_all_dirs out f !! q.
Proof.
  intros Ht Hv Hm. destruct H as (_ & f1 & f2 & H1 & H2 & _ & ->).
  rewrite lookup_insert_ne by congruence.
  rewrite (sw_frame _ _ _ _ _ _ _ q H2)
    by (intros i Hi; apply Hv; now apply elem_of_seq_0).
  apply (sw_frame _ _ _ _ _ _ _ q H1).
  intros i Hi. apply Ht. now apply elem_of_seq_0.
Qed.

(** What the run needed of the file system it started from. *)
Lemma dw_needs :
  (forall d q, d ∈ dataset_dirs out -> q ∈ prefixes d ->
               is_file f q = false) /\
  (forall i, (i < nt)%nat ->
     open_w_error (make_all_dirs out f) (label_path out "train" i) = None) /\
  (forall i, (i < nv)%nat ->
     open_w_error (make_all_dirs out f) (label_path out "val" i) = None) /\
  open_w_error (make_all_dirs out f) (manifest_path out) = None.
Proof.
  destruct H as (Hd & f1 & f2 & H1 & H2 & Hy & _).
  pose proof (sw_same_dirs _ _ _ _ _ _ _ H1) as D1.
  pose proof (sw_same_dirs _ _ _ _ _ _ _ H2) as D2.
  split; [exact Hd|]. split; [|split].
  - intros i Hi.
    eapply (sw_targets _ _ _ _ _ _ _ i H1). now apply elem_of_seq_0.
  - intros i Hi.
    apply (proj1 (same_dirs_open_w_error _ _ _ D1)).
    eapply (sw_targets _ _ _ _ _ _ _ i H2). now apply elem_of_seq_0.
  - apply (proj1 (same_dirs_open_w_error _ _ _ D1)).
    apply (proj1 (same_dirs_open_w_error _ _ _ D2)), Hy.
Qed.

Lemma dw_strict_needs :
  strict = true ->
  (forall i, (i < nt)%nat ->
     open_w_error (make_all_dirs out f) (img_path out "train" i) = None) /\
  (forall i, (i < nv)%nat ->
     open_w_error (make_all_dirs out f) (img_path out "val" i) = None).
Proof.
  intros Hs. destruct H as (Hd & f1 & f2 & H1 & H2 & Hy & _).
  pose proof (sw_same_dirs _ _ _ _ _ _ _ H1) as D1.
  split.
  - intros i Hi.
    eapply (sw_targets _ _ _ _ _ _ _ i H1); [now apply elem_of_seq_0|exact Hs].
  - intros i Hi.
    apply (proj1 (same_dirs_open_w_error _ _ _ D1)).
    eapply (sw_targets _ _ _ _ _ _ _ i H2); [now apply elem_of_seq_0|exact Hs].
Qed.

End DatasetWritten.

(** *** Directory listings after a run on a fresh root *)

Lemma is_file_true (f : fs) (p : path) :
  is_file f p = true <-> exists c, f !! p = Some (File c).
Proof.
  unfold is_file. destruct (f !! p) as [[|c]|]; split;
    try discriminate; try (intros [? [=]]); eauto.
Qed.

Lemma elem_of_listdir (f : fs) (d : path) (name : string) :
  name ∈ listdir f d <-> is_file f (d ++ [name]) = true.
Proof.
  unfold listdir. rewrite elem_of_set_omap. split.
  - intros (p & Hp & Hg). revert Hg.
    destruct (last p) as [n|]; [|discriminate].
    destruct (decide (p = d ++ [n])) as [->|]; [|discriminate].
    destruct (is_file f (d ++ [n])) eqn:E; [|intros [=]].
    intros [= <-]. exact E.
  - intros Hf. exists (d ++ [name]). split.
    + apply elem_of_dom. apply is_file_true in Hf as [c Hc]. eauto.
    + rewrite last_snoc. rewrite decide_True by reflexivity.
      now rewrite Hf.
Qed.

Lemma elem_of_sample_names split ext n name :
  name ∈ sample_names split ext n <->
  exists i, (i < n)%nat /\ name = split +:+ "_" +:+ format_04d i +:+ ext.
Proof.
  unfold sample_names. rewrite list_elem_of_fmap. split.
  - intros (i & -> & Hi). exists i. split; [now apply elem_of_seq_0 | reflexivity].
  - intros (i & Hi & ->). exists i. split; [reflexivity | now apply elem_of_seq_0].
Qed.

Lemma NoDup_sample_names split ext n : NoDup (sample_names split ext n).
Proof.
  unfold sample_names. apply NoDup_fmap_2; [|apply NoDup_seq].
  intros i j. apply sample_name_inj.
Qed.

Lemma size_sample_names split ext n :
  size (list_to_set (sample_names split ext n) : gset string) = n.
Proof.
  rewrite size_list_to_set by apply NoDup_sample_names.
  unfold sample_names. now rewrite length_map, length_seq.
Qed.

Lemma listdir_eq (f : fs) (d : path) (names : list string) :
  (forall name, is_file f (d ++ [name]) = true <-> name ∈ names) ->
  listdir f d = list_to_set names.
Proof.
  intros H. apply set_eq. intros name.
  rewrite elem_of_listdir, elem_of_list_to_set. apply H.
Qed.

Section Fresh.
Variables (Q : string -> Prop) (strict : bool) (out : path) (nt nv : nat)
          (cfg : manifest) (f f' : fs).
Hypothesis H : dataset_written Q strict out nt nv cfg f f'.
Hypothesis Hfresh : fresh out f.

Lemma fresh_lookup top split name :
  out ++ [top; split] ∈ dataset_dirs out ->
  make_all_dirs out f !! (out ++ [top; split; name]) = None.
Proof.
  intros Hd. rewrite lookup_make_all_dirs.
  destruct (decide _) as [E|_].
  - apply Exists_exists in E as (d & Hd' & Hq).
    now apply path3_not_dir_prefix in Hq.
  - change [top; split; name] with ([top; split] ++ [name]).
    rewrite app_assoc. now apply Hfresh.
Qed.

Lemma fresh_writable top split name :
  out ++ [top; split] ∈ dataset_dirs out ->
  open_w_error (make_all_dirs out f) (out ++ [top; split; name]) = None.
Proof.
  intros Hd. apply open_w_error_None. split.
  - destruct (is_dir _ _) eqn:E; [|reflexivity].
    apply is_dir_true in E as [E|E].
    + apply (f_equal length) in E. rewrite length_app in E.
      simpl in E. lia.
    + rewrite fresh_lookup in E by exact Hd. discriminate.
  - rewrite parent_path3. now apply make_all_dirs_is_dir.
Qed.

(** A name outside the written ones is absent from a fresh directory. *)
Lemma fresh_unwritten top split name :
  out ++ [top; split] ∈ dataset_dirs out ->
  (forall i, (i < nt)%nat ->
     out ++ [top; split; name] <> img_path out "train" i /\
     out ++ [top; split; name] <> label_path out "train" i) ->
  (forall i, (i < nv)%nat ->
     out ++ [top; split; name] <> img_path out "val" i /\
     out ++ [top; split; name] <> label_path out "val" i) ->
  is_file f' (out ++ [top; split; name]) = false.
Proof.
  intros Hd Ht Hv.
  destruct (is_file f' _) eqn:E; [|reflexivity].
  apply is_file_true in E as [c Hc].
  rewrite (dw_frame _ _ _ _ _ _ _ _ H) in Hc by
    (try assumption; intros E; symmetry in E;
     now apply manifest_ne_path3 in E).
  rewrite fresh_lookup in Hc by exact Hd. discriminate.
Qed.

Lemma fresh_listing top split ext n :
  out ++ [top; split] ∈ dataset_dirs out ->
  (forall i, (i < n)%nat ->
     exists c, f' !! (out ++ [top; split;
                              split +:+ "_" +:+ format_04d i +:+ ext])
               = Some (File c)) ->
  (forall name, name ∉ sample_names split ext n ->
     (forall i, (i < nt)%nat ->
        out ++ [top; split; name] <> img_path out "train" i /\
        out ++ [top; split; name] <> label_path out "train" i) /\
     (forall i, (i < nv)%nat ->
        out ++ [top; split; name] <> img_path out "val" i /\
        out ++ [top; split; name] <> label_path out "val" i)) ->
  listdir f' (out ++ [top; split]) = list_to_set (sample_names split ext n).
Proof.
  intros Hd Hw Hother. apply listdir_eq. intros name.
  rewrite elem_of_sample_names, <- app_assoc. simpl. split.
  - intros Hf.
    destruct (decide (name ∈ sample_names split ext n)) as [Hin|Hout].
    + now apply elem_of_sample_names in Hin.
    + destruct (Hother name Hout) as [Ht Hv].
      rewrite (fresh_unwritten top split name Hd Ht Hv) in Hf. discriminate.
  - intros (i & Hi & ->). apply is_file_true. now apply Hw.
Qed.

Local Ltac other_path :=
  let E := fresh in
  intros E; apply path3_inj in E as (? & ? & ?); discriminate.

Local Ltac same_path Hout :=
  let E := fresh in
  intros E; apply path3_inj in E as (_ & _ & E);
  apply Hout, elem_of_sample_names; eauto.

Local Ltac in_dirs :=
  unfold dataset_dirs; repeat first [left; reflexivity | right].

Lemma fresh_images_train :
  listdir f' (out ++ ["images"; "train"]) =
  list_to_set (sample_names "train" ".jpg" nt).
Proof.
  apply fresh_listing.
  - in_dirs.
  - intros i Hi.
    destruct (dw_train_image _ _ _ _ _ _ _ _ H i Hi) as (im & E); [|eauto].
    apply fresh_writable. in_dirs.
  - intros name Hout. split; intros i Hi; split;
      first [other_path | same_path Hout].
Qed.

Lemma fresh_images_val :
  listdir f' (out ++ ["images"; "val"]) =
  list_to_set (sample_names "val" ".jpg" nv).
Proof.
  apply fresh_listing.
  - in_dirs.
  - intros i Hi.
    destruct (dw_val_image _ _ _ _ _ _ _ _ H i Hi) as (im & E); [|eauto].
    apply fresh_writable. in_dirs.
  - intros name Hout. split; intros i Hi; split;
      first [other_path | same_path Hout].
Qed.

Lemma fresh_labels_train :
  listdir f' (out ++ ["labels"; "train"]) =
  list_to_set (sample_names "train" ".txt" nt).
Proof.
  apply fresh_listing.
  - in_dirs.
  - intros i Hi.
    destruct (dw_train_label _ _ _ _ _ _ _ _ H i Hi) as (t & E & _). eauto.
  - intros name Hout. split; intros i Hi; split;
      first [other_path | same_path Hout].
Qed.

Lemma fresh_labels_val :
  listdir f' (out ++ ["labels"; "val"]) =
  list_to_set (sample_names "val" ".txt" nv).
Proof.
  apply fresh_listing.
  - in_dirs.
  - intros i Hi.
    destruct (dw_val_label _ _ _ _ _ _ _ _ H i Hi) as (t & E & _). eauto.
  - intros name Hout. split; intros i Hi; split;
      first [other_path | same_path Hout].
Qed.

End Fresh.

(** *** Choosing and indexing *)

Lemma list_index_Some x l i :
  list_index x l = Some i -> l !! i = Some x /\ (i < length l)%nat.
Proof.
  revert i. induction l as [|y l IH]; intros i H; simpl in H.
  - discriminate.
  - destruct (String.eqb x y) eqn:E.
    + apply String.eqb_eq in E as ->. injection H as <-.
      split; [reflexivity | simpl; lia].
    + destruct (list_index x l) as [k|]; [|discriminate].
      injection H as <-. destruct (IH k eq_refl) as [H1 H2].
      split; [exact H1 | simpl; lia].
Qed.

Lemma list_index_elem x l : x ∈ l -> exists i, list_index x l = Some i.
Proof.
  induction l as [|y l IH]; intros H.
  - inversion H.
  - simpl. destruct (String.eqb x y) eqn:E; [eauto|].
    apply elem_of_cons in H as [->|H].
    + rewrite String.eqb_refl in E. discriminate.
    + destruct (IH H) as [i ->]. simpl. eauto.
Qed.

Lemma index_ret_inv l x s z s' :
  index l x s = (Ret z, s') ->
  s' = s /\ 0 <= z < Z.of_nat (length l) /\
  list_index x l = Some (Z.to_nat z).
Proof.
  unfold index. destruct (list_index x l) as [i|] eqn:E; [|discriminate].
  intros [= <- <-]. apply list_index_Some in E as [_ E].
  rewrite Nat2Z.id. repeat split; lia.
Qed.

Lemma index_returns l x s :
  x ∈ l -> exists z, index l x s = (Ret z, s).
Proof.
  intros H. apply list_index_elem in H as [i E].
  unfold index. rewrite E. eauto.
Qed.

Lemma choice_ret_inv l s x s' :
  choice l s = (Ret x, s') -> x ∈ l.
Proof.
  unfold choice. destruct l as [|y l]; [discriminate|].
  intros H. bind_inv H.
  destruct (_ !! _) eqn:E; [|discriminate].
  injection H as <- _. eapply list_elem_of_lookup_2, E.
Qed.

Lemma choice_returns l s :
  l <> [] -> exists x s', choice l s = (Ret x, s').
Proof.
  intros Hl. unfold choice. destruct l as [|y l]; [congruence|].
  rewrite bind_unfold. unfold draw, randbelow, getrand.
  set (n := length (y :: l)).
  assert (N.to_nat (st_rng s 0%nat mod N.of_nat n) < n)%nat as Hlt.
  { pose proof (N.mod_upper_bound (st_rng s 0%nat) (N.of_nat n)) as Hm.
    assert (N.of_nat n <> 0%N) by (subst n; simpl; lia).
    specialize (Hm ltac:(assumption)).
    set (r := (st_rng s 0%nat mod N.of_nat n)%N) in *. clearbody r. lia. }
  apply lookup_lt_is_Some_2 in Hlt as [x Hx].
  cbn [fst snd]. rewrite Hx. eexists _, _. reflexivity.
Qed.

(** *** Writing files *)

Lemma imwrite_spec p im s :
  exists b,
    imwrite p im s =
    (Ret b, set_fs s (match open_w_error (st_fs s) p with
                      | None => <[p := File (Jpeg im)]> (st_fs s)
                      | Some _ => st_fs s
                      end)).
Proof.
  unfold imwrite. destruct (open_w_error (st_fs s) p); eexists.
  - destruct s; reflexivity.
  - reflexivity.
Qed.

Lemma write_file_ret_inv p c s s' :
  write_file p c s = (Ret tt, s') ->
  open_w_error (st_fs s) p = None /\
  s' = set_fs s (<[p := File c]> (st_fs s)).
Proof.
  unfold write_file. destruct (open_w_error (st_fs s) p); [discriminate|].
  intros [= <-]. auto.
Qed.

Lemma write_file_returns p c s :
  open_w_error (st_fs s) p = None ->
  write_file p c s = (Ret tt, set_fs s (<[p := File c]> (st_fs s))).
Proof. intros H. unfold write_file. now rewrite H. Qed.

Lemma returns_unit (m : py unit) s :
  returns m -> exists s', m s = (Ret tt, s').
Proof. intros H. destruct (H s) as ([] & s' & E). eauto. Qed.

(** *** Creating several directories in sequence *)

Lemma is_file_make_dirs_list ds f q :
  (forall d r, d ∈ ds -> r ∈ prefixes d -> is_file f r = false) ->
  is_file (foldl (fun f' d => make_dirs d f') f ds) q = is_file f q.
Proof.
  revert f. induction ds as [|d ds IH]; intros f H; simpl.
  - reflexivity.
  - assert (forall r, r ∈ prefixes d -> is_file f r = false) as Hd
      by (intros r; apply H; left).
    rewrite IH.
    + now apply is_file_make_dirs.
    + intros d' r Hd' Hr. rewrite is_file_make_dirs by exact Hd.
      apply (H d'); [now right | exact Hr].
Qed.

Lemma mkdir_snoc ds d f0 s s' :
  st_fs s = foldl (fun f' d' => make_dirs d' f') f0 ds ->
  (forall d' q, d' ∈ ds -> q ∈ prefixes d' -> is_file f0 q = false) ->
  mkdir_parents_exist_ok d s = (Ret tt, s') ->
  st_fs s' = foldl (fun f' d' => make_dirs d' f') f0 (ds ++ [d]) /\
  (forall d' q, d' ∈ ds ++ [d] -> q ∈ prefixes d' -> is_file f0 q = false).
Proof.
  intros Hs Hds H. apply mkdir_ret_inv in H as [E Hd]. split.
  - rewrite foldl_app. simpl. now rewrite E, Hs.
  - intros d' q Hin Hq. apply elem_of_app in Hin as [Hin|Hin].
    + now apply (Hds d').
    + apply list_elem_of_singleton in Hin as ->.
      rewrite <- (is_file_make_dirs_list ds f0 q Hds), <- Hs.
      now apply Hd.
Qed.

Lemma mkdir_snoc_returns ds d f0 s :
  d <> [] ->
  st_fs s = foldl (fun f' d' => make_dirs d' f') f0 ds ->
  (forall d' q, d' ∈ ds ++ [d] -> q ∈ prefixes d' -> is_file f0 q = false) ->
  exists s', mkdir_parents_exist_ok d s = (Ret tt, s') /\
    st_fs s' = foldl (fun f' d' => make_dirs d' f') f0 (ds ++ [d]) /\
    st_rng s' = st_rng s /\ st_out s' = st_out s /\
    st_calls s' = st_calls s.
Proof.
  intros Hd Hs H. eexists. split.
  - apply mkdir_returns; [exact Hd|]. intros q Hq.
    rewrite Hs, is_file_make_dirs_list.
    + apply (H d); [apply elem_of_app; right; left | exact Hq].
    + intros d' r Hd' Hr. apply (H d'); [|exact Hr].
      apply elem_of_app. now left.
  - rewrite foldl_app. simpl. now rewrite Hs.
Qed.

(** *** Progress under an invariant of the file system *)

Lemma keeps_bind {A B} I (m : py A) (k : A -> py B) :
  keeps I m -> (forall a, keeps I (k a)) -> keeps I (m ≫= k).
Proof.
  intros Hm Hk s Hs. destruct (Hm s Hs) as (a & s1 & E & H1).
  rewrite bind_unfold, E. now apply Hk.
Qed.

Lemma keeps_pure {A} I (m : py A) : fs_pure m -> returns m -> keeps I m.
Proof.
  intros Hp Hr s Hs. destruct (Hr s) as (a & s' & E).
  exists a, s'. split; [exact E|].
  apply Hp in E as [-> _]. exact Hs.
Qed.

Lemma keeps_print I msg : keeps I (print msg).
Proof. apply keeps_pure; [apply fs_pure_print | apply returns_print]. Qed.

Lemma keeps_for_each I (body : nat -> py unit) l :
  (forall i, i ∈ l -> keeps I (body i)) -> keeps I (for_each l body).
Proof.
  induction l as [|i l IH]; intros Hb; simpl.
  - intros s Hs. exists tt, s. split; [reflexivity | exact Hs].
  - apply keeps_bind; [apply Hb; left|]. intros _.
    apply IH. intros j Hj. apply Hb. now right.
Qed.

Lemma keeps_write_file F p c :
  open_w_error F p = None ->
  keeps (same_dirs F) (write_file p c).
Proof.
  intros Hopen s Hs.
  assert (open_w_error (st_fs s) p = None) as Hopen'
    by (apply (proj2 (same_dirs_open_w_error _ _ _ Hs)), Hopen).
  rewrite write_file_returns by exact Hopen'.
  eexists _, _. split; [reflexivity|]. cbn [st_fs set_fs].
  eapply same_dirs_trans; [exact Hs|].
  apply same_dirs_insert_file.
  now apply open_w_error_None in Hopen' as [? _].
Qed.

(** *** Lines in range *)

Lemma box_valid (count : Z) (b : box) :
  0 <= b_class b < count ->
  (0 <= b_x b <= 1)%Q -> (0 <= b_y b <= 1)%Q ->
  (0.1 <= b_w b <= 0.8)%Q -> (0.1 <= b_h b <= 0.8)%Q ->
  valid_line count (format_box b).
Proof.
  intros Hc Hx Hy Hw Hh. exists b. split; [reflexivity|].
  split; [unfold in_range; tauto|].
  split; [unfold clamped; auto using clamp_id|].
  unfold printed_in_range.
  destruct Hx, Hy, Hw, Hh.
  split; [|split; [|split]]; apply micro_bounds;
    (eapply Qle_trans; [|eassumption]; vm_compute; discriminate) ||
    (eapply Qle_trans; [eassumption|]; vm_compute; discriminate).
Qed.

(** *** Lines of a text *)

Lemma no_newline_app a b :
  no_newline (a +:+ b) = no_newline a && no_newline b.
Proof.
  induction a as [|c a IH]; simpl; [reflexivity|].
  change (String c a +:+ b) with (String c (a +:+ b)).
  simpl. rewrite IH. now rewrite andb_assoc.
Qed.

Lemma no_newline_uint d : no_newline (NilEmpty.string_of_uint d) = true.
Proof. induction d; simpl; auto. Qed.

Lemma no_newline_uint0 d : no_newline (NilZero.string_of_uint d) = true.
Proof. destruct d; try reflexivity; apply (no_newline_uint (_ d)). Qed.

Lemma no_newline_str_int z : no_newline (str_int z) = true.
Proof.
  unfold str_int, NilZero.string_of_int.
  destruct (Z.to_int z) as [d|d].
  - apply no_newline_uint0.
  - simpl. apply no_newline_uint0.
Qed.

Lemma no_newline_format_6f q : no_newline (format_6f q) = true.
Proof.
  unfold format_6f, render_micro.
  rewrite !no_newline_app, no_newline_uint0, no_newline_uint.
  destruct (Qnum q <? 0); reflexivity.
Qed.

Lemma no_newline_format_box b : no_newline (format_box b) = true.
Proof.
  unfold format_box.
  rewrite !no_newline_app, no_newline_str_int, !no_newline_format_6f.
  reflexivity.
Qed.

Lemma split_lines_single s : no_newline s = true -> split_lines s = [s].
Proof.
  induction s as [|c s IH]; simpl; [reflexivity|].
  intros H. apply andb_true_iff in H as [Hc Hs].
  apply negb_true_iff in Hc. rewrite Hc, (IH Hs). reflexivity.
Qed.

Lemma split_lines_cons s rest :
  no_newline s = true ->
  split_lines (s +:+ String (ascii_of_nat 10) rest) = s :: split_lines rest.
Proof.
  induction s as [|c s IH]; intros H.
  - reflexivity.
  - simpl in H. apply andb_true_iff in H as [Hc Hs].
    apply negb_true_iff in Hc.
    change (String c s +:+ ?r) with (String c (s +:+ r)).
    simpl. rewrite Hc. change (ascii_of_nat 10) with "010"%char in *.
    now rewrite (IH Hs).
Qed.

Lemma split_lines_join l :
  l <> [] -> Forall (fun s => no_newline s = true) l ->
  split_lines (str_join (String (ascii_of_nat 10) "") l) = l.
Proof.
  induction l as [|x l IH]; intros Hne Hall; [congruence|].
  apply Forall_cons in Hall as [Hx Hl].
  destruct l as [|y l].
  - simpl. now apply split_lines_single.
  - change (str_join ?sep (x :: y :: l))
      with (x +:+ sep +:+ str_join sep (y :: l)).
    change (String (ascii_of_nat 10) "" +:+ ?r)
      with (String (ascii_of_nat 10) r).
    rewrite split_lines_cons by exact Hx.
    f_equal. apply IH; [discriminate | exact Hl].
Qed.

(** *** Sampling without replacement *)

Lemma randint_range a b g :
  a <= b -> a <= fst (randint a b g) <= b.
Proof.
  intros H. unfold randint, randbelow, getrand. cbn [fst].
  pose proof (N.mod_upper_bound (g 0%nat) (Z.to_N (b - a + 1))
                ltac:(lia)) as Hm.
  set (r := (g 0%nat mod _)%N) in *. clearbody r. lia.
Qed.

Lemma sample_loop_spec pool n k i s l s' :
  sample_loop pool n k i s = (Ret l, s') ->
  length l = k /\ forall x, x ∈ l -> x ∈ pool.
Proof.
  revert pool i s l s'. induction k as [|k IH]; intros pool i s l s' H;
    simpl in H.
  - injection H as <- _. split; [reflexivity|]. intros x Hx. inversion Hx.
  - apply bind_ret_inv in H as (j & s1 & _ & H).
    destruct (pool !! N.to_nat j) as [x|] eqn:Ex; [|discriminate].
    destruct (pool !! (n - i - 1)%nat) as [y|] eqn:Ey; [|discriminate].
    apply bind_ret_inv in H as (rest & s2 & E & H).
    injection H as <- _.
    destruct (IH _ _ _ _ _ E) as [Hlen Hin].
    split; [simpl; now rewrite Hlen|].
    intros z Hz. apply elem_of_cons in Hz as [->|Hz].
    + eapply list_elem_of_lookup_2, Ex.
    + apply Hin in Hz.
      apply list_elem_of_lookup in Hz as [m Hm].
      destruct (decide (m = N.to_nat j)) as [->|Hne].
      * rewrite list_lookup_insert_eq in Hm
          by (eapply lookup_lt_Some, Ex).
        injection Hm as <-. eapply list_elem_of_lookup_2, Ey.
      * rewrite list_lookup_insert_ne in Hm by congruence.
        eapply list_elem_of_lookup_2, Hm.
Qed.

Lemma sample_spec population k s l s' :
  sample population k s = (Ret l, s') ->
  0 <= k /\ length l = Z.to_nat k /\ forall x, x ∈ l -> x ∈ population.
Proof.
  unfold sample. destruct (_ || _) eqn:E; [discriminate|].
  apply orb_false_iff in E as [E _]. apply Z.ltb_ge in E.
  intros H. apply sample_loop_spec in H as [H1 H2]. auto.
Qed.

(** *** Calls made without retry *)

Lemma attempts_prefix lib plan : fst (attempts lib plan) `prefix_of` plan.
Proof.
  induction plan as [|c plan IH]; simpl.
  - reflexivity.
  - destruct (lib_raises lib c).
    + exists plan. reflexivity.
    + destruct (attempts lib plan) as [made r]. simpl in *.
      now apply prefix_cons.
Qed.

Lemma attempts_NoDup lib plan : NoDup plan -> NoDup (fst (attempts lib plan)).
Proof.
  intros H. destruct (attempts_prefix lib plan) as [rest E].
  rewrite E in H. now apply NoDup_app in H as [H _].
Qed.

(** A stage fails exactly when one of the calls it made raised; that
    call is the last one it made. *)
Lemma attempts_Some lib plan msg :
  snd (attempts lib plan) = Some msg ->
  exists c, last (fst (attempts lib plan)) = Some c /\
            lib_raises lib c = Some msg.
Proof.
  induction plan as [|c plan IH]; simpl; [discriminate|].
  destruct (lib_raises lib c) as [m|] eqn:E.
  - intros [= <-]. exists c. split; [reflexivity | exact E].
  - destruct (attempts lib plan) as [made r]. simpl in *.
    intros Hr. destruct (IH Hr) as (c' & Hl & Hc').
    exists c'. split; [|exact Hc'].
    destruct made; [discriminate | exact Hl].
Qed.

Lemma attempts_None lib plan :
  snd (attempts lib plan) = None ->
  fst (attempts lib plan) = plan /\
  forall c, c ∈ plan -> lib_raises lib c = None.
Proof.
  induction plan as [|c plan IH]; simpl.
  - intros _. split; [reflexivity|]. intros c Hc. inversion Hc.
  - destruct (lib_raises lib c) as [m|] eqn:E; [discriminate|].
    destruct (attempts lib plan) as [made r]. simpl in *.
    intros Hr. destruct (IH Hr) as [-> Hall].
    split; [reflexivity|]. intros c' Hc'.
    apply elem_of_cons in Hc' as [->|Hc']; auto.
Qed.

Lemma attempts_failed_iff lib plan :
  (exists msg, snd (attempts lib plan) = Some msg) <->
  (exists c msg, c ∈ fst (attempts lib plan) /\ lib_raises lib c = Some msg).
Proof.
  split.
  - intros [msg H]. apply attempts_Some in H as (c & Hl & Hc).
    exists c, msg. split; [|exact Hc].
    apply last_Some in Hl as [l' ->]. apply elem_of_app. right. left.
  - intros (c & msg & Hin & Hc).
    destruct (snd (attempts lib plan)) as [m|] eqn:E; [eauto|].
    apply attempts_None in E as [E Hall]. rewrite E in Hin.
    rewrite (Hall c Hin) in Hc. discriminate.
Qed.

(** *** Counting the samples of a fresh root *)

Lemma string_app_assoc (a b c : string) : (a +:+ b) +:+ c = a +:+ b +:+ c.
Proof.
  induction a as [|x a IH]; [reflexivity|].
  change ((String x a +:+ b) +:+ c) with (String x ((a +:+ b) +:+ c)).
  now rewrite IH.
Qed.

(** An image name and a label name with the same stem occur together. *)
Lemma sample_names_stem split n stem :
  stem +:+ ".jpg" ∈ sample_names split ".jpg" n <->
  stem +:+ ".txt" ∈ sample_names split ".txt" n.
Proof.
  rewrite !elem_of_sample_names. split; intros (i & Hi & E); exists i;
    (split; [exact Hi|]);
    rewrite <- !string_app_assoc in E; apply string_app_inv_tail in E;
    rewrite <- !string_app_assoc; now rewrite E.
Qed.

Section FreshSummary.
Variables (Q : string -> Prop) (strict : bool) (out : path) (nt nv : nat)
          (cfg : manifest) (f f' : fs).
Hypothesis H : dataset_written Q strict out nt nv cfg f f'.
Hypothesis Hfresh : fresh out f.

Lemma fresh_sizes :
  size (listdir f' (out ++ ["images"; "train"])) = nt /\
  size (listdir f' (out ++ ["labels"; "train"])) = nt /\
  size (listdir f' (out ++ ["images"; "val"])) = nv /\
  size (listdir f' (out ++ ["labels"; "val"])) = nv.
Proof.
  rewrite (fresh_images_train _ _ _ _ _ _ _ _ H Hfresh),
          (fresh_labels_train _ _ _ _ _ _ _ _ H Hfresh),
          (fresh_images_val _ _ _ _ _ _ _ _ H Hfresh),
          (fresh_labels_val _ _ _ _ _ _ _ _ H Hfresh).
  rewrite !size_sample_names. auto.
Qed.

Lemma fresh_stems split stem :
  split = "train" \/ split = "val" ->
  stem +:+ ".jpg" ∈ listdir f' (out ++ ["images"; split]) <->
  stem +:+ ".txt" ∈ listdir f' (out ++ ["labels"; split]).
Proof.
  intros [->| ->].
  - rewrite (fresh_images_train _ _ _ _ _ _ _ _ H Hfresh),
            (fresh_labels_train _ _ _ _ _ _ _ _ H Hfresh).
    rewrite !elem_of_list_to_set. apply sample_names_stem.
  - rewrite (fresh_images_val _ _ _ _ _ _ _ _ H Hfresh),
            (fresh_labels_val _ _ _ _ _ _ _ _ H Hfresh).
    rewrite !elem_of_list_to_set. apply sample_names_stem.
Qed.

End FreshSummary.

(** *** The split of the requested total *)

Lemma fs_pure_int_times_float (n : Z) (x : float) :
  fs_pure (int_times_float n x).
Proof.
  unfold int_times_float.
  apply fs_pure_bind; [apply fs_pure_lift | intros fn; apply fs_pure_mret].
Qed.

Lemma fs_pure_py_int (x : float) : fs_pure (py_int x).
Proof. apply fs_pure_lift. Qed.

Lemma fs_pure_parse_args {A : Type} (parser : argparser A)
    (argv : list string) :
  fs_pure (parse_args parser argv).
Proof.
  unfold parse_args. destruct (parser argv).
  - apply fs_pure_mret.
  - apply fs_pure_bind; [apply fs_pure_print | intros _; apply fs_pure_raise].
  - apply fs_pure_raise.
Qed.

(** The two steps of [int(n * x)] are the count the vocabulary names:
    the program goes on with it, or ends where it raises. *)
Lemma split_count_run {A : Type} (n : Z) (x : float) (k : Z -> py A)
    (s : state) :
  (product ← int_times_float n x; c ← py_int product; k c) s
  = match split_count n x with
    | Ret c => k c s
    | Raise e => (Raise e, s)
    end.
Proof.
  unfold int_times_float, py_int, lift, split_count.
  rewrite !bind_unfold. destruct (float_of_int n) as [fn|e]; [|reflexivity].
  cbn. rewrite bind_unfold.
  destruct (int_of_float (float_mul fn x)); reflexivity.
Qed.

Lemma train_count_eq (n : Z) (x : float) (c : Z) :
  split_count n x = Ret c -> train_count n x = c.
Proof. unfold train_count. now intros ->. Qed.

Lemma fresh_empty out : fresh out ∅.
Proof. intros d name _. apply lookup_empty. Qed.

(** *** Paths present before and after a run *)

Lemma dom_insert_present (f : fs) (p : path) (nd : node) :
  p ∈ dom f -> dom (<[p := nd]> f) = dom f.
Proof.
  intros H. rewrite dom_insert_L. apply set_eq. intros q.
  rewrite elem_of_union, elem_of_singleton. split; [|auto].
  intros [->|Hq]; assumption.
Qed.

Lemma sample_written_dom (Q : string -> Prop) (strict : bool)
    (p p' : path) (f f' : fs) :
  sample_written Q strict p p' f f' ->
  p ∈ dom f -> p' ∈ dom f -> dom f' = dom f.
Proof.
  intros (im & t & _ & _ & _ & ->) Hp Hp'.
  destruct (open_w_error f p).
  - now apply dom_insert_present.
  - rewrite dom_insert_present; [now apply dom_insert_present|].
    rewrite dom_insert_present; assumption.
Qed.

Lemma sw_dom (Q : string -> Prop) (strict : bool) (ip lp : nat -> path)
    (l : list nat) (f f' : fs) :
  samples_written Q strict ip lp l f f' ->
  (forall i, i ∈ l -> ip i ∈ dom f /\ lp i ∈ dom f) ->
  dom f' = dom f.
Proof.
  induction 1 as [f|i l f f1 f2 H1 _ IH]; intros Hin.
  - reflexivity.
  - assert (dom f1 = dom f) as E.
    { destruct (Hin i) as [Hi Hl]; [left|].
      eapply sample_written_dom; eassumption. }
    rewrite IH; [exact E|].
    intros j Hj. rewrite E. apply Hin. now right.
Qed.

(** A path that [open] refuses inside an existing directory is itself
    a directory. *)
Lemma refused_is_dir (f : fs) (p : path) (e : exn) :
  open_w_error f p = Some e -> is_dir f (parent p) = true -> p <> [] ->
  f !! p = Some Dir.
Proof.
  intros He Hp Hne.
  destruct (is_dir f p) eqn:E.
  - apply is_dir_true in E as [E|E]; [contradiction | exact E].
  - assert (open_w_error f p = None) by (apply open_w_error_None; auto).
    congruence.
Qed.

Lemma path3_nonempty (out : path) (a b c : string) :
  out ++ [a; b; c] <> [].
Proof. destruct out; discriminate. Qed.

Section Rerun.
Variables (Q : string -> Prop) (strict : bool) (out : path) (nt nv : nat)
          (cfg : manifest) (f f' : fs).
Hypothesis H : dataset_written Q strict out nt nv cfg f f'.

(** After a run the directories exist. *)
Lemma dw_dirs_exist d q :
  d ∈ dataset_dirs out -> q ∈ prefixes d -> f' !! q = Some Dir.
Proof.
  intros Hd Hq. apply (dw_same_dirs _ _ _ _ _ _ _ _ H).
  rewrite lookup_make_all_dirs.
  destruct (decide _) as [|Hn]; [reflexivity|].
  exfalso. apply Hn, Exists_exists. eauto.
Qed.

Lemma dw_dirs_kept : make_all_dirs out f' = f'.
Proof. apply make_all_dirs_id. intros d q. apply dw_dirs_exist. Qed.

Lemma dw_no_file_prefix d q :
  d ∈ dataset_dirs out -> q ∈ prefixes d -> is_file f' q = false.
Proof.
  intros Hd Hq. destruct (is_file f' q) eqn:E; [|reflexivity].
  apply is_file_true in E as [c Hc].
  rewrite (dw_dirs_exist d q Hd Hq) in Hc. discriminate.
Qed.

(** After a run every path of a sample is present. *)
Lemma dw_image_present sp i :
  sp = "train" /\ (i < nt)%nat \/ sp = "val" /\ (i < nv)%nat ->
  img_path out sp i ∈ dom f'.
Proof.
  intros Hi. apply elem_of_dom.
  destruct (open_w_error (make_all_dirs out f) (img_path out sp i)) eqn:E.
  - exists Dir. apply (dw_same_dirs _ _ _ _ _ _ _ _ H).
    eapply refused_is_dir; [exact E | | apply path3_nonempty].
    unfold img_path. rewrite parent_path3.
    apply make_all_dirs_is_dir. unfold dataset_dirs.
    destruct Hi as [[-> _]|[-> _]];
      repeat first [left; reflexivity | right].
  - destruct Hi as [[-> Hi]|[-> Hi]].
    + destruct (dw_train_image _ _ _ _ _ _ _ _ H i Hi E) as [im ->]. eauto.
    + destruct (dw_val_image _ _ _ _ _ _ _ _ H i Hi E) as [im ->]. eauto.
Qed.

Lemma dw_label_present sp i :
  sp = "train" /\ (i < nt)%nat \/ sp = "val" /\ (i < nv)%nat ->
  label_path out sp i ∈ dom f'.
Proof.
  intros Hi. apply elem_of_dom.
  destruct Hi as [[-> Hi]|[-> Hi]].
  - destruct (dw_train_label _ _ _ _ _ _ _ _ H i Hi) as (t & -> & _). eauto.
  - destruct (dw_val_label _ _ _ _ _ _ _ _ H i Hi) as (t & -> & _). eauto.
Qed.

(** What a second run needs is there after the first. *)
Lemma dw_rerun_needs :
  (forall i, (i < nt)%nat ->
     open_w_error (make_all_dirs out f') (label_path out "train" i) = None) /\
  (forall i, (i < nv)%nat ->
     open_w_error (make_all_dirs out f') (label_path out "val" i) = None) /\
  open_w_error (make_all_dirs out f') (manifest_path out) = None.
Proof.
  rewrite dw_dirs_kept.
  pose proof (dw_same_dirs _ _ _ _ _ _ _ _ H) as D.
  destruct (dw_needs _ _ _ _ _ _ _ _ H) as (_ & Nt & Nv & Ny).
  split; [|split].
  - intros i Hi. apply (proj2 (same_dirs_open_w_error _ _ _ D)), Nt, Hi.
  - intros i Hi. apply (proj2 (same_dirs_open_w_error _ _ _ D)), Nv, Hi.
  - apply (proj2 (same_dirs_open_w_error _ _ _ D)), Ny.
Qed.

(** A second run over the result of the first adds no path. *)
Lemma dw_rerun_dom cfg' f'' :
  dataset_written Q strict out nt nv cfg' f' f'' ->
  dom f'' = dom f' /\ same_dirs f' f''.
Proof.
  intros H2. split.
  - destruct H2 as (_ & f1 & f2 & T1 & T2 & _ & ->).
    rewrite dw_dirs_kept in T1.
    assert (dom f1 = dom f') as E1.
    { eapply sw_dom; [exact T1|]. intros i Hi. apply elem_of_seq_0 in Hi.
      split; [apply dw_image_present | apply dw_label_present]; auto. }
    assert (dom f2 = dom f') as E2.
    { rewrite <- E1. eapply sw_dom; [exact T2|].
      intros i Hi. apply elem_of_seq_0 in Hi. rewrite E1.
      split; [apply dw_image_present | apply dw_label_present]; auto. }
    rewrite dom_insert_present; [exact E2|].
    rewrite E2. apply elem_of_dom.
    rewrite (dw_manifest _ _ _ _ _ _ _ _ H). eauto.
  - pose proof (dw_same_dirs _ _ _ _ _ _ _ _ H2) as D.
    now rewrite dw_dirs_kept in D.
Qed.

(** The same holds from any file system with the paths and the
    directories of the first result, whatever its regular files hold. *)
Section Over.
Variable g : fs.
Hypothesis Hdom : dom g = dom f'.
Hypothesis Hdirs : same_dirs f' g.

Lemma dw_over_dirs_kept : make_all_dirs out g = g.
Proof.
  apply make_all_dirs_id. intros d q Hd Hq.
  apply Hdirs. now apply (dw_dirs_exist d q).
Qed.

Lemma dw_over_no_file_prefix d q :
  d ∈ dataset_dirs out -> q ∈ prefixes d -> is_file g q = false.
Proof.
  intros Hd Hq. destruct (is_file g q) eqn:E; [|reflexivity].
  apply is_file_true in E as [c Hc].
  assert (g !! q = Some Dir) as X
    by (apply Hdirs; now apply (dw_dirs_exist d q)).
  rewrite X in Hc. discriminate.
Qed.

Lemma dw_over_needs :
  (forall i, (i < nt)%nat ->
     open_w_error (make_all_dirs out g) (label_path out "train" i) = None) /\
  (forall i, (i < nv)%nat ->
     open_w_error (make_all_dirs out g) (label_path out "val" i) = None) /\
  open_w_error (make_all_dirs out g) (manifest_path out) = None.
Proof.
  rewrite dw_over_dirs_kept.
  destruct dw_rerun_needs as (Nt & Nv & Ny). rewrite dw_dirs_kept in *.
  split; [|split].
  - intros i Hi. apply (proj2 (same_dirs_open_w_error _ _ _ Hdirs)), Nt, Hi.
  - intros i Hi. apply (proj2 (same_dirs_open_w_error _ _ _ Hdirs)), Nv, Hi.
  - apply (proj2 (same_dirs_open_w_error _ _ _ Hdirs)), Ny.
Qed.

(** An image the first run stored can be stored again. *)
Lemma dw_over_image sp i :
  sp = "train" /\ (i < nt)%nat \/ sp = "val" /\ (i < nv)%nat ->
  is_file f' (img_path out sp i) = true ->
  open_w_error (make_all_dirs out g) (img_path out sp i) = None.
Proof.
  intros Hi Hf. rewrite dw_over_dirs_kept.
  apply is_file_true in Hf as [c Hc].
  apply open_w_error_None. split.
  - destruct (is_dir g (img_path out sp i)) eqn:E; [|reflexivity].
    apply is_dir_true in E as [E|E].
    + now apply path3_nonempty in E.
    + apply Hdirs in E. rewrite E in Hc. discriminate.
  - unfold img_path. rewrite parent_path3. apply is_dir_true.
    destruct (decide (out ++ ["images"; sp] = [])) as [E|_]; [now left|].
    right. apply Hdirs.
    apply (dw_dirs_exist (out ++ ["images"; sp])).
    + unfold dataset_dirs.
      destruct Hi as [[-> _]|[-> _]];
        repeat first [left; reflexivity | right].
    + apply self_in_prefixes. destruct out; discriminate.
Qed.

Lemma dw_over_dom (Q' : string -> Prop) cfg' g' :
  dataset_written Q' strict out nt nv cfg' g g' ->
  dom g' = dom f' /\ same_dirs f' g'.
Proof.
  intros H2. split.
  - destruct H2 as (_ & f1 & f2 & T1 & T2 & _ & ->).
    rewrite dw_over_dirs_kept in T1.
    assert (dom f1 = dom g) as E1.
    { eapply sw_dom; [exact T1|]. intros i Hi. apply elem_of_seq_0 in Hi.
      rewrite Hdom.
      split; [apply dw_image_present | apply dw_label_present]; auto. }
    assert (dom f2 = dom g) as E2.
    { rewrite <- E1. eapply sw_dom; [exact T2|].
      intros i Hi. apply elem_of_seq_0 in Hi. rewrite E1, Hdom.
      split; [apply dw_image_present | apply dw_label_present]; auto. }
    rewrite dom_insert_present; [now rewrite E2|].
    rewrite E2, Hdom. apply elem_of_dom.
    rewrite (dw_manifest _ _ _ _ _ _ _ _ H). eauto.
  - pose proof (dw_same_dirs _ _ _ _ _ _ _ _ H2) as D.
    rewrite dw_over_dirs_kept in D.
    eapply same_dirs_trans; [exact Hdirs | exact D].
Qed.

End Over.

End Rerun.

End PyFacts.

(** ** Facts about scripts/create_dental_dataset.py *)

Module DatasetFacts.
Import Py Spec PyFacts CreateDentalDataset.

(** *** The annotation builder *)

Lemma classes_length : length classes = 10%nat.
Proof. reflexivity. Qed.

(** Whatever is drawn, the box is clamped into its ranges. *)
Lemma annotation_box_spec condition class_id s :
  exists b s',
    annotation_box condition class_id s = (Ret b, s') /\
    st_fs s' = st_fs s /\ st_calls s' = st_calls s /\
    st_out s' = st_out s /\
    b_class b = class_id /\
    (0 <= b_x b <= 1)%Q /\ (0 <= b_y b <= 1)%Q /\
    (0.1 <= b_w b <= 0.8)%Q /\ (0.1 <= b_h b <= 0.5)%Q.
Proof.
  unfold annotation_box.
  destruct (String.eqb condition "misaligned").
  - rewrite !bind_unfold. unfold draw at 1.
    destruct (uniform (-0.1) 0.1 (st_rng s)) as [dx g1].
    rewrite !bind_unfold. unfold draw at 1. cbn [st_rng].
    destruct (uniform (-0.05) 0.05 g1) as [dw g2].
    eexists _, _. split; [reflexivity|]. cbn.
    repeat split; try reflexivity;
      try (apply (clamp_bounds 0 1); lra);
      try (apply (clamp_bounds 0.1 0.8); lra);
      try (apply (clamp_bounds 0.1 0.5); lra).
  - destruct (String.eqb condition "chipped").
    + rewrite !bind_unfold. unfold draw at 1.
      destruct (uniform (-0.05) 0.05 (st_rng s)) as [dh g1].
      eexists _, _. split; [reflexivity|]. cbn.
      repeat split; try reflexivity;
        try (apply (clamp_bounds 0 1); lra);
        try (apply (clamp_bounds 0.1 0.8); lra);
        try (apply (clamp_bounds 0.1 0.5); lra).
    + eexists _, _. split; [reflexivity|]. cbn.
      repeat split; try reflexivity;
        try (apply (clamp_bounds 0 1); lra);
        try (apply (clamp_bounds 0.1 0.8); lra);
        try (apply (clamp_bounds 0.1 0.5); lra).
Qed.

Lemma create_annotation_spec image_path condition class_id w h s :
  exists b s',
    create_annotation image_path condition class_id w h s
      = (Ret (format_box b), s') /\
    st_fs s' = st_fs s /\ st_calls s' = st_calls s /\
    st_out s' = st_out s /\
    b_class b = class_id /\
    (0 <= b_x b <= 1)%Q /\ (0 <= b_y b <= 1)%Q /\
    (0.1 <= b_w b <= 0.8)%Q /\ (0.1 <= b_h b <= 0.5)%Q.
Proof.
  destruct (annotation_box_spec condition class_id s) as (b & s' & E & Hr).
  exists b, s'. split; [|exact Hr].
  unfold create_annotation. now rewrite bind_unfold, E.
Qed.

(** *** The image synthesizer *)

Lemma py_randint_returns a b : a <= b -> returns (py_randint a b).
Proof.
  intros H. unfold py_randint.
  destruct (b <? a) eqn:E; [apply Z.ltb_lt in E; lia|].
  apply returns_draw.
Qed.

Lemma fs_pure_py_randint a b : fs_pure (py_randint a b).
Proof. unfold py_randint. destruct (b <? a); auto with fs_pure. Qed.

Lemma fs_pure_draw_tooth condition x y tw th :
  fs_pure (draw_tooth condition x y tw th).
Proof.
  unfold draw_tooth.
  repeat match goal with
         | |- context [if ?c then _ else _] => destruct c
         end;
    repeat first [apply fs_pure_bind; [apply fs_pure_py_randint | intros ?]
                 | apply fs_pure_mret].
Qed.

Lemma returns_draw_tooth condition x y tw th :
  5 <= tw - 15 -> 5 <= th - 15 ->
  returns (draw_tooth condition x y tw th).
Proof.
  intros Hw Hh. unfold draw_tooth.
  repeat match goal with
         | |- context [if ?c then _ else _] => destruct c
         end;
    repeat first [apply returns_bind;
                    [apply py_randint_returns; lia | intros ?]
                 | apply returns_mret].
Qed.

Lemma fs_pure_draw_teeth condition sx sy tw th teeth :
  fs_pure (draw_teeth condition sx sy tw th teeth).
Proof.
  induction teeth as [|i teeth IH]; simpl.
  - apply fs_pure_mret.
  - apply fs_pure_bind; [apply fs_pure_draw_tooth | intros here].
    apply fs_pure_bind; [exact IH | intros later]. apply fs_pure_mret.
Qed.

Lemma returns_draw_teeth condition sx sy tw th teeth :
  5 <= tw - 15 -> 5 <= th - 15 ->
  returns (draw_teeth condition sx sy tw th teeth).
Proof.
  intros Hw Hh. induction teeth as [|i teeth IH]; simpl.
  - apply returns_mret.
  - apply returns_bind; [now apply returns_draw_tooth | intros here].
    apply returns_bind; [exact IH | intros later]. apply returns_mret.
Qed.

Lemma fs_pure_create_dental_image w h condition :
  fs_pure (create_dental_image w h condition).
Proof.
  unfold create_dental_image.
  apply fs_pure_bind; [apply fs_pure_draw_teeth | intros teeth].
  apply fs_pure_mret.
Qed.

Lemma returns_create_dental_image condition :
  returns (create_dental_image 416 416 condition).
Proof.
  unfold create_dental_image.
  apply returns_bind; [|intros teeth; apply returns_mret].
  apply returns_draw_teeth; reflexivity || (vm_compute; discriminate).
Qed.

(** *** One sample *)

Lemma sample_step_written out split every noun count i s s' :
  sample_step out split every noun count i s = (Ret tt, s') ->
  sample_written (valid_line 10) false
                 (img_path out split i) (label_path out split i)
                 (st_fs s) (st_fs s').
Proof.
  unfold sample_step. intros H.
  bind_inv H. rename a into condition, s0 into s1.
  apply fs_pure_choice in Hm as [F1 _].
  bind_inv H. rename a into class_id.
  apply index_ret_inv in Hm as (-> & Hc & _).
  bind_inv H. rename a into img, s0 into s3.
  apply fs_pure_create_dental_image in Hm as [F3 _].
  bind_inv H. rename s0 into s4.
  destruct (imwrite_spec (out ++ ["images"; split;
              split +:+ "_" +:+ format_04d i +:+ ".jpg"]) img s3)
    as (b & Ew).
  rewrite Ew in Hm. injection Hm as _ <-.
  bind_inv H. rename a0 into annotation, s0 into s5.
  match type of Hm with
  | create_annotation ?p _ _ _ _ ?st = _ =>
    destruct (create_annotation_spec p condition class_id 416 416 st)
      as (bx & s5' & Ea & F5 & _ & _ & Hcl & Hx & Hy & Hw & Hh)
  end.
  rewrite Ea in Hm. injection Hm as <- <-.
  bind_inv H. rename s0 into s6.
  repeat match goal with u : unit |- _ => destruct u end.
  apply write_file_ret_inv in Hm as [Hopen ->].
  apply (fs_pure_when _ _ (fs_pure_print _)) in H as [F7 _].
  exists img, (format_box bx).
  split.
  { apply box_valid; try assumption.
    - rewrite Hcl. exact Hc.
    - split; [tauto|]. eapply Qle_trans; [apply Hh|]. discriminate. }
  split; [discriminate|].
  cbn [st_fs set_fs] in *. rewrite F7, F5. cbn [st_fs set_fs].
  rewrite F5 in Hopen. cbn [st_fs set_fs] in Hopen.
  rewrite <- F1, <- F3. unfold img_path, label_path.
  split; [exact Hopen | reflexivity].
Qed.

Lemma sample_step_returns out split every noun count i s :
  open_w_error (st_fs s) (label_path out split i) = None ->
  exists s', sample_step out split every noun count i s = (Ret tt, s').
Proof.
  intros Hopen. unfold sample_step.
  destruct (choice_returns classes s) as (condition & s1 & E1);
    [discriminate|].
  pose proof (choice_ret_inv _ _ _ _ E1) as Hin.
  pose proof (fs_pure_choice _ _ _ _ E1) as [F1 _].
  rewrite bind_unfold, E1.
  destruct (index_returns classes condition s1 Hin) as (class_id & E2).
  rewrite bind_unfold, E2.
  destruct (returns_create_dental_image condition s1) as (img & s3 & E3).
  pose proof (fs_pure_create_dental_image _ _ _ _ _ _ E3) as [F3 _].
  rewrite bind_unfold, E3.
  destruct (imwrite_spec (out ++ ["images"; split;
              split +:+ "_" +:+ format_04d i +:+ ".jpg"]) img s3)
    as (b & Ew).
  rewrite bind_unfold, Ew. rewrite bind_unfold.
  match goal with
  | |- context [create_annotation ?p _ _ _ _ ?st] =>
    destruct (create_annotation_spec p condition class_id 416 416 st)
      as (bx & s5 & Ea & F5 & _)
  end.
  rewrite Ea.
  rewrite bind_unfold, write_file_returns.
  - apply returns_unit, returns_when, returns_print.
  - rewrite F5. cbn [st_fs set_fs]. rewrite F3, F1.
    fold (img_path out split i). fold (label_path out split i).
    destruct (open_w_error (st_fs s) (img_path out split i)) eqn:E;
      [exact Hopen|].
    apply open_w_error_None in E as [E _].
    apply (proj2 (same_dirs_open_w_error _ _ _
                    (same_dirs_insert_file _ _ (Jpeg img) E))), Hopen.
Qed.

(** *** The whole run *)

Lemma fs_pure_print_classes i l : fs_pure (print_classes i l).
Proof.
  revert i. induction l as [|c l IH]; intros i; simpl.
  - apply fs_pure_mret.
  - apply fs_pure_bind; [apply fs_pure_print | intros _; apply IH].
Qed.

Lemma returns_print_classes i l : returns (print_classes i l).
Proof.
  revert i. induction l as [|c l IH]; intros i; simpl.
  - apply returns_mret.
  - apply returns_bind; [apply returns_print | intros _; apply IH].
Qed.

Lemma create_dataset_written out n split s s' :
  create_dataset out n split s = (Ret tt, s') ->
  dataset_written (valid_line 10) false out
    (Z.to_nat (train_count n split))
    (Z.to_nat (n - train_count n split))
    (dataset_config out) (st_fs s) (st_fs s').
Proof.
  unfold create_dataset. intros H.
  apply bind_ret_inv in H as ([] & s1 & M1 & H).
  apply (mkdir_snoc [] _ (st_fs s)) in M1 as [E1 D1];
    [|reflexivity | intros ? ? Hin; inversion Hin].
  apply bind_ret_inv in H as ([] & s2 & M2 & H).
  apply (mkdir_snoc _ _ (st_fs s) _ _ E1 D1) in M2 as [E2 D2].
  apply bind_ret_inv in H as ([] & s3 & M3 & H).
  apply (mkdir_snoc _ _ (st_fs s) _ _ E2 D2) in M3 as [E3 D3].
  apply bind_ret_inv in H as ([] & s4 & M4 & H).
  apply (mkdir_snoc _ _ (st_fs s) _ _ E3 D3) in M4 as [E4 D4].
  simpl app in *.
  rewrite split_count_run in H.
  destruct (split_count n split) as [c|e] eqn:Ec; [|discriminate].
  apply train_count_eq in Ec. subst c.
  apply bind_ret_inv in H as ([] & p1 & P1 & H).
  apply fs_pure_print in P1 as [P1 _].
  apply bind_ret_inv in H as ([] & p2 & P2 & H).
  apply fs_pure_print in P2 as [P2 _].
  apply bind_ret_inv in H as ([] & p3 & P3 & H).
  apply fs_pure_print in P3 as [P3 _].
  apply bind_ret_inv in H as ([] & p4 & P4 & H).
  apply fs_pure_print in P4 as [P4 _].
  apply bind_ret_inv in H as ([] & t1 & T1 & H).
  apply (for_each_written (valid_line 10) false
           (img_path out "train") (label_path out "train")) in T1;
    [|intros; eapply sample_step_written; eassumption].
  apply bind_ret_inv in H as ([] & t2 & T2 & H).
  apply (for_each_written (valid_line 10) false
           (img_path out "val") (label_path out "val")) in T2;
    [|intros; eapply sample_step_written; eassumption].
  apply bind_ret_inv in H as ([] & y & Y & H).
  apply write_file_ret_inv in Y as [Hopen ->].
  assert (st_fs s' = <[manifest_path out := File (Yaml (dataset_config out))]>
                       (st_fs t2)) as ->.
  { eapply fs_pure_bind in H; [exact (proj1 H) | apply fs_pure_print |].
    intros _.
    repeat (apply fs_pure_bind; [apply fs_pure_print | intros _]).
    first [apply fs_pure_print_classes | apply fs_pure_mret]. }
  assert (st_fs p4 = make_all_dirs out (st_fs s)) as EE
    by (rewrite P4, P3, P2, P1, E4; reflexivity).
  rewrite EE in T1.
  split; [exact D4|].
  exists (st_fs t1), (st_fs t2). auto.
Qed.

(** A sample step goes through whenever its label can be opened. *)
Lemma keeps_sample_step F out split every noun count i :
  open_w_error F (label_path out split i) = None ->
  keeps (same_dirs F) (sample_step out split every noun count i).
Proof.
  intros Hopen s Hs.
  destruct (sample_step_returns out split every noun count i s) as (s' & E).
  { apply (proj2 (same_dirs_open_w_error _ _ _ Hs)), Hopen. }
  exists tt, s'. split; [exact E|].
  eapply same_dirs_trans; [exact Hs|].
  eapply sample_written_same_dirs, sample_step_written, E.
Qed.

Lemma dataset_dir_nonempty out d : d ∈ dataset_dirs out -> d <> [].
Proof.
  unfold dataset_dirs. intros Hd E. subst d.
  repeat (apply elem_of_cons in Hd as [Hd|Hd];
          [apply (f_equal length) in Hd; rewrite length_app in Hd;
           simpl in Hd; lia|]).
  inversion Hd.
Qed.

(** The run completes from every file system that lets the directories
    be created and the labels and the manifest be opened. *)
Lemma create_dataset_returns out n split s :
  (exists c, split_count n split = Ret c) ->
  (forall d q, d ∈ dataset_dirs out -> q ∈ prefixes d ->
               is_file (st_fs s) q = false) ->
  (forall i, (i < Z.to_nat (train_count n split))%nat ->
     open_w_error (make_all_dirs out (st_fs s))
                  (label_path out "train" i) = None) ->
  (forall i, (i < Z.to_nat (n - train_count n split))%nat ->
     open_w_error (make_all_dirs out (st_fs s))
                  (label_path out "val" i) = None) ->
  open_w_error (make_all_dirs out (st_fs s)) (manifest_path out) = None ->
  exists s', create_dataset out n split s = (Ret tt, s').
Proof.
  intros [c Ec] Hd Ht Hv Hy. unfold create_dataset.
  destruct (mkdir_snoc_returns [] (out ++ ["images"; "train"]) (st_fs s) s)
    as (s1 & M1 & E1 & _); [| reflexivity | |].
  { apply (dataset_dir_nonempty out). unfold dataset_dirs. left. }
  { intros d q Hin. apply Hd. unfold dataset_dirs.
    apply list_elem_of_In. apply list_elem_of_In in Hin.
    simpl in *. tauto. }
  rewrite bind_unfold, M1. simpl app in E1.
  destruct (mkdir_snoc_returns [out ++ ["images"; "train"]]
              (out ++ ["images"; "val"]) (st_fs s) s1)
    as (s2 & M2 & E2 & _); [| exact E1 | |].
  { apply (dataset_dir_nonempty out). unfold dataset_dirs. right; left. }
  { intros d q Hin. apply Hd. unfold dataset_dirs.
    apply list_elem_of_In. apply list_elem_of_In in Hin.
    simpl in *. tauto. }
  rewrite bind_unfold, M2. simpl app in E2.
  destruct (mkdir_snoc_returns
              [out ++ ["images"; "train"]; out ++ ["images"; "val"]]
              (out ++ ["labels"; "train"]) (st_fs s) s2)
    as (s3 & M3 & E3 & _); [| exact E2 | |].
  { apply (dataset_dir_nonempty out). unfold dataset_dirs.
    right; right; left. }
  { intros d q Hin. apply Hd. unfold dataset_dirs.
    apply list_elem_of_In. apply list_elem_of_In in Hin.
    simpl in *. tauto. }
  rewrite bind_unfold, M3. simpl app in E3.
  destruct (mkdir_snoc_returns
              [out ++ ["images"; "train"]; out ++ ["images"; "val"];
               out ++ ["labels"; "train"]]
              (out ++ ["labels"; "val"]) (st_fs s) s3)
    as (s4 & M4 & E4 & _); [| exact E3 | |].
  { apply (dataset_dir_nonempty out). unfold dataset_dirs.
    right; right; right; left. }
  { intros d q Hin. apply Hd. exact Hin. }
  rewrite bind_unfold, M4. simpl app in E4.
  rewrite split_count_run, Ec.
  apply train_count_eq in Ec. subst c.
  assert (keeps (same_dirs (make_all_dirs out (st_fs s)))
    (print ("Creating dental dataset with " +:+ str_int n +:+ " images:");;
     print ("- Training: " +:+ str_int (train_count n split) +:+ " images");;
     print ("- Validation: " +:+ str_int (n - train_count n split)
             +:+ " images");;
     print ("- Classes: " +:+ str_int (Z.of_nat (length classes)));;
     for_range (train_count n split)
       (sample_step out "train" 100 "training" (train_count n split));;
     for_range (n - train_count n split)
       (sample_step out "val" 50 "validation" (n - train_count n split));;
     write_file (out ++ ["dataset.yaml"]) (Yaml (dataset_config out));;
     print "
âœ… Dataset created successfully!";;
     print ("Dataset location: " +:+ path_str out);;
     print ("Training images: " +:+ str_int (train_count n split));;
     print ("Validation images: " +:+ str_int (n - train_count n split));;
     print ("Total images: " +:+ str_int n);;
     print "
Class distribution:";;
     print_classes 0 classes)) as K.
  { repeat (apply keeps_bind; [apply keeps_print | intros _]).
    apply keeps_bind; [|intros _].
    { apply keeps_for_each. intros i Hi. apply keeps_sample_step.
      apply Ht. now apply elem_of_seq_0. }
    apply keeps_bind; [|intros _].
    { apply keeps_for_each. intros i Hi. apply keeps_sample_step.
      apply Hv. now apply elem_of_seq_0. }
    apply keeps_bind; [apply keeps_write_file, Hy | intros _].
    repeat (apply keeps_bind; [apply keeps_print | intros _]).
    apply keeps_pure;
      [first [apply fs_pure_print_classes | apply fs_pure_mret]
      |first [apply returns_print_classes | apply returns_mret]]. }
  destruct (K s4) as ([] & s' & E & _).
  { rewrite E4. apply same_dirs_refl. }
  exists s'. exact E.
Qed.

(** A run that completes has computed its split. *)
Lemma create_dataset_counted out n split s s' :
  create_dataset out n split s = (Ret tt, s') ->
  exists c, split_count n split = Ret c.
Proof.
  unfold create_dataset. intros H.
  apply bind_ret_inv in H as ([] & s1 & _ & H).
  apply bind_ret_inv in H as ([] & s2 & _ & H).
  apply bind_ret_inv in H as ([] & s3 & _ & H).
  apply bind_ret_inv in H as ([] & s4 & _ & H).
  rewrite split_count_run in H.
  destruct (split_count n split) as [c|e]; [eauto | discriminate].
Qed.

(** *** Running twice *)

Lemma create_dataset_over out n split s s' r :
  CreateDentalDataset.create_dataset out n split s = (Ret tt, s') ->
  dom (st_fs r) = dom (st_fs s') ->
  same_dirs (st_fs s') (st_fs r) ->
  exists r',
    CreateDentalDataset.create_dataset out n split r = (Ret tt, r') /\
    dom (st_fs r') = dom (st_fs s') /\
    same_dirs (st_fs s') (st_fs r').
Proof.
  intros H Hdom Hdirs.
  pose proof (create_dataset_counted _ _ _ _ _ H) as Hc.
  apply create_dataset_written in H.
  destruct (dw_over_needs _ _ _ _ _ _ _ _ H _ Hdirs) as (Nt & Nv & Ny).
  destruct (create_dataset_returns out n split r) as (r' & E).
  - exact Hc.
  - intros d q. eapply dw_over_no_file_prefix; eassumption.
  - exact Nt.
  - exact Nv.
  - exact Ny.
  - exists r'. split; [exact E|].
    apply create_dataset_written in E.
    eapply dw_over_dom; eassumption.
Qed.

Lemma create_dataset_rerun out n split s s' r :
  CreateDentalDataset.create_dataset out n split s = (Ret tt, s') ->
  st_fs r = st_fs s' ->
  exists r',
    CreateDentalDataset.create_dataset out n split r = (Ret tt, r') /\
    dom (st_fs r') = dom (st_fs s') /\
    same_dirs (st_fs s') (st_fs r').
Proof.
  intros H Hr. apply (create_dataset_over out n split s s' r H).
  - now rewrite Hr.
  - rewrite Hr. apply same_dirs_refl.
Qed.

(** On an empty file system the run completes. *)
Lemma create_dataset_from_empty out n split s :
  (exists c, split_count n split = Ret c) ->
  st_fs s = ∅ ->
  exists s', CreateDentalDataset.create_dataset out n split s = (Ret tt, s').
Proof.
  intros Hc Hs. apply create_dataset_returns; [exact Hc|..]; rewrite Hs.
  - intros d q _ _. reflexivity.
  - intros i _. apply (fresh_writable out ∅ (fresh_empty out)).
    unfold dataset_dirs. repeat first [left; reflexivity | right].
  - intros i _. apply (fresh_writable out ∅ (fresh_empty out)).
    unfold dataset_dirs. repeat first [left; reflexivity | right].
  - apply open_w_error_None. rewrite parent_manifest. split.
    + destruct (is_dir _ _) eqn:E; [|reflexivity].
      apply is_dir_true in E as [E|E].
      * destruct out; discriminate.
      * rewrite lookup_make_all_dirs in E.
        destruct (decide _) as [Hx|_]; [|rewrite lookup_empty in E; discriminate].
        apply Exists_exists in Hx as (d & Hd & Hq).
        now apply manifest_not_dir_prefix in Hq.
    + apply is_dir_true. destruct out as [|x out]; [now left | right].
      rewrite lookup_make_all_dirs.
      destruct (decide _) as [|Hn]; [reflexivity|].
      exfalso. apply Hn, Exists_exists.
      exists ((x :: out) ++ ["images"; "train"]). split.
      * unfold dataset_dirs. left.
      * apply out_in_dir_prefixes; [discriminate|].
        unfold dataset_dirs. left.
Qed.

(** *** The guard and the command line of the script *)

Lemma float_Q_half : float_Q 0.5 = (4503599627370496 # 9007199254740992)%Q.
Proof. reflexivity. Qed.

Lemma float_Q_nine_tenths :
  float_Q 0.9 = (8106479329266893 # 9007199254740992)%Q.
Proof. reflexivity. Qed.

(** The guard of [main] fails exactly on the values outside the doubles
    from 0.5 to 0.9. *)
Lemma split_guard (x : float) :
  float_leb 0.5 x && float_leb x 0.9 = false <-> split_rejected x.
Proof.
  destruct x as [sg|sg| |sg m e].
  - cbn. split; [intros _; left; reflexivity | reflexivity].
  - destruct sg; cbn; split; auto.
  - cbn. split; auto.
  - unfold split_rejected.
    change (float_leb 0.5 (S754_finite sg m e))
      with (Qle_bool (float_Q 0.5) (float_Q (S754_finite sg m e))).
    change (float_leb (S754_finite sg m e) 0.9)
      with (Qle_bool (float_Q (S754_finite sg m e)) (float_Q 0.9)).
    rewrite float_Q_half, float_Q_nine_tenths.
    set (q := float_Q (S754_finite sg m e)). clearbody q.
    rewrite andb_false_iff. split.
    + intros [H|H].
      * left. destruct (Qlt_le_dec q (1 # 2)) as [L|L]; [exact L|].
        exfalso. apply not_true_iff_false in H. apply H.
        apply Qle_bool_iff. lra.
      * right.
        destruct (Qlt_le_dec (8106479329266893 # 9007199254740992) q)
          as [L|L]; [exact L|].
        exfalso. apply not_true_iff_false in H. apply H.
        apply Qle_bool_iff. lra.
    + intros [H|H].
      * left. destruct (Qle_bool _ q) eqn:L; [|reflexivity].
        apply Qle_bool_iff in L. lra.
      * right. destruct (Qle_bool q _) eqn:L; [|reflexivity].
        apply Qle_bool_iff in L. lra.
Qed.

(** A parsed command line hands the process to the rest of [main]. *)
Lemma dataset_command_parsed (parser : argparser CreateDentalDataset.args)
    (argv : list string) (a : CreateDentalDataset.args) (s : state) :
  parser argv = Namespace a ->
  CreateDentalDataset.command parser argv s = CreateDentalDataset.script a s.
Proof.
  intros E. unfold CreateDentalDataset.command, CreateDentalDataset.script,
    CreateDentalDataset.main_argv, parse_args.
  rewrite E. reflexivity.
Qed.

End DatasetFacts.

(** ** Facts about train_dental_yolo.py *)

Module YoloFacts.
Import Py Spec PyFacts TrainDentalYolo.

(** *** Placement of one condition *)

Lemma draw_uniform a b s :
  exists q s',
    draw (uniform a b) s = (Ret q, s') /\
    ((a <= b)%Q -> (a <= q <= b)%Q) /\
    st_fs s' = st_fs s /\ st_calls s' = st_calls s /\ st_out s' = st_out s.
Proof.
  unfold draw. pose proof (uniform_range a b (st_rng s)) as H.
  destruct (uniform a b (st_rng s)) as [q g']. simpl in H.
  eexists _, _. split; [reflexivity|]. cbn. auto.
Qed.

Lemma place_spec condition s :
  exists p s',
    place condition s = (Ret p, s') /\
    p_condition p = condition /\
    sampled (p_x p) (p_y p) (p_w p) (p_h p) /\
    st_fs s' = st_fs s /\ st_calls s' = st_calls s /\ st_out s' = st_out s.
Proof.
  unfold place.
  destruct (draw_uniform 0.2 0.8 s) as (x & s1 & E1 & Hx & F1 & C1 & O1).
  destruct (draw_uniform 0.3 0.7 s1) as (y & s2 & E2 & Hy & F2 & C2 & O2).
  destruct (draw_uniform 0.1 0.3 s2) as (w & s3 & E3 & Hw & F3 & C3 & O3).
  destruct (draw_uniform 0.1 0.3 s3) as (h & s4 & E4 & Hh & F4 & C4 & O4).
  rewrite bind_unfold, E1, bind_unfold, E2, bind_unfold, E3, bind_unfold, E4.
  eexists _, _. split; [reflexivity|]. cbn.
  split; [reflexivity|]. split.
  - unfold sampled. repeat split;
      first [apply Hx | apply Hy | apply Hw | apply Hh]; discriminate.
  - repeat split; congruence.
Qed.

Lemma sampled_inside x y w h : sampled x y w h -> inside_margins x y w h.
Proof.
  unfold sampled, inside_margins. intros (Hx & Hy & Hw & Hh).
  unfold Qdiv. change (/ 2)%Q with (1 # 2)%Q.
  repeat split; lra.
Qed.

(** *** The loop over the sampled conditions *)

Lemma condition_loop_spec self w h conditions s shapes annotations s' :
  condition_loop self w h conditions s = (Ret (shapes, annotations), s') ->
  exists ps,
    map p_condition ps = conditions /\
    Forall (fun p => sampled (p_x p) (p_y p) (p_w p) (p_h p)) ps /\
    Forall2 (annotates (classes self)) ps annotations /\
    shapes = concat (map (fun p => draw_condition (p_condition p)
                            (p_x p) (p_y p) (p_w p) (p_h p) w h) ps) /\
    st_fs s' = st_fs s /\ st_calls s' = st_calls s.
Proof.
  revert s shapes annotations s'.
  induction conditions as [|c conditions IH];
    intros s shapes annotations s' H; simpl in H.
  - injection H as <- <- <-. exists []. repeat split; constructor.
  - destruct (place_spec c s) as (p & s1 & E1 & Hc & Hs & F1 & C1 & _).
    rewrite bind_unfold, E1 in H.
    apply bind_ret_inv in H as (class_id & s2 & E2 & H).
    apply index_ret_inv in E2 as (-> & [Hz _] & Hi).
    apply bind_ret_inv in H as ([shapes' annotations'] & s3 & E3 & H).
    injection H as <- <- <-.
    destruct (IH _ _ _ _ E3) as (ps & Hps & Hall & Hann & -> & F3 & C3).
    exists (p :: ps). simpl. rewrite Hc, Hps.
    repeat split; try congruence.
    + constructor; assumption.
    + constructor; [|exact Hann].
      exists (Z.to_nat class_id). rewrite Hc. split; [exact Hi|].
      now rewrite Z2Nat.id.
Qed.

(** *** One image *)

Lemma default_classes_length : length default_classes = 10%nat.
Proof. reflexivity. Qed.

Lemma py_randint_ret_inv a b s z s' :
  py_randint a b s = (Ret z, s') ->
  a <= z <= b /\ st_fs s' = st_fs s /\ st_calls s' = st_calls s.
Proof.
  unfold py_randint. destruct (b <? a) eqn:E; [discriminate|].
  apply Z.ltb_ge in E. unfold draw.
  pose proof (randint_range a b (st_rng s) E) as Hr.
  destruct (randint a b (st_rng s)) as [r g']. simpl in Hr.
  intros [= <- <-]. auto.
Qed.

Lemma generate_image_spec self w h s image annotations s' :
  generate_synthetic_dental_image self w h s
    = (Ret (image, annotations), s') ->
  exists ps,
    (1 <= length ps <= 4)%nat /\
    (forall p, p ∈ ps -> p_condition p ∈ classes self) /\
    Forall (fun p => sampled (p_x p) (p_y p) (p_w p) (p_h p)) ps /\
    Forall2 (annotates (classes self)) ps annotations /\
    r_shapes image =
      concat (map (fun p => draw_condition (p_condition p)
                     (p_x p) (p_y p) (p_w p) (p_h p) w h) ps) /\
    st_fs s' = st_fs s /\ st_calls s' = st_calls s.
Proof.
  unfold generate_synthetic_dental_image. intros H.
  apply bind_ret_inv in H as (k & s1 & E1 & H).
  apply py_randint_ret_inv in E1 as (Hk & F1 & C1).
  apply bind_ret_inv in H as (conditions & s2 & E2 & H).
  pose proof (fs_pure_sample _ _ _ _ _ E2) as [F2 C2].
  apply sample_spec in E2 as (_ & Hlen & Hin).
  apply bind_ret_inv in H as ([shapes anns] & s3 & E3 & H).
  injection H as <- <- <-.
  apply condition_loop_spec in E3 as (ps & Hps & Hall & Hann & -> & F3 & C3).
  exists ps. split; [|split; [|split; [|split; [|split; [|split]]]]].
  - rewrite <- (length_map p_condition), Hps, Hlen. lia.
  - intros p Hp. apply Hin. rewrite <- Hps.
    apply list_elem_of_fmap. eauto.
  - exact Hall.
  - exact Hann.
  - reflexivity.
  - congruence.
  - congruence.
Qed.

(** An annotation of a sampled placement is a valid line. *)
Lemma annotates_valid cls p line :
  annotates cls p line ->
  sampled (p_x p) (p_y p) (p_w p) (p_h p) ->
  valid_line (Z.of_nat (length cls)) line.
Proof.
  intros (i & Hi & ->) (Hx & Hy & Hw & Hh).
  apply list_index_Some in Hi as [_ Hi].
  unfold format_annotation. apply box_valid; simpl; try lia;
    split; lra.
Qed.

Lemma annotates_no_newline cls p line :
  annotates cls p line -> no_newline line = true.
Proof. intros (i & _ & ->). apply no_newline_format_box. Qed.

(** The label text of an image is a valid label. *)
Lemma label_text_valid cls ps annotations :
  (1 <= length ps <= 4)%nat ->
  Forall (fun p => sampled (p_x p) (p_y p) (p_w p) (p_h p)) ps ->
  Forall2 (annotates cls) ps annotations ->
  split_lines (str_join newline annotations) = annotations /\
  valid_label (Z.of_nat (length cls)) (str_join newline annotations).
Proof.
  intros Hlen Hall Hann.
  assert (split_lines (str_join newline annotations) = annotations) as E.
  { apply split_lines_join.
    - intros ->. apply Forall2_length in Hann. simpl in Hann. lia.
    - clear Hlen Hall. induction Hann; constructor; [|assumption].
      eapply annotates_no_newline; eassumption. }
  split; [exact E|]. unfold valid_label. rewrite E.
  split.
  - apply Forall2_length in Hann. lia.
  - clear E Hlen. induction Hann; [constructor|].
    apply Forall_cons in Hall as [Hp Hall].
    constructor; [|now apply IHHann].
    eapply annotates_valid; eassumption.
Qed.

(** *** One sample *)

Lemma multi_sample_step_spec self split every noun count i s s' :
  sample_step self split every noun count i s = (Ret tt, s') ->
  exists image ps annotations,
    (1 <= length ps <= 4)%nat /\
    (forall p, p ∈ ps -> p_condition p ∈ classes self) /\
    Forall (fun p => sampled (p_x p) (p_y p) (p_w p) (p_h p)) ps /\
    Forall2 (annotates (classes self)) ps annotations /\
    r_shapes image =
      concat (map (fun p => draw_condition (p_condition p)
                     (p_x p) (p_y p) (p_w p) (p_h p) 416 416) ps) /\
    open_w_error (st_fs s) (img_path (output_dir self) split i) = None /\
    open_w_error (<[img_path (output_dir self) split i := File (Jpeg image)]>
                    (st_fs s))
                 (label_path (output_dir self) split i) = None /\
    st_fs s' =
      <[label_path (output_dir self) split i :=
          File (Text (str_join newline annotations))]>
        (<[img_path (output_dir self) split i := File (Jpeg image)]>
           (st_fs s)).
Proof.
  unfold sample_step. intros H.
  apply bind_ret_inv in H as ([image annotations] & s1 & E1 & H).
  apply generate_image_spec in E1
    as (ps & Hlen & Hin & Hall & Hann & Hsh & F1 & _).
  apply bind_ret_inv in H as ([] & s2 & E2 & H).
  apply write_file_ret_inv in E2 as [O2 ->].
  apply bind_ret_inv in H as ([] & s3 & E3 & H).
  apply write_file_ret_inv in E3 as [O3 ->].
  apply (fs_pure_when _ _ (fs_pure_print _)) in H as [F4 _].
  exists image, ps, annotations.
  cbn [st_fs set_fs] in *. rewrite F1 in *.
  split; [exact Hlen|]. split; [exact Hin|]. split; [exact Hall|].
  split; [exact Hann|]. split; [exact Hsh|].
  split; [exact O2|]. split; [exact O3|]. exact F4.
Qed.

Lemma multi_sample_step_written self split every noun count i s s' :
  sample_step self split every noun count i s = (Ret tt, s') ->
  sample_written (valid_label (Z.of_nat (length (classes self)))) true
    (img_path (output_dir self) split i)
    (label_path (output_dir self) split i) (st_fs s) (st_fs s').
Proof.
  intros H. apply multi_sample_step_spec in H
    as (image & ps & annotations & Hlen & _ & Hall & Hann & _ & O1 & O2 & E).
  exists image, (str_join newline annotations). split.
  { eapply label_text_valid; eassumption. }
  split; [intros _; exact O1|].
  rewrite O1. split; [exact O2 | exact E].
Qed.

(** *** Step 1 as a whole *)

Lemma generate_step_written a s yaml s' :
  generate_step a s = (Ret yaml, s') ->
  yaml = manifest_path (a_dataset_dir a) /\
  dataset_written (valid_label 10) true (a_dataset_dir a)
    (Z.to_nat (train_count (a_num_images a) 0.8))
    (Z.to_nat (a_num_images a - train_count (a_num_images a) 0.8))
    (dataset_config (generator_of a)) (st_fs s) (st_fs s').
Proof.
  unfold generate_step. intros H.
  apply bind_ret_inv in H as ([] & p0 & P0 & H).
  apply fs_pure_print in P0 as [P0 _].
  apply bind_ret_inv in H as (self & g & G & H).
  unfold DentalDatasetGenerator, setup_directories in G. simpl in G.
  apply bind_ret_inv in G as ([] & s4 & G & R).
  injection R as <- <-.
  apply bind_ret_inv in G as ([] & s1 & M1 & G).
  apply (mkdir_snoc [] _ (st_fs p0)) in M1 as [E1 D1];
    [|reflexivity | intros ? ? Hin; inversion Hin].
  apply bind_ret_inv in G as ([] & s2 & M2 & G).
  apply (mkdir_snoc _ _ (st_fs p0) _ _ E1 D1) in M2 as [E2 D2].
  apply bind_ret_inv in G as ([] & s3 & M3 & G).
  apply (mkdir_snoc _ _ (st_fs p0) _ _ E2 D2) in M3 as [E3 D3].
  apply bind_ret_inv in G as ([] & s4' & M4 & G).
  apply (mkdir_snoc _ _ (st_fs p0) _ _ E3 D3) in M4 as [E4 D4].
  injection G as <-. simpl app in *.
  fold (generator_of a) in H.
  apply bind_ret_inv in H as ([] & d & D & H).
  unfold generate_dataset in D.
  apply bind_ret_inv in D as ([] & p1 & P1 & D).
  apply fs_pure_print in P1 as [P1 _].
  rewrite split_count_run in D.
  destruct (split_count _ _) as [c|e] eqn:Ec; [|discriminate].
  apply train_count_eq in Ec. cbn [num_images generator_of] in Ec, D.
  subst c.
  apply bind_ret_inv in D as ([] & t1 & T1 & D).
  apply (for_each_written (valid_label 10) true
           (img_path (a_dataset_dir a) "train")
           (label_path (a_dataset_dir a) "train")) in T1;
    [|intros i s5 s6 _ Hs;
      apply (multi_sample_step_written (generator_of a)) in Hs; exact Hs].
  apply bind_ret_inv in D as ([] & t2 & T2 & D).
  apply (for_each_written (valid_label 10) true
           (img_path (a_dataset_dir a) "val")
           (label_path (a_dataset_dir a) "val")) in T2;
    [|intros i s5 s6 _ Hs;
      apply (multi_sample_step_written (generator_of a)) in Hs; exact Hs].
  assert (st_fs d = st_fs t2) as Ed.
  { eapply fs_pure_bind in D; [exact (proj1 D) | apply fs_pure_print |].
    intros _.
    apply fs_pure_bind; [apply fs_pure_print | intros _].
    apply fs_pure_print. }
  unfold create_dataset_yaml in H.
  apply bind_ret_inv in H as ([] & y & Y & H).
  apply write_file_ret_inv in Y as [Hopen ->].
  apply bind_ret_inv in H as ([] & p2 & P2 & H).
  apply fs_pure_print in P2 as [P2 _].
  injection H as <- <-.
  split; [reflexivity|].
  assert (st_fs p1 = make_all_dirs (a_dataset_dir a) (st_fs p0)) as EE.
  { rewrite P1, E4. reflexivity. }
  rewrite EE in T1. rewrite <- P0.
  split; [exact D4|].
  exists (st_fs t1), (st_fs t2).
  split; [exact T1|]. split; [exact T2|].
  rewrite P2. cbn [st_fs set_fs]. rewrite Ed in *.
  split; [exact Hopen | reflexivity].
Qed.

(** A first step that completes has computed its split. *)
Lemma generate_step_counted a s yaml s' :
  generate_step a s = (Ret yaml, s') ->
  exists c, split_count (a_num_images a) 0.8 = Ret c.
Proof.
  unfold generate_step. intros H.
  apply bind_ret_inv in H as ([] & p0 & _ & H).
  apply bind_ret_inv in H as (self & g & G & H).
  unfold DentalDatasetGenerator in G.
  apply bind_ret_inv in G as ([] & s4 & _ & R).
  injection R as <- <-.
  apply bind_ret_inv in H as ([] & d & D & _).
  unfold generate_dataset in D.
  apply bind_ret_inv in D as ([] & p1 & _ & D).
  rewrite split_count_run in D. cbn [num_images] in D.
  destruct (split_count _ _) as [c|e]; [eauto | discriminate].
Qed.

(** *** The training and conversion stages *)

Lemma print_results_spec items s :
  exists s', TrainDentalYolo.print_results items s = (Ret tt, s') /\
             st_fs s' = st_fs s /\ st_calls s' = st_calls s /\
             st_rng s' = st_rng s.
Proof.
  revert s. induction items as [|[key value] items IH]; intros s; simpl.
  - exists s. auto.
  - rewrite bind_unfold. unfold print at 1.
    match goal with |- context [TrainDentalYolo.print_results items ?st] =>
      destruct (IH st) as (s' & E & F & C & R) end.
    exists s'. auto.
Qed.

Section StageFacts.
Variable lib : library.

Local Ltac stage_done :=
  eexists; split; [reflexivity|]; cbn -[last app];
  repeat split; try reflexivity; try discriminate;
  try (rewrite <- !app_assoc; reflexivity);
  try (intros ? [= <-]; apply last_snoc);
  try (intros _ _; apply last_snoc).

Lemma train_yolo_model_spec dataset_path output_path epochs model_size s :
  let plan := training_plan dataset_path output_path epochs model_size in
  exists s',
    TrainDentalYolo.train_yolo_model lib dataset_path output_path epochs
                                     model_size s
    = (Ret (match snd (attempts lib plan) with
            | None => true
            | Some _ => false
            end), s') /\
    st_fs s' = st_fs s /\
    st_calls s' = st_calls s ++ fst (attempts lib plan) /\
    (forall msg, snd (attempts lib plan) = Some msg ->
       last (st_out s') = Some ("❌ Training failed: " +:+ msg)).
Proof.
  intros plan. subst plan.
  unfold TrainDentalYolo.train_yolo_model, training_plan, attempts.
  unfold try_except, mbind, py_bind, call, print.
  cbn [st_calls st_fs st_out st_rng].
  destruct (lib_raises lib (YoloLoad _)) as [m1|]; [stage_done|].
  destruct (lib_raises lib (ModelTrain _ _)) as [m2|]; [stage_done|].
  destruct (lib_raises lib (ModelSave _)) as [m3|]; [stage_done|].
  destruct (lib_results_dict lib) as [items|]; [|stage_done].
  match goal with |- context [TrainDentalYolo.print_results items ?st] =>
    destruct (print_results_spec items st) as (s' & E & F & C & R) end.
  rewrite E. exists s'. split; [reflexivity|].
  cbn [st_fs st_calls] in F, C. rewrite F, C, <- !app_assoc.
  repeat split; try reflexivity. intros msg [=].
Qed.

Lemma convert_to_coreml_spec input_path output_path s :
  let plan := conversion_plan lib input_path output_path in
  exists s',
    TrainDentalYolo.convert_to_coreml lib input_path output_path s
    = (Ret (match snd (attempts lib plan),
                  lib_glob lib (parent input_path) with
            | None, _ :: _ => true
            | _, _ => false
            end), s') /\
    st_fs s' = st_fs s /\
    st_calls s' = st_calls s ++ fst (attempts lib plan) /\
    (forall msg, snd (attempts lib plan) = Some msg ->
       last (st_out s') = Some ("❌ CoreML conversion failed: " +:+ msg)) /\
    (snd (attempts lib plan) = None ->
     lib_glob lib (parent input_path) = [] ->
     last (st_out s') = Some "❌ CoreML file not found after export").
Proof.
  intros plan. subst plan.
  unfold TrainDentalYolo.convert_to_coreml, conversion_plan.
  unfold try_except, mbind, py_bind, call, print.
  cbn [st_calls st_fs st_out st_rng app attempts].
  destruct (lib_raises lib (YoloLoad _)) as [m1|]; [stage_done|].
  destruct (lib_raises lib ModelExport) as [m2|]; [stage_done|].
  destruct (lib_glob lib (parent input_path)) as [|first rest];
    [stage_done|].
  cbn [attempts].
  destruct (lib_raises lib (ShutilMove _ _)) as [m3|]; stage_done.
Qed.

End StageFacts.

End YoloFacts.

(** ** The properties of the specification *)

Module Claims.
Import Py Spec PyFacts DatasetFacts YoloFacts.

(** C10. In the fixed-box generator, for every condition other than
    "misaligned" and "chipped", [create_annotation] returns the constant
    annotation "<class_id> 0.500000 0.450000 0.600000 0.300000": the
    result depends neither on the state of the random generator, which
    is left as it was, nor on the image path or the image size. *)
Theorem create_annotation_constant
    (image_path : path) (condition : string) (class_id w h : Z) (s : state) :
  condition <> "misaligned" -> condition <> "chipped" ->
  CreateDentalDataset.create_annotation image_path condition class_id w h s
  = (Ret (str_int class_id +:+ " 0.500000 0.450000 0.600000 0.300000"), s).
Proof.
  intros Hm Hc.
  unfold CreateDentalDataset.create_annotation,
    CreateDentalDataset.annotation_box.
  apply String.eqb_neq in Hm, Hc. rewrite Hm, Hc.
  reflexivity.
Qed.

Lemma create_annotation_constant_witness :
  CreateDentalDataset.create_annotation
    ["out"; "images"; "train"; "train_0000.jpg"] "cavity" 0 416 416 demo_state
  = (Ret "0 0.500000 0.450000 0.600000 0.300000", demo_state).
Proof.
  apply (create_annotation_constant _ "cavity" 0 416 416 demo_state);
    discriminate.
Defined.

(** C3, as the code has it. For every parsed split value outside the
    doubles from 0.5 to 0.9 (below 1/2, above the double the literal
    0.9 denotes, infinite or NaN) the dataset creation script prints
    its error, exits with status 1 and leaves the file system as it
    found it: no file or directory is created. *)
Theorem out_of_range_split_rejected
    (parser : argparser CreateDentalDataset.args) (argv : list string)
    (a : CreateDentalDataset.args) (s : state) :
  parser argv = Namespace a ->
  split_rejected (CreateDentalDataset.a_train_split a) ->
  let r := CreateDentalDataset.command parser argv s in
  fst r = 1 /\
  st_fs (snd r) = st_fs s /\
  st_calls (snd r) = st_calls s /\
  last (st_out (snd r))
    = Some "Error: train_split must be between 0.5 and 0.9".
Proof.
  intros Ea Hf r. subst r. rewrite (dataset_command_parsed _ _ _ _ Ea).
  unfold CreateDentalDataset.script, CreateDentalDataset.main.
  apply split_guard in Hf. rewrite Hf. cbn [negb when].
  destruct (CreateDentalDataset.a_count a <? 100);
    unfold mbind, py_bind, print, raise; cbn -[last app];
    rewrite last_snoc; auto.
Qed.

Lemma out_of_range_split_rejected_witness :
  let a := {| CreateDentalDataset.a_output := ["out"];
              CreateDentalDataset.a_count := 10;
              CreateDentalDataset.a_train_split := 0.95 |} in
  let r := CreateDentalDataset.command (demo_parser a)
             ["--train_split"; "0.95"] demo_state in
  fst r = 1 /\ st_fs (snd r) = ∅.
Proof.
  intros a r.
  destruct (out_of_range_split_rejected (demo_parser a)
              ["--train_split"; "0.95"] a demo_state)
    as (H1 & H2 & _).
  - reflexivity.
  - right. vm_compute. reflexivity.
  - split; [exact H1 | exact H2].
Defined.

(** C3, as stated, fails at its upper bound: the bound of the guard is
    the double 0.9, which lies above 9/10, and a fraction typed as
    0.9000000000000000001 is read as that double. The script accepts
    it, exits with status 0 and has written the dataset. *)
Lemma split_above_bound_counterexample :
  let x := float_of_decimal 9000000000000000001 19 in
  let a := {| CreateDentalDataset.a_output := ["out"];
              CreateDentalDataset.a_count := 2;
              CreateDentalDataset.a_train_split := x |} in
  let r := CreateDentalDataset.command (demo_parser a)
             ["--count"; "2"; "--train_split"; "0.9000000000000000001"]
             demo_state in
  (9 # 10 < 9000000000000000001 # 10000000000000000000)%Q /\
  x = 0.9%float /\
  (9 # 10 < float_Q x)%Q /\
  fst r = 0 /\
  is_file (st_fs (snd r)) ["out"; "labels"; "train"; "train_0000.txt"] = true.
Proof. vm_compute. repeat split; reflexivity. Qed.

(** C9. In the multi-label generator every box lies inside the image
    although nothing is clamped: the four values of a placement are the
    draws themselves, center-x from [0.2, 0.8], center-y from [0.3, 0.7],
    width and height from [0.1, 0.3], so that the horizontal edges lie
    in [0.05, 0.95] and the vertical edges in [0.15, 0.85]; every
    annotation of an image is the rendering of such a placement. *)
Theorem sampled_boxes_inside_image :
  (forall (condition : string) (s : state),
     let g0 := st_rng s in
     let g1 := snd (uniform 0.2 0.8 g0) in
     let g2 := snd (uniform 0.3 0.7 g1) in
     let g3 := snd (uniform 0.1 0.3 g2) in
     exists p s',
       TrainDentalYolo.place condition s = (Ret p, s') /\
       TrainDentalYolo.p_x p = fst (uniform 0.2 0.8 g0) /\
       TrainDentalYolo.p_y p = fst (uniform 0.3 0.7 g1) /\
       TrainDentalYolo.p_w p = fst (uniform 0.1 0.3 g2) /\
       TrainDentalYolo.p_h p = fst (uniform 0.1 0.3 g3) /\
       sampled (TrainDentalYolo.p_x p) (TrainDentalYolo.p_y p)
               (TrainDentalYolo.p_w p) (TrainDentalYolo.p_h p) /\
       inside_margins (TrainDentalYolo.p_x p) (TrainDentalYolo.p_y p)
                      (TrainDentalYolo.p_w p) (TrainDentalYolo.p_h p)) /\
  (forall self w h s image annotations s',
     TrainDentalYolo.generate_synthetic_dental_image self w h s
       = (Ret (image, annotations), s') ->
     exists ps,
       Forall2 (TrainDentalYolo.annotates (TrainDentalYolo.classes self))
               ps annotations /\
       Forall (fun p =>
                 inside_margins (TrainDentalYolo.p_x p) (TrainDentalYolo.p_y p)
                                (TrainDentalYolo.p_w p) (TrainDentalYolo.p_h p))
              ps).
Proof.
  split.
  - intros condition s g0 g1 g2 g3.
    destruct (place_spec condition s) as (p & s' & E & _ & Hs & _).
    exists p, s'. split; [exact E|].
    pose proof (sampled_inside _ _ _ _ Hs) as Hin.
    revert E. subst g0 g1 g2 g3.
    unfold TrainDentalYolo.place, draw, mbind, py_bind, mret, py_ret.
    destruct (uniform 0.2 0.8 (st_rng s)) as [x g1]. cbn [st_rng fst snd].
    destruct (uniform 0.3 0.7 g1) as [y g2]. cbn [st_rng fst snd].
    destruct (uniform 0.1 0.3 g2) as [w g3]. cbn [st_rng fst snd].
    destruct (uniform 0.1 0.3 g3) as [h g4]. cbn [st_rng fst snd].
    intros [= <- _]. cbn in Hs, Hin |- *.
    repeat (split; [reflexivity|]). split; assumption.
  - intros self w h s image annotations s' H.
    apply generate_image_spec in H as (ps & _ & _ & Hall & Hann & _).
    exists ps. split; [exact Hann|].
    eapply Forall_impl; [exact Hall|].
    intros p Hp. now apply sampled_inside.
Qed.

Lemma sampled_boxes_inside_image_witness :
  exists image annotations s',
    TrainDentalYolo.generate_synthetic_dental_image
      (TrainDentalYolo.generator_of demo_yolo_args) 416 416 demo_state
    = (Ret (image, annotations), s') /\
    exists ps,
      Forall2 (TrainDentalYolo.annotates TrainDentalYolo.default_classes)
              ps annotations /\
      Forall (fun p =>
                inside_margins (TrainDentalYolo.p_x p) (TrainDentalYolo.p_y p)
                               (TrainDentalYolo.p_w p) (TrainDentalYolo.p_h p))
             ps.
Proof.
  eexists _, _, _. split; [vm_compute; reflexivity|].
  eapply (proj2 sampled_boxes_inside_image
            (TrainDentalYolo.generator_of demo_yolo_args) 416 416
            demo_state).
  vm_compute. reflexivity.
Defined.

(** C6. When several conditions are placed on one image, the sample
    written for it holds one shape group per placement in the image
    file and one line per placement in the label file, both in the
    order of the placements: line [k] of the label is the annotation of
    placement [k]. *)
Theorem one_line_per_condition
    (self : TrainDentalYolo.generator) (split : string) (every : Z)
    (noun : string) (count : Z) (i : nat) (s s' : state) :
  TrainDentalYolo.sample_step self split every noun count i s = (Ret tt, s') ->
  exists (ps : list TrainDentalYolo.placement) (image : raster) (text : string),
    (1 <= length ps <= 4)%nat /\
    st_fs s' !! img_path (TrainDentalYolo.output_dir self) split i
      = Some (File (Jpeg image)) /\
    r_shapes image =
      concat (map (fun p => TrainDentalYolo.draw_condition
                     (TrainDentalYolo.p_condition p)
                     (TrainDentalYolo.p_x p) (TrainDentalYolo.p_y p)
                     (TrainDentalYolo.p_w p) (TrainDentalYolo.p_h p)
                     416 416) ps) /\
    st_fs s' !! label_path (TrainDentalYolo.output_dir self) split i
      = Some (File (Text text)) /\
    length (split_lines text) = length ps /\
    Forall2 (TrainDentalYolo.annotates (TrainDentalYolo.classes self))
            ps (split_lines text).
Proof.
  intros H. apply multi_sample_step_spec in H
    as (image & ps & annotations & Hlen & _ & Hall & Hann & Hsh & _ & _ & E).
  destruct (label_text_valid _ _ _ Hlen Hall Hann) as [Hsplit _].
  exists ps, image, (str_join TrainDentalYolo.newline annotations).
  rewrite E, Hsplit.
  split; [exact Hlen|]. split.
  { rewrite lookup_insert_ne by (intros Heq; symmetry in Heq;
                                 now apply img_label_ne in Heq).
    apply lookup_insert_eq. }
  split; [exact Hsh|]. split; [apply lookup_insert_eq|].
  split; [|exact Hann].
  symmetry. eapply Forall2_length, Hann.
Qed.

Lemma one_line_per_condition_witness :
  let self := TrainDentalYolo.generator_of demo_yolo_args in
  let s1 := snd (TrainDentalYolo.DentalDatasetGenerator ["ds"] 5 demo_state) in
  let r := TrainDentalYolo.sample_step self "train" 100 "training" 4 0 s1 in
  r = (Ret tt, snd r) /\
  exists (ps : list TrainDentalYolo.placement) image text,
    (1 <= length ps <= 4)%nat /\
    st_fs (snd r) !! img_path ["ds"] "train" 0 = Some (File (Jpeg image)) /\
    st_fs (snd r) !! label_path ["ds"] "train" 0 = Some (File (Text text)) /\
    length (split_lines text) = length ps.
Proof.
  intros self s1 r.
  assert (r = (Ret tt, snd r)) as E by (vm_compute; reflexivity).
  split; [exact E|].
  destruct (one_line_per_condition self "train" 100 "training" 4 0 s1
              (snd r) E)
    as (ps & image & text & H1 & H2 & _ & H4 & H5 & _).
  exists ps, image, text. auto.
Defined.

(** C1. Every annotation line either generator emits is in range: the
    class index lies in [0, 10), the centre in [0, 1] and the extents in
    [0.1, 0.8], as sampled or clamped values and as printed. For
    [create_annotation] this holds for every class index its caller
    passes from the enumeration, for
    [generate_synthetic_dental_image] for every line of every image;
    after a completed run it holds for the label file of every sample
    of either split. *)
Theorem annotations_in_range :
  (forall image_path condition class_id w h s,
     0 <= class_id < 10 ->
     exists line s',
       CreateDentalDataset.create_annotation image_path condition class_id
                                             w h s = (Ret line, s') /\
       valid_line 10 line) /\
  (forall self w h s image annotations s',
     TrainDentalYolo.generate_synthetic_dental_image self w h s
       = (Ret (image, annotations), s') ->
     Forall (valid_line (Z.of_nat (length (TrainDentalYolo.classes self))))
            annotations) /\
  (forall out n split s s',
     CreateDentalDataset.create_dataset out n split s = (Ret tt, s') ->
     forall sp i,
       sp = "train" /\ (i < Z.to_nat (train_count n split))%nat \/
       sp = "val" /\ (i < Z.to_nat (n - train_count n split))%nat ->
       exists line,
         st_fs s' !! label_path out sp i = Some (File (Text line)) /\
         valid_line 10 line) /\
  (forall a s yaml s',
     TrainDentalYolo.generate_step a s = (Ret yaml, s') ->
     forall sp i,
       sp = "train" /\
         (i < Z.to_nat (train_count (TrainDentalYolo.a_num_images a) 0.8))%nat
       \/
       sp = "val" /\
         (i < Z.to_nat (TrainDentalYolo.a_num_images a
                        - train_count (TrainDentalYolo.a_num_images a) 0.8))%nat
       ->
       exists text,
         st_fs s' !! label_path (TrainDentalYolo.a_dataset_dir a) sp i
           = Some (File (Text text)) /\
         valid_label 10 text).
Proof.
  split; [|split; [|split]].
  - intros image_path condition class_id w h s Hc.
    destruct (create_annotation_spec image_path condition class_id w h s)
      as (b & s' & E & _ & _ & _ & Hcl & Hx & Hy & Hw & Hh).
    exists (format_box b), s'. split; [exact E|].
    apply box_valid; try assumption.
    + now rewrite Hcl.
    + split; [tauto|]. eapply Qle_trans; [apply Hh|]. discriminate.
  - intros self w h s image annotations s' H.
    apply generate_image_spec in H as (ps & _ & _ & Hall & Hann & _).
    induction Hann; [constructor|].
    apply Forall_cons in Hall as [Hp Hall].
    constructor; [|now apply IHHann].
    eapply annotates_valid; eassumption.
  - intros out n split s s' H sp i Hi.
    apply create_dataset_written in H.
    destruct Hi as [[-> Hi]|[-> Hi]].
    + eapply dw_train_label; eassumption.
    + eapply dw_val_label; eassumption.
  - intros a s yaml s' H sp i Hi.
    apply generate_step_written in H as [_ H].
    destruct Hi as [[-> Hi]|[-> Hi]].
    + eapply dw_train_label; eassumption.
    + eapply dw_val_label; eassumption.
Qed.

Lemma annotations_in_range_witness :
  let s' := snd (CreateDentalDataset.create_dataset ["out"] 10 0.8 demo_state) in
  CreateDentalDataset.create_dataset ["out"] 10 0.8 demo_state = (Ret tt, s') /\
  exists line,
    st_fs s' !! label_path ["out"] "train" 7 = Some (File (Text line)) /\
    valid_line 10 line.
Proof.
  intros s'.
  assert (CreateDentalDataset.create_dataset ["out"] 10 0.8 demo_state
          = (Ret tt, s')) as E by (vm_compute; reflexivity).
  split; [exact E|].
  apply (proj1 (proj2 (proj2 annotations_in_range))
           ["out"] 10 0.8%float demo_state s' E "train" 7%nat).
  left. split; [reflexivity|]. vm_compute. lia.
Defined.

(** C4. After a completed run the manifest [dataset.yaml] lists the
    class names of the enumeration the generator draws its conditions
    from, in the same order, and its [nc] is the length of that list. *)
Theorem manifest_lists_classes :
  (forall out n split s s',
     CreateDentalDataset.create_dataset out n split s = (Ret tt, s') ->
     exists m,
       st_fs s' !! manifest_path out = Some (File (Yaml m)) /\
       m_names m = CreateDentalDataset.classes /\
       m_nc m = Z.of_nat (length (m_names m))) /\
  (forall a s yaml s',
     TrainDentalYolo.generate_step a s = (Ret yaml, s') ->
     yaml = manifest_path (TrainDentalYolo.a_dataset_dir a) /\
     exists m,
       st_fs s' !! yaml = Some (File (Yaml m)) /\
       m_names m
         = TrainDentalYolo.classes (TrainDentalYolo.generator_of a) /\
       m_nc m = Z.of_nat (length (m_names m))).
Proof.
  split.
  - intros out n split s s' H. apply create_dataset_written in H.
    exists (CreateDentalDataset.dataset_config out).
    split; [eapply dw_manifest, H|]. split; reflexivity.
  - intros a s yaml s' H. apply generate_step_written in H as [-> H].
    split; [reflexivity|].
    exists (TrainDentalYolo.dataset_config (TrainDentalYolo.generator_of a)).
    split; [eapply dw_manifest, H|]. split; reflexivity.
Qed.

Lemma manifest_lists_classes_witness :
  let s' := snd (CreateDentalDataset.create_dataset ["out"] 10 0.8 demo_state) in
  CreateDentalDataset.create_dataset ["out"] 10 0.8 demo_state = (Ret tt, s') /\
  exists m,
    st_fs s' !! manifest_path ["out"] = Some (File (Yaml m)) /\
    m_names m = CreateDentalDataset.classes /\
    m_nc m = Z.of_nat (length (m_names m)).
Proof.
  intros s'.
  assert (CreateDentalDataset.create_dataset ["out"] 10 0.8 demo_state
          = (Ret tt, s')) as E by (vm_compute; reflexivity).
  split; [exact E|].
  apply (proj1 manifest_lists_classes ["out"] 10 0.8%float demo_state s' E).
Defined.

(** C8. The training stage and the conversion stage never raise: each
    returns a boolean, having made the calls of its plan once each, in
    order, and none after the first that raised. The result is [false]
    exactly when a call raised (or, for the conversion, when the export
    left no package behind); the file system is untouched and the last
    line printed is the diagnostic. A [false] from either stage makes
    the process exit with status 1, and a failed training ends the run
    before any conversion call. *)
Theorem stage_failures_surface (lib : library) :
  (forall dataset_path output_path epochs model_size s,
     let plan := training_plan dataset_path output_path epochs model_size in
     let made := fst (attempts lib plan) in
     exists ok s',
       TrainDentalYolo.train_yolo_model lib dataset_path output_path epochs
                                        model_size s = (Ret ok, s') /\
       st_fs s' = st_fs s /\
       st_calls s' = st_calls s ++ made /\
       made `prefix_of` plan /\ NoDup made /\
       (ok = false <->
        exists c msg, c ∈ made /\ lib_raises lib c = Some msg) /\
       (ok = false ->
        exists msg, last (st_out s') = Some ("❌ Training failed: " +:+ msg)))
  /\
  (forall input_path output_path s,
     let plan := conversion_plan lib input_path output_path in
     let made := fst (attempts lib plan) in
     exists ok s',
       TrainDentalYolo.convert_to_coreml lib input_path output_path s
         = (Ret ok, s') /\
       st_fs s' = st_fs s /\
       st_calls s' = st_calls s ++ made /\
       made `prefix_of` plan /\ NoDup made /\
       (ok = false <->
        (exists c msg, c ∈ made /\ lib_raises lib c = Some msg) \/
        lib_glob lib (parent input_path) = []) /\
       (ok = false ->
        exists line, last (st_out s') = Some line /\
          (line = "❌ CoreML file not found after export" \/
           exists msg, line = "❌ CoreML conversion failed: " +:+ msg)))
  /\
  (forall a s s0 yaml s1 trained s2,
     TrainDentalYolo.announce s = (Ret tt, s0) ->
     TrainDentalYolo.generate_step a s0 = (Ret yaml, s1) ->
     TrainDentalYolo.train_step lib a yaml s1 = (Ret trained, s2) ->
     (trained = false ->
      fst (TrainDentalYolo.script lib a s) = 1 /\
      st_calls (snd (TrainDentalYolo.script lib a s)) = st_calls s2) /\
     (trained = true ->
      forall converted s3,
        TrainDentalYolo.convert_step lib a s2 = (Ret converted, s3) ->
        fst (TrainDentalYolo.script lib a s) = if converted then 0 else 1)).
Proof.
  split; [|split].
  - intros dataset_path output_path epochs model_size s plan made.
    destruct (train_yolo_model_spec lib dataset_path output_path epochs
                model_size s) as (s' & E & F & C & L).
    fold plan in E, C, L. subst made.
    eexists _, s'. split; [exact E|]. split; [exact F|]. split; [exact C|].
    split; [apply attempts_prefix|].
    split.
    { apply attempts_NoDup. unfold plan, training_plan.
      repeat (apply NoDup_cons; split;
              [rewrite ?elem_of_cons, elem_of_nil; intros H;
               repeat destruct H as [H|H]; discriminate || exact H|]).
      apply NoDup_nil_2. }
    split.
    + rewrite <- attempts_failed_iff.
      destruct (snd (attempts lib plan)) as [m|]; split;
        try discriminate; eauto.
      intros [msg [=]].
    + destruct (snd (attempts lib plan)) as [m|]; [|discriminate].
      intros _. exists m. now apply L.
  - intros input_path output_path s plan made.
    destruct (convert_to_coreml_spec lib input_path output_path s)
      as (s' & E & F & C & L1 & L2).
    fold plan in E, C, L1, L2. subst made.
    eexists _, s'. split; [exact E|]. split; [exact F|]. split; [exact C|].
    split; [apply attempts_prefix|].
    split.
    { apply attempts_NoDup. unfold plan, conversion_plan.
      destruct (lib_glob lib (parent input_path)); simpl;
      repeat (apply NoDup_cons; split;
              [rewrite ?elem_of_cons, elem_of_nil; intros H;
               repeat destruct H as [H|H]; discriminate || exact H|]);
      apply NoDup_nil_2. }
    split.
    + rewrite <- attempts_failed_iff.
      destruct (snd (attempts lib plan)) as [m|];
        destruct (lib_glob lib (parent input_path)); split;
        try discriminate; eauto.
      intros [[msg [=]]|[=]].
    + destruct (snd (attempts lib plan)) as [m|] eqn:Em.
      * intros _. exists ("❌ CoreML conversion failed: " +:+ m).
        split; [now apply L1 | right; eauto].
      * destruct (lib_glob lib (parent input_path)) eqn:Eg; [|discriminate].
        intros _. exists "❌ CoreML file not found after export".
        split; [now apply L2 | now left].
  - intros a s s0 yaml s1 trained s2 E0 E1 E2.
    unfold TrainDentalYolo.script, TrainDentalYolo.main.
    rewrite bind_unfold, E0, bind_unfold, E1, bind_unfold, E2.
    split.
    + intros ->. cbn. auto.
    + intros -> converted s3 E3. cbn [negb].
      rewrite bind_unfold, E3. destruct converted; reflexivity.
Qed.

Lemma stage_failures_surface_witness :
  fst (TrainDentalYolo.script demo_failing_library demo_yolo_args demo_state)
    = 1 /\
  st_calls (snd (TrainDentalYolo.script demo_failing_library demo_yolo_args
                                        demo_state))
    = [YoloLoad "yolov8n.pt"; ModelTrain ["ds"; "dataset.yaml"] 1].
Proof.
  pose (s0 := snd (TrainDentalYolo.announce demo_state)).
  pose (r1 := TrainDentalYolo.generate_step demo_yolo_args s0).
  pose (r2 := TrainDentalYolo.train_step demo_failing_library demo_yolo_args
                ["ds"; "dataset.yaml"] (snd r1)).
  destruct (proj2 (proj2 (stage_failures_surface demo_failing_library))
              demo_yolo_args demo_state s0 ["ds"; "dataset.yaml"] (snd r1)
              false (snd r2)) as [H _].
  - reflexivity.
  - vm_compute. reflexivity.
  - vm_compute. reflexivity.
  - destruct (H eq_refl) as [H1 H2]. split; [exact H1|].
    rewrite H2. vm_compute. reflexivity.
Defined.

(** C5, as the code has it. After a completed run on an output root
    whose four directories held nothing, each split holds exactly the
    images and the labels of its samples, [split_0000] up to the count
    of the split: one label file per image file, under the same
    zero-padded stem, so that the two counts of a split agree. *)
Theorem one_label_per_image :
  (forall out n split s s',
     CreateDentalDataset.create_dataset out n split s = (Ret tt, s') ->
     fresh out (st_fs s) ->
     forall sp, sp = "train" \/ sp = "val" ->
       listdir (st_fs s') (out ++ ["labels"; sp])
         = list_to_set (sample_names sp ".txt" (split_size n split sp)) /\
       listdir (st_fs s') (out ++ ["images"; sp])
         = list_to_set (sample_names sp ".jpg" (split_size n split sp)) /\
       size (listdir (st_fs s') (out ++ ["labels"; sp]))
         = size (listdir (st_fs s') (out ++ ["images"; sp])) /\
       forall stem,
         stem +:+ ".jpg" ∈ listdir (st_fs s') (out ++ ["images"; sp]) <->
         stem +:+ ".txt" ∈ listdir (st_fs s') (out ++ ["labels"; sp])) /\
  (forall a s yaml s',
     TrainDentalYolo.generate_step a s = (Ret yaml, s') ->
     fresh (TrainDentalYolo.a_dataset_dir a) (st_fs s) ->
     forall sp, sp = "train" \/ sp = "val" ->
       listdir (st_fs s')
               (TrainDentalYolo.a_dataset_dir a ++ ["labels"; sp])
         = list_to_set
             (sample_names sp ".txt"
                (split_size (TrainDentalYolo.a_num_images a) 0.8 sp)) /\
       listdir (st_fs s')
               (TrainDentalYolo.a_dataset_dir a ++ ["images"; sp])
         = list_to_set
             (sample_names sp ".jpg"
                (split_size (TrainDentalYolo.a_num_images a) 0.8 sp)) /\
       size (listdir (st_fs s')
                     (TrainDentalYolo.a_dataset_dir a ++ ["labels"; sp]))
         = size (listdir (st_fs s')
                         (TrainDentalYolo.a_dataset_dir a ++ ["images"; sp]))
       /\
       forall stem,
         stem +:+ ".jpg"
           ∈ listdir (st_fs s')
                     (TrainDentalYolo.a_dataset_dir a ++ ["images"; sp]) <->
         stem +:+ ".txt"
           ∈ listdir (st_fs s')
                     (TrainDentalYolo.a_dataset_dir a ++ ["labels"; sp])).
Proof.
  split.
  - intros out n split s s' H Hfresh sp Hsp.
    apply create_dataset_written in H.
    destruct (fresh_sizes _ _ _ _ _ _ _ _ H Hfresh) as (S1 & S2 & S3 & S4).
    split; [|split; [|split]].
    + destruct Hsp as [-> | ->]; unfold split_size; cbn [String.eqb].
      * eapply fresh_labels_train; eassumption.
      * eapply fresh_labels_val; eassumption.
    + destruct Hsp as [-> | ->]; unfold split_size; cbn [String.eqb].
      * eapply fresh_images_train; eassumption.
      * eapply fresh_images_val; eassumption.
    + destruct Hsp as [-> | ->]; congruence.
    + intros stem. eapply fresh_stems; eassumption.
  - intros a s yaml s' H Hfresh sp Hsp.
    apply generate_step_written in H as [_ H].
    destruct (fresh_sizes _ _ _ _ _ _ _ _ H Hfresh) as (S1 & S2 & S3 & S4).
    split; [|split; [|split]].
    + destruct Hsp as [-> | ->]; unfold split_size; cbn [String.eqb].
      * eapply fresh_labels_train; eassumption.
      * eapply fresh_labels_val; eassumption.
    + destruct Hsp as [-> | ->]; unfold split_size; cbn [String.eqb].
      * eapply fresh_images_train; eassumption.
      * eapply fresh_images_val; eassumption.
    + destruct Hsp as [-> | ->]; congruence.
    + intros stem. eapply fresh_stems; eassumption.
Qed.

Lemma one_label_per_image_witness :
  let s' := snd (CreateDentalDataset.create_dataset ["out"] 10 0.8 demo_state) in
  CreateDentalDataset.create_dataset ["out"] 10 0.8 demo_state = (Ret tt, s') /\
  fresh ["out"] (st_fs demo_state) /\
  size (listdir (st_fs s') (["out"] ++ ["labels"; "train"]))
    = size (listdir (st_fs s') (["out"] ++ ["images"; "train"])).
Proof.
  intros s'.
  assert (CreateDentalDataset.create_dataset ["out"] 10 0.8 demo_state
          = (Ret tt, s')) as E by (vm_compute; reflexivity).
  split; [exact E|]. split; [apply fresh_empty|].
  apply (proj1 one_label_per_image ["out"] 10 0.8%float demo_state s' E
           (fresh_empty ["out"]) "train").
  left. reflexivity.
Defined.

(** C5, as stated, fails on an output root that is not empty. An image
    left in [images/train] stays there without a label; and a sample
    whose image path is a directory gets its label but no image, since
    the result of [cv2.imwrite] is not looked at. Both runs complete. *)
Lemma unlabelled_image_counterexample :
  let dirs := <[["out"; "images"; "val"] := Dir]>
              (<[["out"; "images"; "train"] := Dir]>
               (<[["out"; "images"] := Dir]> (<[["out"] := Dir]> ∅))) in
  let stale :=
    {| st_rng := demo_rng;
       st_fs := <[["out"; "images"; "train"; "old.jpg"] :=
                    File (Text "old")]> dirs;
       st_out := []; st_calls := [] |} in
  let blocked :=
    {| st_rng := demo_rng;
       st_fs := <[["out"; "images"; "val"; "val_0000.jpg"] := Dir]> dirs;
       st_out := []; st_calls := [] |} in
  let r1 := CreateDentalDataset.create_dataset ["out"] 1 0.8 stale in
  let r2 := CreateDentalDataset.create_dataset ["out"] 1 0.8 blocked in
  fst r1 = Ret tt /\
  size (listdir (st_fs (snd r1)) ["out"; "images"; "train"]) = 1%nat /\
  size (listdir (st_fs (snd r1)) ["out"; "labels"; "train"]) = 0%nat /\
  fst r2 = Ret tt /\
  size (listdir (st_fs (snd r2)) ["out"; "images"; "val"]) = 0%nat /\
  size (listdir (st_fs (snd r2)) ["out"; "labels"; "val"]) = 1%nat.
Proof. vm_compute. repeat split; reflexivity. Qed.

(** C2, as the code has it. A completed run on a fresh root leaves as
    many training samples as [int(n * f)] says, evaluated the way
    Python does: the total converted to a double, the product rounded to
    a double and truncated; the validation samples are the rest of the
    total. A negative count leaves none. The multi-label generator does
    so with the fraction 0.8. *)
Theorem split_counts :
  (forall out n split s s',
     CreateDentalDataset.create_dataset out n split s = (Ret tt, s') ->
     fresh out (st_fs s) ->
     exists k,
       split_count n split = Ret k /\
       size (listdir (st_fs s') (out ++ ["images"; "train"])) = Z.to_nat k /\
       size (listdir (st_fs s') (out ++ ["images"; "val"]))
         = Z.to_nat (n - k)) /\
  (forall a s yaml s',
     TrainDentalYolo.generate_step a s = (Ret yaml, s') ->
     fresh (TrainDentalYolo.a_dataset_dir a) (st_fs s) ->
     exists k,
       split_count (TrainDentalYolo.a_num_images a) 0.8 = Ret k /\
       size (listdir (st_fs s')
               (TrainDentalYolo.a_dataset_dir a ++ ["images"; "train"]))
         = Z.to_nat k /\
       size (listdir (st_fs s')
               (TrainDentalYolo.a_dataset_dir a ++ ["images"; "val"]))
         = Z.to_nat (TrainDentalYolo.a_num_images a - k)).
Proof.
  split.
  - intros out n split s s' H Hfresh.
    destruct (create_dataset_counted _ _ _ _ _ H) as [k Ek].
    exists k. split; [exact Ek|].
    apply train_count_eq in Ek. subst k.
    apply create_dataset_written in H.
    destruct (fresh_sizes _ _ _ _ _ _ _ _ H Hfresh) as (S1 & _ & S3 & _).
    split; assumption.
  - intros a s yaml s' H Hfresh.
    destruct (generate_step_counted _ _ _ _ H) as [k Ek].
    exists k. split; [exact Ek|].
    apply train_count_eq in Ek. subst k.
    apply generate_step_written in H as [_ H].
    destruct (fresh_sizes _ _ _ _ _ _ _ _ H Hfresh) as (S1 & _ & S3 & _).
    split; assumption.
Qed.

Lemma split_counts_witness :
  let s' := snd (CreateDentalDataset.create_dataset ["out"] 10 0.8 demo_state) in
  size (listdir (st_fs s') (["out"] ++ ["images"; "train"])) = 8%nat /\
  size (listdir (st_fs s') (["out"] ++ ["images"; "val"])) = 2%nat.
Proof.
  intros s'.
  assert (CreateDentalDataset.create_dataset ["out"] 10 0.8 demo_state
          = (Ret tt, s')) as E by (vm_compute; reflexivity).
  destruct (proj1 split_counts ["out"] 10 0.8%float demo_state s' E
              (fresh_empty ["out"])) as (k & Ek & S1 & S2).
  assert (k = 8) as -> by (vm_compute in Ek; congruence).
  split; [exact S1 | exact S2].
Defined.

(** C2, as stated, fails. A negative total is accepted: with
    [--count -3] and the split 0.8 the run completes and generates no
    training sample, whereas floor(-3 * 0.8) is -3. And the product is
    a rounded double: for 50 images and the split 0.58 the count is 28,
    not floor(50 * 0.58) = 29, because the double 0.58 lies below
    58/100; for 10 images and the split 0.7 it is 7 although the
    double 0.7 lies below 7/10, because the product rounds up to 7. *)
Lemma split_count_counterexample :
  let a := {| CreateDentalDataset.a_output := ["out"];
              CreateDentalDataset.a_count := -3;
              CreateDentalDataset.a_train_split := 0.8 |} in
  let s' := snd (CreateDentalDataset.create_dataset ["out"] (-3) 0.8
                                                    demo_state) in
  (fst (CreateDentalDataset.script a demo_state) = 0 /\
   CreateDentalDataset.create_dataset ["out"] (-3) 0.8 demo_state
     = (Ret tt, s') /\
   Z.of_nat (size (listdir (st_fs s') ["out"; "images"; "train"])) = 0 /\
   Qfloor (inject_Z (-3) * (8 # 10)) = -3) /\
  (split_count 50 0.58 = Ret 28 /\
   Qfloor (inject_Z 50 * (58 # 100)) = 29) /\
  (split_count 10 0.7 = Ret 7 /\
   Qfloor (inject_Z 10 * float_Q 0.7) = 6 /\
   Qfloor (inject_Z 10 * (7 # 10)) = 7).
Proof. vm_compute. repeat split; reflexivity. Qed.

(** C7. Running the dataset assembler a second time over the result of
    a completed run, with the same output root and parameters,
    completes again whatever the random generator then produces and
    whatever the regular files of the first run have come to hold: the
    directories are found and kept, no path is added, and the files are
    written over. Every label then holds an annotation of the second
    run, every image the first run stored holds an image again, and the
    manifest is the dictionary of the run. Started on an empty file
    system, a run whose split can be computed completes. *)
Theorem assembler_idempotent :
  (forall out n split s s' r,
     CreateDentalDataset.create_dataset out n split s = (Ret tt, s') ->
     dom (st_fs r) = dom (st_fs s') ->
     same_dirs (st_fs s') (st_fs r) ->
     exists r',
       CreateDentalDataset.create_dataset out n split r = (Ret tt, r') /\
       dom (st_fs r') = dom (st_fs s') /\
       same_dirs (st_fs s') (st_fs r') /\
       (forall d, d ∈ dataset_dirs out -> st_fs r' !! d = Some Dir) /\
       (forall sp i,
          sp = "train" \/ sp = "val" -> (i < split_size n split sp)%nat ->
          (exists line,
             st_fs r' !! label_path out sp i = Some (File (Text line)) /\
             valid_line 10 line) /\
          (is_file (st_fs s') (img_path out sp i) = true ->
           exists im,
             st_fs r' !! img_path out sp i = Some (File (Jpeg im)))) /\
       st_fs r' !! manifest_path out
         = Some (File (Yaml (CreateDentalDataset.dataset_config out)))) /\
  (forall out n split k s,
     split_count n split = Ret k ->
     st_fs s = ∅ ->
     exists s',
       CreateDentalDataset.create_dataset out n split s = (Ret tt, s')).
Proof.
  split.
  - intros out n split s s' r H Hdom Hdirs.
    destruct (create_dataset_over out n split s s' r H Hdom Hdirs)
      as (r' & E & Hdom' & Hdirs').
    exists r'. split; [exact E|]. split; [exact Hdom'|].
    split; [exact Hdirs'|].
    apply create_dataset_written in H.
    apply create_dataset_written in E.
    split; [|split].
    + intros d Hd.
      eapply dw_dirs_exist; [exact E | exact Hd |].
      apply self_in_prefixes. eapply dataset_dir_nonempty, Hd.
    + intros sp i Hsp Hi. unfold split_size in Hi. split.
      * destruct Hsp as [-> | ->]; cbn [String.eqb] in Hi.
        -- eapply dw_train_label; eassumption.
        -- eapply dw_val_label; eassumption.
      * intros Hf.
        pose proof (dw_over_image _ _ _ _ _ _ _ _ H _ Hdirs sp i) as Hopen.
        destruct Hsp as [-> | ->]; cbn [String.eqb] in Hi.
        -- eapply dw_train_image; [exact E | exact Hi |].
           apply Hopen; [left; split; [reflexivity | exact Hi] | exact Hf].
        -- eapply dw_val_image; [exact E | exact Hi |].
           apply Hopen; [right; split; [reflexivity | exact Hi] | exact Hf].
    + eapply dw_manifest, E.
  - intros out n split k s Hk Hs.
    apply create_dataset_from_empty; [eauto | exact Hs].
Qed.

Lemma assembler_idempotent_witness :
  let first := CreateDentalDataset.create_dataset ["out"] 2 0.5 demo_state in
  let stale := <[label_path ["out"] "train" 0 := File (Text "stale")]>
                 (st_fs (snd first)) in
  let r := {| st_rng := fun k => (N.of_nat k * 104729 + 7)%N;
              st_fs := stale; st_out := []; st_calls := [] |} in
  first = (Ret tt, snd first) /\
  exists r' line,
    CreateDentalDataset.create_dataset ["out"] 2 0.5 r = (Ret tt, r') /\
    dom (st_fs r') = dom (st_fs (snd first)) /\
    st_fs r' !! label_path ["out"] "train" 0 = Some (File (Text line)) /\
    valid_line 10 line.
Proof.
  intros first stale r.
  assert (first = (Ret tt, snd first)) as E by (vm_compute; reflexivity).
  split; [exact E|].
  assert (dom stale = dom (st_fs (snd first))) as Hdom.
  { apply dom_insert_present, elem_of_dom. eexists.
    vm_compute. reflexivity. }
  assert (same_dirs (st_fs (snd first)) stale) as Hdirs.
  { apply same_dirs_insert_file. vm_compute. reflexivity. }
  destruct (proj1 assembler_idempotent ["out"] 2 0.5%float demo_state
              (snd first) r E Hdom Hdirs)
    as (r' & E' & Hdom' & _ & _ & Hfiles & _).
  destruct (Hfiles "train" 0%nat) as [(line & Hl & Hv) _].
  - left. reflexivity.
  - vm_compute. lia.
  - exists r', line. auto.
Defined.

End Claims.

(** ** Further properties of the generators *)

Module More.
Import Py Spec Properties PyFacts.

(** *** Nothing is lost *)

Lemma fs_grows_refl (f : fs) : fs_grows f f.
Proof. intros p. split; eauto. Qed.

Lemma fs_grows_trans (f1 f2 f3 : fs) :
  fs_grows f1 f2 -> fs_grows f2 f3 -> fs_grows f1 f3.
Proof.
  intros H1 H2 p. destruct (H1 p) as [D1 F1], (H2 p) as [D2 F2].
  split; [auto|].
  intros c Hc. destruct (F1 c Hc) as (c' & Hc'). eauto.
Qed.

Lemma fs_grows_insert_file (f : fs) (p : path) (c : content) :
  f !! p <> Some Dir -> fs_grows f (<[p := File c]> f).
Proof.
  intros Hp q. destruct (decide (q = p)) as [->|Hq].
  - rewrite lookup_insert_eq. split; [contradiction | eauto].
  - rewrite lookup_insert_ne by congruence. split; eauto.
Qed.

Lemma fs_grows_make_dirs (p : path) (f : fs) :
  (forall q, q ∈ prefixes p -> is_file f q = false) ->
  fs_grows f (make_dirs p f).
Proof.
  intros Hp q. rewrite lookup_make_dirs.
  destruct (decide (q ∈ prefixes p)) as [Hq|_]; [|split; eauto].
  split; [reflexivity|].
  intros c Hc. specialize (Hp q Hq).
  assert (is_file f q = true) as E by (apply is_file_true; eauto).
  congruence.
Qed.

Lemma not_dir_lookup (f : fs) (p : path) :
  is_dir f p = false -> f !! p <> Some Dir.
Proof.
  intros H E. assert (is_dir f p = true) by (apply is_dir_true; auto).
  congruence.
Qed.

Lemma grows_pure {A : Type} (m : py A) : fs_pure m -> grows m.
Proof.
  intros H s o s' E. destruct (H s o s' E) as [-> _]. apply fs_grows_refl.
Qed.

Lemma grows_bind {A B : Type} (m : py A) (k : A -> py B) :
  grows m -> (forall a, grows (k a)) -> grows (m ≫= k).
Proof.
  intros Hm Hk s o s'. rewrite bind_unfold.
  destruct (m s) as [[a|e] s1] eqn:E; intros H.
  - eapply fs_grows_trans; [eapply Hm, E | eapply Hk, H].
  - injection H as <- <-. eapply Hm, E.
Qed.

Lemma grows_when (b : bool) (m : py unit) : grows m -> grows (when b m).
Proof.
  intros H. destruct b; [exact H|]. apply grows_pure, fs_pure_mret.
Qed.

Lemma grows_write_file (p : path) (c : content) : grows (write_file p c).
Proof.
  intros s o s'. unfold write_file.
  destruct (open_w_error (st_fs s) p) eqn:E; intros [= <- <-].
  - apply fs_grows_refl.
  - apply open_w_error_None in E as [E _].
    apply fs_grows_insert_file, not_dir_lookup, E.
Qed.

Lemma grows_imwrite (p : path) (im : raster) : grows (imwrite p im).
Proof.
  intros s o s'. unfold imwrite.
  destruct (open_w_error (st_fs s) p) eqn:E; intros [= <- <-].
  - apply fs_grows_refl.
  - apply open_w_error_None in E as [E _].
    apply fs_grows_insert_file, not_dir_lookup, E.
Qed.

Lemma grows_mkdir (p : path) : grows (mkdir_parents_exist_ok p).
Proof.
  intros s o s'. unfold mkdir_parents_exist_ok.
  destruct (is_file (st_fs s) p); [intros [= <- <-]; apply fs_grows_refl|].
  destruct (existsb _ _) eqn:E; intros [= <- <-]; [apply fs_grows_refl|].
  apply fs_grows_make_dirs. intros q Hq.
  destruct (is_file (st_fs s) q) eqn:Eq; [|reflexivity].
  assert (existsb (is_file (st_fs s)) (prefixes p) = true) as E'.
  { apply existsb_exists. exists q. split; [|exact Eq].
    now apply list_elem_of_In. }
  congruence.
Qed.

Lemma grows_for_each (body : nat -> py unit) (l : list nat) :
  (forall i, grows (body i)) -> grows (for_each l body).
Proof.
  intros H. induction l as [|i l IH]; simpl.
  - apply grows_pure, fs_pure_mret.
  - apply grows_bind; [apply H | intros _; exact IH].
Qed.

Lemma grows_try_except {A : Type} (m : py A) (h : string -> py A) :
  grows m -> (forall msg, grows (h msg)) -> grows (try_except m h).
Proof.
  intros Hm Hh s o s'. unfold try_except.
  destruct (m s) as [[a|e] s1] eqn:E.
  - intros [= <- <-]. eapply Hm, E.
  - pose proof (Hm _ _ _ E) as G.
    destruct e; intros H;
      try (eapply fs_grows_trans; [exact G | eapply Hh, H]).
    injection H as <- <-. exact G.
Qed.

(** Nothing is lost under a program built from the pieces above. *)
Ltac grows_step :=
  lazymatch goal with
  | |- grows (_ ≫= _) => apply grows_bind; [|intros ?]
  | |- grows (write_file _ _) => apply grows_write_file
  | |- grows (imwrite _ _) => apply grows_imwrite
  | |- grows (mkdir_parents_exist_ok _) => apply grows_mkdir
  | |- grows (when _ _) => apply grows_when
  | |- grows (for_each _ _) => apply grows_for_each; intros ?
  | |- grows (try_except _ _) => apply grows_try_except; [|intros ?]
  | |- grows (print _) => apply grows_pure, fs_pure_print
  | |- grows (mret _) => apply grows_pure, fs_pure_mret
  | |- grows (raise _) => apply grows_pure, fs_pure_raise
  | |- grows (draw _) => apply grows_pure, fs_pure_draw
  | |- grows (choice _) => apply grows_pure, fs_pure_choice
  | |- grows (index _ _) => apply grows_pure, fs_pure_index
  | |- grows (int_times_float _ _) =>
    apply grows_pure, fs_pure_int_times_float
  | |- grows (py_int _) => apply grows_pure, fs_pure_py_int
  | |- grows (parse_args _ _) => apply grows_pure, fs_pure_parse_args
  end.

Ltac grows_tac := repeat grows_step.


Lemma grows_create_dataset out n split :
  grows (CreateDentalDataset.create_dataset out n split).
Proof.
  unfold CreateDentalDataset.create_dataset,
         CreateDentalDataset.sample_step, for_range.
  grows_tac.
  all: lazymatch goal with
       | |- grows (CreateDentalDataset.create_dental_image _ _ _) =>
         apply grows_pure, DatasetFacts.fs_pure_create_dental_image
       | |- grows (CreateDentalDataset.print_classes _ _) =>
         apply grows_pure, DatasetFacts.fs_pure_print_classes
       | |- grows (CreateDentalDataset.create_annotation _ _ _ _ _) =>
         unfold CreateDentalDataset.create_annotation,
           CreateDentalDataset.annotation_box;
         apply grows_bind; [|intros ?; grows_tac];
         apply grows_bind; [|intros [[? ?] ?]; grows_tac];
         repeat match goal with
                | |- grows (if ?b then _ else _) => destruct b
                end; grows_tac
       end.
Qed.

Lemma fs_pure_condition_loop self w h conditions :
  fs_pure (TrainDentalYolo.condition_loop self w h conditions).
Proof.
  induction conditions as [|c conditions IH];
    cbn [TrainDentalYolo.condition_loop].
  - apply fs_pure_mret.
  - apply fs_pure_bind; [|intros p].
    { unfold TrainDentalYolo.place.
      repeat (apply fs_pure_bind; [apply fs_pure_draw | intros ?]).
      apply fs_pure_mret. }
    apply fs_pure_bind; [apply fs_pure_index | intros class_id].
    apply fs_pure_bind; [exact IH | intros [shapes anns]].
    apply fs_pure_mret.
Qed.

Lemma fs_pure_generate_image self w h :
  fs_pure (TrainDentalYolo.generate_synthetic_dental_image self w h).
Proof.
  unfold TrainDentalYolo.generate_synthetic_dental_image.
  apply fs_pure_bind; [apply DatasetFacts.fs_pure_py_randint | intros k].
  apply fs_pure_bind; [apply fs_pure_sample | intros conditions].
  apply fs_pure_bind; [apply fs_pure_condition_loop | intros [shapes anns]].
  apply fs_pure_mret.
Qed.

Lemma grows_generate_step a : grows (TrainDentalYolo.generate_step a).
Proof.
  unfold TrainDentalYolo.generate_step, TrainDentalYolo.DentalDatasetGenerator,
    TrainDentalYolo.setup_directories, TrainDentalYolo.mkdir_all,
    TrainDentalYolo.generate_dataset, TrainDentalYolo.sample_step,
    TrainDentalYolo.create_dataset_yaml, for_range.
  grows_tac.
  all: lazymatch goal with
       | |- grows (TrainDentalYolo.generate_synthetic_dental_image _ _ _) =>
         apply grows_pure, fs_pure_generate_image
       | |- grows (let '(_, _) := ?p in _) => destruct p; grows_tac
       end.
Qed.

Lemma grows_create_main a : grows (CreateDentalDataset.main a).
Proof.
  unfold CreateDentalDataset.main.
  apply grows_bind; [grows_tac | intros _].
  apply grows_bind; [grows_tac | intros _].
  apply grows_bind; [apply grows_create_dataset | intros _].
  grows_tac.
Qed.

Lemma grows_create_main_argv parser argv :
  grows (CreateDentalDataset.main_argv parser argv).
Proof.
  unfold CreateDentalDataset.main_argv.
  apply grows_bind; [grows_tac | intros a; apply grows_create_main].
Qed.

(** X1. Neither generator ever removes an entry of the file system or
    changes its kind. However a run of the dataset script ends, and
    however step 1 of the training pipeline ends (the part that
    generates the dataset, before the first call into a library),
    normally or with an exception, every directory that existed before
    is still a directory and every regular file is still a regular
    file. *)
Theorem generators_lose_nothing :
  (forall parser argv s,
     fs_grows (st_fs s)
              (st_fs (snd (CreateDentalDataset.command parser argv s)))) /\
  (forall a s,
     fs_grows (st_fs s) (st_fs (snd (TrainDentalYolo.generate_step a s)))).
Proof.
  split.
  - intros parser argv s. unfold CreateDentalDataset.command.
    destruct (CreateDentalDataset.main_argv parser argv s) as [o s'] eqn:E.
    simpl. revert E. apply grows_create_main_argv.
  - intros a s.
    destruct (TrainDentalYolo.generate_step a s) as [o s'] eqn:E.
    simpl. eapply grows_generate_step, E.
Qed.


(** *** When a run completes *)

Lemma lookup_made_path3 (out : path) (f : fs) (top split name : string) :
  make_all_dirs out f !! (out ++ [top; split; name])
  = f !! (out ++ [top; split; name]).
Proof.
  rewrite lookup_make_all_dirs. destruct (decide _) as [Hx|_]; [|reflexivity].
  apply Exists_exists in Hx as (d & Hin & Hq).
  now apply path3_not_dir_prefix in Hq.
Qed.

Lemma lookup_made_manifest (out : path) (f : fs) :
  make_all_dirs out f !! manifest_path out = f !! manifest_path out.
Proof.
  rewrite lookup_make_all_dirs. destruct (decide _) as [Hx|_]; [|reflexivity].
  apply Exists_exists in Hx as (d & Hin & Hq).
  now apply manifest_not_dir_prefix in Hq.
Qed.

Lemma is_dir_false (f : fs) (p : path) :
  p <> [] -> (is_dir f p = false <-> f !! p <> Some Dir).
Proof.
  intros Hp. split.
  - apply not_dir_lookup.
  - intros Hn. destruct (is_dir f p) eqn:E; [|reflexivity].
    apply is_dir_true in E as [E|E]; contradiction.
Qed.

Lemma open_made_path3 (out : path) (f : fs) (top split name : string) :
  out ++ [top; split] ∈ dataset_dirs out ->
  open_w_error (make_all_dirs out f) (out ++ [top; split; name]) = None <->
  f !! (out ++ [top; split; name]) <> Some Dir.
Proof.
  intros Hd. rewrite open_w_error_None, parent_path3.
  rewrite (make_all_dirs_is_dir out f _ Hd).
  rewrite is_dir_false by apply path3_nonempty.
  rewrite lookup_made_path3. tauto.
Qed.

Lemma made_out_is_dir (out : path) (f : fs) : is_dir (make_all_dirs out f) out = true.
Proof.
  apply is_dir_true. destruct out as [|x out]; [now left | right].
  rewrite lookup_make_all_dirs.
  destruct (decide _) as [|Hn]; [reflexivity|].
  exfalso. apply Hn, Exists_exists.
  exists ((x :: out) ++ ["images"; "train"]). split.
  - unfold dataset_dirs. left.
  - apply out_in_dir_prefixes; [discriminate|]. unfold dataset_dirs. left.
Qed.

Lemma open_made_manifest (out : path) (f : fs) :
  open_w_error (make_all_dirs out f) (manifest_path out) = None <->
  f !! manifest_path out <> Some Dir.
Proof.
  rewrite open_w_error_None, parent_manifest, made_out_is_dir.
  rewrite is_dir_false, lookup_made_manifest; [tauto|].
  unfold manifest_path. destruct out; discriminate.
Qed.

Lemma images_train_dir (out : path) : out ++ ["images"; "train"] ∈ dataset_dirs out.
Proof. unfold dataset_dirs. left. Qed.
Lemma images_val_dir (out : path) : out ++ ["images"; "val"] ∈ dataset_dirs out.
Proof. unfold dataset_dirs. right; left. Qed.
Lemma labels_train_dir (out : path) : out ++ ["labels"; "train"] ∈ dataset_dirs out.
Proof. unfold dataset_dirs. right; right; left. Qed.
Lemma labels_val_dir (out : path) : out ++ ["labels"; "val"] ∈ dataset_dirs out.
Proof. unfold dataset_dirs. right; right; right; left. Qed.

(** What a completed run needed, read on the file system it started
    from. *)
Lemma dw_writable (Q : string -> Prop) (strict : bool) (out : path)
    (nt nv : nat) (cfg : manifest) (f f' : fs) :
  dataset_written Q strict out nt nv cfg f f' ->
  writable strict out nt nv f.
Proof.
  intros H. destruct (dw_needs _ _ _ _ _ _ _ _ H) as (Hd & Ht & Hv & Hy).
  split; [exact Hd|]. split; [|split; [|split]].
  - intros i Hi. apply (open_made_path3 out f "labels" "train").
    + apply labels_train_dir.
    + apply Ht, Hi.
  - intros i Hi. apply (open_made_path3 out f "labels" "val").
    + apply labels_val_dir.
    + apply Hv, Hi.
  - apply open_made_manifest, Hy.
  - intros Hs. destruct (dw_strict_needs _ _ _ _ _ _ _ _ H Hs) as [It Iv].
    split; intros i Hi.
    + apply (open_made_path3 out f "images" "train");
        [apply images_train_dir | apply It, Hi].
    + apply (open_made_path3 out f "images" "val");
        [apply images_val_dir | apply Iv, Hi].
Qed.

Lemma create_dataset_completes (out : path) (n : Z) (split : float)
    (s : state) :
  (exists s', CreateDentalDataset.create_dataset out n split s = (Ret tt, s'))
  <->
  exists k,
    split_count n split = Ret k /\
    writable false out (Z.to_nat k) (Z.to_nat (n - k)) (st_fs s).
Proof.
  split.
  - intros (s' & H).
    destruct (DatasetFacts.create_dataset_counted _ _ _ _ _ H) as [k Ek].
    exists k. split; [exact Ek|].
    apply train_count_eq in Ek. subst k. eapply dw_writable.
    apply DatasetFacts.create_dataset_written, H.
  - intros (k & Ek & Hd & Ht & Hv & Hy & _).
    pose proof (train_count_eq _ _ _ Ek) as Et. subst k.
    apply DatasetFacts.create_dataset_returns.
    + eauto.
    + exact Hd.
    + intros i Hi. apply (open_made_path3 out _ "labels" "train");
        [apply labels_train_dir | apply Ht, Hi].
    + intros i Hi. apply (open_made_path3 out _ "labels" "val");
        [apply labels_val_dir | apply Hv, Hi].
    + apply open_made_manifest, Hy.
Qed.

(** X2. The dataset assembler completes exactly when its split can be
    computed and the file system it starts from lets it: the count is
    in the range of a double and the product is a number, no ancestor of
    the four directories is a regular file, and neither a label path
    nor the manifest path is a directory. Nothing else matters: not the
    random generator, not what the directories already hold, not
    whether an image can be stored. *)
Theorem create_dataset_completes_iff (out : path) (n : Z) (split : float)
    (s : state) :
  (exists s', CreateDentalDataset.create_dataset out n split s = (Ret tt, s'))
  <->
  exists k,
    split_count n split = Ret k /\
    writable false out (Z.to_nat k) (Z.to_nat (n - k)) (st_fs s).
Proof. apply create_dataset_completes. Qed.


(** *** Sampling without replacement yields distinct elements *)

Lemma pool_step (pool : list string) (m j : nat) (x last : string) :
  (j < m)%nat -> pool !! j = Some x -> pool !! (m - 1)%nat = Some last ->
  NoDup (take m pool) ->
  NoDup (take (m - 1) (<[j := last]> pool)) /\
  forall y, y ∈ take (m - 1) (<[j := last]> pool) ->
            y ∈ take m pool /\ y <> x.
Proof.
  intros Hj Hx Hl Hnd.
  assert (forall a y, (a < m - 1)%nat -> <[j := last]> pool !! a = Some y ->
            exists b, (b < m)%nat /\ pool !! b = Some y /\ b <> j /\
                      (a = j -> b = (m - 1)%nat) /\ (a <> j -> b = a)) as K.
  { intros a y Ha Hy.
    apply list_lookup_insert_Some in Hy as [(<- & <- & _)|[Hne Hy]].
    - exists (m - 1)%nat. repeat split; try lia; try assumption.
    - exists a. repeat split; try lia; try congruence; try assumption. }
  assert (forall a b y, (a < m)%nat -> (b < m)%nat ->
            pool !! a = Some y -> pool !! b = Some y -> a = b) as Inj.
  { intros a b y Ha Hb Ea Eb.
    apply (NoDup_lookup (take m pool) a b y Hnd);
      rewrite lookup_take_lt by assumption; assumption. }
  split.
  - apply NoDup_alt. intros a b y Ha Hb.
    apply lookup_take_Some in Ha as [Ha La].
    apply lookup_take_Some in Hb as [Hb Lb].
    destruct (K _ _ La Ha) as (a' & La' & Ea & Na & Ja & Ia).
    destruct (K _ _ Lb Hb) as (b' & Lb' & Eb & Nb & Jb & Ib).
    pose proof (Inj _ _ _ La' Lb' Ea Eb) as E.
    destruct (decide (a = j)) as [Aj|Aj], (decide (b = j)) as [Bj|Bj];
      first [specialize (Ja Aj) | specialize (Ia Aj)];
      first [specialize (Jb Bj) | specialize (Ib Bj)]; lia.
  - intros y Hy. apply elem_of_take in Hy as (a & Hy & La).
    destruct (K _ _ La Hy) as (b & Lb & Eb & Nb & _).
    split.
    + apply elem_of_take. eauto.
    + intros ->. apply Nb. exact (Inj _ _ _ Lb Hj Eb Hx).
Qed.

Lemma draw_randbelow (n : nat) (s : state) :
  (0 < n)%nat ->
  exists j s', draw (randbelow (N.of_nat n)) s = (Ret j, s') /\
               (N.to_nat j < n)%nat.
Proof.
  intros Hn. unfold draw, randbelow, getrand.
  eexists _, _. split; [reflexivity|].
  pose proof (N.mod_upper_bound (st_rng s 0%nat) (N.of_nat n) ltac:(lia)) as Hm.
  set (r := (_ mod _)%N) in *. clearbody r. lia.
Qed.

(** The loop of [random.sample] never fails on a pool that is long
    enough, and what it selects from distinct elements is distinct. *)
Lemma sample_loop_distinct (pool : list string) (n k i : nat) (s : state) :
  length pool = n -> (i + k <= n)%nat -> NoDup (take (n - i) pool) ->
  exists l s', sample_loop pool n k i s = (Ret l, s') /\ NoDup l /\
               forall x, x ∈ l -> x ∈ take (n - i) pool.
Proof.
  revert pool i s. induction k as [|k IH]; intros pool i s Hlen Hk Hnd.
  - exists [], s. split; [reflexivity|]. split; [constructor|].
    intros x Hx. inversion Hx.
  - cbn [sample_loop].
    destruct (draw_randbelow (n - i) s ltac:(lia)) as (j & s1 & Ej & Lj).
    rewrite bind_unfold, Ej.
    destruct (lookup_lt_is_Some_2 pool (N.to_nat j) ltac:(lia)) as [x Ex].
    destruct (lookup_lt_is_Some_2 pool (n - i - 1) ltac:(lia)) as [y Ey].
    rewrite Ex, Ey.
    destruct (pool_step pool (n - i) (N.to_nat j) x y Lj Ex Ey Hnd)
      as [Hnd' Hsub].
    destruct (IH (<[N.to_nat j := y]> pool) (S i) s1) as (l & s' & E & Nl & Sl).
    { now rewrite length_insert. }
    { lia. }
    { replace (n - S i)%nat with (n - i - 1)%nat by lia. exact Hnd'. }
    rewrite bind_unfold, E.
    exists (x :: l), s'. split; [reflexivity|].
    replace (n - S i)%nat with (n - i - 1)%nat in Sl by lia.
    split.
    + constructor; [|exact Nl]. intros Hx.
      destruct (Hsub x (Sl x Hx)) as [_ Hne]. now apply Hne.
    + intros z Hz. apply elem_of_cons in Hz as [->|Hz].
      * apply elem_of_take. exists (N.to_nat j). auto.
      * apply (Hsub z (Sl z Hz)).
Qed.

Lemma sample_distinct (population : list string) (k : Z) (s : state) :
  0 <= k <= Z.of_nat (length population) -> NoDup population ->
  exists l s', sample population k s = (Ret l, s') /\ NoDup l.
Proof.
  intros Hk Hnd. unfold sample.
  destruct (_ || _) eqn:E.
  { apply orb_true_iff in E as [E|E]; apply Z.ltb_lt in E; lia. }
  destruct (sample_loop_distinct population (length population)
              (Z.to_nat k) 0 s eq_refl ltac:(lia)) as (l & s' & H & Nl & _).
  { rewrite Nat.sub_0_r, firstn_all. exact Hnd. }
  eauto.
Qed.


(** *** The multi-label generator never fails on its own *)

Lemma condition_loop_returns self w h conditions s :
  (forall c, c ∈ conditions -> c ∈ TrainDentalYolo.classes self) ->
  exists r s', TrainDentalYolo.condition_loop self w h conditions s
               = (Ret r, s').
Proof.
  revert s. induction conditions as [|c conditions IH]; intros s Hin;
    cbn [TrainDentalYolo.condition_loop].
  - eexists _, _. reflexivity.
  - destruct (YoloFacts.place_spec c s) as (p & s1 & E1 & _).
    rewrite bind_unfold, E1.
    destruct (index_returns (TrainDentalYolo.classes self) c s1)
      as (class_id & E2).
    { apply Hin. left. }
    rewrite bind_unfold, E2.
    destruct (IH s1) as ([shapes anns] & s2 & E3).
    { intros c' Hc'. apply Hin. now right. }
    rewrite bind_unfold, E3. eexists _, _. reflexivity.
Qed.

Lemma NoDup_default_classes : NoDup TrainDentalYolo.default_classes.
Proof. apply (bool_decide_unpack _). vm_compute. exact I. Qed.

Lemma generate_image_returns self w h s :
  TrainDentalYolo.classes self = TrainDentalYolo.default_classes ->
  exists image annotations s' ps,
    TrainDentalYolo.generate_synthetic_dental_image self w h s
      = (Ret (image, annotations), s') /\
    (1 <= length ps <= 4)%nat /\
    NoDup (map TrainDentalYolo.p_condition ps) /\
    Forall2 (TrainDentalYolo.annotates TrainDentalYolo.default_classes)
            ps annotations /\
    st_fs s' = st_fs s.
Proof.
  intros Hc. unfold TrainDentalYolo.generate_synthetic_dental_image.
  destruct (DatasetFacts.py_randint_returns 1 4 ltac:(lia) s) as (k & s1 & E1).
  pose proof (YoloFacts.py_randint_ret_inv _ _ _ _ _ E1) as (Hk & F1 & _).
  rewrite bind_unfold, E1.
  destruct (sample_distinct (TrainDentalYolo.classes self) k s1)
    as (conditions & s2 & E2 & Nd).
  { rewrite Hc. simpl. lia. }
  { rewrite Hc. apply NoDup_default_classes. }
  pose proof (fs_pure_sample _ _ _ _ _ E2) as [F2 _].
  pose proof (sample_spec _ _ _ _ _ E2) as (_ & Hlen & Hin).
  rewrite bind_unfold, E2.
  destruct (condition_loop_returns self w h conditions s2 Hin)
    as ([shapes anns] & s3 & E3).
  rewrite bind_unfold, E3.
  apply YoloFacts.condition_loop_spec in E3
    as (ps & Hps & _ & Hann & _ & F3 & _).
  eexists _, _, _, ps. split; [reflexivity|].
  split; [|split; [|split]].
  - rewrite <- (length_map TrainDentalYolo.p_condition), Hps, Hlen. lia.
  - rewrite Hps. exact Nd.
  - rewrite <- Hc. exact Hann.
  - congruence.
Qed.

Lemma multi_sample_step_returns self split every noun count i s :
  TrainDentalYolo.classes self = TrainDentalYolo.default_classes ->
  open_w_error (st_fs s) (img_path (TrainDentalYolo.output_dir self) split i)
    = None ->
  open_w_error (st_fs s) (label_path (TrainDentalYolo.output_dir self) split i)
    = None ->
  exists s', TrainDentalYolo.sample_step self split every noun count i s
             = (Ret tt, s').
Proof.
  intros Hc Oi Ol. unfold TrainDentalYolo.sample_step.
  destruct (generate_image_returns self 416 416 s Hc)
    as (image & anns & s1 & ps & E1 & _ & _ & _ & F1).
  rewrite bind_unfold, E1.
  fold (img_path (TrainDentalYolo.output_dir self) split i).
  fold (label_path (TrainDentalYolo.output_dir self) split i).
  rewrite bind_unfold, write_file_returns by (now rewrite F1).
  rewrite bind_unfold, write_file_returns.
  - apply returns_unit, returns_when, returns_print.
  - cbn [st_fs set_fs]. rewrite F1.
    apply open_w_error_None in Oi as [Oi _].
    apply (proj2 (same_dirs_open_w_error _ _ _
                    (same_dirs_insert_file _ _ (Jpeg image) Oi))), Ol.
Qed.

Lemma keeps_multi_sample_step F self split every noun count i :
  TrainDentalYolo.classes self = TrainDentalYolo.default_classes ->
  open_w_error F (img_path (TrainDentalYolo.output_dir self) split i) = None ->
  open_w_error F (label_path (TrainDentalYolo.output_dir self) split i)
    = None ->
  keeps (same_dirs F)
        (TrainDentalYolo.sample_step self split every noun count i).
Proof.
  intros Hc Oi Ol s Hs.
  destruct (multi_sample_step_returns self split every noun count i s Hc)
    as (s' & E).
  { apply (proj2 (same_dirs_open_w_error _ _ _ Hs)), Oi. }
  { apply (proj2 (same_dirs_open_w_error _ _ _ Hs)), Ol. }
  exists tt, s'. split; [exact E|].
  eapply same_dirs_trans; [exact Hs|].
  eapply sample_written_same_dirs, YoloFacts.multi_sample_step_written, E.
Qed.


(** A program that computes the split goes on with the count. *)
Lemma keeps_split_count {A : Type} (I : fs -> Prop) (n : Z) (x : float)
    (c : Z) (k : Z -> py A) :
  split_count n x = Ret c -> keeps I (k c) ->
  keeps I (product ← int_times_float n x; c' ← py_int product; k c').
Proof. intros Ec Hk s Hs. rewrite split_count_run, Ec. apply Hk, Hs. Qed.

Lemma generate_step_returns a s :
  (exists c, split_count (TrainDentalYolo.a_num_images a) 0.8 = Ret c) ->
  writable true (TrainDentalYolo.a_dataset_dir a)
    (Z.to_nat (train_count (TrainDentalYolo.a_num_images a) 0.8))
    (Z.to_nat (TrainDentalYolo.a_num_images a
               - train_count (TrainDentalYolo.a_num_images a) 0.8))
    (st_fs s) ->
  exists yaml s', TrainDentalYolo.generate_step a s = (Ret yaml, s').
Proof.
  intros [c Ec] (Hd & Ht & Hv & Hy & Hi).
  destruct (Hi eq_refl) as [It Iv]. clear Hi.
  set (out := TrainDentalYolo.a_dataset_dir a) in *.
  set (n := TrainDentalYolo.a_num_images a) in *.
  pose proof (train_count_eq _ _ _ Ec) as Et.
  unfold TrainDentalYolo.generate_step.
  rewrite bind_unfold. unfold print at 1.
  match goal with |- context [TrainDentalYolo.DentalDatasetGenerator _ _ ≫= _] =>
    idtac end.
  match goal with |- exists _ _, _ ?st = _ => set (s0 := st) end.
  assert (st_fs s0 = st_fs s) as F0 by reflexivity. clearbody s0.
  rewrite <- F0 in *.
  unfold TrainDentalYolo.DentalDatasetGenerator,
    TrainDentalYolo.setup_directories, TrainDentalYolo.mkdir_all.
  cbn [TrainDentalYolo.output_dir]. fold out n.
  destruct (mkdir_snoc_returns [] (out ++ ["images"; "train"]) (st_fs s0) s0)
    as (s1 & M1 & E1 & _); [| reflexivity | |].
  { apply (DatasetFacts.dataset_dir_nonempty out), images_train_dir. }
  { intros d q Hin. apply Hd. unfold dataset_dirs.
    apply list_elem_of_In. apply list_elem_of_In in Hin.
    simpl in *. tauto. }
  destruct (mkdir_snoc_returns [out ++ ["images"; "train"]]
              (out ++ ["images"; "val"]) (st_fs s0) s1)
    as (s2 & M2 & E2 & _); [| exact E1 | |].
  { apply (DatasetFacts.dataset_dir_nonempty out), images_val_dir. }
  { intros d q Hin. apply Hd. unfold dataset_dirs.
    apply list_elem_of_In. apply list_elem_of_In in Hin.
    simpl in *. tauto. }
  destruct (mkdir_snoc_returns
              [out ++ ["images"; "train"]; out ++ ["images"; "val"]]
              (out ++ ["labels"; "train"]) (st_fs s0) s2)
    as (s3 & M3 & E3 & _); [| exact E2 | |].
  { apply (DatasetFacts.dataset_dir_nonempty out), labels_train_dir. }
  { intros d q Hin. apply Hd. unfold dataset_dirs.
    apply list_elem_of_In. apply list_elem_of_In in Hin.
    simpl in *. tauto. }
  destruct (mkdir_snoc_returns
              [out ++ ["images"; "train"]; out ++ ["images"; "val"];
               out ++ ["labels"; "train"]]
              (out ++ ["labels"; "val"]) (st_fs s0) s3)
    as (s4 & M4 & E4 & _); [| exact E3 | |].
  { apply (DatasetFacts.dataset_dir_nonempty out), labels_val_dir. }
  { intros d q Hin. apply Hd. exact Hin. }
  simpl app in E4.
  rewrite !bind_unfold, M1. cbv beta iota.
  rewrite !bind_unfold, M2. cbv beta iota.
  rewrite !bind_unfold, M3. cbv beta iota.
  rewrite !bind_unfold, M4. cbv beta iota delta [mret py_ret].
  set (self := {| TrainDentalYolo.output_dir := out;
                  TrainDentalYolo.num_images := n;
                  TrainDentalYolo.classes := TrainDentalYolo.default_classes |}).
  assert (keeps (same_dirs (make_all_dirs out (st_fs s0)))
            (TrainDentalYolo.generate_dataset self;;
             TrainDentalYolo.create_dataset_yaml self)) as K.
  { unfold TrainDentalYolo.generate_dataset,
      TrainDentalYolo.create_dataset_yaml.
    cbn [TrainDentalYolo.output_dir TrainDentalYolo.num_images].
    apply keeps_bind; [|intros _].
    { apply keeps_bind; [apply keeps_print | intros _].
      apply (keeps_split_count _ n 0.8%float c _ Ec). subst c.
      apply keeps_bind; [|intros _].
      { apply keeps_for_each. intros i Hi.
        apply keeps_multi_sample_step; [reflexivity | |].
        - apply (open_made_path3 out _ "images" "train");
            [apply images_train_dir | apply It; now apply elem_of_seq_0].
        - apply (open_made_path3 out _ "labels" "train");
            [apply labels_train_dir | apply Ht; now apply elem_of_seq_0]. }
      apply keeps_bind; [|intros _].
      { apply keeps_for_each. intros i Hi.
        apply keeps_multi_sample_step; [reflexivity | |].
        - apply (open_made_path3 out _ "images" "val");
            [apply images_val_dir | apply Iv; now apply elem_of_seq_0].
        - apply (open_made_path3 out _ "labels" "val");
            [apply labels_val_dir | apply Hv; now apply elem_of_seq_0]. }
      repeat (apply keeps_bind; [apply keeps_print | intros _]).
      apply keeps_print. }
    apply keeps_bind; [apply keeps_write_file, open_made_manifest, Hy
                      | intros _].
    apply keeps_bind; [apply keeps_print | intros _].
    apply keeps_pure; [apply fs_pure_mret | apply returns_mret]. }
  destruct (K s4) as (yaml & s' & E & _).
  { rewrite E4. apply same_dirs_refl. }
  exists yaml, s'. rewrite <- E. reflexivity.
Qed.

Lemma generate_step_completes (a : TrainDentalYolo.args) (s : state) :
  (exists yaml s', TrainDentalYolo.generate_step a s = (Ret yaml, s'))
  <->
  exists k,
    split_count (TrainDentalYolo.a_num_images a) 0.8 = Ret k /\
    writable true (TrainDentalYolo.a_dataset_dir a)
      (Z.to_nat k) (Z.to_nat (TrainDentalYolo.a_num_images a - k))
      (st_fs s).
Proof.
  split.
  - intros (yaml & s' & H).
    destruct (YoloFacts.generate_step_counted _ _ _ _ H) as [k Ek].
    exists k. split; [exact Ek|].
    apply train_count_eq in Ek. subst k.
    apply YoloFacts.generate_step_written in H as [_ H].
    eapply dw_writable, H.
  - intros (k & Ek & Hw).
    pose proof (train_count_eq _ _ _ Ek) as Et. subst k.
    apply generate_step_returns; [eauto | exact Hw].
Qed.

(** X3. Step 1 of the training pipeline, which builds the generator,
    generates the dataset and writes the manifest, completes exactly
    when its split [int(num_images * 0.8)] can be computed, no ancestor
    of the four directories is a regular file and no image, label or
    manifest path is a directory. Unlike the dataset assembler it also
    needs every image path: an image that cannot be stored ends the
    run. *)
Theorem generate_step_completes_iff (a : TrainDentalYolo.args) (s : state) :
  (exists yaml s', TrainDentalYolo.generate_step a s = (Ret yaml, s'))
  <->
  exists k,
    split_count (TrainDentalYolo.a_num_images a) 0.8 = Ret k /\
    writable true (TrainDentalYolo.a_dataset_dir a)
      (Z.to_nat k) (Z.to_nat (TrainDentalYolo.a_num_images a - k))
      (st_fs s).
Proof. apply generate_step_completes. Qed.

(** X4. Building an image in the multi-label generator never fails, for
    any positive image size and any state of the random generator, and
    the one to four conditions placed on it are pairwise distinct: no
    label holds two lines for the same class. *)
Theorem image_conditions_distinct (out : path) (n w h : Z) (s : state) :
  0 < w -> 0 < h ->
  let self := {| TrainDentalYolo.output_dir := out;
                 TrainDentalYolo.num_images := n;
                 TrainDentalYolo.classes := TrainDentalYolo.default_classes |} in
  exists image annotations s' ps,
    TrainDentalYolo.generate_synthetic_dental_image self w h s
      = (Ret (image, annotations), s') /\
    (1 <= length ps <= 4)%nat /\
    NoDup (map TrainDentalYolo.p_condition ps) /\
    Forall2 (TrainDentalYolo.annotates TrainDentalYolo.default_classes)
            ps annotations.
Proof.
  intros _ _ self.
  destruct (generate_image_returns self w h s eq_refl)
    as (image & anns & s' & ps & E & Hlen & Nd & Hann & _).
  exists image, anns, s', ps. auto.
Qed.

Lemma image_conditions_distinct_witness :
  exists image annotations s' ps,
    TrainDentalYolo.generate_synthetic_dental_image
      (TrainDentalYolo.generator_of demo_yolo_args) 416 416 demo_state
      = (Ret (image, annotations), s') /\
    (1 <= length ps <= 4)%nat /\
    NoDup (map TrainDentalYolo.p_condition ps) /\
    Forall2 (TrainDentalYolo.annotates TrainDentalYolo.default_classes)
            ps annotations.
Proof.
  apply (image_conditions_distinct ["ds"] 5 416 416 demo_state); lia.
Defined.


(** *** How a run can fail *)

Lemma keeps_or_keeps {A : Type} (I : fs -> Prop) (E : exn -> Prop)
    (m : py A) :
  keeps I m -> keeps_or I E m.
Proof.
  intros H s Hs. left. destruct (H s Hs) as (a & s' & Em & Hs'). eauto.
Qed.

Lemma keeps_or_bind {A B : Type} (I : fs -> Prop) (E : exn -> Prop)
    (m : py A) (k : A -> py B) :
  keeps_or I E m -> (forall a, keeps_or I E (k a)) -> keeps_or I E (m ≫= k).
Proof.
  intros Hm Hk s Hs. rewrite bind_unfold.
  destruct (Hm s Hs) as [(a & s1 & Em & H1)|(e & s1 & Em & He)]; rewrite Em.
  - apply Hk, H1.
  - right. eauto.
Qed.

Lemma keeps_or_for_each (I : fs -> Prop) (E : exn -> Prop)
    (body : nat -> py unit) (l : list nat) :
  (forall i, i ∈ l -> keeps_or I E (body i)) -> keeps_or I E (for_each l body).
Proof.
  induction l as [|i l IH]; intros H; cbn [for_each].
  - apply keeps_or_keeps, keeps_pure; [apply fs_pure_mret | apply returns_mret].
  - apply keeps_or_bind; [apply H; left|].
    intros _. apply IH. intros j Hj. apply H. now right.
Qed.

Lemma open_w_error_below_dir (f : fs) (p : path) (e : exn) :
  is_dir f (parent p) = true -> open_w_error f p = Some e ->
  e = IsADirectoryError.
Proof.
  unfold open_w_error. intros ->.
  destruct (is_dir f p); congruence.
Qed.

Lemma keeps_or_write_file (F : fs) (p : path) (c : content) :
  is_dir F (parent p) = true ->
  keeps_or (same_dirs F) (eq IsADirectoryError) (write_file p c).
Proof.
  intros Hp s Hs. unfold write_file.
  destruct (open_w_error (st_fs s) p) as [e|] eqn:O.
  - right. exists e, s. split; [reflexivity|]. symmetry.
    apply (open_w_error_below_dir (st_fs s) p); [|exact O].
    now rewrite (same_dirs_is_dir _ _ _ Hs).
  - left. exists tt, (set_fs s (<[p := File c]> (st_fs s))).
    split; [reflexivity|]. cbn [st_fs set_fs].
    eapply same_dirs_trans; [exact Hs|].
    apply same_dirs_insert_file. now apply open_w_error_None in O as [O _].
Qed.

Lemma keeps_or_when (I : fs -> Prop) (E : exn -> Prop) (b : bool)
    (m : py unit) :
  keeps_or I E m -> keeps_or I E (when b m).
Proof.
  intros H. destruct b; [exact H|].
  apply keeps_or_keeps, keeps_pure; [apply fs_pure_mret | apply returns_mret].
Qed.

Lemma mkdir_raises (p : path) (s s' : state) (e : exn) :
  mkdir_parents_exist_ok p s = (Raise e, s') ->
  e = FileExistsError \/ e = NotADirectoryError.
Proof.
  unfold mkdir_parents_exist_ok.
  destruct (is_file (st_fs s) p); [intros [= <- _]; now left|].
  destruct (existsb _ _); intros [= <- _]. now right.
Qed.

(** A sample of the assembler, once the directories exist, completes or
    finds a directory at its label path. *)
Lemma keeps_or_sample_step (F : fs) out split every noun count i :
  is_dir F (parent (label_path out split i)) = true ->
  keeps_or (same_dirs F) (eq IsADirectoryError)
    (CreateDentalDataset.sample_step out split every noun count i).
Proof.
  intros Hp s Hs.
  destruct (open_w_error (st_fs s) (label_path out split i)) as [e|] eqn:Ol.
  2: { left.
       destruct (DatasetFacts.keeps_sample_step F out split every noun
                   count i) with (s := s) as (a & s' & E & Hs').
       - apply (proj1 (same_dirs_open_w_error _ _ _ Hs)), Ol.
       - exact Hs.
       - eauto. }
  right. unfold CreateDentalDataset.sample_step.
  destruct (choice_returns CreateDentalDataset.classes s)
    as (condition & s1 & E1); [discriminate|].
  pose proof (choice_ret_inv _ _ _ _ E1) as Hin.
  pose proof (fs_pure_choice _ _ _ _ E1) as [F1 _].
  rewrite bind_unfold, E1.
  destruct (index_returns CreateDentalDataset.classes condition s1 Hin)
    as (class_id & E2).
  rewrite bind_unfold, E2.
  destruct (DatasetFacts.returns_create_dental_image condition s1)
    as (img & s3 & E3).
  pose proof (DatasetFacts.fs_pure_create_dental_image _ _ _ _ _ _ E3)
    as [F3 _].
  rewrite bind_unfold, E3.
  destruct (imwrite_spec (out ++ ["images"; split;
              split +:+ "_" +:+ format_04d i +:+ ".jpg"]) img s3)
    as (b & Ew).
  rewrite bind_unfold, Ew. rewrite bind_unfold.
  match goal with
  | |- context [CreateDentalDataset.create_annotation ?p _ _ _ _ ?st] =>
    destruct (DatasetFacts.create_annotation_spec p condition class_id
                416 416 st) as (bx & s5 & Ea & F5 & _)
  end.
  rewrite Ea. rewrite bind_unfold. unfold write_file at 1.
  fold (img_path out split i) in *. fold (label_path out split i).
  assert (same_dirs (st_fs s) (st_fs s5)) as D.
  { rewrite F5. cbn [st_fs set_fs]. rewrite F3, F1.
    destruct (open_w_error (st_fs s) (img_path out split i)) eqn:Oi;
      [apply same_dirs_refl|].
    apply same_dirs_insert_file. now apply open_w_error_None in Oi as [Oi _]. }
  destruct (open_w_error (st_fs s5) (label_path out split i)) as [e'|] eqn:O5.
  - eexists _, _. split; [reflexivity|]. symmetry.
    apply (open_w_error_below_dir (st_fs s5) (label_path out split i));
      [|exact O5].
    rewrite (same_dirs_is_dir _ _ _ D), (same_dirs_is_dir _ _ _ Hs). exact Hp.
  - apply (proj1 (same_dirs_open_w_error _ _ _ D)) in O5. congruence.
Qed.


Lemma mkdirs_then {B : Type} (out : path) (k : py B) (s : state) :
  let run := (mkdir_parents_exist_ok (out ++ ["images"; "train"]);;
              mkdir_parents_exist_ok (out ++ ["images"; "val"]);;
              mkdir_parents_exist_ok (out ++ ["labels"; "train"]);;
              mkdir_parents_exist_ok (out ++ ["labels"; "val"]);;
              k) in
  (exists s4, st_fs s4 = make_all_dirs out (st_fs s) /\
              dirs_free out (st_fs s) /\ run s = k s4) \/
  (exists e s', run s = (Raise e, s') /\ ~ dirs_free out (st_fs s) /\
                (e = FileExistsError \/ e = NotADirectoryError)).
Proof.
  intros run. subst run.
  assert (forall ds d s1 e s',
            (forall d', d' ∈ ds ++ [d] -> d' ∈ dataset_dirs out) ->
            st_fs s1 = foldl (fun f' d' => make_dirs d' f') (st_fs s) ds ->
            mkdir_parents_exist_ok d s1 = (Raise e, s') ->
            ~ dirs_free out (st_fs s) /\
            (e = FileExistsError \/ e = NotADirectoryError)) as Bad.
  { intros ds d s1 e s' Hd Hs1 M. split; [|eapply mkdir_raises, M].
    intros Hf.
    destruct (mkdir_snoc_returns ds d (st_fs s) s1) as (s2 & M2 & _).
    - apply (DatasetFacts.dataset_dir_nonempty out), Hd.
      apply elem_of_app. right. left.
    - exact Hs1.
    - intros d' q Hd' Hq. apply (Hf d' q); auto.
    - congruence. }
  destruct (mkdir_parents_exist_ok (out ++ ["images"; "train"]) s)
    as [[[]|e] s1] eqn:M1.
  2: { right. exists e, s1. rewrite bind_unfold, M1. split; [reflexivity|].
       refine (Bad [] _ s e s1 _ eq_refl M1).
       intros d' Hd'. apply list_elem_of_In in Hd'. apply list_elem_of_In.
       simpl in *. tauto. }
  apply (mkdir_snoc [] _ (st_fs s)) in M1 as M1'; [|reflexivity|
    intros ? ? Hin; inversion Hin].
  destruct M1' as [E1 D1].
  destruct (mkdir_parents_exist_ok (out ++ ["images"; "val"]) s1)
    as [[[]|e] s2] eqn:M2.
  2: { right. exists e, s2. rewrite bind_unfold, M1, bind_unfold, M2.
       split; [reflexivity|].
       refine (Bad _ _ s1 e s2 _ E1 M2).
       intros d' Hd'. apply list_elem_of_In in Hd'. apply list_elem_of_In.
       simpl in *. tauto. }
  apply (mkdir_snoc _ _ (st_fs s) _ _ E1 D1) in M2 as M2'.
  destruct M2' as [E2 D2].
  destruct (mkdir_parents_exist_ok (out ++ ["labels"; "train"]) s2)
    as [[[]|e] s3] eqn:M3.
  2: { right. exists e, s3.
       rewrite bind_unfold, M1, bind_unfold, M2, bind_unfold, M3.
       split; [reflexivity|].
       refine (Bad _ _ s2 e s3 _ E2 M3).
       intros d' Hd'. apply list_elem_of_In in Hd'. apply list_elem_of_In.
       simpl in *. tauto. }
  apply (mkdir_snoc _ _ (st_fs s) _ _ E2 D2) in M3 as M3'.
  destruct M3' as [E3 D3].
  destruct (mkdir_parents_exist_ok (out ++ ["labels"; "val"]) s3)
    as [[[]|e] s4] eqn:M4.
  2: { right. exists e, s4.
       rewrite bind_unfold, M1, bind_unfold, M2, bind_unfold, M3,
         bind_unfold, M4.
       split; [reflexivity|].
       refine (Bad _ _ s3 e s4 _ E3 M4).
       intros d' Hd'. apply list_elem_of_In in Hd'. apply list_elem_of_In.
       simpl in *. tauto. }
  apply (mkdir_snoc _ _ (st_fs s) _ _ E3 D3) in M4 as M4'.
  destruct M4' as [E4 D4].
  left. exists s4. split; [exact E4|]. split; [exact D4|].
  rewrite bind_unfold, M1, bind_unfold, M2, bind_unfold, M3, bind_unfold, M4.
  reflexivity.
Qed.


Lemma label_parent_made (out : path) (f : fs) (split : string) (i : nat) :
  out ++ ["labels"; split] ∈ dataset_dirs out ->
  is_dir (make_all_dirs out f) (parent (label_path out split i)) = true.
Proof.
  intros Hd. unfold label_path. rewrite parent_path3.
  apply make_all_dirs_is_dir, Hd.
Qed.

Lemma image_parent_made (out : path) (f : fs) (split : string) (i : nat) :
  out ++ ["images"; split] ∈ dataset_dirs out ->
  is_dir (make_all_dirs out f) (parent (img_path out split i)) = true.
Proof.
  intros Hd. unfold img_path. rewrite parent_path3.
  apply make_all_dirs_is_dir, Hd.
Qed.

Lemma keeps_or_print (I : fs -> Prop) (E : exn -> Prop) (msg : string) :
  keeps_or I E (print msg).
Proof. apply keeps_or_keeps, keeps_print. Qed.

(** A program that computes the split goes on with the count. *)
Lemma keeps_or_split_count {A : Type} (I : fs -> Prop) (E : exn -> Prop)
    (n : Z) (x : float) (c : Z) (k : Z -> py A) :
  split_count n x = Ret c -> keeps_or I E (k c) ->
  keeps_or I E (product ← int_times_float n x; c' ← py_int product; k c').
Proof. intros Ec Hk s Hs. rewrite split_count_run, Ec. apply Hk, Hs. Qed.

(** The count raises for two reasons only. *)
Lemma split_count_raises (n : Z) (x : float) (e : exn) :
  split_count n x = Raise e -> e = OverflowError \/ e = ValueError.
Proof.
  unfold split_count, float_of_int, int_of_float.
  destruct (float_of_Z n); try (intros [= <-]; now left);
    destruct (float_mul _ x); intros [= <-]; auto.
Qed.

(** A run of the assembler returns or fails. *)
Lemma create_dataset_outcome (out : path) (n : Z) (split : float)
    (s : state) :
  (exists s', CreateDentalDataset.create_dataset out n split s = (Ret tt, s'))
  \/
  (exists e s',
     CreateDentalDataset.create_dataset out n split s = (Raise e, s') /\
     failed out (st_fs s) (split_count n split) e).
Proof.
  unfold CreateDentalDataset.create_dataset. cbv zeta.
  match goal with
  | |- context [(mkdir_parents_exist_ok _;; mkdir_parents_exist_ok _;;
                 mkdir_parents_exist_ok _;; mkdir_parents_exist_ok _;; ?k) s]
    => pose proof (mkdirs_then out k s) as X
  end.
  cbv zeta in X.
  destruct X as [(s4 & E4 & Hf & R)|(e & s' & R & Hn & He)].
  2: { right. exists e, s'. split; [exact R|]. split; [auto|contradiction]. }
  rewrite R. clear R.
  destruct (split_count n split) as [c|e'] eqn:Ec.
  2: { right. exists e', s4. split; [now rewrite split_count_run, Ec|].
       split; [contradiction|auto]. }
  match goal with
  | |- context [?k s4] =>
    assert (keeps_or (same_dirs (make_all_dirs out (st_fs s)))
                     (eq IsADirectoryError) k) as K
  end.
  { apply (keeps_or_split_count _ _ n split c); [exact Ec|].
    repeat (apply keeps_or_bind; [apply keeps_or_print | intros _]).
    apply keeps_or_bind; [|intros _].
    { apply keeps_or_for_each. intros i _. apply keeps_or_sample_step.
      apply label_parent_made, labels_train_dir. }
    apply keeps_or_bind; [|intros _].
    { apply keeps_or_for_each. intros i _. apply keeps_or_sample_step.
      apply label_parent_made, labels_val_dir. }
    apply keeps_or_bind; [|intros _].
    { apply keeps_or_write_file.
      fold (manifest_path out). rewrite parent_manifest.
      apply made_out_is_dir. }
    repeat (apply keeps_or_bind; [apply keeps_or_print | intros _]).
    apply keeps_or_keeps, keeps_pure;
      [first [apply DatasetFacts.fs_pure_print_classes | apply fs_pure_mret]
      |first [apply DatasetFacts.returns_print_classes | apply returns_mret]]. }
  destruct (K s4) as [([] & s' & E & _)|(e & s' & E & He)].
  - rewrite E4. apply same_dirs_refl.
  - left. eauto.
  - right. exists e, s'. split; [exact E|]. split; [contradiction|auto].
Qed.

Lemma keeps_or_multi_sample_step (F : fs) self split every noun count i :
  TrainDentalYolo.classes self = TrainDentalYolo.default_classes ->
  is_dir F (parent (img_path (TrainDentalYolo.output_dir self) split i))
    = true ->
  is_dir F (parent (label_path (TrainDentalYolo.output_dir self) split i))
    = true ->
  keeps_or (same_dirs F) (eq IsADirectoryError)
    (TrainDentalYolo.sample_step self split every noun count i).
Proof.
  intros Hc Pi Pl. unfold TrainDentalYolo.sample_step.
  apply keeps_or_bind; [|intros [image annotations]].
  { apply keeps_or_keeps, keeps_pure; [apply fs_pure_generate_image|].
    intros s.
    destruct (generate_image_returns self 416 416 s Hc)
      as (image & anns & s' & _ & E & _).
    eauto. }
  apply keeps_or_bind; [apply keeps_or_write_file, Pi | intros _].
  apply keeps_or_bind; [apply keeps_or_write_file, Pl | intros _].
  apply keeps_or_when, keeps_or_print.
Qed.

Lemma print_then {A : Type} (msg : string) (k : py A) (s : state) :
  exists s1, (print msg;; k) s = k s1 /\
             st_calls s1 = st_calls s /\ st_fs s1 = st_fs s.
Proof. eexists. split; [reflexivity|]. split; reflexivity. Qed.

(** Step 1 of the pipeline returns or fails. *)
Lemma generate_step_outcome (a : TrainDentalYolo.args) (s : state) :
  (exists yaml s', TrainDentalYolo.generate_step a s = (Ret yaml, s')) \/
  (exists e s',
     TrainDentalYolo.generate_step a s = (Raise e, s') /\
     failed (TrainDentalYolo.a_dataset_dir a) (st_fs s)
            (split_count (TrainDentalYolo.a_num_images a) 0.8) e).
Proof.
  set (out := TrainDentalYolo.a_dataset_dir a).
  set (n := TrainDentalYolo.a_num_images a).
  set (self := {| TrainDentalYolo.output_dir := out;
                  TrainDentalYolo.num_images := n;
                  TrainDentalYolo.classes := TrainDentalYolo.default_classes |}).
  assert (exists s0, st_fs s0 = st_fs s /\
            TrainDentalYolo.generate_step a s =
            (TrainDentalYolo.DentalDatasetGenerator out n ≫= fun g =>
               TrainDentalYolo.generate_dataset g;;
               TrainDentalYolo.create_dataset_yaml g) s0)
    as (s0 & F0 & ->).
  { eexists. split; [|reflexivity]. reflexivity. }
  rewrite <- F0.
  pose proof (mkdirs_then out
                (mret self ≫= fun g =>
                   TrainDentalYolo.generate_dataset g;;
                   TrainDentalYolo.create_dataset_yaml g) s0) as X.
  cbv zeta in X.
  assert (forall r,
    (mkdir_parents_exist_ok (out ++ ["images"; "train"]);;
     mkdir_parents_exist_ok (out ++ ["images"; "val"]);;
     mkdir_parents_exist_ok (out ++ ["labels"; "train"]);;
     mkdir_parents_exist_ok (out ++ ["labels"; "val"]);;
     mret self ≫= fun g =>
       TrainDentalYolo.generate_dataset g;;
       TrainDentalYolo.create_dataset_yaml g) s0 = r ->
    (TrainDentalYolo.DentalDatasetGenerator out n ≫= fun g =>
       TrainDentalYolo.generate_dataset g;;
       TrainDentalYolo.create_dataset_yaml g) s0 = r) as Same.
  { intros r <-.
    unfold TrainDentalYolo.DentalDatasetGenerator,
      TrainDentalYolo.setup_directories, TrainDentalYolo.mkdir_all.
    cbn [TrainDentalYolo.output_dir]. fold self.
    rewrite !bind_unfold.
    destruct (mkdir_parents_exist_ok (out ++ ["images"; "train"]) s0)
      as [[[]|e1] s1]; [|reflexivity].
    rewrite !bind_unfold.
    destruct (mkdir_parents_exist_ok (out ++ ["images"; "val"]) s1)
      as [[[]|e2] s2]; [|reflexivity].
    rewrite !bind_unfold.
    destruct (mkdir_parents_exist_ok (out ++ ["labels"; "train"]) s2)
      as [[[]|e3] s3]; [|reflexivity].
    rewrite !bind_unfold.
    destruct (mkdir_parents_exist_ok (out ++ ["labels"; "val"]) s3)
      as [[[]|e4] s4]; reflexivity. }
  destruct X as [(s4 & E4 & Hf & R)|(e & s' & R & Hn & He)].
  2: { apply Same in R. right. exists e, s'.
       split; [exact R|]. split; [auto|contradiction]. }
  apply Same in R. rewrite R. clear R Same.
  change ((mret self ≫= fun g =>
             TrainDentalYolo.generate_dataset g;;
             TrainDentalYolo.create_dataset_yaml g) s4)
    with ((TrainDentalYolo.generate_dataset self;;
           TrainDentalYolo.create_dataset_yaml self) s4).
  destruct (split_count n 0.8) as [c|e'] eqn:Ec.
  2: { right. exists e'.
       unfold TrainDentalYolo.generate_dataset.
       cbn [TrainDentalYolo.num_images self].
       rewrite bind_unfold.
       destruct (print_then
                   ("Generating " +:+ str_int n +:+
                    " synthetic dental images...")
                   (product ← int_times_float n 0.8;
                    train_count ← py_int product;
                    for_range train_count
                      (TrainDentalYolo.sample_step self "train" 100
                         "training" train_count);;
                    for_range (n - train_count)
                      (TrainDentalYolo.sample_step self "val" 50
                         "validation" (n - train_count));;
                    print "✅ Dataset generation complete!";;
                    print ("Training images: " +:+ str_int train_count);;
                    print ("Validation images: " +:+
                           str_int (n - train_count))) s4)
         as (s5 & P & _).
       cbv zeta. fold self. rewrite P, split_count_run, Ec.
       exists s5. split; [reflexivity|]. split; [contradiction|auto]. }
  assert (keeps_or (same_dirs (make_all_dirs out (st_fs s0)))
            (eq IsADirectoryError)
            (TrainDentalYolo.generate_dataset self;;
             TrainDentalYolo.create_dataset_yaml self)) as K.
  { unfold TrainDentalYolo.generate_dataset,
      TrainDentalYolo.create_dataset_yaml, self.
    cbn [TrainDentalYolo.output_dir TrainDentalYolo.num_images].
    apply keeps_or_bind; [|intros _].
    { apply keeps_or_bind; [apply keeps_or_print | intros _].
      apply (keeps_or_split_count _ _ n 0.8%float c); [exact Ec|].
      apply keeps_or_bind; [|intros _].
      { apply keeps_or_for_each. intros i _.
        apply keeps_or_multi_sample_step; [reflexivity | |].
        - apply image_parent_made, images_train_dir.
        - apply label_parent_made, labels_train_dir. }
      apply keeps_or_bind; [|intros _].
      { apply keeps_or_for_each. intros i _.
        apply keeps_or_multi_sample_step; [reflexivity | |].
        - apply image_parent_made, images_val_dir.
        - apply label_parent_made, labels_val_dir. }
      repeat (apply keeps_or_bind; [apply keeps_or_print | intros _]).
      apply keeps_or_print. }
    apply keeps_or_bind; [|intros _].
    { apply keeps_or_write_file.
      fold (manifest_path out). rewrite parent_manifest.
      apply made_out_is_dir. }
    apply keeps_or_bind; [apply keeps_or_print | intros _].
    apply keeps_or_keeps, keeps_pure; [apply fs_pure_mret | apply returns_mret]. }
  destruct (K s4) as [(yaml & s' & E & _)|(e & s' & E & He)].
  - rewrite E4. apply same_dirs_refl.
  - left. eauto.
  - right. exists e, s'. split; [exact E|]. split; [contradiction|auto].
Qed.


(** X5. A run of either generator that does not complete fails in one of
    three ways, and in no other. It raises [FileExistsError] or
    [NotADirectoryError] when a regular file is in the way of one of its
    directories. When the directories can be made it raises what
    [int(num_images * train_split)] raises, if that raises: that is
    [OverflowError] for a count or a product beyond the doubles and
    [ValueError] for a product that is not a number. Otherwise it
    raises [IsADirectoryError], a directory sitting at a path it opens
    for writing. It never fails with [IndexError] or
    [FileNotFoundError]. *)
Theorem run_failure_causes :
  (forall out n split s e s',
     CreateDentalDataset.create_dataset out n split s = (Raise e, s') ->
     failed out (st_fs s) (split_count n split) e) /\
  (forall a s e s',
     TrainDentalYolo.generate_step a s = (Raise e, s') ->
     failed (TrainDentalYolo.a_dataset_dir a) (st_fs s)
            (split_count (TrainDentalYolo.a_num_images a) 0.8) e) /\
  (forall n split e,
     split_count n split = Raise e -> e = OverflowError \/ e = ValueError).
Proof.
  split; [|split].
  - intros out n split s e s' H.
    destruct (create_dataset_outcome out n split s)
      as [(s1 & E)|(e1 & s1 & E & R)]; congruence.
  - intros a s e s' H.
    destruct (generate_step_outcome a s)
      as [(yaml & s1 & E)|(e1 & s1 & E & R)]; congruence.
  - apply split_count_raises.
Qed.

Lemma run_failure_causes_witness :
  let s := {| st_rng := demo_rng;
              st_fs := {[ ["out"] := File (Text "x") ]};
              st_out := []; st_calls := [] |} in
  CreateDentalDataset.create_dataset ["out"] 2 0.8 s
    = (Raise NotADirectoryError, s) /\
  failed ["out"] (st_fs s) (split_count 2 0.8) NotADirectoryError.
Proof.
  intros s.
  assert (CreateDentalDataset.create_dataset ["out"] 2 0.8 s
          = (Raise NotADirectoryError, s)) as E
    by (vm_compute; reflexivity).
  split; [exact E|].
  exact (proj1 run_failure_causes ["out"] 2 0.8%float s _ _ E).
Defined.

Lemma failed_exit_status (out : path) (f : fs) (n : Z) (x : float)
    (e : exn) :
  failed out f (split_count n x) e -> exit_status (Raise e : outcome Z) = 1.
Proof.
  intros [H1 H2]. destruct e; try reflexivity.
  exfalso.
  assert (~ ~ dirs_free out f) as NN
    by (intros Hn; destruct (H1 Hn); discriminate).
  apply NN. intros Hf. specialize (H2 Hf).
  destruct (split_count n x) as [c|e'] eqn:Ec; [discriminate|]. subst e'.
  apply split_count_raises in Ec as [|]; discriminate.
Qed.


(** *** The exit status of the dataset script *)

Lemma dataset_main_exit_status (a : CreateDentalDataset.args) (s : state) :
  let code := fst (CreateDentalDataset.script a s) in
  let n := CreateDentalDataset.a_count a in
  let split := CreateDentalDataset.a_train_split a in
  (code = 0 \/ code = 1) /\
  (code = 0 <->
   ~ split_rejected split /\
   exists k, split_count n split = Ret k /\
     writable false (CreateDentalDataset.a_output a)
              (Z.to_nat k) (Z.to_nat (n - k)) (st_fs s)).
Proof.
  intros code n split. subst code. unfold CreateDentalDataset.script.
  destruct (CreateDentalDataset.main a s) as [o s'] eqn:E. cbn [fst].
  unfold CreateDentalDataset.main in E. fold n split in E.
  rewrite bind_unfold in E.
  match type of E with
  | context [when ?b ?m s] =>
    destruct (returns_unit (when b m) s (returns_when _ _ (returns_print _)))
      as (s1 & W);
    pose proof (fs_pure_when _ _ (fs_pure_print _) _ _ _ W) as [F1 _]
  end.
  rewrite W in E. rewrite bind_unfold in E.
  destruct (float_leb 0.5 split && float_leb split 0.9) eqn:R.
  - assert (~ split_rejected split) as Hr.
    { intros Hx. apply DatasetFacts.split_guard in Hx. congruence. }
    cbv beta iota delta [negb when mret py_ret] in E.
    rewrite bind_unfold in E.
    destruct (create_dataset_outcome (CreateDentalDataset.a_output a) n
                split s1) as [(s2 & C)|(e & s2 & C & Hre)].
    + rewrite C in E.
      match type of E with
      | ?m s2 = _ => destruct (returns_unit m s2) as (s3 & T)
      end.
      { repeat (apply returns_bind; [apply returns_print | intros _]).
        apply returns_print. }
      rewrite T in E. injection E as <- <-. cbn [exit_status].
      split; [now left|]. split; [intros _|reflexivity].
      split; [exact Hr|]. rewrite <- F1.
      apply create_dataset_completes. eauto.
    + rewrite C in E. injection E as <- <-.
      rewrite (failed_exit_status _ _ _ _ _ Hre).
      split; [now right|]. split; [discriminate|].
      intros [_ Hw]. rewrite <- F1 in Hw.
      apply create_dataset_completes in Hw as (s3 & C').
      fold n split in C. congruence.
  - cbv beta iota delta [negb when] in E.
    rewrite !bind_unfold in E. unfold print, raise in E.
    injection E as <- <-. cbn [exit_status].
    split; [now right|]. split; [discriminate|].
    intros [Hn _]. exfalso. apply Hn, DatasetFacts.split_guard, R.
Qed.

(** X6. The dataset script exits with status 0, 1 or 2. It exits with 2
    exactly when the parser rejects the command line. It exits with 0
    exactly when the parser was asked for its help text, or the command
    line was parsed and the split is not rejected, the count of
    training samples can be computed and the file system lets the
    assembler complete. The number of images plays no other part: a
    count below 100 only adds a warning, and a negative one is
    accepted. *)
Theorem dataset_script_exit_status
    (parser : argparser CreateDentalDataset.args) (argv : list string)
    (s : state) :
  let code := fst (CreateDentalDataset.command parser argv s) in
  (code = 0 \/ code = 1 \/ code = 2) /\
  (code = 2 <-> parser argv = Usage) /\
  (code = 0 <->
   (exists text, parser argv = Help text) \/
   (exists a k,
      parser argv = Namespace a /\
      ~ split_rejected (CreateDentalDataset.a_train_split a) /\
      split_count (CreateDentalDataset.a_count a)
                  (CreateDentalDataset.a_train_split a) = Ret k /\
      writable false (CreateDentalDataset.a_output a) (Z.to_nat k)
               (Z.to_nat (CreateDentalDataset.a_count a - k)) (st_fs s))).
Proof.
  intros code. subst code.
  destruct (parser argv) as [a|text|] eqn:P.
  - rewrite (DatasetFacts.dataset_command_parsed parser argv a s P).
    destruct (dataset_main_exit_status a s) as [H01 H0]. cbv zeta in H01, H0.
    split; [tauto|]. split.
    + split; [|discriminate]. intros H2. rewrite H2 in H01.
      destruct H01; discriminate.
    + rewrite H0. split.
      * intros (Hr & k & Ek & Hw). right. exists a, k. auto.
      * intros [[text [=]]|(a' & k & [= <-] & Hr & Ek & Hw)]. eauto.
  - unfold CreateDentalDataset.command, CreateDentalDataset.main_argv,
      parse_args. rewrite P. cbn.
    split; [now left|]. split; [split; discriminate|].
    split; [eauto | reflexivity].
  - unfold CreateDentalDataset.command, CreateDentalDataset.main_argv,
      parse_args. rewrite P. cbn.
    split; [now right; right|]. split; [split; reflexivity|].
    split; [discriminate|].
    intros [[text [=]]|(a' & k & [=] & _)].
Qed.


(** *** The exit status of the training pipeline *)

Lemma calls_kept_pure {A : Type} (m : py A) : fs_pure m -> calls_kept m.
Proof. intros H s o s' E. now destruct (H s o s' E). Qed.

Lemma calls_kept_bind {A B : Type} (m : py A) (k : A -> py B) :
  calls_kept m -> (forall a, calls_kept (k a)) -> calls_kept (m ≫= k).
Proof.
  intros Hm Hk s o s'. rewrite bind_unfold.
  destruct (m s) as [[a|e] s1] eqn:E; intros H.
  - rewrite (Hk _ _ _ _ H). eapply Hm, E.
  - injection H as <- <-. eapply Hm, E.
Qed.

Lemma calls_kept_when (b : bool) (m : py unit) :
  calls_kept m -> calls_kept (when b m).
Proof.
  intros H. destruct b; [exact H|]. apply calls_kept_pure, fs_pure_mret.
Qed.

Lemma calls_kept_write_file (p : path) (c : content) :
  calls_kept (write_file p c).
Proof.
  intros s o s'. unfold write_file.
  destruct (open_w_error (st_fs s) p); intros [= <- <-]; reflexivity.
Qed.

Lemma calls_kept_mkdir (p : path) : calls_kept (mkdir_parents_exist_ok p).
Proof.
  intros s o s'. unfold mkdir_parents_exist_ok.
  destruct (is_file (st_fs s) p); [intros [= <- <-]; reflexivity|].
  destruct (existsb _ _); intros [= <- <-]; reflexivity.
Qed.

Lemma calls_kept_for_each (body : nat -> py unit) (l : list nat) :
  (forall i, calls_kept (body i)) -> calls_kept (for_each l body).
Proof.
  intros H. induction l as [|i l IH]; cbn [for_each].
  - apply calls_kept_pure, fs_pure_mret.
  - apply calls_kept_bind; [apply H | intros _; exact IH].
Qed.

Ltac calls_step :=
  lazymatch goal with
  | |- calls_kept (_ ≫= _) => apply calls_kept_bind; [|intros ?]
  | |- calls_kept (write_file _ _) => apply calls_kept_write_file
  | |- calls_kept (mkdir_parents_exist_ok _) => apply calls_kept_mkdir
  | |- calls_kept (when _ _) => apply calls_kept_when
  | |- calls_kept (for_each _ _) => apply calls_kept_for_each; intros ?
  | |- calls_kept (print _) => apply calls_kept_pure, fs_pure_print
  | |- calls_kept (int_times_float _ _) =>
    apply calls_kept_pure, fs_pure_int_times_float
  | |- calls_kept (py_int _) => apply calls_kept_pure, fs_pure_py_int
  | |- calls_kept (mret _) => apply calls_kept_pure, fs_pure_mret
  end.

Lemma calls_kept_generate_step (a : TrainDentalYolo.args) :
  calls_kept (TrainDentalYolo.generate_step a).
Proof.
  unfold TrainDentalYolo.generate_step, TrainDentalYolo.DentalDatasetGenerator,
    TrainDentalYolo.setup_directories, TrainDentalYolo.mkdir_all,
    TrainDentalYolo.generate_dataset, TrainDentalYolo.sample_step,
    TrainDentalYolo.create_dataset_yaml, for_range.
  repeat calls_step.
  all: lazymatch goal with
       | |- calls_kept (TrainDentalYolo.generate_synthetic_dental_image _ _ _)
         => apply calls_kept_pure, fs_pure_generate_image
       | |- calls_kept (let '(_, _) := ?p in _) =>
         destruct p; repeat calls_step
       end.
Qed.

Section Pipeline.
Variable lib : library.

Lemma train_step_spec (a : TrainDentalYolo.args) (yaml : path) (s : state) :
  let plan := training_plan yaml (TrainDentalYolo.a_output_model a)
                (TrainDentalYolo.a_epochs a) (TrainDentalYolo.a_model_size a) in
  exists s',
    TrainDentalYolo.train_step lib a yaml s
    = (Ret (match snd (attempts lib plan) with
            | None => true
            | Some _ => false
            end), s') /\
    st_fs s' = st_fs s /\
    st_calls s' = st_calls s ++ fst (attempts lib plan).
Proof.
  intros plan. unfold TrainDentalYolo.train_step.
  rewrite bind_unfold. unfold print at 1.
  match goal with
  | |- context [TrainDentalYolo.train_yolo_model lib ?d ?o ?e ?m ?st] =>
    destruct (YoloFacts.train_yolo_model_spec lib d o e m st)
      as (s' & E & F & C & _)
  end.
  exists s'. split; [exact E|]. split; [exact F | exact C].
Qed.

Lemma convert_step_spec (a : TrainDentalYolo.args) (s : state) :
  let plan := conversion_plan lib (TrainDentalYolo.a_output_model a)
                (TrainDentalYolo.a_output_coreml a) in
  exists s',
    TrainDentalYolo.convert_step lib a s
    = (Ret (match snd (attempts lib plan),
                  lib_glob lib (parent (TrainDentalYolo.a_output_model a)) with
            | None, _ :: _ => true
            | _, _ => false
            end), s') /\
    st_fs s' = st_fs s /\
    st_calls s' = st_calls s ++ fst (attempts lib plan).
Proof.
  intros plan. unfold TrainDentalYolo.convert_step.
  rewrite bind_unfold. unfold print at 1.
  match goal with
  | |- context [TrainDentalYolo.convert_to_coreml lib ?i ?o ?st] =>
    destruct (YoloFacts.convert_to_coreml_spec lib i o st)
      as (s' & E & F & C & _)
  end.
  exists s'. split; [exact E|]. split; [exact F | exact C].
Qed.

End Pipeline.


Lemma pipeline_main_exit_status (lib : library) (a : TrainDentalYolo.args)
    (s : state) :
  let code := fst (TrainDentalYolo.script lib a s) in
  let out := TrainDentalYolo.a_dataset_dir a in
  let n := TrainDentalYolo.a_num_images a in
  let training :=
    training_plan (manifest_path out) (TrainDentalYolo.a_output_model a)
      (TrainDentalYolo.a_epochs a) (TrainDentalYolo.a_model_size a) in
  let conversion :=
    conversion_plan lib (TrainDentalYolo.a_output_model a)
      (TrainDentalYolo.a_output_coreml a) in
  (code = 0 \/ code = 1) /\
  (code = 0 <->
   (exists k, split_count n 0.8 = Ret k /\
      writable true out (Z.to_nat k) (Z.to_nat (n - k)) (st_fs s)) /\
   snd (attempts lib training) = None /\
   snd (attempts lib conversion) = None /\
   lib_glob lib (parent (TrainDentalYolo.a_output_model a)) <> []) /\
  (code = 0 ->
   st_calls (snd (TrainDentalYolo.script lib a s))
   = st_calls s ++ training ++ conversion).
Proof.
  intros code out n training conversion. subst code.
  unfold TrainDentalYolo.script.
  destruct (TrainDentalYolo.main lib a s) as [o s'] eqn:E. cbn [fst snd].
  unfold TrainDentalYolo.main in E.
  assert (exists s0, TrainDentalYolo.announce s = (Ret tt, s0) /\
                     st_fs s0 = st_fs s /\ st_calls s0 = st_calls s)
    as (s0 & A & F0 & C0).
  { eexists. split; [reflexivity|]. split; reflexivity. }
  rewrite bind_unfold, A in E. rewrite bind_unfold in E.
  destruct (generate_step_outcome a s0) as [(yaml & s1 & G)|(e & s1 & G & Hre)];
    rewrite G in E.
  2: { injection E as <- <-. rewrite (failed_exit_status _ _ _ _ _ Hre).
       split; [now right|]. split; [|discriminate].
       split; [discriminate|]. intros (Hw & _). rewrite <- F0 in Hw.
       apply generate_step_completes in Hw as (y & s2 & G').
       congruence. }
  pose proof (calls_kept_generate_step a _ _ _ G) as C1.
  assert (exists k, split_count n 0.8 = Ret k /\
            writable true out (Z.to_nat k) (Z.to_nat (n - k)) (st_fs s))
    as Hw.
  { rewrite <- F0. apply generate_step_completes. eauto. }
  apply YoloFacts.generate_step_written in G as [-> _].
  destruct (train_step_spec lib a (manifest_path out) s1)
    as (s2 & T & F2 & C2).
  cbv zeta in T, C2. fold training in T, C2. unfold out in T at 1.
  cbv beta iota in E. rewrite bind_unfold, T in E. cbv beta iota in E.
  destruct (attempts lib training) as [made1 r1] eqn:At. cbn [fst snd] in *.
  destruct r1 as [msg1|].
  { cbn [negb] in E. rewrite bind_unfold in E. unfold print at 1 in E.
    injection E as <- <-. cbn [exit_status].
    split; [now right|]. split; [|discriminate].
    split; [discriminate|]. intros (_ & H & _). discriminate. }
  cbn [negb] in E.
  destruct (convert_step_spec lib a s2) as (s3 & V & F3 & C3).
  cbv zeta in V, C3. fold conversion in V, C3.
  rewrite bind_unfold, V in E. cbv beta iota in E.
  destruct (attempts lib conversion) as [made2 r2] eqn:Ac. cbn [fst snd] in *.
  assert (snd (attempts lib training) = None) as N1 by (now rewrite At).
  apply attempts_None in N1 as [N1 _]. rewrite At in N1. cbn [fst] in N1.
  destruct r2 as [msg2|];
    [|destruct (lib_glob lib (parent (TrainDentalYolo.a_output_model a)))
        as [|first rest] eqn:Gl].
  - cbn [negb] in E. rewrite bind_unfold in E. unfold print at 1 in E.
    injection E as <- <-. cbn [exit_status].
    split; [now right|]. split; [|discriminate].
    split; [discriminate|]. intros (_ & _ & H & _). discriminate.
  - cbn [negb] in E. rewrite bind_unfold in E. unfold print at 1 in E.
    injection E as <- <-. cbn [exit_status].
    split; [now right|]. split; [|discriminate].
    split; [discriminate|]. intros (_ & _ & _ & H). now contradiction H.
  - cbn [negb] in E.
    repeat match type of E with
           | (print ?m;; ?k) ?st = _ =>
             let sx := fresh "sx" in
             destruct (print_then m k st) as (sx & Ex & Cx & _);
             rewrite Ex in E; clear Ex; rewrite <- Cx in *; clear Cx;
             cbv beta in E
           end.
    injection E as <- <-. cbn [exit_status].
    assert (snd (attempts lib conversion) = None) as N2 by (now rewrite Ac).
    apply attempts_None in N2 as [N2 _]. rewrite Ac in N2. cbn [fst] in N2.
    split; [now left|]. split.
    + split; [intros _|reflexivity].
      split; [exact Hw|]. split; [reflexivity|]. split; [reflexivity|].
      discriminate.
    + intros _. rewrite C3, C2, C1, C0, N1, N2. now rewrite <- app_assoc.
Qed.

(** A parsed command line hands the process to the rest of [main]. *)
Lemma pipeline_command_parsed (lib : library)
    (parser : argparser TrainDentalYolo.args) (argv : list string)
    (a : TrainDentalYolo.args) (s : state) :
  parser argv = Namespace a ->
  TrainDentalYolo.command lib parser argv s = TrainDentalYolo.script lib a s.
Proof.
  intros E. unfold TrainDentalYolo.command, TrainDentalYolo.script,
    TrainDentalYolo.main_argv, parse_args.
  rewrite E. reflexivity.
Qed.

(** X7. The training pipeline exits with status 0, 1 or 2. It exits
    with 2 exactly when the parser rejects the command line. It exits
    with 0 exactly when the parser was asked for its help text, or the
    command line was parsed and the split [int(num_images * 0.8)] can
    be computed, the file system lets step 1 complete, no call planned
    for the training or the conversion raises, and the export leaves a
    package behind. A run on a parsed command line that exits with 0
    made the calls of the two plans, each once, training first, and no
    other call. *)
Theorem pipeline_exit_status (lib : library)
    (parser : argparser TrainDentalYolo.args) (argv : list string)
    (s : state) :
  let code := fst (TrainDentalYolo.command lib parser argv s) in
  let training a :=
    training_plan (manifest_path (TrainDentalYolo.a_dataset_dir a))
      (TrainDentalYolo.a_output_model a)
      (TrainDentalYolo.a_epochs a) (TrainDentalYolo.a_model_size a) in
  let conversion a :=
    conversion_plan lib (TrainDentalYolo.a_output_model a)
      (TrainDentalYolo.a_output_coreml a) in
  (code = 0 \/ code = 1 \/ code = 2) /\
  (code = 2 <-> parser argv = Usage) /\
  (code = 0 <->
   (exists text, parser argv = Help text) \/
   (exists a k,
      parser argv = Namespace a /\
      split_count (TrainDentalYolo.a_num_images a) 0.8 = Ret k /\
      writable true (TrainDentalYolo.a_dataset_dir a) (Z.to_nat k)
               (Z.to_nat (TrainDentalYolo.a_num_images a - k)) (st_fs s) /\
      snd (attempts lib (training a)) = None /\
      snd (attempts lib (conversion a)) = None /\
      lib_glob lib (parent (TrainDentalYolo.a_output_model a)) <> [])) /\
  (forall a,
     parser argv = Namespace a -> code = 0 ->
     st_calls (snd (TrainDentalYolo.command lib parser argv s))
     = st_calls s ++ training a ++ conversion a).
Proof.
  intros code training conversion. subst code.
  destruct (parser argv) as [a|text|] eqn:P.
  - rewrite (pipeline_command_parsed lib parser argv a s P).
    destruct (pipeline_main_exit_status lib a s) as (H01 & H0 & Hc).
    cbv zeta in H01, H0, Hc. fold (training a) (conversion a) in H0, Hc.
    split; [tauto|]. split; [|split].
    + split; [|discriminate]. intros H2. rewrite H2 in H01.
      destruct H01; discriminate.
    + rewrite H0. split.
      * intros ((k & Ek & Hw) & H1 & H2 & H3). right. exists a, k. auto 10.
      * intros [[text [=]]|(a' & k & [= <-] & Ek & Hw & H1 & H2 & H3)].
        eauto 10.
    + intros a' [= <-]. exact Hc.
  - unfold TrainDentalYolo.command, TrainDentalYolo.main_argv, parse_args.
    rewrite P. cbn.
    split; [now left|]. split; [split; discriminate|].
    split; [split; [eauto | reflexivity]|]. intros a' [=].
  - unfold TrainDentalYolo.command, TrainDentalYolo.main_argv, parse_args.
    rewrite P. cbn.
    split; [now right; right|]. split; [split; reflexivity|].
    split; [|intros a' [=]].
    split; [discriminate|].
    intros [[text [=]]|(a' & k & [=] & _)].
Qed.

Lemma pipeline_exit_status_witness :
  let a := {| TrainDentalYolo.a_dataset_dir := ["ds"];
              TrainDentalYolo.a_num_images := 1;
              TrainDentalYolo.a_epochs := 1;
              TrainDentalYolo.a_model_size := "n";
              TrainDentalYolo.a_output_model := ["m.pt"];
              TrainDentalYolo.a_output_coreml := ["M.mlpackage"] |} in
  let run := TrainDentalYolo.command demo_library (demo_parser a) []
               demo_state in
  fst run = 0 /\
  st_calls (snd run)
  = [YoloLoad "yolov8n.pt"; ModelTrain ["ds"; "dataset.yaml"] 1;
     ModelSave ["m.pt"]; YoloLoad "m.pt"; ModelExport;
     ShutilMove ["best.mlpackage"] ["M.mlpackage"]].
Proof.
  intros a run.
  assert (fst run = 0) as E by (vm_compute; reflexivity).
  split; [exact E|].
  exact (proj2 (proj2 (proj2 (pipeline_exit_status demo_library
                                (demo_parser a) [] demo_state)))
           a eq_refl E).
Defined.


(** *** Images that are not stored *)

Lemma split_dir (out : path) (top sp : string) (nt nv i : nat) :
  top = "images" \/ top = "labels" ->
  sp = "train" /\ (i < nt)%nat \/ sp = "val" /\ (i < nv)%nat ->
  out ++ [top; sp] ∈ dataset_dirs out.
Proof.
  unfold dataset_dirs.
  intros [-> | ->] [[-> _]|[-> _]];
    repeat first [left; reflexivity | right].
Qed.

(** X8. After a completed run of the dataset assembler every sample has
    its label, but it has its image exactly when no directory was at
    the image path before: the result of [cv2.imwrite] is not looked
    at, so such a sample is left with a label and no image, and the run
    still ends normally. *)
Theorem image_stored_iff (out : path) (n : Z) (split : float)
    (s s' : state)
    (sp : string) (i : nat) :
  CreateDentalDataset.create_dataset out n split s = (Ret tt, s') ->
  sp = "train" /\ (i < Z.to_nat (train_count n split))%nat \/
  sp = "val" /\ (i < Z.to_nat (n - train_count n split))%nat ->
  (exists t, st_fs s' !! label_path out sp i = Some (File (Text t))) /\
  ((exists im, st_fs s' !! img_path out sp i = Some (File (Jpeg im))) <->
   st_fs s !! img_path out sp i <> Some Dir).
Proof.
  intros H Hi.
  pose proof (grows_create_dataset out n split _ _ _ H) as G.
  apply DatasetFacts.create_dataset_written in H.
  split.
  - destruct Hi as [[-> Hi]|[-> Hi]].
    + destruct (dw_train_label _ _ _ _ _ _ _ _ H i Hi) as (t & Ht & _). eauto.
    + destruct (dw_val_label _ _ _ _ _ _ _ _ H i Hi) as (t & Ht & _). eauto.
  - split.
    + intros (im & Him) Hd. apply (G (img_path out sp i)) in Hd. congruence.
    + intros Hn.
      assert (open_w_error (make_all_dirs out (st_fs s)) (img_path out sp i)
              = None) as O.
      { apply (open_made_path3 out _ "images" sp); [|exact Hn].
        eapply split_dir; [now left | exact Hi]. }
      destruct Hi as [[-> Hi]|[-> Hi]].
      * apply (dw_train_image _ _ _ _ _ _ _ _ H i Hi O).
      * apply (dw_val_image _ _ _ _ _ _ _ _ H i Hi O).
Qed.

Lemma image_stored_iff_witness :
  let s := {| st_rng := demo_rng;
              st_fs := make_dirs ["out"; "images"; "train"; "train_0000.jpg"] ∅;
              st_out := []; st_calls := [] |} in
  let r := CreateDentalDataset.create_dataset ["out"] 2 0.8 s in
  r = (Ret tt, snd r) /\
  st_fs (snd r) !! img_path ["out"] "train" 0 = Some Dir /\
  exists t, st_fs (snd r) !! label_path ["out"] "train" 0
            = Some (File (Text t)).
Proof.
  intros s r.
  assert (r = (Ret tt, snd r)) as E by (vm_compute; reflexivity).
  split; [exact E|]. split; [vm_compute; reflexivity|].
  apply (image_stored_iff ["out"] 2 0.8%float s (snd r) "train" 0 E).
  left. split; [reflexivity | vm_compute; lia].
Defined.

(** *** Running step 1 of the pipeline twice *)

Lemma dw_writable_again (Q : string -> Prop) (out : path) (nt nv : nat)
    (cfg : manifest) (f f' : fs) :
  dataset_written Q true out nt nv cfg f f' -> writable true out nt nv f'.
Proof.
  intros H.
  destruct (dw_strict_needs _ _ _ _ _ _ _ _ H eq_refl) as [It Iv].
  split; [intros d q; apply (dw_no_file_prefix _ _ _ _ _ _ _ _ H)|].
  split; [|split; [|split]].
  - intros i Hi.
    destruct (dw_train_label _ _ _ _ _ _ _ _ H i Hi) as (t & -> & _).
    discriminate.
  - intros i Hi.
    destruct (dw_val_label _ _ _ _ _ _ _ _ H i Hi) as (t & -> & _).
    discriminate.
  - rewrite (dw_manifest _ _ _ _ _ _ _ _ H). discriminate.
  - intros _. split; intros i Hi.
    + destruct (dw_train_image _ _ _ _ _ _ _ _ H i Hi (It i Hi)) as (im & ->).
      discriminate.
    + destruct (dw_val_image _ _ _ _ _ _ _ _ H i Hi (Iv i Hi)) as (im & ->).
      discriminate.
Qed.

(** X9. Step 1 of the training pipeline can be run again over its own
    result: the second run completes whatever the random generator then
    produces, keeps every directory a directory and every file a file,
    and adds no path. Started on an empty file system, the first
    run completes too, provided its split [int(num_images * 0.8)] can
    be computed: a count beyond the doubles ends it with
    [OverflowError]. *)
Theorem generate_step_idempotent :
  (forall a s yaml s' r,
     TrainDentalYolo.generate_step a s = (Ret yaml, s') ->
     st_fs r = st_fs s' ->
     exists r',
       TrainDentalYolo.generate_step a r = (Ret yaml, r') /\
       dom (st_fs r') = dom (st_fs s') /\
       same_dirs (st_fs s') (st_fs r')) /\
  (forall a s k,
     split_count (TrainDentalYolo.a_num_images a) 0.8 = Ret k ->
     st_fs s = ∅ ->
     exists yaml s', TrainDentalYolo.generate_step a s = (Ret yaml, s')).
Proof.
  split.
  - intros a s yaml s' r H Hr.
    destruct (YoloFacts.generate_step_counted _ _ _ _ H) as [k Ek].
    pose proof (train_count_eq _ _ _ Ek) as Et.
    apply YoloFacts.generate_step_written in H as [-> H].
    destruct (proj2 (generate_step_completes a r)) as (yaml & r' & E).
    { exists k. split; [exact Ek|]. rewrite <- Et, Hr.
      eapply dw_writable_again, H. }
    apply YoloFacts.generate_step_written in E as E'. destruct E' as [-> E'].
    exists r'. split; [exact E|].
    rewrite Hr in E'. eapply dw_rerun_dom; eassumption.
  - intros a s k Ek Hs. apply generate_step_completes.
    exists k. split; [exact Ek|]. rewrite Hs.
    split; [intros d q _ _; reflexivity|].
    repeat split; intros; rewrite lookup_empty; discriminate.
Qed.

Lemma generate_step_idempotent_witness :
  let a := {| TrainDentalYolo.a_dataset_dir := ["ds"];
              TrainDentalYolo.a_num_images := 2;
              TrainDentalYolo.a_epochs := 1;
              TrainDentalYolo.a_model_size := "n";
              TrainDentalYolo.a_output_model := ["m.pt"];
              TrainDentalYolo.a_output_coreml := ["M.mlpackage"] |} in
  let first := TrainDentalYolo.generate_step a demo_state in
  first = (Ret ["ds"; "dataset.yaml"], snd first) /\
  exists r',
    TrainDentalYolo.generate_step a (snd first)
    = (Ret ["ds"; "dataset.yaml"], r') /\
    dom (st_fs r') = dom (st_fs (snd first)).
Proof.
  intros a first.
  assert (first = (Ret ["ds"; "dataset.yaml"], snd first)) as E
    by (vm_compute; reflexivity).
  split; [exact E|].
  destruct (proj1 generate_step_idempotent a demo_state _ (snd first)
              (snd first) E eq_refl) as (r' & E' & D & _).
  exists r'. split; [exact E' | exact D].
Defined.


(** *** The dataset check of the training script *)

Lemma exists_then {A : Type} (p : path) (k : bool -> py A) (s : state) :
  (CreateSampleYoloModel.py_exists p ≫= k) s
  = k (CreateSampleYoloModel.path_exists (st_fs s) p) s.
Proof. reflexivity. Qed.

Lemma glob_then {A : Type} (d : path) (ext : string) (k : Z -> py A)
    (s : state) :
  (CreateSampleYoloModel.glob_count d ext ≫= k) s
  = k (Z.of_nat (size (CreateSampleYoloModel.glob_suffix (st_fs s) d ext))) s.
Proof. reflexivity. Qed.

Lemma print_ret {A : Type} (msg : string) (v : A) (s : state) :
  exists s', (print msg;; mret v) s = (Ret v, s') /\
             st_fs s' = st_fs s /\ st_calls s' = st_calls s /\
             last (st_out s') = Some msg.
Proof.
  eexists. split; [reflexivity|]. cbn [st_fs st_calls st_out].
  repeat split. apply last_snoc.
Qed.

Lemma when_print_then {A : Type} (b : bool) (msg : string) (k : py A)
    (s : state) :
  exists s1, (when b (print msg);; k) s = k s1 /\
             st_calls s1 = st_calls s /\ st_fs s1 = st_fs s.
Proof.
  destruct b.
  - apply print_then.
  - exists s. split; [reflexivity|]. split; reflexivity.
Qed.

Lemma validate_dataset_run (ds : path) (s : state) :
  exists s',
    CreateSampleYoloModel.validate_dataset ds s
    = (Ret (accepts (st_fs s) ds), s') /\
    st_fs s' = st_fs s /\ st_calls s' = st_calls s.
Proof.
  unfold CreateSampleYoloModel.validate_dataset, accepts.
  rewrite exists_then.
  destruct (CreateSampleYoloModel.path_exists (st_fs s) ds);
    [|cbn [negb andb];
      destruct (print_ret ("Error: Dataset path does not exist: "
                           +:+ path_str ds) false s) as (s' & E & F & C & _);
      eauto].
  cbn [negb andb]. rewrite exists_then.
  destruct (CreateSampleYoloModel.path_exists (st_fs s) (ds ++ ["images"]));
    [|cbn [negb andb];
      match goal with |- context [(print ?m;; mret false) s] =>
        destruct (print_ret m false s) as (s' & E & F & C & _) end; eauto].
  cbn [negb andb]. rewrite exists_then.
  destruct (CreateSampleYoloModel.path_exists (st_fs s) (ds ++ ["labels"]));
    [|cbn [negb andb];
      match goal with |- context [(print ?m;; mret false) s] =>
        destruct (print_ret m false s) as (s' & E & F & C & _) end; eauto].
  cbn [negb andb]. rewrite exists_then.
  destruct (CreateSampleYoloModel.path_exists (st_fs s)
              ((ds ++ ["images"]) ++ ["train"]));
    [|cbn [negb andb];
      match goal with |- context [(print ?m;; mret false) s] =>
        destruct (print_ret m false s) as (s' & E & F & C & _) end; eauto].
  cbn [negb andb]. rewrite exists_then.
  destruct (CreateSampleYoloModel.path_exists (st_fs s)
              ((ds ++ ["labels"]) ++ ["train"]));
    [|cbn [negb andb];
      match goal with |- context [(print ?m;; mret false) s] =>
        destruct (print_ret m false s) as (s' & E & F & C & _) end; eauto].
  cbn [negb andb]. rewrite exists_then.
  destruct (CreateSampleYoloModel.path_exists (st_fs s)
              (ds ++ ["dataset.yaml"]));
    [|cbn [negb andb];
      match goal with |- context [(print ?m;; mret false) s] =>
        destruct (print_ret m false s) as (s' & E & F & C & _) end; eauto].
  cbn [negb andb]. rewrite !glob_then. cbv zeta.
  fold (train_images_found (st_fs s) ds).
  fold (train_labels_found (st_fs s) ds).
  destruct (train_images_found (st_fs s) ds =? 0);
    [cbn [negb andb];
      match goal with |- context [(print ?m;; mret false) s] =>
        destruct (print_ret m false s) as (s' & E & F & C & _) end; eauto|].
  destruct (train_labels_found (st_fs s) ds =? 0);
    [cbn [negb andb];
      match goal with |- context [(print ?m;; mret false) s] =>
        destruct (print_ret m false s) as (s' & E & F & C & _) end; eauto|].
  cbn [negb andb].
  match goal with |- context [(when ?b (print ?m);; ?k) s] =>
    destruct (when_print_then b m k s) as (s1 & -> & C1 & F1) end.
  repeat match goal with
         | |- context [(print ?m;; ?k) ?st] =>
           let sx := fresh "sx" in
           destruct (print_then m k st) as (sx & -> & Cx & Fx);
           rewrite <- Cx in C1; rewrite <- Fx in F1; clear Cx Fx
         end.
  rewrite exists_then.
  match goal with
  | |- context [CreateSampleYoloModel.path_exists ?f ?p] =>
    destruct (CreateSampleYoloModel.path_exists f p)
  end.
  - rewrite bind_unfold, glob_then, glob_then.
    eexists. split; [reflexivity|]. cbn [st_fs st_calls]. split; congruence.
  - eexists. split; [reflexivity|]. cbn [st_fs st_calls]. split; congruence.
Qed.

(** X10. The dataset check of the training script never raises and
    writes nothing. It accepts exactly when the dataset root, its
    [images] and [labels] directories, their [train] subdirectories and
    [dataset.yaml] exist and there is at least one training image
    ([.jpg] or [.png]) and one training label ([.txt]). A different
    number of images and labels only prints a warning, and the
    validation split is not required. *)
Theorem validate_dataset_decides (ds : path) (s : state) :
  exists s',
    CreateSampleYoloModel.validate_dataset ds s
    = (Ret (accepts (st_fs s) ds), s') /\
    st_fs s' = st_fs s /\ st_calls s' = st_calls s.
Proof. apply validate_dataset_run. Qed.


Lemma elem_of_glob_suffix (f : fs) (d : path) (ext name : string) :
  name ∈ CreateSampleYoloModel.glob_suffix f d ext <->
  is_dir f d = true /\ is_Some (f !! (d ++ [name])) /\
  CreateSampleYoloModel.has_suffix ext name = true.
Proof.
  unfold CreateSampleYoloModel.glob_suffix.
  destruct (is_dir f d) eqn:Ed.
  2: { split; [intros H; now apply elem_of_empty in H|].
       intros (H & _). discriminate. }
  rewrite elem_of_set_omap. split.
  - intros (p & Hp & Hg). revert Hg.
    destruct (last p) as [n|]; [|discriminate].
    destruct (decide (p = d ++ [n])) as [->|]; [|discriminate].
    destruct (CreateSampleYoloModel.has_suffix ext n) eqn:E; [|intros [=]].
    intros [= <-]. split; [reflexivity|]. split; [|exact E].
    now apply elem_of_dom.
  - intros (_ & Hs & Hx). exists (d ++ [name]). split.
    + now apply elem_of_dom.
    + rewrite last_snoc. rewrite decide_True by reflexivity.
      now rewrite Hx.
Qed.

Section Validated.
Variables (Q : string -> Prop) (strict : bool) (out : path) (nt nv : nat)
          (cfg : manifest) (f f' : fs).
Hypothesis H : dataset_written Q strict out nt nv cfg f f'.

Lemma dw_prefix_exists (d q : path) :
  d ∈ dataset_dirs out -> (exists r, d = q ++ r) ->
  CreateSampleYoloModel.path_exists f' q = true.
Proof.
  intros Hd Hr. unfold CreateSampleYoloModel.path_exists.
  destruct q as [|x q]; [reflexivity|].
  rewrite (dw_dirs_exist _ _ _ _ _ _ _ _ H d (x :: q) Hd); [reflexivity|].
  apply elem_of_prefixes. split; [discriminate | exact Hr].
Qed.

Lemma dw_six_exist :
  CreateSampleYoloModel.path_exists f' out
  && CreateSampleYoloModel.path_exists f' (out ++ ["images"])
  && CreateSampleYoloModel.path_exists f' (out ++ ["labels"])
  && CreateSampleYoloModel.path_exists f' ((out ++ ["images"]) ++ ["train"])
  && CreateSampleYoloModel.path_exists f' ((out ++ ["labels"]) ++ ["train"])
  && CreateSampleYoloModel.path_exists f' (out ++ ["dataset.yaml"]) = true.
Proof.
  rewrite (dw_prefix_exists (out ++ ["images"; "train"]) out
             (images_train_dir out)) by eauto.
  rewrite (dw_prefix_exists (out ++ ["images"; "train"]) (out ++ ["images"])
             (images_train_dir out))
    by (exists ["train"]; now rewrite <- app_assoc).
  rewrite (dw_prefix_exists (out ++ ["labels"; "train"]) (out ++ ["labels"])
             (labels_train_dir out))
    by (exists ["train"]; now rewrite <- app_assoc).
  rewrite (dw_prefix_exists (out ++ ["images"; "train"])
             ((out ++ ["images"]) ++ ["train"]) (images_train_dir out))
    by (exists []; now rewrite <- !app_assoc).
  rewrite (dw_prefix_exists (out ++ ["labels"; "train"])
             ((out ++ ["labels"]) ++ ["train"]) (labels_train_dir out))
    by (exists []; now rewrite <- !app_assoc).
  cbn [andb]. unfold CreateSampleYoloModel.path_exists.
  fold (manifest_path out). rewrite (dw_manifest _ _ _ _ _ _ _ _ H).
  unfold manifest_path. destruct out; reflexivity.
Qed.

Lemma dw_split_is_dir (top : string) :
  out ++ [top; "train"] ∈ dataset_dirs out ->
  is_dir f' ((out ++ [top]) ++ ["train"]) = true.
Proof.
  intros Hd. rewrite <- app_assoc. cbn [app].
  rewrite (same_dirs_is_dir _ _ _ (dw_same_dirs _ _ _ _ _ _ _ _ H)).
  apply make_all_dirs_is_dir, Hd.
Qed.

(** After a run with a training sample the check accepts. *)
Lemma dw_accepts : (0 < nt)%nat -> accepts f' out = true.
Proof.
  intros Hn. unfold accepts. rewrite dw_six_exist. cbn [andb].
  apply andb_true_iff. split; apply negb_true_iff, Z.eqb_neq.
  - unfold train_images_found.
    assert ("train_0000.jpg" ∈ CreateSampleYoloModel.glob_suffix f'
              ((out ++ ["images"]) ++ ["train"]) ".jpg") as Hin.
    { apply elem_of_glob_suffix.
      split; [apply dw_split_is_dir, images_train_dir|].
      split; [|reflexivity].
      apply elem_of_dom.
      rewrite <- !app_assoc.
      apply (dw_image_present _ _ _ _ _ _ _ _ H "train" 0). auto. }
    assert (size (CreateSampleYoloModel.glob_suffix f'
                    ((out ++ ["images"]) ++ ["train"]) ".jpg") <> 0%nat).
    { apply size_non_empty_iff. intros E. rewrite E in Hin.
      now apply elem_of_empty in Hin. }
    lia.
  - unfold train_labels_found.
    assert ("train_0000.txt" ∈ CreateSampleYoloModel.glob_suffix f'
              ((out ++ ["labels"]) ++ ["train"]) ".txt") as Hin.
    { apply elem_of_glob_suffix.
      split; [apply dw_split_is_dir, labels_train_dir|].
      split; [|reflexivity].
      apply elem_of_dom.
      rewrite <- !app_assoc.
      apply (dw_label_present _ _ _ _ _ _ _ _ H "train" 0). auto. }
    assert (size (CreateSampleYoloModel.glob_suffix f'
                    ((out ++ ["labels"]) ++ ["train"]) ".txt") <> 0%nat).
    { apply size_non_empty_iff. intros E. rewrite E in Hin.
      now apply elem_of_empty in Hin. }
    lia.
Qed.

(** After a run without a training sample on a fresh root it rejects. *)
Lemma dw_rejects : fresh out f -> nt = 0%nat -> accepts f' out = false.
Proof.
  intros Hfresh Hn. unfold accepts.
  assert (forall ext, CreateSampleYoloModel.glob_suffix f'
            ((out ++ ["images"]) ++ ["train"]) ext = ∅) as E.
  { intros ext. apply set_eq. intros name. split;
      [|intros Hx; now apply elem_of_empty in Hx].
    intros Hx. apply elem_of_glob_suffix in Hx as (_ & [nd Hs] & _).
    exfalso. rewrite <- !app_assoc in Hs. cbn [app] in Hs.
    rewrite (dw_frame _ _ _ _ _ _ _ _ H) in Hs.
    - assert (Some nd = None) as X; [|discriminate X].
      rewrite <- Hs.
      apply (fresh_lookup out f Hfresh "images" "train" name).
      apply images_train_dir.
    - intros i Hi. lia.
    - intros i _. split; intros Eq.
      + apply path3_inj in Eq as (_ & Eq & _). discriminate.
      + apply path3_inj in Eq as (Eq & _). discriminate.
    - intros Eq. symmetry in Eq. now apply manifest_ne_path3 in Eq. }
  unfold train_images_found. rewrite !E, size_empty.
  cbn [Z.of_nat Z.add Z.eqb negb]. now rewrite andb_false_r.
Qed.

End Validated.


(** X11. A dataset written by either generator with at least one
    training sample passes the dataset check of the training script,
    whatever the output root held before and whether or not every
    image could be stored. *)
Theorem generated_dataset_accepted :
  (forall out n split s s' r,
     CreateDentalDataset.create_dataset out n split s = (Ret tt, s') ->
     0 < train_count n split ->
     st_fs r = st_fs s' ->
     exists r', CreateSampleYoloModel.validate_dataset out r = (Ret true, r'))
  /\
  (forall a s yaml s' r,
     TrainDentalYolo.generate_step a s = (Ret yaml, s') ->
     0 < train_count (TrainDentalYolo.a_num_images a) 0.8 ->
     st_fs r = st_fs s' ->
     exists r',
       CreateSampleYoloModel.validate_dataset (TrainDentalYolo.a_dataset_dir a) r
       = (Ret true, r')).
Proof.
  split.
  - intros out n split s s' r H Hn Hr.
    apply DatasetFacts.create_dataset_written in H.
    destruct (validate_dataset_run out r) as (r' & E & _).
    rewrite Hr, (dw_accepts _ _ _ _ _ _ _ _ H) in E by lia. eauto.
  - intros a s yaml s' r H Hn Hr.
    apply YoloFacts.generate_step_written in H as [_ H].
    destruct (validate_dataset_run (TrainDentalYolo.a_dataset_dir a) r)
      as (r' & E & _).
    rewrite Hr, (dw_accepts _ _ _ _ _ _ _ _ H) in E by lia. eauto.
Qed.

Lemma generated_dataset_accepted_witness :
  let first := CreateDentalDataset.create_dataset ["out"] 2 0.8 demo_state in
  first = (Ret tt, snd first) /\
  exists r',
    CreateSampleYoloModel.validate_dataset ["out"] (snd first) = (Ret true, r').
Proof.
  intros first.
  assert (first = (Ret tt, snd first)) as E by (vm_compute; reflexivity).
  split; [exact E|].
  apply (proj1 generated_dataset_accepted ["out"] 2 0.8%float demo_state
           (snd first) (snd first) E); [vm_compute; reflexivity | reflexivity].
Defined.

(** X12. A dataset too small to have a training sample is rejected: when
    the requested total times the split fraction is below one, as for a
    single image, a completed run of either generator on a fresh root
    leaves a dataset that the check of the training script refuses,
    although the generator reported success. *)
Theorem dataset_without_training_sample_rejected :
  (forall out n split s s' r,
     CreateDentalDataset.create_dataset out n split s = (Ret tt, s') ->
     fresh out (st_fs s) ->
     train_count n split <= 0 ->
     st_fs r = st_fs s' ->
     exists r',
       CreateSampleYoloModel.validate_dataset out r = (Ret false, r'))
  /\
  (forall a s yaml s' r,
     TrainDentalYolo.generate_step a s = (Ret yaml, s') ->
     fresh (TrainDentalYolo.a_dataset_dir a) (st_fs s) ->
     train_count (TrainDentalYolo.a_num_images a) 0.8 <= 0 ->
     st_fs r = st_fs s' ->
     exists r',
       CreateSampleYoloModel.validate_dataset (TrainDentalYolo.a_dataset_dir a) r
       = (Ret false, r')).
Proof.
  split.
  - intros out n split s s' r H Hf Hn Hr.
    apply DatasetFacts.create_dataset_written in H.
    destruct (validate_dataset_run out r) as (r' & E & _).
    rewrite Hr, (dw_rejects _ _ _ _ _ _ _ _ H Hf) in E by lia. eauto.
  - intros a s yaml s' r H Hf Hn Hr.
    apply YoloFacts.generate_step_written in H as [_ H].
    destruct (validate_dataset_run (TrainDentalYolo.a_dataset_dir a) r)
      as (r' & E & _).
    rewrite Hr, (dw_rejects _ _ _ _ _ _ _ _ H Hf) in E by lia. eauto.
Qed.

Lemma dataset_without_training_sample_rejected_witness :
  let first := CreateDentalDataset.create_dataset ["out"] 1 0.8 demo_state in
  first = (Ret tt, snd first) /\
  exists r',
    CreateSampleYoloModel.validate_dataset ["out"] (snd first) = (Ret false, r').
Proof.
  intros first.
  assert (first = (Ret tt, snd first)) as E by (vm_compute; reflexivity).
  split; [exact E|].
  apply (proj1 dataset_without_training_sample_rejected ["out"] 1 0.8%float
           demo_state (snd first) (snd first) E).
  - apply fresh_empty.
  - vm_compute. discriminate.
  - reflexivity.
Defined.


(** *** The image synthesizer of the assembler *)

Lemma draw_tooth_plain (condition : string) (x y tw th : Z) (s : state) :
  condition <> "cavity" ->
  exists shapes,
    CreateDentalDataset.draw_tooth condition x y tw th s = (Ret shapes, s).
Proof.
  intros Hc. unfold CreateDentalDataset.draw_tooth.
  destruct (String.eqb_spec condition "cavity") as [E|_]; [contradiction|].
  repeat match goal with
         | |- context [if ?c then _ else _] => destruct c
         end; eexists; reflexivity.
Qed.

Lemma draw_teeth_plain (condition : string) (sx sy tw th : Z)
    (teeth : list nat) (s : state) :
  condition <> "cavity" ->
  exists shapes,
    CreateDentalDataset.draw_teeth condition sx sy tw th teeth s
    = (Ret shapes, s).
Proof.
  intros Hc. induction teeth as [|i teeth IH];
    cbn [CreateDentalDataset.draw_teeth].
  - eexists. reflexivity.
  - destruct (draw_tooth_plain condition (sx + Z.of_nat i * tw) sy tw th s Hc)
      as (here & E1).
    destruct IH as (later & E2).
    rewrite bind_unfold, E1, bind_unfold, E2. eexists. reflexivity.
Qed.

Lemma py_randint_empty (a b : Z) (s : state) :
  b < a -> py_randint a b s = (Raise ValueError, s).
Proof.
  intros H. unfold py_randint.
  destruct (b <? a) eqn:E; [reflexivity|]. apply Z.ltb_ge in E. lia.
Qed.

Lemma draw_tooth_cavity_small (x y tw th : Z) (s : state) :
  tw < 20 \/ th < 20 ->
  exists s',
    CreateDentalDataset.draw_tooth "cavity" x y tw th s
    = (Raise ValueError, s').
Proof.
  intros Hs. unfold CreateDentalDataset.draw_tooth.
  cbn [String.eqb Ascii.eqb Bool.eqb andb].
  destruct (Z.lt_ge_cases (tw - 15) 5) as [Hw|Hw].
  - rewrite bind_unfold, py_randint_empty by exact Hw. eauto.
  - destruct (DatasetFacts.py_randint_returns 5 (tw - 15) Hw s)
      as (dx & s1 & E1).
    rewrite bind_unfold, E1.
    rewrite bind_unfold, py_randint_empty by lia. eauto.
Qed.

(** X13. [create_dental_image] fails only for want of room: on an image
    of positive size it raises [ValueError] exactly when the condition
    is ["cavity"] and a tooth is less than 20 pixels wide or high, that
    is when the image is narrower than 160 or lower than 60 pixels;
    otherwise it returns an image of the requested size, and for every
    condition but ["cavity"] it leaves the random generator alone. *)
Theorem create_dental_image_outcome (width height : Z) (condition : string)
    (s : state) :
  0 < width -> 0 < height ->
  if String.eqb condition "cavity" && ((width <? 160) || (height <? 60))
  then exists s',
         CreateDentalDataset.create_dental_image width height condition s
         = (Raise ValueError, s')
  else exists im s',
         CreateDentalDataset.create_dental_image width height condition s
         = (Ret im, s') /\
         r_width im = width /\ r_height im = height /\
         (condition <> "cavity" -> s' = s).
Proof.
  intros Hw Hh. unfold CreateDentalDataset.create_dental_image.
  destruct (String.eqb_spec condition "cavity") as [->|Hc]; cbn [andb].
  - destruct ((width <? 160) || (height <? 60)) eqn:Es.
    + assert (width / 8 < 20 \/ height / 3 < 20) as Hs.
      { apply orb_true_iff in Es as [Es|Es]; apply Z.ltb_lt in Es;
          [left | right]; apply Z.div_lt_upper_bound; lia. }
      cbn [seq CreateDentalDataset.draw_teeth].
      destruct (draw_tooth_cavity_small
                  (width / 4 + Z.of_nat 0 * (width / 8)) (height / 3)
                  (width / 8) (height / 3) s Hs) as (s' & E).
      rewrite !bind_unfold, E. eauto.
    + apply orb_false_iff in Es as [E1 E2].
      apply Z.ltb_ge in E1, E2.
      destruct (DatasetFacts.returns_draw_teeth "cavity" (width / 4)
                  (height / 3) (width / 8) (height / 3) (seq 0 6)) with (s := s)
        as (teeth & s' & E).
      * assert (20 <= width / 8) by (apply Z.div_le_lower_bound; lia). lia.
      * assert (20 <= height / 3) by (apply Z.div_le_lower_bound; lia). lia.
      * rewrite bind_unfold, E. eexists _, s'.
        split; [reflexivity|]. cbn [r_width r_height].
        split; [reflexivity|]. split; [reflexivity|]. now intros [].
  - destruct (draw_teeth_plain condition (width / 4) (height / 3)
                (width / 8) (height / 3) (seq 0 6) s Hc) as (teeth & E).
    rewrite bind_unfold, E. eexists _, s.
    split; [reflexivity|]. cbn [r_width r_height]. auto.
Qed.

Lemma create_dental_image_outcome_witness :
  exists s',
    CreateDentalDataset.create_dental_image 100 100 "cavity" demo_state
    = (Raise ValueError, s').
Proof.
  apply (create_dental_image_outcome 100 100 "cavity" demo_state); lia.
Defined.


(** *** What the multi-label generator draws *)

Lemma int_trunc_floor (q : Q) : (0 <= q)%Q -> int_trunc q = Qfloor q.
Proof.
  intros Hq. unfold int_trunc, Qfloor. destruct q as [a b].
  unfold Qle in Hq. simpl in *.
  apply Z.quot_div_nonneg; lia.
Qed.

Lemma int_trunc_bounds (q : Q) :
  (0 <= q)%Q -> 0 <= int_trunc q /\ (inject_Z (int_trunc q) <= q)%Q.
Proof.
  intros Hq. rewrite int_trunc_floor by exact Hq. split.
  - change 0 with (Qfloor (inject_Z 0)). now apply Qfloor_resp_le.
  - apply Qfloor_le.
Qed.

(** The box drawn for a sampled placement lies inside the image. *)
Lemma drawn_box_inside (x y w h : Q) (W H : Z) :
  sampled x y w h -> 0 <= W -> 0 <= H ->
  let x0 := int_trunc ((x - w / 2) * inject_Z W) in
  let y0 := int_trunc ((y - h / 2) * inject_Z H) in
  let wd := int_trunc (w * inject_Z W) in
  let ht := int_trunc (h * inject_Z H) in
  0 <= x0 /\ 0 <= wd /\ x0 + wd <= W /\
  0 <= y0 /\ 0 <= ht /\ y0 + ht <= H.
Proof.
  intros Hs HW HH x0 y0 wd ht.
  destruct (YoloFacts.sampled_inside x y w h Hs) as (Hl & Hr & Ht & Hb).
  destruct Hs as (Hx & Hy & Hw & Hh).
  assert (0 <= inject_Z W)%Q as QW by (unfold Qle; simpl; lia).
  assert (0 <= inject_Z H)%Q as QH by (unfold Qle; simpl; lia).
  unfold Qdiv in *. change (/ 2)%Q with (1 # 2)%Q in *.
  destruct (int_trunc_bounds ((x - w * (1 # 2)) * inject_Z W)) as [X0 X1];
    [nra|].
  destruct (int_trunc_bounds (w * inject_Z W)) as [W0 W1]; [nra|].
  destruct (int_trunc_bounds ((y - h * (1 # 2)) * inject_Z H)) as [Y0 Y1];
    [nra|].
  destruct (int_trunc_bounds (h * inject_Z H)) as [H0 H1]; [nra|].
  fold x0 in X0, X1. fold wd in W0, W1. fold y0 in Y0, Y1. fold ht in H0, H1.
  repeat split; try assumption.
  - rewrite Zle_Qle, inject_Z_plus.
    assert ((x + w * (1 # 2)) * inject_Z W <= inject_Z W)%Q by nra. lra.
  - rewrite Zle_Qle, inject_Z_plus.
    assert ((y + h * (1 # 2)) * inject_Z H <= inject_Z H)%Q by nra. lra.
Qed.

(** X14. Whatever the multi-label generator draws for a sampled
    placement lies inside the image: for an image of non-negative size
    every corner of the shape is within its bounds. Each of the ten
    classes draws exactly one shape. *)
Theorem drawn_shapes_inside (condition : string) (x y w h : Q) (W H : Z) :
  sampled x y w h -> 0 <= W -> 0 <= H ->
  Forall (shape_inside W H)
         (TrainDentalYolo.draw_condition condition x y w h W H) /\
  (condition ∈ TrainDentalYolo.default_classes ->
   length (TrainDentalYolo.draw_condition condition x y w h W H) = 1%nat).
Proof.
  intros Hs HW HH.
  destruct (drawn_box_inside x y w h W H Hs HW HH)
    as (X0 & W0 & X1 & Y0 & H0 & Y1).
  unfold TrainDentalYolo.draw_condition.
  set (x0 := int_trunc ((x - w / 2) * inject_Z W)) in *.
  set (y0 := int_trunc ((y - h / 2) * inject_Z H)) in *.
  set (wd := int_trunc (w * inject_Z W)) in *.
  set (ht := int_trunc (h * inject_Z H)) in *.
  clearbody x0 y0 wd ht.
  assert (0 <= wd / 2 <= wd) as D1
    by (split; [apply Z.div_pos; lia | apply Z.div_le_upper_bound; lia]).
  assert (0 <= wd / 4 <= wd) as D2
    by (split; [apply Z.div_pos; lia | apply Z.div_le_upper_bound; lia]).
  assert (0 <= ht / 2 <= ht) as D3
    by (split; [apply Z.div_pos; lia | apply Z.div_le_upper_bound; lia]).
  assert (0 <= ht / 4 <= ht) as D4
    by (split; [apply Z.div_pos; lia | apply Z.div_le_upper_bound; lia]).
  split.
  - repeat match goal with
           | |- context [if ?c then _ else _] => destruct c
           end;
      repeat (constructor; try (cbn [fst snd]; lia)).
  - intros Hin. unfold TrainDentalYolo.default_classes in Hin.
    repeat (apply elem_of_cons in Hin as [->|Hin]; [reflexivity|]).
    inversion Hin.
Qed.

Lemma drawn_shapes_inside_witness :
  Forall (shape_inside 416 416)
         (TrainDentalYolo.draw_condition "chipped" 0.5 0.5 0.2 0.2 416 416).
Proof.
  apply (drawn_shapes_inside "chipped" 0.5 0.5 0.2 0.2 416 416).
  - unfold sampled. repeat split; discriminate.
  - lia.
  - lia.
Defined.


(** *** The boxes of the assembler *)

(** X15. Every box the assembler annotates is the fixed box up to its
    jitter: center-x in [0.4, 0.6], center-y 0.45, width in
    [0.55, 0.65] and height in [0.25, 0.35]. The four clamps of
    [create_annotation] therefore never change a value, and the box
    keeps a margin of 0.075 to the left and right edge of the image. *)
Theorem assembler_box_ranges (image_path : path) (condition : string)
    (class_id w h : Z) (s : state) :
  exists b s',
    CreateDentalDataset.create_annotation image_path condition class_id w h s
    = (Ret (format_box b), s') /\
    b_class b = class_id /\
    (0.4 <= b_x b <= 0.6)%Q /\ (b_y b == 0.45)%Q /\
    (0.55 <= b_w b <= 0.65)%Q /\ (0.25 <= b_h b <= 0.35)%Q /\
    (0.075 <= b_x b - b_w b / 2)%Q /\ (b_x b + b_w b / 2 <= 0.925)%Q.
Proof.
  assert (forall dx dw dh : Q,
            (-0.1 <= dx <= 0.1)%Q -> (-0.05 <= dw <= 0.05)%Q ->
            (-0.05 <= dh <= 0.05)%Q ->
            let b := {| b_class := class_id;
                        b_x := py_max 0 (py_min 1 (0.5 + dx));
                        b_y := py_max 0 (py_min 1 0.45);
                        b_w := py_max 0.1 (py_min 0.8 (0.6 + dw));
                        b_h := py_max 0.1 (py_min 0.5 (0.3 + dh)) |} in
            b_class b = class_id /\
            (0.4 <= b_x b <= 0.6)%Q /\ (b_y b == 0.45)%Q /\
            (0.55 <= b_w b <= 0.65)%Q /\ (0.25 <= b_h b <= 0.35)%Q /\
            (0.075 <= b_x b - b_w b / 2)%Q /\
            (b_x b + b_w b / 2 <= 0.925)%Q) as K.
  { intros dx dw dh Hx Hw Hh b. subst b. cbn [b_class b_x b_y b_w b_h].
    pose proof (clamp_id 0 1 (0.5 + dx) ltac:(lra)) as Ex.
    pose proof (clamp_id 0.1 0.8 (0.6 + dw) ltac:(lra)) as Ew.
    pose proof (clamp_id 0.1 0.5 (0.3 + dh) ltac:(lra)) as Eh.
    unfold clamp in Ex, Ew, Eh.
    unfold Qdiv. change (/ 2)%Q with (1 # 2)%Q.
    split; [reflexivity|].
    split; [lra|]. split; [reflexivity|]. split; [lra|]. split; [lra|].
    split; lra. }
  unfold CreateDentalDataset.create_annotation,
    CreateDentalDataset.annotation_box.
  destruct (String.eqb condition "misaligned").
  - rewrite !bind_unfold. unfold draw at 1.
    pose proof (uniform_range (-0.1) 0.1 (st_rng s) ltac:(lra)) as Hx.
    destruct (uniform (-0.1) 0.1 (st_rng s)) as [dx g1].
    rewrite !bind_unfold. unfold draw at 1. cbn [st_rng].
    pose proof (uniform_range (-0.05) 0.05 g1 ltac:(lra)) as Hw.
    destruct (uniform (-0.05) 0.05 g1) as [dw g2].
    cbn [fst] in Hx, Hw.
    eexists _, _. split; [reflexivity|].
    apply (K dx dw 0%Q); [exact Hx | exact Hw | lra].
  - destruct (String.eqb condition "chipped").
    + rewrite !bind_unfold. unfold draw at 1.
      pose proof (uniform_range (-0.05) 0.05 (st_rng s) ltac:(lra)) as Hh.
      destruct (uniform (-0.05) 0.05 (st_rng s)) as [dh g1].
      cbn [fst] in Hh.
      eexists _, _. split; [reflexivity|].
      apply (K 0%Q 0%Q dh); [lra | lra | exact Hh].
    + eexists _, _. split; [reflexivity|].
      apply (K 0%Q 0%Q 0%Q); lra.
Qed.


Import CreateSampleYoloModel.

(** *** Training on a dataset directory *)

Lemma try_except_ret {A : Type} (m : py A) (h : string -> py A)
    (s s' : state) (a : A) :
  m s = (Ret a, s') -> try_except m h s = (Ret a, s').
Proof. intros E. unfold try_except. now rewrite E. Qed.

Lemma accepts_manifest (f : fs) (ds : path) :
  accepts f ds = true -> path_exists f (ds ++ ["dataset.yaml"]) = true.
Proof.
  unfold accepts. intros H.
  repeat (apply andb_true_iff in H as [H ?]). assumption.
Qed.

Lemma sample_print_results_spec (items : list (string * string)) (s : state) :
  exists s', print_results items s = (Ret tt, s') /\
             st_fs s' = st_fs s /\ st_calls s' = st_calls s.
Proof.
  revert s. induction items as [|[key value] items IH]; intros s;
    cbn [print_results].
  - exists s. auto.
  - destruct (print_then ("- " +:+ key +:+ ": " +:+ value)
                (print_results items) s) as (s1 & -> & C1 & F1).
    destruct (IH s1) as (s' & E & F & C). exists s'.
    split; [exact E|]. split; congruence.
Qed.

Section TrainingFacts.
Variable lib : library.
Variable getsize : path -> option Z.
Variable absolute : path -> path.

Lemma closes_print (out : path) (msg : string) (tail : py bool) :
  closes getsize out tail -> closes getsize out (print msg;; tail).
Proof.
  intros H s1. destruct (print_then msg tail s1) as (s2 & -> & C & F).
  destruct (H s2) as (s3 & F3 & C3 & E). exists s3.
  split; [congruence|]. split; [congruence | exact E].
Qed.

Lemma closes_size (out : path) (tail : py bool) :
  (forall s1, exists s2, tail s1 = (Ret true, s2) /\ st_fs s2 = st_fs s1 /\
                         st_calls s2 = st_calls s1) ->
  closes getsize out (print_model_size getsize out;; tail).
Proof.
  intros H s1. rewrite bind_unfold. unfold print_model_size, py_getsize.
  destruct (getsize out) as [n|].
  - rewrite bind_unfold. cbv beta iota delta [mret py_ret].
    unfold print at 1.
    match goal with |- context [tail ?st] =>
      destruct (H st) as (s2 & E & F & C) end.
    exists s2. rewrite E. cbn [st_fs st_calls] in *. auto.
  - rewrite bind_unfold. unfold raise. exists s1. auto.
Qed.

(** The calls of a builder and how it ends. *)
Lemma after_validation (ds out : path) (epochs : Z) (size : string)
    (tail : py bool) (h : string -> py bool) (s : state) :
  let plan := training_plan (ds ++ ["dataset.yaml"]) out epochs size in
  closes getsize out tail ->
  (forall msg s1, exists s2, h msg s1 = (Ret false, s2) /\
                             st_fs s2 = st_fs s1 /\
                             st_calls s2 = st_calls s1) ->
  forall m1 m2 m3 : string,
  exists ok s',
    try_except
      (print m1;;
       call lib (YoloLoad ("yolov8" +:+ size +:+ ".pt"));;
       print m2;;
       call lib (ModelTrain (ds ++ ["dataset.yaml"]) epochs);;
       print m3;;
       call lib (ModelSave out);;
       tail) h s = (Ret ok, s') /\
    st_fs s' = st_fs s /\
    st_calls s' = st_calls s ++ fst (attempts lib plan) /\
    (ok = true <-> snd (attempts lib plan) = None /\ getsize out <> None).
Proof.
  intros plan Ht Hh m1 m2 m3. subst plan.
  unfold training_plan, attempts.
  unfold try_except at 1.
  destruct (print_then m1
     (call lib (YoloLoad ("yolov8" +:+ size +:+ ".pt"));;
      print m2;; call lib (ModelTrain (ds ++ ["dataset.yaml"]) epochs);;
      print m3;; call lib (ModelSave out);; tail) s) as (s1 & -> & C1 & F1).
  rewrite bind_unfold. unfold call at 1.
  destruct (lib_raises lib (YoloLoad _)) as [e1|].
  { match goal with |- context [h e1 ?st] =>
      destruct (Hh e1 st) as (s' & E & F & C) end.
    exists false, s'. rewrite E. cbn [st_fs st_calls fst snd] in *.
    split; [reflexivity|]. split; [congruence|]. split; [congruence|].
    split; [discriminate | intros [[=] _]]. }
  match goal with |- context [(print m2;; ?k2) ?st] =>
    destruct (print_then m2 k2 st) as (s2 & -> & C2 & F2) end.
  cbn [st_fs st_calls] in C2, F2.
  rewrite bind_unfold. unfold call at 1.
  destruct (lib_raises lib (ModelTrain _ _)) as [e2|].
  { match goal with |- context [h e2 ?st] =>
      destruct (Hh e2 st) as (s' & E & F & C) end.
    exists false, s'. rewrite E. cbn [st_fs st_calls fst snd] in *.
    split; [reflexivity|]. split; [congruence|].
    split; [rewrite C, C2, C1, <- app_assoc; reflexivity|].
    split; [discriminate | intros [[=] _]]. }
  match goal with |- context [(print m3;; ?k3) ?st] =>
    destruct (print_then m3 k3 st) as (s3 & -> & C3 & F3) end.
  cbn [st_fs st_calls] in C3, F3.
  rewrite bind_unfold. unfold call at 1.
  destruct (lib_raises lib (ModelSave _)) as [e3|].
  { match goal with |- context [h e3 ?st] =>
      destruct (Hh e3 st) as (s' & E & F & C) end.
    exists false, s'. rewrite E. cbn [st_fs st_calls fst snd] in *.
    split; [reflexivity|]. split; [congruence|].
    split; [rewrite C, C3, C2, C1, <- !app_assoc; reflexivity|].
    split; [discriminate | intros [[=] _]]. }
  cbv beta iota.
  match goal with |- context [tail ?st] =>
    destruct (Ht st) as (s4 & F4 & C4 & ->) end.
  cbn [st_fs st_calls fst snd] in *.
  destruct (getsize out) as [n|].
  - exists true, s4.
    split; [reflexivity|]. split; [congruence|].
    split; [rewrite C4, C3, C2, C1, <- !app_assoc; reflexivity|].
    split; [intros _; split; [reflexivity | discriminate] | reflexivity].
  - match goal with |- context [h ?e ?st] =>
      destruct (Hh e st) as (s' & E & F & C) end.
    exists false, s'. rewrite E.
    split; [reflexivity|]. split; [congruence|].
    split; [rewrite C, C4, C3, C2, C1, <- !app_assoc; reflexivity|].
    split; [discriminate | intros [_ H]; now contradiction H].
Qed.

End TrainingFacts.


Lemma try_except_bind_ret {A B : Type} (m : py A) (k : A -> py B)
    (h : string -> py B) (s s1 : state) (a : A) :
  m s = (Ret a, s1) -> try_except (m ≫= k) h s = try_except (k a) h s1.
Proof. intros E. unfold try_except. now rewrite bind_unfold, E. Qed.

Lemma print_run (msg : string) (s : state) :
  exists s1, print msg s = (Ret tt, s1) /\
             st_calls s1 = st_calls s /\ st_fs s1 = st_fs s.
Proof. eexists. split; [reflexivity|]. split; reflexivity. Qed.

Section SampleTraining.
Variable lib : library.
Variable getsize : path -> option Z.
Variable absolute : path -> path.

Lemma handler_false (prefix msg : string) (s1 : state) :
  exists s2, (print (prefix +:+ msg);; mret false) s1 = (Ret false, s2) /\
             st_fs s2 = st_fs s1 /\ st_calls s2 = st_calls s1.
Proof. eexists. split; [reflexivity|]. split; reflexivity. Qed.

Lemma sample_training_run (ds out : path) (epochs : Z) (size : string)
    (s : state) :
  let plan := training_plan (ds ++ ["dataset.yaml"]) out epochs size in
  exists ok s',
    train_yolo_model lib getsize absolute ds out epochs size s
    = (Ret ok, s') /\
    st_fs s' = st_fs s /\
    st_calls s' = st_calls s ++ (if accepts (st_fs s) ds
                                 then fst (attempts lib plan) else []) /\
    (ok = true <->
     accepts (st_fs s) ds = true /\ snd (attempts lib plan) = None /\
     getsize out <> None).
Proof.
  intros plan. unfold train_yolo_model.
  repeat match goal with
         | |- context [(print ?m;; ?k) ?st] =>
           lazymatch k with
           | try_except _ _ => fail
           | _ => idtac
           end;
           let sx := fresh "sx" in
           destruct (print_then m k st) as (sx & -> & Cx & Fx);
           try rewrite <- Cx; try rewrite <- Fx; clear Cx Fx
         end.
  match goal with
  | |- context [(print ?m;; try_except ?b ?h) ?st] =>
    destruct (print_then m (try_except b h) st) as (s5 & -> & C5 & F5)
  end.
  rewrite <- C5, <- F5. clear C5 F5.
  match goal with
  | |- context [try_except (print ?m;; ?k) ?h s5] =>
    destruct (print_run m s5) as (s6 & E6 & C6 & F6);
    rewrite (try_except_bind_ret (print m) (fun _ => k) h s5 s6 tt E6)
  end.
  rewrite <- C6, <- F6. clear E6 C6 F6 s5.
  destruct (validate_dataset_run ds s6) as (s7 & E7 & F7 & C7).
  rewrite (try_except_bind_ret _ _ _ _ _ _ E7).
  rewrite <- F7, <- C7.
  destruct (accepts (st_fs s7) ds) eqn:Acc.
  2: { cbn [negb]. exists false, s7. split; [reflexivity|].
       split; [reflexivity|]. split; [now rewrite app_nil_r|].
       split; [discriminate | intros [[=] _]]. }
  cbn [negb]. cbv zeta.
  assert (py_exists (ds ++ ["dataset.yaml"]) s7 = (Ret true, s7)) as E8.
  { unfold py_exists. now rewrite (accepts_manifest _ _ Acc). }
  rewrite (try_except_bind_ret _ _ _ _ _ _ E8). cbn [negb].
  match goal with
  | |- context [try_except ((print ?m;; mret true) ≫= ?k) ?h s7] =>
    destruct (print_ret m true s7) as (s9 & E9 & F9 & C9 & _);
    rewrite (try_except_bind_ret (print m;; mret true) k h s7 s9 true E9)
  end.
  rewrite <- F9, <- C9. cbn [negb].
  match goal with
  | |- context [try_except (print ?m1;; call lib ?c1;; print ?m2;;
                            call lib ?c2;; print ?m3;; call lib ?c3;; ?tail)
                           ?h s9] =>
    assert (closes getsize out tail) as Hc;
    [|assert (forall msg s1, exists s2,
                h msg s1 = (Ret false, s2) /\ st_fs s2 = st_fs s1 /\
                st_calls s2 = st_calls s1) as Hh;
      [|destruct (after_validation lib getsize ds out epochs size tail h s9
                    Hc Hh m1 m2 m3) as (ok & s' & E & F & C & Hok)]]
  end.
  - repeat apply closes_print. apply closes_size.
    intros s1. destruct (lib_results_dict lib) as [items|].
    + rewrite bind_unfold.
      match goal with |- context [(print ?m;; ?k) s1] =>
        destruct (print_then m k s1) as (s2 & -> & C2 & F2) end.
      destruct (sample_print_results_spec items s2) as (s3 & -> & F3 & C3).
      exists s3. split; [reflexivity|]. split; congruence.
    + exists s1. auto.
  - intros msg s1. apply handler_false.
  - exists ok, s'. split; [exact E|]. split; [exact F|]. split; [exact C|].
    split.
    + intros H. split; [reflexivity|]. now apply Hok.
    + intros (_ & H1 & H2). now apply Hok.
Qed.

(** X16. Training on a dataset directory never raises: the dataset
    check comes first. When the check rejects no library call is made
    at all; when it accepts the calls of the training plan are made,
    each once, up to the first that raises. The result is [True]
    exactly when the check accepts, no call raises and the size of the
    saved model can be read. *)
Theorem sample_training_spec (ds out : path) (epochs : Z) (size : string)
    (s : state) :
  let plan := training_plan (ds ++ ["dataset.yaml"]) out epochs size in
  exists ok s',
    train_yolo_model lib getsize absolute ds out epochs size s
    = (Ret ok, s') /\
    st_calls s' = st_calls s ++ (if accepts (st_fs s) ds
                                 then fst (attempts lib plan) else []) /\
    (ok = true <->
     accepts (st_fs s) ds = true /\ snd (attempts lib plan) = None /\
     getsize out <> None).
Proof.
  intros plan.
  destruct (sample_training_run ds out epochs size s)
    as (ok & s' & E & _ & C & H).
  exists ok, s'. auto.
Qed.

End SampleTraining.


(** *** The training script as a whole *)

Section SampleScript.
Variable lib : library.
Variable getsize : path -> option Z.
Variable absolute : path -> path.

Lemma pretrained_spec (out : path) (size : string) (s : state) :
  let plan := pretrained_plan out size in
  exists ok s',
    create_pretrained_yolo_model lib getsize out size s = (Ret ok, s') /\
    st_fs s' = st_fs s /\
    st_calls s' = st_calls s ++ fst (attempts lib plan) /\
    (ok = true <-> snd (attempts lib plan) = None /\ getsize out <> None).
Proof.
  intros plan. subst plan. unfold create_pretrained_yolo_model.
  repeat match goal with
         | |- context [(print ?m;; ?k) ?st] =>
           lazymatch k with
           | try_except _ _ => fail
           | _ => idtac
           end;
           let sx := fresh "sx" in
           destruct (print_then m k st) as (sx & -> & Cx & Fx);
           try rewrite <- Cx; try rewrite <- Fx; clear Cx Fx
         end.
  match goal with
  | |- context [(print ?m;; try_except ?b ?h) ?st] =>
    destruct (print_then m (try_except b h) st) as (s3 & -> & C3 & F3)
  end.
  rewrite <- C3, <- F3. clear C3 F3.
  unfold pretrained_plan, attempts. unfold try_except at 1.
  rewrite bind_unfold. unfold call at 1.
  destruct (lib_raises lib (YoloLoad _)) as [e1|].
  { eexists false, _. split; [reflexivity|]. cbn [st_fs st_calls fst snd].
    split; [reflexivity|]. split; [reflexivity|].
    split; [discriminate | intros [[=] _]]. }
  rewrite bind_unfold. unfold call at 1. cbn [st_fs st_calls st_rng st_out].
  destruct (lib_raises lib (ModelSave _)) as [e2|].
  { eexists false, _. split; [reflexivity|]. cbn [st_fs st_calls fst snd].
    split; [reflexivity|]. split; [now rewrite <- app_assoc|].
    split; [discriminate | intros [[=] _]]. }
  cbv beta iota.
  match goal with
  | |- context [match ?tail ?st with _ => _ end] =>
    assert (closes getsize out tail) as Hc;
    [|destruct (Hc st) as (s4 & F4 & C4 & ->)]
  end.
  { repeat apply closes_print. apply closes_size.
    intros s1. eexists. split; [reflexivity|]. split; reflexivity. }
  cbn [st_fs st_calls fst snd] in *.
  destruct (getsize out) as [n|].
  - exists true, s4. split; [reflexivity|]. split; [exact F4|].
    split; [now rewrite C4, <- app_assoc|].
    split; [intros _; split; [reflexivity | discriminate] | reflexivity].
  - eexists false, _. split; [reflexivity|]. cbn [st_fs st_calls].
    split; [exact F4|]. split; [now rewrite C4, <- app_assoc|].
    split; [discriminate | intros [_ H]; now contradiction H].
Qed.

Lemma builder_spec (a : args) (s : state) :
  exists ok s',
    (if a_pretrained a
     then create_pretrained_yolo_model lib getsize (a_output a)
                                       (a_model_size a)
     else train_yolo_model lib getsize absolute (a_data a) (a_output a)
                           (a_epochs a) (a_model_size a)) s
    = (Ret ok, s') /\
    (ok = true <->
     (a_pretrained a = false -> accepts (st_fs s) (a_data a) = true) /\
     snd (attempts lib (build_plan a)) = None /\
     getsize (a_output a) <> None).
Proof.
  unfold build_plan. destruct (a_pretrained a).
  - destruct (pretrained_spec (a_output a) (a_model_size a) s)
      as (ok & s' & E & _ & _ & Hok).
    exists ok, s'. split; [exact E|]. rewrite Hok. split.
    + intros [H1 H2]. split; [discriminate | auto].
    + intros (_ & H1 & H2). auto.
  - destruct (sample_training_run lib getsize absolute (a_data a)
                (a_output a) (a_epochs a) (a_model_size a) s)
      as (ok & s' & E & _ & _ & Hok).
    exists ok, s'. split; [exact E|]. rewrite Hok. split.
    + intros (H0 & H1 & H2). auto.
    + intros (H0 & H1 & H2). auto.
Qed.

Lemma makedirs_missing (d : path) (s : state) :
  is_empty d = false -> path_exists (st_fs s) d = false ->
  makedirs d s =
  if existsb (is_file (st_fs s)) (prefixes d)
  then (Raise NotADirectoryError, s)
  else (Ret tt, set_fs s (make_dirs d (st_fs s))).
Proof. intros Ed Ex. unfold makedirs. now rewrite Ed, Ex. Qed.

(** The directory of the output file is made when it is missing. *)
Lemma output_dir_step {B : Type} (out : path) (msg : string) (k : py B)
    (s : state) :
  let d := parent out in
  let run :=
    (present ← py_exists d;
     when (negb (is_empty d) && negb present)
          (makedirs d;; print (msg +:+ path_str d));;
     k) in
  match output_dir_made (st_fs s) out with
  | Some f1 => exists s1, st_fs s1 = f1 /\ run s = k s1
  | None => exists s1, run s = (Raise NotADirectoryError, s1)
  end.
Proof.
  intros d run. subst run. unfold output_dir_made. fold d.
  rewrite exists_then.
  destruct (is_empty d) eqn:Ed; cbn [negb andb orb when].
  { exists s. split; reflexivity. }
  destruct (path_exists (st_fs s) d) eqn:Ex; cbn [negb when].
  { exists s. split; reflexivity. }
  rewrite !bind_unfold, (makedirs_missing d s Ed Ex).
  destruct (existsb (is_file (st_fs s)) (prefixes d)).
  - eexists. reflexivity.
  - unfold print at 1. eexists. split; [|reflexivity]. reflexivity.
Qed.

Lemma training_main_exit_status (a : args) (s : state) :
  let code := fst (script lib getsize absolute a s) in
  (code = 0 \/ code = 1) /\
  (code = 0 <->
   (a_pretrained a = true \/ a_data a <> []) /\
   exists f1,
     output_dir_made (st_fs s) (a_output a) = Some f1 /\
     (a_pretrained a = false -> accepts f1 (a_data a) = true) /\
     snd (attempts lib (build_plan a)) = None /\
     getsize (a_output a) <> None).
Proof.
  intros code. subst code. unfold script.
  destruct (main lib getsize absolute a s) as [o s'] eqn:E. cbn [fst].
  unfold main in E. rewrite bind_unfold in E.
  destruct (negb (a_pretrained a) && is_empty (a_data a)) eqn:Ea.
  { cbn [when] in E. rewrite !bind_unfold in E. unfold print, raise in E.
    injection E as <- <-. cbn [exit_status].
    split; [now right|]. split; [discriminate|].
    intros ([Hp|Hd] & _); apply andb_true_iff in Ea as [E1 E2].
    - rewrite Hp in E1. discriminate.
    - destruct (a_data a); [now contradiction Hd | discriminate]. }
  assert (a_pretrained a = true \/ a_data a <> []) as Hargs.
  { apply andb_false_iff in Ea as [Ea|Ea].
    - left. now apply negb_false_iff in Ea.
    - right. intros Hd. rewrite Hd in Ea. discriminate. }
  cbv beta iota delta [when mret py_ret] in E. cbv zeta in E.
  match type of E with
  | (py_exists ?d ≫= fun present =>
       (if negb (is_empty ?d) && negb present
        then makedirs ?d;; print (?msg +:+ path_str ?d)
        else _) ≫= fun _ => ?k) s = _ =>
    pose proof (output_dir_step (a_output a) msg k s) as Hd
  end.
  cbv zeta in Hd. unfold when in Hd.
  cbv beta iota delta [mret py_ret] in Hd.
  destruct (output_dir_made (st_fs s) (a_output a)) as [f1|] eqn:Ef.
  2: { destruct Hd as (s1 & Hd). rewrite Hd in E. injection E as <- <-.
       cbn [exit_status]. split; [now right|]. split; [discriminate|].
       intros (_ & f1 & [=] & _). }
  destruct Hd as (s1 & F1 & Hd). rewrite Hd in E. clear Hd.
  rewrite bind_unfold in E.
  destruct (builder_spec a s1) as (ok & s2 & Eb & Hok).
  rewrite Eb in E. rewrite F1 in Hok.
  destruct ok.
  - repeat match type of E with
           | (print ?m;; ?k) ?st = _ =>
             let sx := fresh "sx" in
             destruct (print_then m k st) as (sx & Ex & _);
             rewrite Ex in E; clear Ex; cbv beta in E
           end.
    unfold print in E. injection E as <- <-. cbn [exit_status].
    split; [now left|]. split; [intros _|reflexivity].
    split; [exact Hargs|]. exists f1. split; [reflexivity|].
    now apply Hok.
  - rewrite bind_unfold in E. unfold print, raise in E.
    injection E as <- <-. cbn [exit_status].
    split; [now right|]. split; [discriminate|].
    intros (_ & f1' & [= <-] & H).
    apply Hok in H. discriminate.
Qed.

(** X17. The training script exits with status 0, 1 or 2. It exits
    with 2 exactly when the parser rejects the command line. It exits
    with 0 exactly when the parser was asked for its help text, or the
    command line was parsed, [--data] or [--pretrained] is given, the
    directory of the output file exists or can be made, and the model
    is built: no call of the plan raises, the size of the saved model
    can be read and, unless [--pretrained] is given, the dataset check
    accepts the dataset as it is once that directory is there. *)
Theorem training_script_exit_status (parser : argparser args)
    (argv : list string) (s : state) :
  let code := fst (command lib getsize absolute parser argv s) in
  (code = 0 \/ code = 1 \/ code = 2) /\
  (code = 2 <-> parser argv = Usage) /\
  (code = 0 <->
   (exists text, parser argv = Help text) \/
   (exists a f1,
      parser argv = Namespace a /\
      (a_pretrained a = true \/ a_data a <> []) /\
      output_dir_made (st_fs s) (a_output a) = Some f1 /\
      (a_pretrained a = false -> accepts f1 (a_data a) = true) /\
      snd (attempts lib (build_plan a)) = None /\
      getsize (a_output a) <> None)).
Proof.
  intros code. subst code.
  destruct (parser argv) as [a|text|] eqn:P.
  - assert (command lib getsize absolute parser argv s
            = script lib getsize absolute a s) as ->.
    { unfold command, script, main_argv, parse_args. now rewrite P. }
    destruct (training_main_exit_status a s) as [H01 H0].
    cbv zeta in H01, H0.
    split; [tauto|]. split.
    + split; [|discriminate]. intros H2. rewrite H2 in H01.
      destruct H01; discriminate.
    + rewrite H0. split.
      * intros (Ha & f1 & Hf & Hacc & Hp & Hg). right. exists a, f1. auto 10.
      * intros [[text [=]]|(a' & f1 & [= <-] & Ha & Hf & Hacc & Hp & Hg)].
        eauto 10.
  - unfold command, main_argv, parse_args. rewrite P. cbn.
    split; [now left|]. split; [split; discriminate|].
    split; [eauto | reflexivity].
  - unfold command, main_argv, parse_args. rewrite P. cbn.
    split; [now right; right|]. split; [split; reflexivity|].
    split; [discriminate|].
    intros [[text [=]]|(a' & f1 & [=] & _)].
Qed.

End SampleScript.
(** *** The placeholder package *)

Lemma try_except_bind_raise {A B : Type} (m : py A) (k : A -> py B)
    (h : string -> py B) (s s1 : state) (e : exn) :
  m s = (Raise e, s1) -> (forall c, e <> SystemExit c) ->
  exists msg, try_except (m ≫= k) h s = h msg s1.
Proof.
  intros E He. unfold try_except. rewrite bind_unfold, E.
  destruct e; eauto. now contradiction (He code).
Qed.

Lemma mkdir_parents_run (p : path) (s : state) :
  (is_file (st_fs s) p = false /\
   (forall q, q ∈ prefixes p -> is_file (st_fs s) q = false) /\
   mkdir_parents_exist_ok p s = (Ret tt, set_fs s (make_dirs p (st_fs s))))
  \/
  (~ (is_file (st_fs s) p = false /\
      forall q, q ∈ prefixes p -> is_file (st_fs s) q = false) /\
   exists e, mkdir_parents_exist_ok p s = (Raise e, s) /\
             forall c, e <> SystemExit c).
Proof.
  unfold mkdir_parents_exist_ok.
  destruct (is_file (st_fs s) p) eqn:Ep.
  { right. split; [intros [[=] _]|]. eexists. split; [reflexivity|].
    discriminate. }
  destruct (existsb (is_file (st_fs s)) (prefixes p)) eqn:Ex.
  - right. split.
    + intros [_ H]. apply existsb_exists in Ex as (q & Hq & Eq).
      apply list_elem_of_In in Hq. rewrite (H q Hq) in Eq. discriminate.
    + eexists. split; [reflexivity|]. discriminate.
  - left. split; [reflexivity|]. split; [|reflexivity].
    intros q Hq. destruct (is_file (st_fs s) q) eqn:Eq; [|reflexivity].
    assert (existsb (is_file (st_fs s)) (prefixes p) = true) as E'.
    { apply existsb_exists. exists q. split; [|exact Eq].
      now apply list_elem_of_In. }
    congruence.
Qed.

Lemma open_w_error_not_exit (f : fs) (p : path) (e : exn) :
  open_w_error f p = Some e -> forall c, e <> SystemExit c.
Proof.
  unfold open_w_error.
  repeat match goal with
         | |- context [if ?b then _ else _] => destruct b
         end; intros [= <-]; discriminate.
Qed.

Lemma write_file_run (p : path) (c : content) (s : state) :
  (open_w_error (st_fs s) p = None /\
   write_file p c s = (Ret tt, set_fs s (<[p := File c]> (st_fs s))))
  \/
  (exists e, open_w_error (st_fs s) p = Some e /\
             write_file p c s = (Raise e, s) /\
             forall code, e <> SystemExit code).
Proof.
  unfold write_file. destruct (open_w_error (st_fs s) p) as [e|] eqn:O.
  - right. exists e. split; [reflexivity|]. split; [reflexivity|].
    eapply open_w_error_not_exit, O.
  - left. auto.
Qed.

Lemma longer_not_prefix (out q : path) :
  (length out < length q)%nat -> q ∉ prefixes out.
Proof. intros H Hq. apply prefixes_length in Hq. lia. Qed.

Lemma lookup_make_dirs_longer (out q : path) (f : fs) :
  (length out < length q)%nat -> make_dirs out f !! q = f !! q.
Proof.
  intros H. rewrite lookup_make_dirs.
  destruct (decide (q ∈ prefixes out)) as [Hq|_]; [|reflexivity].
  now apply longer_not_prefix in Hq.
Qed.

Lemma made_self_is_dir (out : path) (f : fs) :
  is_dir (make_dirs out f) out = true.
Proof.
  apply is_dir_true. destruct out as [|x out]; [now left | right].
  rewrite lookup_make_dirs. rewrite decide_True; [reflexivity|].
  apply self_in_prefixes. discriminate.
Qed.

Lemma is_dir_insert_ne (f : fs) (p q : path) (nd : node) :
  q <> p -> is_dir (<[p := nd]> f) q = is_dir f q.
Proof.
  intros H. unfold is_dir. destruct q; [reflexivity|].
  now rewrite lookup_insert_ne by congruence.
Qed.

Lemma is_file_insert_ne (f : fs) (p q : path) (nd : node) :
  q <> p -> is_file (<[p := nd]> f) q = is_file f q.
Proof.
  intros H. unfold is_file. now rewrite lookup_insert_ne by congruence.
Qed.

Lemma is_dir_insert_dir (f : fs) (p : path) : is_dir (<[p := Dir]> f) p = true.
Proof.
  unfold is_dir. destruct p; [reflexivity|]. now rewrite lookup_insert_eq.
Qed.

Lemma snoc_ne_length {A : Type} (l k : list A) :
  length l <> length k -> l <> k.
Proof. intros H E. now subst. Qed.

Lemma snoc_ne_last (l : path) (a b : string) : a <> b -> l ++ [a] <> l ++ [b].
Proof. intros H E. apply app_inv_head in E. congruence. Qed.


Lemma parent_child (d : path) (name : string) : parent (d ++ [name]) = d.
Proof. unfold parent. apply removelast_last. Qed.

Lemma fs_grows_insert_dir (f : fs) (p : path) :
  is_file f p = false -> fs_grows f (<[p := Dir]> f).
Proof.
  intros Hp q. destruct (decide (q = p)) as [->|Hq].
  - rewrite lookup_insert_eq. split; [reflexivity|].
    intros c Hc. unfold is_file in Hp. now rewrite Hc in Hp.
  - rewrite lookup_insert_ne by congruence. split; eauto.
Qed.

(** One step of the builder below a directory that is there: writing a
    file, and making a directory. *)
Lemma write_child_step (d : path) (name : string) (c : content) (s : state) :
  is_dir (st_fs s) d = true ->
  (st_fs s !! (d ++ [name]) <> Some Dir /\
   exists s', write_file (d ++ [name]) c s = (Ret tt, s') /\
              st_fs s' = <[d ++ [name] := File c]> (st_fs s) /\
              st_calls s' = st_calls s)
  \/
  (st_fs s !! (d ++ [name]) = Some Dir /\
   exists e, write_file (d ++ [name]) c s = (Raise e, s) /\
             forall code, e <> SystemExit code).
Proof.
  intros Hd. unfold write_file, open_w_error. rewrite parent_child, Hd.
  destruct (is_dir (st_fs s) (d ++ [name])) eqn:E.
  - right. apply is_dir_true in E as [E|E].
    { now destruct d. }
    split; [exact E|]. eexists. split; [reflexivity|]. discriminate.
  - left. split.
    + intros H. assert (is_dir (st_fs s) (d ++ [name]) = true) as X.
      { apply is_dir_true. now right. }
      congruence.
    + eexists. split; [reflexivity|]. split; reflexivity.
Qed.

Lemma mkdir_child_step (d : path) (name : string) (s : state) :
  is_dir (st_fs s) d = true ->
  (is_file (st_fs s) (d ++ [name]) = false /\
   exists s', CreatePlaceholderCoreml.mkdir_exist_ok (d ++ [name]) s
              = (Ret tt, s') /\
              st_fs s' = <[d ++ [name] := Dir]> (st_fs s) /\
              st_calls s' = st_calls s)
  \/
  (is_file (st_fs s) (d ++ [name]) = true /\
   CreatePlaceholderCoreml.mkdir_exist_ok (d ++ [name]) s
   = (Raise FileExistsError, s)).
Proof.
  intros Hd. unfold CreatePlaceholderCoreml.mkdir_exist_ok.
  rewrite parent_child, Hd.
  destruct (is_dir (st_fs s) (d ++ [name])) eqn:E.
  - left. apply is_dir_true in E as [E|E].
    { now destruct d. }
    split.
    + unfold is_file. now rewrite E.
    + exists s. split; [reflexivity|]. split; [|reflexivity].
      symmetry. now apply insert_id.
  - destruct (is_file (st_fs s) (d ++ [name])) eqn:F.
    + right. split; reflexivity.
    + left. split; [reflexivity|]. eexists. split; [reflexivity|].
      split; reflexivity.
Qed.

Lemma mkdir_parents_step (p : path) (s : state) :
  (is_file (st_fs s) p = false /\
   (forall q, q ∈ prefixes p -> is_file (st_fs s) q = false) /\
   exists s', mkdir_parents_exist_ok p s = (Ret tt, s') /\
              st_fs s' = make_dirs p (st_fs s) /\
              st_calls s' = st_calls s)
  \/
  (~ (is_file (st_fs s) p = false /\
      forall q, q ∈ prefixes p -> is_file (st_fs s) q = false) /\
   exists e, mkdir_parents_exist_ok p s = (Raise e, s) /\
             forall c, e <> SystemExit c).
Proof.
  destruct (mkdir_parents_run p s) as [(A & B & E)|(N & e & E & He)].
  - left. split; [exact A|]. split; [exact B|]. eexists.
    split; [exact E|]. split; reflexivity.
  - right. split; [exact N|]. eauto.
Qed.

Ltac path_ne :=
  let E := fresh "E" in
  intros E;
  first [ apply app_inv_head in E; discriminate E
        | apply (f_equal (@length string)) in E;
          rewrite ?length_app in E; simpl in E; lia ].

Ltac path_longer := rewrite ?length_app; simpl; lia.


Section PackageFacts.
Import CreatePlaceholderCoreml.
Variable dumps : json -> string.
Variable st_size : content -> Z.

Lemma package_report (out : path) (s : state) :
  exists s',
    (print "
✅ Placeholder CoreML model created successfully!";;
     print ("Model saved to: " +:+ path_str out);;
     n ← rglob_size st_size out;
     print ("- Model size: "
            +:+ CreateSampleYoloModel.format_2f (inject_Z n / 1048576)
            +:+ " MB");;
     print "- Note: This is a placeholder model for iOS integration";;
     mret true) s = (Ret true, s') /\
    st_fs s' = st_fs s /\ st_calls s' = st_calls s.
Proof. eexists. split; [reflexivity|]. split; reflexivity. Qed.

Ltac builder_fails :=
  match goal with
  | E : ?m ?s1 = (Raise ?e, ?s1), He : forall c, ?e <> SystemExit c
    |- context [try_except (?m ≫= ?k) ?h ?s1] =>
    let msg := fresh "msg" in
    let s' := fresh "s'" in
    let X := fresh "X" in
    destruct (try_except_bind_raise m k h s1 s1 e E He) as (msg & X);
    rewrite X; clear X;
    destruct (handler_false "
❌ Placeholder model creation failed: " msg s1) as (s' & X & ? & ?);
    exists false, s'; split; [exact X|]
  end.

Lemma placeholder_builder_run (out : path) (s : state) :
  exists ok s',
    create_placeholder_coreml_model dumps st_size out s = (Ret ok, s') /\
    st_calls s' = st_calls s /\
    (ok = true <-> package_writable (st_fs s) out) /\
    (ok = true -> st_fs s' = package_written dumps (st_fs s) out) /\
    fs_grows (st_fs s) (st_fs s').
Proof.
  unfold create_placeholder_coreml_model.
  destruct (print_then "Creating placeholder CoreML model..."
              (print ("Output: " +:+ path_str out);;
               try_except
                 (mkdir_parents_exist_ok out;;
                  write_file (out ++ ["manifest.json"])
                    (Text (dumps manifest));;
                  mkdir_exist_ok (out ++ ["Data"]);;
                  write_file ((out ++ ["Data"]) ++ ["model_info.json"])
                    (Text (dumps model_info));;
                  write_file ((out ++ ["Data"]) ++ ["weights.bin"])
                    (Text "placeholder");;
                  print "
✅ Placeholder CoreML model created successfully!";;
                  print ("Model saved to: " +:+ path_str out);;
                  n ← rglob_size st_size out;
                  print ("- Model size: "
                         +:+ CreateSampleYoloModel.format_2f
                               (inject_Z n / 1048576)
                         +:+ " MB");;
                  print "- Note: This is a placeholder model for iOS integration";;
                  mret true)
                 (fun e => print ("
❌ Placeholder model creation failed: " +:+ e);; mret false)) s)
    as (s1 & E1 & C1 & F1).
  cbv zeta. rewrite E1. clear E1.
  match goal with
  | |- context [(print ?msg;; ?k) s1] =>
    destruct (print_then msg k s1) as (s2 & E2 & C2 & F2)
  end.
  rewrite E2. clear E2.
  assert (st_fs s2 = st_fs s) as F by congruence.
  assert (st_calls s2 = st_calls s) as C by congruence.
  clear C1 F1 C2 F2 s1.
  rewrite <- F, <- C. clear F C. generalize dependent s2. clear s.
  intros s.
  (* the package directory *)
  destruct (mkdir_parents_step out s)
    as [(A1 & A2 & s1 & E1 & F1 & C1)|(N1 & e & E1 & He)].
  2: { builder_fails. split; [assumption|]. split.
       - split; [discriminate|]. intros (W1 & W2 & _). now destruct N1.
       - split; [discriminate|]. rewrite H. apply fs_grows_refl. }
  rewrite (try_except_bind_ret _ _ _ _ _ _ E1). clear E1.
  assert (fs_grows (st_fs s) (st_fs s1)) as G1.
  { rewrite F1. now apply fs_grows_make_dirs. }
  assert (is_dir (st_fs s1) out = true) as D1.
  { rewrite F1. apply made_self_is_dir. }
  (* manifest.json *)
  destruct (write_child_step out "manifest.json" (Text (dumps manifest)) s1 D1)
    as [(B1 & s2 & E2 & F2 & C2)|(B1 & e & E2 & He)].
  2: { builder_fails. split; [congruence|]. split.
       - split; [discriminate|]. intros (_ & _ & W3 & _). destruct W3.
         rewrite <- B1, F1. symmetry. apply lookup_make_dirs_longer.
         path_longer.
       - split; [discriminate|]. now rewrite H. }
  rewrite (try_except_bind_ret _ _ _ _ _ _ E2). clear E2.
  assert (fs_grows (st_fs s) (st_fs s2)) as G2.
  { apply (fs_grows_trans _ _ _ G1). rewrite F2.
    now apply fs_grows_insert_file. }
  assert (is_dir (st_fs s2) out = true) as D2.
  { rewrite F2, is_dir_insert_ne; [exact D1 | path_ne]. }
  (* Data *)
  destruct (mkdir_child_step out "Data" s2 D2)
    as [(B2 & s3 & E3 & F3 & C3)|(B2 & E3)].
  2: { assert (forall c, FileExistsError <> SystemExit c) as He
         by discriminate.
       builder_fails. split; [congruence|]. split.
       - split; [discriminate|]. intros (_ & _ & _ & W4 & _).
         rewrite F2, is_file_insert_ne in B2 by path_ne.
         unfold is_file in B2, W4.
         rewrite F1, lookup_make_dirs_longer in B2 by path_longer.
         congruence.
       - split; [discriminate|]. now rewrite H. }
  rewrite (try_except_bind_ret _ _ _ _ _ _ E3). clear E3.
  assert (fs_grows (st_fs s) (st_fs s3)) as G3.
  { apply (fs_grows_trans _ _ _ G2). rewrite F3.
    now apply fs_grows_insert_dir. }
  assert (is_dir (st_fs s3) (out ++ ["Data"]) = true) as D3.
  { rewrite F3. apply is_dir_insert_dir. }
  (* Data/model_info.json *)
  destruct (write_child_step (out ++ ["Data"]) "model_info.json"
              (Text (dumps model_info)) s3 D3)
    as [(B3 & s4 & E4 & F4 & C4)|(B3 & e & E4 & He)].
  2: { builder_fails. split; [congruence|]. split.
       - split; [discriminate|]. intros (_ & _ & _ & _ & W5 & _).
         destruct W5. rewrite <- B3, F3, F2, F1.
         rewrite !lookup_insert_ne by path_ne.
         symmetry. apply lookup_make_dirs_longer. path_longer.
       - split; [discriminate|]. now rewrite H. }
  rewrite (try_except_bind_ret _ _ _ _ _ _ E4). clear E4.
  assert (fs_grows (st_fs s) (st_fs s4)) as G4.
  { apply (fs_grows_trans _ _ _ G3). rewrite F4.
    now apply fs_grows_insert_file. }
  assert (is_dir (st_fs s4) (out ++ ["Data"]) = true) as D4.
  { rewrite F4, is_dir_insert_ne; [exact D3 | path_ne]. }
  (* Data/weights.bin *)
  destruct (write_child_step (out ++ ["Data"]) "weights.bin"
              (Text "placeholder") s4 D4)
    as [(B4 & s5 & E5 & F5 & C5)|(B4 & e & E5 & He)].
  2: { builder_fails. split; [congruence|]. split.
       - split; [discriminate|]. intros (_ & _ & _ & _ & _ & W6).
         destruct W6. rewrite <- B4, F4, F3, F2, F1.
         rewrite !lookup_insert_ne by path_ne.
         symmetry. apply lookup_make_dirs_longer. path_longer.
       - split; [discriminate|]. now rewrite H. }
  rewrite (try_except_bind_ret _ _ _ _ _ _ E5). clear E5.
  assert (fs_grows (st_fs s) (st_fs s5)) as G5.
  { apply (fs_grows_trans _ _ _ G4). rewrite F5.
    now apply fs_grows_insert_file. }
  destruct (package_report out s5) as (s6 & E6 & F6 & C6).
  rewrite (try_except_ret _ _ _ _ _ E6).
  exists true, s6. split; [reflexivity|]. split; [congruence|].
  assert (st_fs s6 = package_written dumps (st_fs s) out) as FW.
  { unfold package_written. now rewrite F6, F5, F4, F3, F2, F1. }
  split; [|split; [intros _; exact FW | now rewrite F6]].
  split; [|reflexivity]. intros _. unfold package_writable.
  split; [exact A1|]. split; [exact A2|].
  split.
  { rewrite F1, lookup_make_dirs_longer in B1 by path_longer. exact B1. }
  split.
  { rewrite F2, is_file_insert_ne in B2 by path_ne.
    unfold is_file in B2 |- *.
    rewrite F1, lookup_make_dirs_longer in B2 by path_longer. exact B2. }
  split.
  { rewrite F3, F2, F1, !lookup_insert_ne in B3 by path_ne.
    rewrite lookup_make_dirs_longer in B3 by path_longer. exact B3. }
  rewrite F4, F3, F2, F1, !lookup_insert_ne in B4 by path_ne.
  rewrite lookup_make_dirs_longer in B4 by path_longer. exact B4.
Qed.

(** X18. The placeholder builder never raises and calls no library. It
    returns True exactly when neither the package path nor an ancestor
    of it is a regular file, [Data] below it is not a regular file, and
    none of the three files it writes is a directory; the package then
    holds exactly those three files beside what was there. A run that
    returns False has lost nothing either. *)
Theorem placeholder_builder_spec (out : path) (s : state) :
  exists ok s',
    create_placeholder_coreml_model dumps st_size out s = (Ret ok, s') /\
    st_calls s' = st_calls s /\
    (ok = true <-> package_writable (st_fs s) out) /\
    (ok = true -> st_fs s' = package_written dumps (st_fs s) out) /\
    fs_grows (st_fs s) (st_fs s').
Proof. apply placeholder_builder_run. Qed.


Lemma package_written_writable (f : fs) (out : path) :
  package_writable f out ->
  package_writable (package_written dumps f out) out.
Proof.
  intros (W1 & W2 & _). unfold package_writable, package_written.
  split.
  { rewrite !is_file_insert_ne by path_ne. now rewrite is_file_make_dirs. }
  split.
  { intros q Hq. pose proof (prefixes_length _ _ Hq) as L.
    rewrite !is_file_insert_ne
      by (intros ->; rewrite ?length_app in L; simpl in L; lia).
    rewrite is_file_make_dirs by exact W2. now apply W2. }
  split.
  { rewrite !lookup_insert_ne by path_ne. now rewrite lookup_insert_eq. }
  split.
  { unfold is_file. rewrite !lookup_insert_ne by path_ne.
    now rewrite lookup_insert_eq. }
  split.
  { rewrite !lookup_insert_ne by path_ne. now rewrite lookup_insert_eq. }
  now rewrite lookup_insert_eq.
Qed.

Lemma package_written_again (f : fs) (out : path) :
  package_written dumps (package_written dumps f out) out
  = package_written dumps f out.
Proof.
  set (g := package_written dumps f out). unfold package_written.
  assert (make_dirs out g = g) as ->.
  { apply make_dirs_id. intros q Hq.
    pose proof (prefixes_length _ _ Hq) as L. unfold g, package_written.
    rewrite !lookup_insert_ne
      by (intros <-; rewrite ?length_app in L; simpl in L; lia).
    rewrite lookup_make_dirs. now rewrite decide_True. }
  assert (<[out ++ ["manifest.json"] := File (Text (dumps manifest))]> g = g)
    as ->.
  { apply insert_id. unfold g, package_written.
    rewrite !lookup_insert_ne by path_ne. now rewrite lookup_insert_eq. }
  assert (<[out ++ ["Data"] := Dir]> g = g) as ->.
  { apply insert_id. unfold g, package_written.
    rewrite !lookup_insert_ne by path_ne. now rewrite lookup_insert_eq. }
  assert (<[(out ++ ["Data"]) ++ ["model_info.json"] :=
              File (Text (dumps model_info))]> g = g) as ->.
  { apply insert_id. unfold g, package_written.
    rewrite !lookup_insert_ne by path_ne. now rewrite lookup_insert_eq. }
  apply insert_id. unfold g, package_written. now rewrite lookup_insert_eq.
Qed.

(** X19. Building the package again over a package that was built
    succeeds and changes nothing in the file system. *)
Theorem placeholder_builder_idempotent (out : path) (s s1 : state) :
  create_placeholder_coreml_model dumps st_size out s = (Ret true, s1) ->
  exists s2,
    create_placeholder_coreml_model dumps st_size out s1 = (Ret true, s2) /\
    st_fs s2 = st_fs s1.
Proof.
  intros E.
  destruct (placeholder_builder_run out s) as (ok & s' & E' & _ & W & F & _).
  rewrite E in E'. injection E' as <- <-.
  specialize (F eq_refl). apply proj1 in W. specialize (W eq_refl).
  destruct (placeholder_builder_run out s1)
    as (ok & s2 & E2 & _ & W2 & F2 & _).
  assert (ok = true) as ->.
  { apply W2. rewrite F. now apply package_written_writable. }
  exists s2. split; [exact E2|].
  rewrite (F2 eq_refl), F. apply package_written_again.
Qed.

End PackageFacts.

Lemma placeholder_builder_idempotent_witness :
  let out := ["Model.mlpackage"] in
  let first :=
    CreatePlaceholderCoreml.create_placeholder_coreml_model
      demo_dumps demo_size out demo_state in
  fst first = Ret true /\
  exists s2,
    CreatePlaceholderCoreml.create_placeholder_coreml_model
      demo_dumps demo_size out (snd first) = (Ret true, s2) /\
    st_fs s2 = st_fs (snd first).
Proof.
  intros out first.
  assert (first = (Ret true, snd first)) as E by (vm_compute; reflexivity).
  split; [now rewrite E|].
  exact (placeholder_builder_idempotent demo_dumps demo_size out _ _ E).
Defined.

Lemma parent_cases (p : path) : p = [] \/ exists x, p = parent p ++ [x].
Proof.
  destruct (decide (p = [])) as [->|Hp]; [now left | right].
  exists (List.last p ""). now apply app_removelast_last.
Qed.

Lemma prefixes_parent (p q : path) :
  q ∈ prefixes (parent p) -> q ∈ prefixes p.
Proof.
  destruct (parent_cases p) as [->|(x & E)]; [easy|].
  intros H. apply elem_of_prefixes in H as (Hq & r & Hr).
  apply elem_of_prefixes. split; [exact Hq|].
  exists (r ++ [x]). rewrite E at 1. rewrite Hr. now rewrite <- app_assoc.
Qed.

Lemma parent_length (p : path) : (length (parent p) <= length p)%nat.
Proof.
  destruct (parent_cases p) as [->|(x & E)]; [reflexivity|].
  rewrite E at 2. rewrite length_app. lia.
Qed.

Lemma no_file_among (f : fs) (l : list path) :
  existsb (is_file f) l = false <-> forall q, q ∈ l -> is_file f q = false.
Proof.
  split.
  - intros H q Hq. destruct (is_file f q) eqn:E; [|reflexivity].
    rewrite <- H. symmetry. apply existsb_exists. exists q.
    split; [now apply list_elem_of_In | exact E].
  - intros H. destruct (existsb (is_file f) l) eqn:E; [|reflexivity].
    apply existsb_exists in E as (q & Hq & Eq).
    apply list_elem_of_In in Hq. now rewrite H in Eq.
Qed.

(** Making the directory of the output path first changes neither
    whether the package can be written nor what is written. *)
Lemma package_writable_made (f f1 : fs) (out : path) :
  output_dir_made f out = Some f1 ->
  (package_writable f1 out <-> package_writable f out).
Proof.
  unfold output_dir_made.
  destruct (_ || _); [now intros [= <-]|].
  destruct (existsb _ _) eqn:Ex; [discriminate|]. intros [= <-].
  rewrite no_file_among in Ex. pose proof (parent_length out) as L.
  unfold package_writable.
  rewrite !is_file_make_dirs by exact Ex.
  rewrite !lookup_make_dirs_longer by path_longer.
  split; intros (W1 & W2 & W); (split; [exact W1|]; split; [|exact W]);
    intros q Hq; specialize (W2 q Hq).
  - now rewrite is_file_make_dirs in W2.
  - now rewrite is_file_make_dirs.
Qed.

Lemma package_unwritable_unmade (f : fs) (out : path) :
  output_dir_made f out = None -> ~ package_writable f out.
Proof.
  unfold output_dir_made.
  destruct (_ || _); [discriminate|].
  destruct (existsb _ _) eqn:Ex; [|discriminate]. intros _ (_ & W2 & _).
  apply existsb_exists in Ex as (q & Hq & Eq).
  apply list_elem_of_In, prefixes_parent in Hq.
  now rewrite W2 in Eq.
Qed.

Lemma make_dirs_parent (f : fs) (out : path) :
  make_dirs out (make_dirs (parent out) f) = make_dirs out f.
Proof.
  apply map_eq. intros q. rewrite !lookup_make_dirs.
  destruct (decide (q ∈ prefixes out)) as [Hq|Hq]; [reflexivity|].
  rewrite decide_False; [reflexivity|].
  intros H. now apply Hq, prefixes_parent.
Qed.

Lemma package_written_made (dumps : CreatePlaceholderCoreml.json -> string)
    (f f1 : fs) (out : path) :
  output_dir_made f out = Some f1 ->
  package_written dumps f1 out = package_written dumps f out.
Proof.
  unfold output_dir_made.
  destruct (_ || _); [now intros [= <-]|].
  destruct (existsb _ _) eqn:Ex; [discriminate|]. intros [= <-].
  unfold package_written. now rewrite make_dirs_parent.
Qed.

Section PlaceholderScript.
Variable dumps : CreatePlaceholderCoreml.json -> string.
Variable st_size : content -> Z.

Lemma placeholder_main_exit_status
    (a : CreatePlaceholderCoreml.args) (s : state) :
  let out := CreatePlaceholderCoreml.a_output a in
  let r := CreatePlaceholderCoreml.script dumps st_size a s in
  (fst r = 0 \/ fst r = 1) /\
  (fst r = 0 <-> package_writable (st_fs s) out) /\
  (fst r = 0 -> st_fs (snd r) = package_written dumps (st_fs s) out).
Proof.
  intros out r. subst r. unfold CreatePlaceholderCoreml.script.
  destruct (CreatePlaceholderCoreml.main dumps st_size a s) as [o s'] eqn:E.
  cbn [fst snd]. unfold CreatePlaceholderCoreml.main in E.
  fold out in E. cbv zeta in E.
  match type of E with
  | (py_exists ?d ≫= fun present =>
       when (negb (is_empty ?d) && negb present)
            (makedirs ?d;; print (?msg +:+ path_str ?d)) ≫= fun _ => ?k) s
    = _ =>
    pose proof (output_dir_step out msg k s) as Hd
  end.
  cbv zeta in Hd.
  destruct (output_dir_made (st_fs s) out) as [f1|] eqn:Ef.
  2: { destruct Hd as (s1 & Hd). rewrite Hd in E. injection E as <- <-.
       cbn [exit_status]. split; [now right|].
       split; [|discriminate]. split; [discriminate|].
       intros W. now apply package_unwritable_unmade in Ef. }
  destruct Hd as (s1 & F1 & Hd). rewrite Hd in E. clear Hd.
  rewrite bind_unfold in E.
  destruct (placeholder_builder_run dumps st_size out s1)
    as (ok & s2 & Eb & _ & Hok & Hfs & _).
  rewrite Eb in E. rewrite F1 in Hok, Hfs.
  rewrite (package_writable_made _ _ _ Ef) in Hok.
  rewrite (package_written_made dumps _ _ _ Ef) in Hfs.
  destruct ok.
  - repeat match type of E with
           | (print ?m;; ?k) ?st = _ =>
             let sx := fresh "sx" in
             let Fx := fresh "Fx" in
             destruct (print_then m k st) as (sx & Ex & _ & Fx);
             rewrite Ex in E; clear Ex; cbv beta in E;
             rewrite <- Fx in Hfs; clear Fx
           end.
    unfold print in E. injection E as <- <-. cbn [exit_status st_fs].
    split; [now left|]. split; [split; [intros _|reflexivity]|intros _].
    + now apply Hok.
    + now apply Hfs.
  - rewrite bind_unfold in E. unfold print, raise in E.
    injection E as <- <-. cbn [exit_status].
    split; [now right|]. split; [|discriminate]. split; [discriminate|].
    intros W. apply Hok in W. discriminate.
Qed.

(** X20. The placeholder script exits with status 0, 1 or 2. It exits
    with 2 exactly when the parser rejects the command line. It exits
    with 0 exactly when the parser was asked for its help text, or the
    command line was parsed and the package can be written on the file
    system as it was at the start: making the directory of the output
    path first neither helps nor hurts. After status 0 on a parsed
    command line the file system is the one the builder alone would
    have left; after the help text it is as it was. *)
Theorem placeholder_script_exit_status
    (parser : argparser CreatePlaceholderCoreml.args) (argv : list string)
    (s : state) :
  let r := CreatePlaceholderCoreml.command dumps st_size parser argv s in
  (fst r = 0 \/ fst r = 1 \/ fst r = 2) /\
  (fst r = 2 <-> parser argv = Usage) /\
  (fst r = 0 <->
   (exists text, parser argv = Help text) \/
   (exists a, parser argv = Namespace a /\
      package_writable (st_fs s) (CreatePlaceholderCoreml.a_output a))) /\
  (forall a,
     parser argv = Namespace a -> fst r = 0 ->
     st_fs (snd r)
     = package_written dumps (st_fs s) (CreatePlaceholderCoreml.a_output a)) /\
  (forall text, parser argv = Help text -> st_fs (snd r) = st_fs s).
Proof.
  intros r. subst r.
  destruct (parser argv) as [a|text|] eqn:P.
  - assert (CreatePlaceholderCoreml.command dumps st_size parser argv s
            = CreatePlaceholderCoreml.script dumps st_size a s) as ->.
    { unfold CreatePlaceholderCoreml.command, CreatePlaceholderCoreml.script,
        CreatePlaceholderCoreml.main_argv, parse_args. now rewrite P. }
    destruct (placeholder_main_exit_status a s) as (H01 & H0 & Hf).
    cbv zeta in H01, H0, Hf.
    split; [tauto|]. split; [|split; [|split]].
    + split; [|discriminate]. intros H2. rewrite H2 in H01.
      destruct H01; discriminate.
    + rewrite H0. split.
      * intros W. right. exists a. auto.
      * intros [[text [=]]|(a' & [= <-] & W)]. exact W.
    + intros a' [= <-]. exact Hf.
    + intros text [=].
  - unfold CreatePlaceholderCoreml.command, CreatePlaceholderCoreml.main_argv,
      parse_args. rewrite P. cbn.
    split; [now left|]. split; [split; discriminate|].
    split; [split; [eauto | reflexivity]|].
    split; [intros a' [=] | reflexivity].
  - unfold CreatePlaceholderCoreml.command, CreatePlaceholderCoreml.main_argv,
      parse_args. rewrite P. cbn.
    split; [now right; right|]. split; [split; reflexivity|].
    split; [|split; [intros a' [=] | intros text [=]]].
    split; [discriminate|].
    intros [[text [=]]|(a' & [=] & _)].
Qed.

End PlaceholderScript.

Lemma placeholder_script_exit_status_witness :
  let a := {| CreatePlaceholderCoreml.a_output := ["M.mlpackage"] |} in
  let r := CreatePlaceholderCoreml.command demo_dumps demo_size
             (demo_parser a) [] demo_state in
  fst r = 0 /\
  st_fs (snd r) = package_written demo_dumps (st_fs demo_state)
                    ["M.mlpackage"].
Proof.
  intros a r.
  assert (fst r = 0) as E by (vm_compute; reflexivity).
  split; [exact E|].
  exact (proj1 (proj2 (proj2 (proj2
           (placeholder_script_exit_status demo_dumps demo_size
              (demo_parser a) [] demo_state)))) a eq_refl E).
Defined.

(** *** The model heuristic *)

Section Substrings.
Import InspectOnnxModel.

Lemma app_cons (c : ascii) (t b : string) :
  String c t +:+ b = String c (t +:+ b).
Proof. reflexivity. Qed.

Lemma app_empty (b : string) : "" +:+ b = b.
Proof. reflexivity. Qed.

Lemma prefix_empty (s : string) : String.prefix "" s = true.
Proof. now destruct s. Qed.

Lemma prefix_occurs (t s : string) :
  String.prefix t s = true <-> exists b, s = t +:+ b.
Proof.
  revert s. induction t as [|c t IH]; intros s.
  - rewrite prefix_empty. split; [intros _; now exists s | reflexivity].
  - destruct s as [|x s]; simpl.
    + split; [discriminate | intros [b [=]]].
    + destruct (ascii_dec c x) as [->|Hne].
      * rewrite IH. split; intros [b E]; exists b.
        -- rewrite app_cons. now rewrite E.
        -- rewrite app_cons in E. now injection E.
      * split; [discriminate|]. intros [b E]. rewrite app_cons in E.
        congruence.
Qed.

Lemma contains_occurs (t s : string) :
  contains t s = true <-> occurs_in t s.
Proof.
  unfold occurs_in. induction s as [|x s IH]; cbn [contains].
  - rewrite orb_false_r, prefix_occurs. split.
    + intros [b E]. now exists "", b.
    + intros (a & b & E). destruct a as [|y a].
      * now exists b.
      * rewrite app_cons in E. discriminate.
  - rewrite orb_true_iff, prefix_occurs, IH. split.
    + intros [[b E] | (a & b & E)].
      * now exists "", b.
      * exists (String x a), b. rewrite app_cons. now rewrite E.
    + intros (a & b & E). destruct a as [|y a].
      * left. now exists b.
      * right. rewrite app_cons in E. injection E as _ E. now exists a, b.
Qed.

Lemma prefix_before_sep (c : ascii) (t a b : string) :
  free_of c t ->
  String.prefix t (a +:+ String c b) = String.prefix t a.
Proof.
  revert a. induction t as [|x t IH]; intros a Ht.
  { now rewrite !prefix_empty. }
  destruct Ht as [Hx Ht]. destruct a as [|y a].
  - rewrite app_empty. simpl.
    destruct (ascii_dec x c); [contradiction | reflexivity].
  - rewrite app_cons. simpl.
    destruct (ascii_dec x y); [now apply IH | reflexivity].
Qed.

Lemma contains_sep (c : ascii) (t a b : string) :
  free_of c t -> t <> "" ->
  contains t (a +:+ String c b) = contains t a || contains t b.
Proof.
  intros Ht Hne. induction a as [|y a IH].
  - rewrite app_empty. destruct t as [|x t]; [congruence|].
    destruct Ht as [Hx _]. cbn [contains String.prefix].
    destruct (ascii_dec x c); [contradiction | reflexivity].
  - rewrite app_cons. cbn [contains]. rewrite <- app_cons.
    rewrite (prefix_before_sep c t (String y a) b Ht), IH.
    now rewrite orb_assoc.
Qed.

Lemma contains_join (c : ascii) (t : string) (l : list string) :
  free_of c t -> t <> "" ->
  contains t (str_join (String c "") l) = existsb (contains t) l.
Proof.
  intros Ht Hne. induction l as [|x l IH].
  - destruct t; [congruence | reflexivity].
  - destruct l as [|y l].
    + simpl. now rewrite orb_false_r.
    + change (str_join (String c "") (x :: y :: l))
        with (x +:+ String c (str_join (String c "") (y :: l))).
      rewrite (contains_sep c t _ _ Ht Hne), IH. reflexivity.
Qed.

Lemma yolo_terms_plain (t : string) :
  t ∈ yolo_terms -> free_of " " t /\ t <> "".
Proof.
  unfold yolo_terms. rewrite !elem_of_cons, elem_of_nil.
  intros H. repeat destruct H as [->|H]; [..|contradiction];
    (split; [simpl; repeat split; discriminate | discriminate]).
Qed.

End Substrings.

Section HeuristicFacts.
Import InspectOnnxModel.
Variable lower : string -> string.

Lemma big_last_dim_iff (m : onnx_model) :
  big_last_dim m = true <->
  exists o, o ∈ graph_output m /\ wide_output o.
Proof.
  unfold big_last_dim, last_dims, out_shapes, wide_output.
  rewrite existsb_exists. split.
  - intros (d & Hd & Hge). apply list_elem_of_In in Hd.
    apply list_elem_of_omap in Hd as (sh & Hs & Hl).
    apply list_elem_of_omap in Hs as (o & Ho & Hsh).
    exists o. split; [exact Ho|]. exists sh, d. split; [exact Hsh|].
    split; [|lia].
    destruct (last sh) as [[x|]|]; congruence.
  - intros (o & Ho & sh & d & Hsh & Hl & Hge). exists d. split; [|lia].
    apply list_elem_of_In, list_elem_of_omap. exists sh. split.
    + apply list_elem_of_omap. now exists o.
    + now rewrite Hl.
Qed.

Lemma yoloish_shape_iff (m : onnx_model) :
  yoloish_shape m = true <->
  exists o, o ∈ graph_output m /\ detection_output o.
Proof.
  unfold yoloish_shape, out_shapes, detection_output.
  rewrite existsb_exists. split.
  - intros (sh & Hs & H). apply list_elem_of_In in Hs.
    apply list_elem_of_omap in Hs as (o & Ho & Hsh).
    exists o. split; [exact Ho|].
    destruct sh as [|d0 [|d1 [|d2 [|? ?]]]]; try discriminate H.
    cbn in H. rewrite !andb_true_iff in H. destruct H as [[H0 H1] H2].
    destruct d1 as [n|]; [|discriminate]. destruct d2 as [d|]; [|discriminate].
    exists d0, n, d. split; [exact Hsh|]. split; [|lia].
    destruct d0 as [v|]; [right | now left].
    cbn in H0. f_equal. lia.
  - intros (o & Ho & d0 & n & d & Hsh & H0 & Hn & Hd).
    exists [d0; Some n; Some d]. split.
    + apply list_elem_of_In, list_elem_of_omap. now exists o.
    + cbn. rewrite !andb_true_iff. split; [split|]; [|lia..].
      now destruct H0 as [->| ->].
Qed.

Lemma has_terms_iff (m : onnx_model) :
  has_terms lower m = true <->
  exists nd, nd ∈ graph_node m /\ telling_node lower nd.
Proof.
  unfold has_terms, telling_node. cbv zeta. rewrite existsb_exists. split.
  - intros (t & Ht & H). apply list_elem_of_In in Ht.
    destruct (yolo_terms_plain t Ht) as [Hf Hne].
    rewrite !(contains_join " " t _ Hf Hne), orb_true_iff in H.
    rewrite !existsb_exists in H.
    destruct H as [(x & Hx & Hc)|(x & Hx & Hc)];
      apply list_elem_of_In, list_elem_of_fmap in Hx as (nd & -> & Hnd);
      exists nd; (split; [exact Hnd|]); exists t; (split; [exact Ht|]);
      apply contains_occurs in Hc; [now left | now right].
  - intros (nd & Hnd & t & Ht & H). exists t.
    split; [now apply list_elem_of_In|].
    destruct (yolo_terms_plain t Ht) as [Hf Hne].
    rewrite !(contains_join " " t _ Hf Hne), orb_true_iff.
    rewrite !existsb_exists.
    destruct H as [H|H]; apply contains_occurs in H; [left | right].
    + exists (lower (n_name nd)). split; [|exact H].
      apply list_elem_of_In, list_elem_of_fmap. now exists nd.
    + exists (lower (n_op_type nd)). split; [|exact H].
      apply list_elem_of_In, list_elem_of_fmap. now exists nd.
Qed.

Lemma detection_output_wide (o : value_info) :
  detection_output o -> wide_output o.
Proof.
  intros (d0 & n & d & Hsh & _ & _ & Hd).
  exists [d0; Some n; Some d], d. split; [exact Hsh|]. now split.
Qed.

(** X21. The heuristic calls a model YOLO exactly when some output has
    the detection shape (three dimensions, the first 1 or unknown, the
    second at least 100, the last at least 5), whatever the nodes are
    called, or when some output has a known last dimension of at least 5
    and some single node holds one of the seven terms in its lowered
    name or operator. Joining the names with spaces adds no match, and
    a model none of whose outputs has a known last dimension of at
    least 5 is never called YOLO. *)
Theorem yolo_verdict_iff (m : onnx_model) :
  fst (is_probably_yolo lower m) = true <->
  (exists o, o ∈ graph_output m /\ detection_output o) \/
  ((exists o, o ∈ graph_output m /\ wide_output o) /\
   (exists nd, nd ∈ graph_node m /\ telling_node lower nd)).
Proof.
  unfold is_probably_yolo. cbn [fst].
  rewrite andb_true_iff, orb_true_iff.
  rewrite big_last_dim_iff, has_terms_iff, yoloish_shape_iff.
  split.
  - intros [Hw [Ht|Hd]]; [right; now split | now left].
  - intros [(o & Ho & Hd)|[Hw Ht]].
    + split; [|right; now exists o].
      exists o. split; [exact Ho|]. now apply detection_output_wide.
    + split; [exact Hw | now left].
Qed.

End HeuristicFacts.


End More.
